(** * Supervisor client protocol engine (src/Controller/api/supervisor.c)

    A shallow embedding of the scene-graph mirror kept by the supervisor
    API: the node and field registries, the FIFO of pending field
    requests, the serializer [supervisor_write_request], the reply
    dispatcher [supervisor_read_answer], the validation layer and the
    public field and contact-point entry points.

    Conventions.
    - A C [int] is a [Z]; arithmetic that can leave the 32-bit range is
      wrapped by [wrap_int].
    - A pointer is an address in [Z], [0] being [NULL].  The two registries
      are linked lists of heap cells: a list of (address, struct) pairs in
      list order.  Dereferencing an address that is not a live cell is a
      [Crash invalid_pointer].
    - A [double] is a binary64 value of [SpecFloat.spec_float].
    - [assert] is compiled in: a failed assertion is [Crash assertion_failed].
    - State is passed explicitly in the record [Supervisor]; fallible code
      lives in the [outcome] monad. *)

From Stdlib Require Import ZArith List String Ascii Bool Lia.
From Stdlib Require Import Floats.SpecFloat.
Import ListNotations.

Local Open Scope string_scope.
Local Open Scope list_scope.
Local Open Scope Z_scope.

(** ** Machine integers, doubles, crashes *)

Definition INT_MAX : Z := 2147483647.
Definition INT_MIN : Z := -2147483648.

(** Two's complement wrap-around of a 32-bit [int], and [int] arithmetic. *)
Definition wrap_int (z : Z) : Z := (z + 2147483648) mod 4294967296 - 2147483648.
Definition int_add (a b : Z) : Z := wrap_int (a + b).
Definition int_sub (a b : Z) : Z := wrap_int (a - b).
Definition int_neg (a : Z) : Z := wrap_int (- a).
Definition int_mul (a b : Z) : Z := wrap_int (a * b).
(** Conversion of an [int] to [unsigned int]. *)
Definition to_uint32 (z : Z) : Z := z mod 4294967296.

Definition in_int (z : Z) : Prop := INT_MIN <= z <= INT_MAX.

Definition double : Type := spec_float.

(** [FLT_MAX] of <float.h>, (2^24 - 1) * 2^104, as a normalised binary64. *)
Definition FLT_MAX : double := S754_finite false 9007198717870080 75.
Definition dbl_zero : double := S754_zero false.
(** The literal [-1.0]. *)
Definition dbl_minus_one : double := S754_finite true 4503599627370496 (-52).

Definition dbl_gt (a b : double) : bool := SFltb b a.
Definition dbl_lt (a b : double) : bool := SFltb a b.
Definition dbl_ge (a b : double) : bool := SFleb b a.
Definition dbl_le (a b : double) : bool := SFleb a b.
Definition dbl_eq (a b : double) : bool := SFeqb a b.
Definition isnan (a : double) : bool :=
  match a with S754_nan => true | _ => false end.

Inductive crash : Type :=
| assertion_failed
| invalid_pointer
| uninitialised_read.

Inductive outcome (A : Type) : Type :=
| Ok (a : A)
| Crash (c : crash).
Arguments Ok {A} a.
Arguments Crash {A} c.

Definition bind {A B : Type} (m : outcome A) (k : A -> outcome B) : outcome B :=
  match m with
  | Ok a => k a
  | Crash c => Crash c
  end.

Notation "x <- m ;; k" := (bind m (fun x => k))
  (at level 61, m at next level, right associativity).
Notation "' p <- m ;; k" := (bind m (fun x => match x with p => k end))
  (at level 61, p pattern, m at next level, right associativity).

Definition assert (b : bool) : outcome unit :=
  if b then Ok tt else Crash assertion_failed.

(** ** Enumerations *)

(** [enum FIELD_REQUEST_TYPE { GET = 1, SET, IMPORT, IMPORT_FROM_STRING, REMOVE }].
    The request type travels as an [int] through the [action] parameters. *)
Definition GET : Z := 1.
Definition SET : Z := 2.
Definition IMPORT : Z := 3.
Definition IMPORT_FROM_STRING : Z := 4.
Definition REMOVE : Z := 5.

(** Modelled from the spec: the [WbFieldType] tags of <webots/supervisor.h>,
    which is not part of the sources at hand.  Nine scalar kinds, each in a
    single-valued (SF) and a multi-valued (MF) variant; the MF bit is 0x10. *)
Definition WB_NO_FIELD : Z := 0.
Definition WB_SF_BOOL : Z := 1.
Definition WB_SF_INT32 : Z := 2.
Definition WB_SF_FLOAT : Z := 3.
Definition WB_SF_VEC2F : Z := 4.
Definition WB_SF_VEC3F : Z := 5.
Definition WB_SF_ROTATION : Z := 6.
Definition WB_SF_COLOR : Z := 7.
Definition WB_SF_STRING : Z := 8.
Definition WB_SF_NODE : Z := 9.
Definition WB_MF : Z := 16.
Definition WB_MF_BOOL : Z := 17.
Definition WB_MF_INT32 : Z := 18.
Definition WB_MF_FLOAT : Z := 19.
Definition WB_MF_VEC2F : Z := 20.
Definition WB_MF_VEC3F : Z := 21.
Definition WB_MF_ROTATION : Z := 22.
Definition WB_MF_COLOR : Z := 23.
Definition WB_MF_STRING : Z := 24.
Definition WB_MF_NODE : Z := 25.

(** ** Data model *)

Definition WbFieldRef : Type := Z.
Definition WbNodeRef : Type := Z.
Definition NULL : Z := 0.

(** [union WbFieldData].  The union is modelled by the member last written.
    Reading another member reinterprets bytes; the accessors below give the
    all-zero value then, which is what the members of a union holding a
    [NULL] [sf_string] (the initial state of every field) read as. *)
Inductive WbFieldData : Type :=
| sf_bool (b : bool)
| sf_int32 (i : Z)
| sf_float (d : double)
| sf_vec2f (x y : double)
| sf_vec3f (x y z : double)
| sf_rotation (x y z a : double)
| sf_string (s : option string)
| sf_node_uid (uid : Z).

Definition get_sf_bool (d : WbFieldData) : bool :=
  match d with sf_bool b => b | _ => false end.
Definition get_sf_int32 (d : WbFieldData) : Z :=
  match d with sf_int32 i => i | _ => 0 end.
Definition get_sf_float (d : WbFieldData) : double :=
  match d with sf_float x => x | _ => dbl_zero end.
Definition get_sf_vec2f (d : WbFieldData) : list double :=
  match d with sf_vec2f x y => [x; y] | _ => [dbl_zero; dbl_zero] end.
Definition get_sf_vec3f (d : WbFieldData) : list double :=
  match d with sf_vec3f x y z => [x; y; z] | _ => [dbl_zero; dbl_zero; dbl_zero] end.
Definition get_sf_rotation (d : WbFieldData) : list double :=
  match d with
  | sf_rotation x y z a => [x; y; z; a]
  | _ => [dbl_zero; dbl_zero; dbl_zero; dbl_zero]
  end.
Definition get_sf_string (d : WbFieldData) : option string :=
  match d with sf_string s => s | _ => None end.
Definition get_sf_node_uid (d : WbFieldData) : Z :=
  match d with sf_node_uid u => u | _ => 0 end.

(** [struct WbFieldStructPrivate], without the [next] link. *)
Record WbFieldStruct : Type := mkField {
  f_name : option string;
  f_type : Z;
  f_count : Z;
  f_node_unique_id : Z;
  f_id : Z;
  f_is_proto_internal : bool;
  f_data : WbFieldData
}.

Definition set_f_count (c : Z) (f : WbFieldStruct) : WbFieldStruct :=
  mkField (f_name f) (f_type f) c (f_node_unique_id f) (f_id f) (f_is_proto_internal f) (f_data f).
Definition set_f_data (d : WbFieldData) (f : WbFieldStruct) : WbFieldStruct :=
  mkField (f_name f) (f_type f) (f_count f) (f_node_unique_id f) (f_id f) (f_is_proto_internal f) d.
Definition set_f_is_proto_internal (b : bool) (f : WbFieldStruct) : WbFieldStruct :=
  mkField (f_name f) (f_type f) (f_count f) (f_node_unique_id f) (f_id f) b (f_data f).

(** [struct WbFieldRequestPrivate], without the [next] link. *)
Record WbFieldRequest : Type := mkRequest {
  r_type : Z;
  r_index : Z;
  r_is_string : bool;
  r_data : WbFieldData;
  r_field : WbFieldRef
}.

Definition set_r_data (d : WbFieldData) (r : WbFieldRequest) : WbFieldRequest :=
  mkRequest (r_type r) (r_index r) (r_is_string r) d (r_field r).

(** [struct WbNodeStructPrivate], without the [next] link.  A [NULL] buffer
    is [None]; [number_of_contact_points] is left uninitialised by
    [add_node_to_list], which is [None] here. *)
Record WbNodeStruct : Type := mkNode {
  n_id : Z;
  n_type : Z;
  n_model_name : option string;
  n_def_name : option string;
  n_parent_id : Z;
  n_position : option (list double);
  n_orientation : option (list double);
  n_center_of_mass : option (list double);
  n_number_of_contact_points : option Z;
  n_contact_points : option (list double);
  n_node_id_per_contact_points : option (list Z);
  n_contact_points_time_stamp : double;
  n_static_balance : bool;
  n_solid_velocity : option (list double);
  n_is_proto : bool;
  n_is_proto_internal : bool;
  n_parent_proto : WbNodeRef;
  n_tag : Z
}.

Definition set_n_parent_id (p : Z) (n : WbNodeStruct) : WbNodeStruct :=
  mkNode (n_id n) (n_type n) (n_model_name n) (n_def_name n) p
         (n_position n) (n_orientation n) (n_center_of_mass n)
         (n_number_of_contact_points n) (n_contact_points n) (n_node_id_per_contact_points n)
         (n_contact_points_time_stamp n) (n_static_balance n) (n_solid_velocity n)
         (n_is_proto n) (n_is_proto_internal n) (n_parent_proto n) (n_tag n).
Definition set_n_def_name (s : option string) (n : WbNodeStruct) : WbNodeStruct :=
  mkNode (n_id n) (n_type n) (n_model_name n) s (n_parent_id n)
         (n_position n) (n_orientation n) (n_center_of_mass n)
         (n_number_of_contact_points n) (n_contact_points n) (n_node_id_per_contact_points n)
         (n_contact_points_time_stamp n) (n_static_balance n) (n_solid_velocity n)
         (n_is_proto n) (n_is_proto_internal n) (n_parent_proto n) (n_tag n).
Definition set_n_contact_points_time_stamp (t : double) (n : WbNodeStruct) : WbNodeStruct :=
  mkNode (n_id n) (n_type n) (n_model_name n) (n_def_name n) (n_parent_id n)
         (n_position n) (n_orientation n) (n_center_of_mass n)
         (n_number_of_contact_points n) (n_contact_points n) (n_node_id_per_contact_points n)
         t (n_static_balance n) (n_solid_velocity n)
         (n_is_proto n) (n_is_proto_internal n) (n_parent_proto n) (n_tag n).
Definition set_n_contacts (k : option Z) (pts : option (list double)) (ids : option (list Z))
           (n : WbNodeStruct) : WbNodeStruct :=
  mkNode (n_id n) (n_type n) (n_model_name n) (n_def_name n) (n_parent_id n)
         (n_position n) (n_orientation n) (n_center_of_mass n)
         k pts ids
         (n_contact_points_time_stamp n) (n_static_balance n) (n_solid_velocity n)
         (n_is_proto n) (n_is_proto_internal n) (n_parent_proto n) (n_tag n).
Definition set_n_is_proto_internal (b : bool) (n : WbNodeStruct) : WbNodeStruct :=
  mkNode (n_id n) (n_type n) (n_model_name n) (n_def_name n) (n_parent_id n)
         (n_position n) (n_orientation n) (n_center_of_mass n)
         (n_number_of_contact_points n) (n_contact_points n) (n_node_id_per_contact_points n)
         (n_contact_points_time_stamp n) (n_static_balance n) (n_solid_velocity n)
         (n_is_proto n) b (n_parent_proto n) (n_tag n).

(** A registry: the cells of a linked list, head first. *)
Definition field_store : Type := list (WbFieldRef * WbFieldStruct).
Definition node_store : Type := list (WbNodeRef * WbNodeStruct).

(** ** Node registry *)

Fixpoint find_node_by_id (id : Z) (l : node_store) : option (WbNodeRef * WbNodeStruct) :=
  match l with
  | [] => None
  | c :: rest => if n_id (snd c) =? id then Some c else find_node_by_id id rest
  end.

Fixpoint find_node_by_tag (tag : Z) (l : node_store) : option (WbNodeRef * WbNodeStruct) :=
  match l with
  | [] => None
  | c :: rest => if n_tag (snd c) =? tag then Some c else find_node_by_tag tag rest
  end.

(** [is_node_ref_valid]: [n] is not [NULL] and is the address of a cell. *)
Fixpoint node_in_list (n : WbNodeRef) (l : node_store) : bool :=
  match l with
  | [] => false
  | c :: rest => if fst c =? n then true else node_in_list n rest
  end.

Definition is_node_ref_valid (n : WbNodeRef) (l : node_store) : bool :=
  if n =? NULL then false else node_in_list n l.

(** [*n] for a node pointer: [NULL] and addresses of no live cell crash. *)
Fixpoint node_at (n : WbNodeRef) (l : node_store) : option WbNodeStruct :=
  match l with
  | [] => None
  | c :: rest => if fst c =? n then Some (snd c) else node_at n rest
  end.

Definition deref_node (n : WbNodeRef) (l : node_store) : outcome WbNodeStruct :=
  if n =? NULL then Crash invalid_pointer
  else match node_at n l with
       | Some v => Ok v
       | None => Crash invalid_pointer
       end.

(** A store through a node pointer: the first cell at that address. *)
Fixpoint update_node (n : WbNodeRef) (g : WbNodeStruct -> WbNodeStruct) (l : node_store)
  : node_store :=
  match l with
  | [] => []
  | c :: rest => if fst c =? n then (fst c, g (snd c)) :: rest else c :: update_node n g rest
  end.

(** The inner loop of [remove_node_from_list]: walk [previous_node_in_list]
    until its successor carries [uid], then bypass the successor. *)
Fixpoint unlink_next (uid : Z) (l : node_store) : node_store :=
  match l with
  | [] => []
  | prev :: tl =>
      match tl with
      | [] => l
      | nxt :: rest =>
          if n_id (snd nxt) =? uid then prev :: rest else prev :: unlink_next uid tl
      end
  end.

Definition orphan (uid : Z) (c : WbNodeRef * WbNodeStruct) : WbNodeRef * WbNodeStruct :=
  if n_parent_id (snd c) =? uid then (fst c, set_n_parent_id (-1) (snd c)) else c.

Definition remove_node_from_list (uid : Z) (l : node_store) : node_store :=
  let unlinked :=
    match find_node_by_id uid l with
    | Some node =>
        match l with
        | [] => l
        | hd :: tl => if fst hd =? fst node then tl else unlink_next uid l
        end
    | None => l
    end in
  map (orphan uid) unlinked.

(** [extract_node_def]: the segment after the last ['.'] of a DEF
    expression, [NULL] for [NULL]. *)
Fixpoint after_last_dot (s : string) : option string :=
  match s with
  | EmptyString => None
  | String c rest =>
      match after_last_dot rest with
      | Some t => Some t
      | None => if Ascii.eqb c "."%char then Some rest else None
      end
  end.

Definition extract_node_def (def_name_expression : option string) : option string :=
  match def_name_expression with
  | None => None
  | Some s => Some (match after_last_dot s with Some t => t | None => s end)
  end.

(** ** Field registry *)

(** [find_field].  The name of a cell is [NULL] when it was created while no
    field name was requested; [strcmp] on it is a crash. *)
Fixpoint find_field (fieldName : string) (node_id : Z) (l : field_store)
  : outcome (option (WbFieldRef * WbFieldStruct)) :=
  match l with
  | [] => Ok None
  | c :: rest =>
      if f_node_unique_id (snd c) =? node_id then
        match f_name (snd c) with
        | None => Crash invalid_pointer
        | Some name =>
            if String.eqb fieldName name then Ok (Some c) else find_field fieldName node_id rest
        end
      else find_field fieldName node_id rest
  end.

(** The scan of [check_field]: is [f] the address of a cell of [field_list]? *)
Fixpoint field_in_list (f : WbFieldRef) (l : field_store) : bool :=
  match l with
  | [] => false
  | c :: rest => if fst c =? f then true else field_in_list f rest
  end.

(** [*f] for a field pointer: [NULL] and addresses of no live cell crash. *)
Fixpoint field_at (f : WbFieldRef) (l : field_store) : option WbFieldStruct :=
  match l with
  | [] => None
  | c :: rest => if fst c =? f then Some (snd c) else field_at f rest
  end.

Definition deref_field (f : WbFieldRef) (l : field_store) : outcome WbFieldStruct :=
  if f =? NULL then Crash invalid_pointer
  else match field_at f l with
       | Some v => Ok v
       | None => Crash invalid_pointer
       end.

(** A store through a field pointer. *)
Fixpoint update_field (f : WbFieldRef) (g : WbFieldStruct -> WbFieldStruct) (l : field_store)
  : field_store :=
  match l with
  | [] => []
  | c :: rest => if fst c =? f then (fst c, g (snd c)) :: rest else c :: update_field f g rest
  end.

(** ** Outgoing frames, diagnostics, replies *)

(** Modelled from the spec: the request opcodes of messages.h, whose numeric
    values are not in the sources at hand; they are kept symbolic. *)
Inductive opcode : Type :=
| C_SUPERVISOR_NODE_GET_FROM_ID
| C_SUPERVISOR_NODE_GET_FROM_DEF
| C_SUPERVISOR_NODE_GET_FROM_TAG
| C_SUPERVISOR_NODE_GET_SELECTED
| C_SUPERVISOR_FIELD_GET_FROM_NAME
| C_SUPERVISOR_FIELD_GET_VALUE
| C_SUPERVISOR_FIELD_SET_VALUE
| C_SUPERVISOR_FIELD_INSERT_VALUE
| C_SUPERVISOR_FIELD_IMPORT_NODE_FROM_STRING
| C_SUPERVISOR_FIELD_REMOVE_VALUE
| C_SUPERVISOR_NODE_GET_CONTACT_POINTS.

(** What the [request_write_*] primitives append to the outgoing frame. *)
Inductive wire_item : Type :=
| w_opcode (o : opcode)
| w_uchar (v : Z)
| w_int32 (v : Z)
| w_uint32 (v : Z)
| w_double (v : double)
| w_string (v : string).

(** One [fprintf(stderr, fmt, args...)]: the format and its arguments. *)
Inductive fmt_arg : Type :=
| a_str (s : string)
| a_int (i : Z)
| a_dbl (d : double).

Record diagnostic : Type := mkDiag { d_format : string; d_args : list fmt_arg }.

(** The node description that follows a node uid in a reply. *)
Record node_info : Type := mkInfo {
  i_type : Z;
  i_tag : Z;
  i_parent_uid : Z;
  i_is_proto : bool;
  i_is_proto_internal : bool;
  i_model_name : string;
  i_def_name : string
}.

(** One message of a reply frame, already split into the values that
    [supervisor_read_answer] reads from it. *)
Inductive Answer : Type :=
| ans_CONFIGURE (self_uid : Z) (is_proto is_proto_internal : bool)
                (model_name def_name : string)
| ans_NODE_GET_FROM_DEF (uid : Z) (info : node_info)
| ans_NODE_GET (uid : Z) (info : node_info)
| ans_FIELD_GET_FROM_NAME (field_ref field_type : Z) (is_proto_internal : bool) (field_count : Z)
| ans_FIELD_GET_VALUE (field_type : Z) (value : WbFieldData) (info : node_info)
| ans_NODE_REGENERATED
| ans_FIELD_INSERT_VALUE (n : Z)
| ans_NODE_REMOVE_NODE (uid parent_node_unique_id : Z) (field_name : string)
                       (parent_field_count : Z)
| ans_NODE_GET_CONTACT_POINTS (n : Z) (points : list double) (node_ids : list Z)
| ans_OTHER.

(** ** The engine state

    The first seven components belong to the robot layer below the
    supervisor (robot.c): the controller kind, the quitting flag, the
    simulation time, the reply frames the simulator will deliver at the
    coming flushes, the frames written so far, what went to stderr, and the
    next address [malloc] hands out.  [malloc] is taken to hand out an
    address it never handed out before; the program's allocator may hand
    out the address of a freed cell again, so what is said of a handle here
    is said while its cell is live or before the next allocation.  The
    others are the statics of supervisor.c that the field, handle and
    contact-point paths use; the
    FIFO between [field_requests_list_head] and [field_requests_list_tail]
    is the list [field_requests_list]. *)
Record Supervisor : Type := mkSupervisor {
  is_supervisor : bool;
  is_quitting : bool;
  robot_time : double;
  incoming : list (list Answer);
  outgoing : list (list wire_item);
  stderr : list diagnostic;
  next_alloc : Z;
  field_list : field_store;
  field_requests_list : list WbFieldRequest;
  field_requests_garbage_list : list WbFieldRequest;
  sent_field_get_request : option WbFieldRequest;
  node_list : node_store;
  imported_nodes_number : Z;
  node_id : Z;
  node_tag : Z;
  allow_search_in_proto : bool;
  node_def_name : option string;
  proto_id : Z;
  requested_field_name : option string;
  node_get_selected : bool;
  node_ref : Z;
  root_ref : WbNodeRef;
  contact_points_node_ref : WbNodeRef;
  contact_points_include_descendants : bool;
  allows_contact_point_internal_node : bool;
  self_node_ref : WbNodeRef
}.

Definition set_robot_time (v : double) (s : Supervisor) : Supervisor :=
  mkSupervisor (is_supervisor s) (is_quitting s) v (incoming s) (outgoing s) (stderr s)
    (next_alloc s) (field_list s) (field_requests_list s) (field_requests_garbage_list s)
    (sent_field_get_request s) (node_list s) (imported_nodes_number s) (node_id s) (node_tag s)
    (allow_search_in_proto s) (node_def_name s) (proto_id s) (requested_field_name s)
    (node_get_selected s) (node_ref s) (root_ref s) (contact_points_node_ref s)
    (contact_points_include_descendants s) (allows_contact_point_internal_node s) (self_node_ref s).
Definition set_incoming (v : list (list Answer)) (s : Supervisor) : Supervisor :=
  mkSupervisor (is_supervisor s) (is_quitting s) (robot_time s) v (outgoing s) (stderr s)
    (next_alloc s) (field_list s) (field_requests_list s) (field_requests_garbage_list s)
    (sent_field_get_request s) (node_list s) (imported_nodes_number s) (node_id s) (node_tag s)
    (allow_search_in_proto s) (node_def_name s) (proto_id s) (requested_field_name s)
    (node_get_selected s) (node_ref s) (root_ref s) (contact_points_node_ref s)
    (contact_points_include_descendants s) (allows_contact_point_internal_node s) (self_node_ref s).
Definition set_outgoing (v : list (list wire_item)) (s : Supervisor) : Supervisor :=
  mkSupervisor (is_supervisor s) (is_quitting s) (robot_time s) (incoming s) v (stderr s)
    (next_alloc s) (field_list s) (field_requests_list s) (field_requests_garbage_list s)
    (sent_field_get_request s) (node_list s) (imported_nodes_number s) (node_id s) (node_tag s)
    (allow_search_in_proto s) (node_def_name s) (proto_id s) (requested_field_name s)
    (node_get_selected s) (node_ref s) (root_ref s) (contact_points_node_ref s)
    (contact_points_include_descendants s) (allows_contact_point_internal_node s) (self_node_ref s).
Definition set_stderr (v : list diagnostic) (s : Supervisor) : Supervisor :=
  mkSupervisor (is_supervisor s) (is_quitting s) (robot_time s) (incoming s) (outgoing s) v
    (next_alloc s) (field_list s) (field_requests_list s) (field_requests_garbage_list s)
    (sent_field_get_request s) (node_list s) (imported_nodes_number s) (node_id s) (node_tag s)
    (allow_search_in_proto s) (node_def_name s) (proto_id s) (requested_field_name s)
    (node_get_selected s) (node_ref s) (root_ref s) (contact_points_node_ref s)
    (contact_points_include_descendants s) (allows_contact_point_internal_node s) (self_node_ref s).
Definition set_next_alloc (v : Z) (s : Supervisor) : Supervisor :=
  mkSupervisor (is_supervisor s) (is_quitting s) (robot_time s) (incoming s) (outgoing s)
    (stderr s) v (field_list s) (field_requests_list s) (field_requests_garbage_list s)
    (sent_field_get_request s) (node_list s) (imported_nodes_number s) (node_id s) (node_tag s)
    (allow_search_in_proto s) (node_def_name s) (proto_id s) (requested_field_name s)
    (node_get_selected s) (node_ref s) (root_ref s) (contact_points_node_ref s)
    (contact_points_include_descendants s) (allows_contact_point_internal_node s) (self_node_ref s).
Definition set_field_list (v : field_store) (s : Supervisor) : Supervisor :=
  mkSupervisor (is_supervisor s) (is_quitting s) (robot_time s) (incoming s) (outgoing s)
    (stderr s) (next_alloc s) v (field_requests_list s) (field_requests_garbage_list s)
    (sent_field_get_request s) (node_list s) (imported_nodes_number s) (node_id s) (node_tag s)
    (allow_search_in_proto s) (node_def_name s) (proto_id s) (requested_field_name s)
    (node_get_selected s) (node_ref s) (root_ref s) (contact_points_node_ref s)
    (contact_points_include_descendants s) (allows_contact_point_internal_node s) (self_node_ref s).
Definition set_field_requests_list (v : list WbFieldRequest) (s : Supervisor) : Supervisor :=
  mkSupervisor (is_supervisor s) (is_quitting s) (robot_time s) (incoming s) (outgoing s)
    (stderr s) (next_alloc s) (field_list s) v (field_requests_garbage_list s)
    (sent_field_get_request s) (node_list s) (imported_nodes_number s) (node_id s) (node_tag s)
    (allow_search_in_proto s) (node_def_name s) (proto_id s) (requested_field_name s)
    (node_get_selected s) (node_ref s) (root_ref s) (contact_points_node_ref s)
    (contact_points_include_descendants s) (allows_contact_point_internal_node s) (self_node_ref s).
Definition set_field_requests_garbage_list (v : list WbFieldRequest) (s : Supervisor) : Supervisor :=
  mkSupervisor (is_supervisor s) (is_quitting s) (robot_time s) (incoming s) (outgoing s)
    (stderr s) (next_alloc s) (field_list s) (field_requests_list s) v
    (sent_field_get_request s) (node_list s) (imported_nodes_number s) (node_id s) (node_tag s)
    (allow_search_in_proto s) (node_def_name s) (proto_id s) (requested_field_name s)
    (node_get_selected s) (node_ref s) (root_ref s) (contact_points_node_ref s)
    (contact_points_include_descendants s) (allows_contact_point_internal_node s) (self_node_ref s).
Definition set_sent_field_get_request (v : option WbFieldRequest) (s : Supervisor) : Supervisor :=
  mkSupervisor (is_supervisor s) (is_quitting s) (robot_time s) (incoming s) (outgoing s)
    (stderr s) (next_alloc s) (field_list s) (field_requests_list s)
    (field_requests_garbage_list s) v (node_list s) (imported_nodes_number s) (node_id s)
    (node_tag s) (allow_search_in_proto s) (node_def_name s) (proto_id s)
    (requested_field_name s) (node_get_selected s) (node_ref s) (root_ref s)
    (contact_points_node_ref s) (contact_points_include_descendants s)
    (allows_contact_point_internal_node s) (self_node_ref s).
Definition set_node_list (v : node_store) (s : Supervisor) : Supervisor :=
  mkSupervisor (is_supervisor s) (is_quitting s) (robot_time s) (incoming s) (outgoing s)
    (stderr s) (next_alloc s) (field_list s) (field_requests_list s)
    (field_requests_garbage_list s) (sent_field_get_request s) v (imported_nodes_number s)
    (node_id s) (node_tag s) (allow_search_in_proto s) (node_def_name s) (proto_id s)
    (requested_field_name s) (node_get_selected s) (node_ref s) (root_ref s)
    (contact_points_node_ref s) (contact_points_include_descendants s)
    (allows_contact_point_internal_node s) (self_node_ref s).
Definition set_imported_nodes_number (v : Z) (s : Supervisor) : Supervisor :=
  mkSupervisor (is_supervisor s) (is_quitting s) (robot_time s) (incoming s) (outgoing s)
    (stderr s) (next_alloc s) (field_list s) (field_requests_list s)
    (field_requests_garbage_list s) (sent_field_get_request s) (node_list s) v (node_id s)
    (node_tag s) (allow_search_in_proto s) (node_def_name s) (proto_id s)
    (requested_field_name s) (node_get_selected s) (node_ref s) (root_ref s)
    (contact_points_node_ref s) (contact_points_include_descendants s)
    (allows_contact_point_internal_node s) (self_node_ref s).
Definition set_node_id (v : Z) (s : Supervisor) : Supervisor :=
  mkSupervisor (is_supervisor s) (is_quitting s) (robot_time s) (incoming s) (outgoing s)
    (stderr s) (next_alloc s) (field_list s) (field_requests_list s)
    (field_requests_garbage_list s) (sent_field_get_request s) (node_list s)
    (imported_nodes_number s) v (node_tag s) (allow_search_in_proto s) (node_def_name s)
    (proto_id s) (requested_field_name s) (node_get_selected s) (node_ref s) (root_ref s)
    (contact_points_node_ref s) (contact_points_include_descendants s)
    (allows_contact_point_internal_node s) (self_node_ref s).
Definition set_node_tag (v : Z) (s : Supervisor) : Supervisor :=
  mkSupervisor (is_supervisor s) (is_quitting s) (robot_time s) (incoming s) (outgoing s)
    (stderr s) (next_alloc s) (field_list s) (field_requests_list s)
    (field_requests_garbage_list s) (sent_field_get_request s) (node_list s)
    (imported_nodes_number s) (node_id s) v (allow_search_in_proto s) (node_def_name s)
    (proto_id s) (requested_field_name s) (node_get_selected s) (node_ref s) (root_ref s)
    (contact_points_node_ref s) (contact_points_include_descendants s)
    (allows_contact_point_internal_node s) (self_node_ref s).
Definition set_allow_search_in_proto (v : bool) (s : Supervisor) : Supervisor :=
  mkSupervisor (is_supervisor s) (is_quitting s) (robot_time s) (incoming s) (outgoing s)
    (stderr s) (next_alloc s) (field_list s) (field_requests_list s)
    (field_requests_garbage_list s) (sent_field_get_request s) (node_list s)
    (imported_nodes_number s) (node_id s) (node_tag s) v (node_def_name s) (proto_id s)
    (requested_field_name s) (node_get_selected s) (node_ref s) (root_ref s)
    (contact_points_node_ref s) (contact_points_include_descendants s)
    (allows_contact_point_internal_node s) (self_node_ref s).
Definition set_node_def_name (v : option string) (s : Supervisor) : Supervisor :=
  mkSupervisor (is_supervisor s) (is_quitting s) (robot_time s) (incoming s) (outgoing s)
    (stderr s) (next_alloc s) (field_list s) (field_requests_list s)
    (field_requests_garbage_list s) (sent_field_get_request s) (node_list s)
    (imported_nodes_number s) (node_id s) (node_tag s) (allow_search_in_proto s) v (proto_id s)
    (requested_field_name s) (node_get_selected s) (node_ref s) (root_ref s)
    (contact_points_node_ref s) (contact_points_include_descendants s)
    (allows_contact_point_internal_node s) (self_node_ref s).
Definition set_proto_id (v : Z) (s : Supervisor) : Supervisor :=
  mkSupervisor (is_supervisor s) (is_quitting s) (robot_time s) (incoming s) (outgoing s)
    (stderr s) (next_alloc s) (field_list s) (field_requests_list s)
    (field_requests_garbage_list s) (sent_field_get_request s) (node_list s)
    (imported_nodes_number s) (node_id s) (node_tag s) (allow_search_in_proto s)
    (node_def_name s) v (requested_field_name s) (node_get_selected s) (node_ref s) (root_ref s)
    (contact_points_node_ref s) (contact_points_include_descendants s)
    (allows_contact_point_internal_node s) (self_node_ref s).
Definition set_requested_field_name (v : option string) (s : Supervisor) : Supervisor :=
  mkSupervisor (is_supervisor s) (is_quitting s) (robot_time s) (incoming s) (outgoing s)
    (stderr s) (next_alloc s) (field_list s) (field_requests_list s)
    (field_requests_garbage_list s) (sent_field_get_request s) (node_list s)
    (imported_nodes_number s) (node_id s) (node_tag s) (allow_search_in_proto s)
    (node_def_name s) (proto_id s) v (node_get_selected s) (node_ref s) (root_ref s)
    (contact_points_node_ref s) (contact_points_include_descendants s)
    (allows_contact_point_internal_node s) (self_node_ref s).
Definition set_node_get_selected (v : bool) (s : Supervisor) : Supervisor :=
  mkSupervisor (is_supervisor s) (is_quitting s) (robot_time s) (incoming s) (outgoing s)
    (stderr s) (next_alloc s) (field_list s) (field_requests_list s)
    (field_requests_garbage_list s) (sent_field_get_request s) (node_list s)
    (imported_nodes_number s) (node_id s) (node_tag s) (allow_search_in_proto s)
    (node_def_name s) (proto_id s) (requested_field_name s) v (node_ref s) (root_ref s)
    (contact_points_node_ref s) (contact_points_include_descendants s)
    (allows_contact_point_internal_node s) (self_node_ref s).
Definition set_node_ref (v : Z) (s : Supervisor) : Supervisor :=
  mkSupervisor (is_supervisor s) (is_quitting s) (robot_time s) (incoming s) (outgoing s)
    (stderr s) (next_alloc s) (field_list s) (field_requests_list s)
    (field_requests_garbage_list s) (sent_field_get_request s) (node_list s)
    (imported_nodes_number s) (node_id s) (node_tag s) (allow_search_in_proto s)
    (node_def_name s) (proto_id s) (requested_field_name s) (node_get_selected s) v (root_ref s)
    (contact_points_node_ref s) (contact_points_include_descendants s)
    (allows_contact_point_internal_node s) (self_node_ref s).
Definition set_contact_points_node_ref (v : WbNodeRef) (s : Supervisor) : Supervisor :=
  mkSupervisor (is_supervisor s) (is_quitting s) (robot_time s) (incoming s) (outgoing s)
    (stderr s) (next_alloc s) (field_list s) (field_requests_list s)
    (field_requests_garbage_list s) (sent_field_get_request s) (node_list s)
    (imported_nodes_number s) (node_id s) (node_tag s) (allow_search_in_proto s)
    (node_def_name s) (proto_id s) (requested_field_name s) (node_get_selected s) (node_ref s)
    (root_ref s) v (contact_points_include_descendants s) (allows_contact_point_internal_node s)
    (self_node_ref s).
Definition set_contact_points_include_descendants (v : bool) (s : Supervisor) : Supervisor :=
  mkSupervisor (is_supervisor s) (is_quitting s) (robot_time s) (incoming s) (outgoing s)
    (stderr s) (next_alloc s) (field_list s) (field_requests_list s)
    (field_requests_garbage_list s) (sent_field_get_request s) (node_list s)
    (imported_nodes_number s) (node_id s) (node_tag s) (allow_search_in_proto s)
    (node_def_name s) (proto_id s) (requested_field_name s) (node_get_selected s) (node_ref s)
    (root_ref s) (contact_points_node_ref s) v (allows_contact_point_internal_node s)
    (self_node_ref s).
Definition set_allows_contact_point_internal_node (v : bool) (s : Supervisor) : Supervisor :=
  mkSupervisor (is_supervisor s) (is_quitting s) (robot_time s) (incoming s) (outgoing s)
    (stderr s) (next_alloc s) (field_list s) (field_requests_list s)
    (field_requests_garbage_list s) (sent_field_get_request s) (node_list s)
    (imported_nodes_number s) (node_id s) (node_tag s) (allow_search_in_proto s)
    (node_def_name s) (proto_id s) (requested_field_name s) (node_get_selected s) (node_ref s)
    (root_ref s) (contact_points_node_ref s) (contact_points_include_descendants s) v
    (self_node_ref s).

Definition set_self_node_ref (v : WbNodeRef) (s : Supervisor) : Supervisor :=
  mkSupervisor (is_supervisor s) (is_quitting s) (robot_time s) (incoming s) (outgoing s)
    (stderr s) (next_alloc s) (field_list s) (field_requests_list s)
    (field_requests_garbage_list s) (sent_field_get_request s) (node_list s)
    (imported_nodes_number s) (node_id s) (node_tag s) (allow_search_in_proto s)
    (node_def_name s) (proto_id s) (requested_field_name s) (node_get_selected s) (node_ref s)
    (root_ref s) (contact_points_node_ref s) (contact_points_include_descendants s)
    (allows_contact_point_internal_node s) v.

Definition fprintf_stderr (fmt : string) (args : list fmt_arg) (st : Supervisor) : Supervisor :=
  set_stderr (stderr st ++ [mkDiag fmt args]) st.

(** Modelled from the spec: [robot_check_supervisor] of robot.c, which is
    not part of the sources at hand.  A call from a controller that is not a
    supervisor is reported on stderr as one line and refused. *)
Definition robot_check_supervisor (func : string) (st : Supervisor) : Supervisor * bool :=
  if is_supervisor st then (st, true)
  else (fprintf_stderr "Error: %s() can only be called by a supervisor controller.\n"
                       [a_str func] st, false).

Definition clean_field_request_garbage_collector (st : Supervisor) : Supervisor :=
  set_field_requests_garbage_list [] st.

Definition remove_internal_proto_nodes_and_fields_from_list (st : Supervisor) : Supervisor :=
  let st := set_node_list
              (filter (fun c => negb (n_is_proto_internal (snd c))) (node_list st)) st in
  set_field_list (filter (fun c => negb (f_is_proto_internal (snd c))) (field_list st)) st.

Section Engine.

#[local] Set Default Proof Using "Type".

(** [wb_node_get_name] of nodes.c: the base type name of a node type, [NULL]
    for an unknown type.  The table is not part of the sources at hand. *)
Variable wb_node_get_name : Z -> option string.

(** Modelled from the spec: [WB_NODE_ROBOT] of <webots/nodes.h>, whose
    numeric value is not in the sources at hand. *)
Variable WB_NODE_ROBOT : Z.

Definition add_node_to_list (uid type : Z) (model_name def_name : option string)
           (tag parent_id : Z) (is_proto : bool) (st : Supervisor) : outcome Supervisor :=
  match find_node_by_id uid (node_list st) with
  | Some nodeInList =>
      match def_name with
      | None => Ok st
      | Some d =>
          match n_def_name (snd nodeInList) with
          | None => Crash invalid_pointer
          | Some old =>
              if String.eqb old d then Ok st
              else Ok (set_node_list
                         (update_node (fst nodeInList)
                                      (set_n_def_name (extract_node_def def_name))
                                      (node_list st)) st)
          end
      end
  | None =>
      let n := next_alloc st in
      let model :=
        match wb_node_get_name type, model_name with
        | Some base_name, Some m => if String.eqb base_name m then None else Some m
        | _, _ => None
        end in
      let cell :=
        mkNode uid type model (extract_node_def def_name) parent_id
               None None None None None None dbl_minus_one false None
               is_proto false NULL tag in
      Ok (set_node_list ((n, cell) :: node_list st) (set_next_alloc (n + 1) st))
  end.

(** *** Serializer *)

(** The payload [switch] of the [SET] branch. *)
Definition write_set_payload (ftype : Z) (d : WbFieldData) : outcome (list wire_item) :=
  if (ftype =? WB_SF_BOOL) || (ftype =? WB_MF_BOOL) then
    Ok [w_uchar (if get_sf_bool d then 1 else 0)]
  else if (ftype =? WB_SF_INT32) || (ftype =? WB_MF_INT32) then
    Ok [w_int32 (get_sf_int32 d)]
  else if (ftype =? WB_SF_FLOAT) || (ftype =? WB_MF_FLOAT) then
    Ok [w_double (get_sf_float d)]
  else if (ftype =? WB_SF_VEC2F) || (ftype =? WB_MF_VEC2F) then
    Ok (map w_double (get_sf_vec2f d))
  else if (ftype =? WB_SF_VEC3F) || (ftype =? WB_MF_VEC3F)
          || (ftype =? WB_SF_COLOR) || (ftype =? WB_MF_COLOR) then
    Ok (map w_double (get_sf_vec3f d))
  else if (ftype =? WB_SF_ROTATION) || (ftype =? WB_MF_ROTATION) then
    Ok (map w_double (get_sf_rotation d))
  else if (ftype =? WB_SF_STRING) || (ftype =? WB_MF_STRING) then
    match get_sf_string d with
    | Some s => Ok [w_string s]
    | None => Crash assertion_failed
    end
  else Crash assertion_failed.

(** [request_write_string] on a [NULL] string reads through it. *)
Definition write_string (s : option string) : outcome (list wire_item) :=
  match s with
  | Some v => Ok [w_string v]
  | None => Crash invalid_pointer
  end.

(** The payload [switch] of the [IMPORT] branch. *)
Definition write_import_payload (ftype : Z) (d : WbFieldData) : outcome (list wire_item) :=
  if ftype =? WB_MF_BOOL then Ok [w_uchar (if get_sf_bool d then 1 else 0)]
  else if ftype =? WB_MF_INT32 then Ok [w_int32 (get_sf_int32 d)]
  else if ftype =? WB_MF_FLOAT then Ok [w_double (get_sf_float d)]
  else if ftype =? WB_MF_VEC2F then Ok (map w_double (get_sf_vec2f d))
  else if (ftype =? WB_MF_VEC3F) || (ftype =? WB_MF_COLOR) then Ok (map w_double (get_sf_vec3f d))
  else if ftype =? WB_MF_ROTATION then Ok (map w_double (get_sf_rotation d))
  else if ftype =? WB_MF_STRING then write_string (get_sf_string d)
  else if ftype =? WB_MF_NODE then write_string (get_sf_string d)
  else Crash assertion_failed.

(** What one pending request writes. *)
Definition write_field_request (f : WbFieldStruct) (request : WbFieldRequest)
  : outcome (list wire_item) :=
  let target := [w_uint32 (to_uint32 (f_node_unique_id f)); w_uint32 (to_uint32 (f_id f))] in
  if r_type request =? GET then
    Ok (w_opcode C_SUPERVISOR_FIELD_GET_VALUE :: target
        ++ [w_uchar (if f_is_proto_internal f then 1 else 0)]
        ++ (if negb (r_index request =? -1) then [w_uint32 (to_uint32 (r_index request))]
            else []))
  else if r_type request =? SET then
    payload <- write_set_payload (f_type f) (r_data request) ;;
    Ok (w_opcode C_SUPERVISOR_FIELD_SET_VALUE :: target
        ++ [w_uint32 (to_uint32 (f_type f)); w_uint32 (to_uint32 (r_index request))]
        ++ payload)
  else if r_type request =? IMPORT then
    payload <- write_import_payload (f_type f) (r_data request) ;;
    Ok (w_opcode C_SUPERVISOR_FIELD_INSERT_VALUE :: target
        ++ [w_uint32 (to_uint32 (r_index request))] ++ payload)
  else if r_type request =? IMPORT_FROM_STRING then
    payload <- write_string (get_sf_string (r_data request)) ;;
    Ok (w_opcode C_SUPERVISOR_FIELD_IMPORT_NODE_FROM_STRING :: target
        ++ [w_uint32 (to_uint32 (r_index request))] ++ payload)
  else if r_type request =? REMOVE then
    Ok (w_opcode C_SUPERVISOR_FIELD_REMOVE_VALUE :: target
        ++ [w_uint32 (to_uint32 (r_index request))])
  else Crash assertion_failed.

(** The [while (request)] loop of [supervisor_write_request], entered with
    the head and tail of the FIFO already reset to [NULL]: it walks the whole
    chain, moves every request that is not a [GET] to the front of the
    garbage list and stores a [GET] in the sent slot, which must be empty. *)
Fixpoint drain_requests (fl : field_store) (chain : list WbFieldRequest)
         (buf : list wire_item) (garbage : list WbFieldRequest)
         (sent : option WbFieldRequest)
  : outcome (list wire_item * list WbFieldRequest * option WbFieldRequest) :=
  match chain with
  | [] => Ok (buf, garbage, sent)
  | request :: next =>
      f <- deref_field (r_field request) fl ;;
      items <- write_field_request f request ;;
      if negb (r_type request =? GET) then
        drain_requests fl next (buf ++ items) (request :: garbage) sent
      else
        _ <- assert (match sent with None => true | Some _ => false end) ;;
        drain_requests fl next (buf ++ items) garbage (Some request)
  end.

(** [supervisor_write_request].  The simulation-control, label, movie,
    animation, world and headset slots and the per-node slots other than the
    contact-point one neither read nor write the registries and the field
    queue; they are left out, as is what the base class writes first. *)
Definition supervisor_write_request (st : Supervisor) : outcome Supervisor :=
  '(buf, st) <-
    (if node_id st >=? 0 then
       Ok ([w_opcode C_SUPERVISOR_NODE_GET_FROM_ID; w_int32 (node_id st)], st)
     else
       match node_def_name st with
       | Some d =>
           Ok ([w_opcode C_SUPERVISOR_NODE_GET_FROM_DEF; w_string d; w_int32 (proto_id st)], st)
       | None =>
           if node_tag st >? 0 then
             Ok ([w_opcode C_SUPERVISOR_NODE_GET_FROM_TAG; w_int32 (node_tag st)], st)
           else if node_get_selected st then
             Ok ([w_opcode C_SUPERVISOR_NODE_GET_SELECTED], st)
           else
             match requested_field_name st with
             | Some name =>
                 Ok ([w_opcode C_SUPERVISOR_FIELD_GET_FROM_NAME;
                      w_uint32 (to_uint32 (node_ref st)); w_string name;
                      w_uchar (if allow_search_in_proto st then 1 else 0)], st)
             | None =>
                 '(buf, garbage, sent) <-
                   drain_requests (field_list st) (field_requests_list st) []
                                  (field_requests_garbage_list st)
                                  (sent_field_get_request st) ;;
                 Ok (buf, set_sent_field_get_request sent
                            (set_field_requests_garbage_list garbage
                               (set_field_requests_list [] st)))
             end
       end) ;;
  contact <-
    (if contact_points_node_ref st =? NULL then Ok []
     else
       n <- deref_node (contact_points_node_ref st) (node_list st) ;;
       Ok [w_opcode C_SUPERVISOR_NODE_GET_CONTACT_POINTS; w_uint32 (to_uint32 (n_id n));
           w_uchar (if contact_points_include_descendants st then 1 else 0)]) ;;
  Ok (set_outgoing (outgoing st ++ [buf ++ contact]) st).

(** *** Reply dispatcher *)

(** The value [switch] of the [FIELD_GET_VALUE] case for the kinds that are
    not nodes: the member of the field's kind is read from the reply. *)
Definition read_field_value (ftype : Z) (value : WbFieldData) : outcome WbFieldData :=
  if (ftype =? WB_SF_BOOL) || (ftype =? WB_MF_BOOL) then Ok (sf_bool (get_sf_bool value))
  else if (ftype =? WB_SF_INT32) || (ftype =? WB_MF_INT32) then Ok (sf_int32 (get_sf_int32 value))
  else if (ftype =? WB_SF_FLOAT) || (ftype =? WB_MF_FLOAT) then Ok (sf_float (get_sf_float value))
  else if (ftype =? WB_SF_VEC2F) || (ftype =? WB_MF_VEC2F) then
    match value with
    | sf_vec2f x y => Ok (sf_vec2f x y)
    | _ => Ok (sf_vec2f dbl_zero dbl_zero)
    end
  else if (ftype =? WB_SF_VEC3F) || (ftype =? WB_MF_VEC3F)
          || (ftype =? WB_SF_COLOR) || (ftype =? WB_MF_COLOR) then
    match value with
    | sf_vec3f x y z => Ok (sf_vec3f x y z)
    | _ => Ok (sf_vec3f dbl_zero dbl_zero dbl_zero)
    end
  else if (ftype =? WB_SF_ROTATION) || (ftype =? WB_MF_ROTATION) then
    match value with
    | sf_rotation x y z a => Ok (sf_rotation x y z a)
    | _ => Ok (sf_rotation dbl_zero dbl_zero dbl_zero dbl_zero)
    end
  else if (ftype =? WB_SF_STRING) || (ftype =? WB_MF_STRING) then
    Ok (sf_string (Some (match get_sf_string value with Some s => s | None => "" end)))
  else Crash assertion_failed.

Definition store_field (f : WbFieldRef) (g : WbFieldStruct -> WbFieldStruct) (st : Supervisor)
  : Supervisor :=
  set_field_list (update_field f g (field_list st)) st.

Definition store_node (n : WbNodeRef) (g : WbNodeStruct -> WbNodeStruct) (st : Supervisor)
  : Supervisor :=
  set_node_list (update_node n g (node_list st)) st.

(** [node_list] and [field_list] as pointers: the address of the head cell. *)
Definition head_ref {A : Type} (l : list (Z * A)) : Z :=
  match l with
  | [] => NULL
  | c :: _ => fst c
  end.

(** [supervisor_read_answer] on one message.  The [CONFIGURE] case passes
    [is_proto] where [add_node_to_list] takes [parent_id] and [0] where it
    takes [is_proto]; [self_node_ref] is then the head of the list, which is
    the cell of the self node only when [add_node_to_list] inserted one.
    The replies that fill the position, orientation, centre of mass,
    balance and velocity members of a node, which they reach through
    statics that are not kept here and which nothing modelled here reads,
    and the movie, animation, world and headset replies are [ans_OTHER].  After a contact-point reply
    without contacts the freed [node_id_per_contact_points] is left
    dangling by the source; it reads as [None] here. *)
Definition supervisor_read_answer (a : Answer) (st : Supervisor) : outcome Supervisor :=
  st <-
    match a with
    | ans_CONFIGURE self_uid is_proto is_proto_internal model_name def_name =>
        st <- add_node_to_list self_uid WB_NODE_ROBOT (Some model_name) (Some def_name) 0
                (if is_proto then 1 else 0) false st ;;
        let st := set_self_node_ref (head_ref (node_list st)) st in
        _ <- deref_node (self_node_ref st) (node_list st) ;;
        Ok (store_node (self_node_ref st) (set_n_is_proto_internal is_proto_internal) st)
    | ans_NODE_GET_FROM_DEF uid info =>
        if negb (uid =? 0) then
          st <- add_node_to_list uid (i_type info) (Some (i_model_name info))
                  (node_def_name st) (i_tag info) (i_parent_uid info) (i_is_proto info) st ;;
          Ok (set_node_id uid st)
        else Ok st
    | ans_NODE_GET uid info =>
        if negb (uid =? 0)
           && (negb (i_is_proto_internal info) || allows_contact_point_internal_node st) then
          st <- add_node_to_list uid (i_type info) (Some (i_model_name info))
                  (Some (i_def_name info)) (i_tag info) (i_parent_uid info)
                  (i_is_proto info) st ;;
          Ok (set_node_id uid st)
        else Ok st
    | ans_FIELD_GET_FROM_NAME field_ref field_type is_proto_internal field_count =>
        if field_ref =? -1 then Ok (set_requested_field_name None st)
        else
          let f := next_alloc st in
          let cell :=
            mkField (requested_field_name st) field_type
                    (if Z.land field_type WB_MF =? WB_MF then field_count else -1)
                    (node_ref st) field_ref is_proto_internal (sf_string None) in
          Ok (set_field_list ((f, cell) :: field_list st) (set_next_alloc (f + 1) st))
    | ans_FIELD_GET_VALUE field_type value info =>
        match sent_field_get_request st with
        | None => Crash assertion_failed
        | Some sent =>
            st <-
              (if negb (field_type =? 0) then
                 f <- deref_field (r_field sent) (field_list st) ;;
                 if (f_type f =? WB_SF_NODE) || (f_type f =? WB_MF_NODE) then
                   let uid := get_sf_node_uid value in
                   let st := store_field (r_field sent) (set_f_data (sf_node_uid uid)) st in
                   if negb (uid =? 0) then
                     add_node_to_list uid (i_type info) (Some (i_model_name info))
                       (Some (i_def_name info)) (i_tag info) (i_parent_uid info)
                       (i_is_proto info) st
                   else Ok st
                 else
                   d <- read_field_value (f_type f) value ;;
                   Ok (store_field (r_field sent) (set_f_data d) st)
               else Ok st) ;;
            Ok (set_sent_field_get_request None st)
        end
    | ans_NODE_REGENERATED => Ok (remove_internal_proto_nodes_and_fields_from_list st)
    | ans_FIELD_INSERT_VALUE n => Ok (set_imported_nodes_number n st)
    | ans_NODE_REMOVE_NODE uid parent_node_unique_id field_name parent_field_count =>
        let st := set_node_list (remove_node_from_list uid (node_list st)) st in
        if parent_node_unique_id >=? 0 then
          parent_field <- find_field field_name parent_node_unique_id (field_list st) ;;
          match parent_field with
          | Some c => Ok (store_field (fst c) (set_f_count parent_field_count) st)
          | None => Ok st
          end
        else Ok st
    | ans_NODE_GET_CONTACT_POINTS n points node_ids =>
        _ <- deref_node (contact_points_node_ref st) (node_list st) ;;
        Ok (store_node (contact_points_node_ref st)
              (if n >? 0 then set_n_contacts (Some n) (Some points) (Some node_ids)
               else set_n_contacts (Some n) None None) st)
    | ans_OTHER => Ok st
    end ;;
  Ok (clean_field_request_garbage_collector st).

Fixpoint read_answers (frame : list Answer) (st : Supervisor) : outcome Supervisor :=
  match frame with
  | [] => Ok st
  | a :: rest => st <- supervisor_read_answer a st ;; read_answers rest st
  end.

(** Modelled from the spec: [wb_robot_flush_unlocked] of robot.c, which is
    not part of the sources at hand.  It writes the outgoing frame with
    [supervisor_write_request], blocks until the simulator has consumed it
    and delivered its reply frame, and dispatches every message of the reply
    with [supervisor_read_answer].  The reply is the next frame of
    [incoming], the empty frame when none is left. *)
Definition wb_robot_flush_unlocked (st : Supervisor) : outcome Supervisor :=
  st <- supervisor_write_request st ;;
  read_answers (hd [] (incoming st)) (set_incoming (tl (incoming st)) st).

(** *** Pending-operations queue *)

(** The expression
    [f->type == WB_SF_STRING || f->type == WB_MF_STRING ||
     action == IMPORT_FROM_STRING || (action = IMPORT && f->type == WB_MF_NODE)]:
    its value, and the value of the local [action] after it.  The last
    operand assigns [IMPORT && f->type == WB_MF_NODE] to [action]. *)
Definition is_string_expression (ftype action : Z) : bool * Z :=
  if ftype =? WB_SF_STRING then (true, action)
  else if ftype =? WB_MF_STRING then (true, action)
  else if action =? IMPORT_FROM_STRING then (true, action)
  else
    let assigned := if negb (IMPORT =? 0) && (ftype =? WB_MF_NODE) then 1 else 0 in
    (negb (assigned =? 0), assigned).

Definition create_and_append_field_request (f : WbFieldRef) (action index : Z)
           (data : WbFieldData) (clamp_index : bool) (st : Supervisor) : outcome Supervisor :=
  fs <- deref_field f (field_list st) ;;
  let '(index, st) :=
    if clamp_index then
      let offset := if (action =? IMPORT) || (action =? IMPORT_FROM_STRING) then 1 else 0 in
      if negb (f_count fs =? -1)
         && ((index >=? int_add (f_count fs) offset) || (index <? 0)) then
        (0, fprintf_stderr
              "Warning wb_supervisor_field_get/set_mf_*() called with index out of range.\n"
              [] st)
      else (index, st)
    else (index, st) in
  let request_type := action in
  let '(is_string, _) := is_string_expression (f_type fs) action in
  let request := mkRequest request_type index is_string data f in
  Ok (set_field_requests_list (field_requests_list st ++ [request]) st).

(** The test of the [for] loop of [field_operation_with_data]. *)
Definition same_set (f : WbFieldRef) (index : Z) (r : WbFieldRequest) : bool :=
  (r_field r =? f) && (r_type r =? SET) && (r_index r =? index).

Fixpoint find_queued_set (f : WbFieldRef) (index : Z) (q : list WbFieldRequest)
  : option WbFieldRequest :=
  match q with
  | [] => None
  | r :: rest => if same_set f index r then Some r else find_queued_set f index rest
  end.

(** A store through the pointer [r] the loop stopped at. *)
Fixpoint update_queued_set (f : WbFieldRef) (index : Z) (g : WbFieldRequest -> WbFieldRequest)
         (q : list WbFieldRequest) : list WbFieldRequest :=
  match q with
  | [] => []
  | r :: rest =>
      if same_set f index r then g r :: rest else r :: update_queued_set f index g rest
  end.

Definition field_operation_with_data (f : WbFieldRef) (action index : Z) (data : WbFieldData)
           (st : Supervisor) : outcome Supervisor :=
  match find_queued_set f index (field_requests_list st) with
  | Some r =>
      if action =? GET then
        _ <- deref_field f (field_list st) ;;
        if negb (r_is_string r) then Ok (store_field f (set_f_data (r_data r)) st)
        else Ok (store_field f (set_f_data (sf_string (get_sf_string (r_data r)))) st)
      else if action =? SET then
        if negb (r_is_string r) then
          Ok (set_field_requests_list
                (update_queued_set f index (set_r_data data) (field_requests_list st)) st)
        else
          _ <- deref_field f (field_list st) ;;
          let st :=
            set_field_requests_list
              (update_queued_set f index (set_r_data (sf_string (get_sf_string data)))
                                 (field_requests_list st)) st in
          Ok (store_field f (set_f_data (sf_string None)) st)
      else Ok st
  | None =>
      _ <- assert (negb (action =? GET)
                   || match sent_field_get_request st with None => true | Some _ => false end) ;;
      st <- create_and_append_field_request f action index data true st ;;
      st <- (if negb (action =? SET) then wb_robot_flush_unlocked st else Ok st) ;;
      _ <- assert (negb (action =? GET)
                   || match sent_field_get_request st with None => true | Some _ => false end) ;;
      Ok st
  end.

Definition field_operation (f : WbFieldRef) (action index : Z) (st : Supervisor)
  : outcome Supervisor :=
  field_operation_with_data f action index (sf_string None) st.

(** *** Validation layer *)

Definition field_type_name (ftype : Z) : string :=
  if ftype =? WB_SF_BOOL then "SFBool"
  else if ftype =? WB_SF_INT32 then "SFInt32"
  else if ftype =? WB_SF_FLOAT then "SFFloat"
  else if ftype =? WB_SF_VEC2F then "SFVec2f"
  else if ftype =? WB_SF_VEC3F then "SFVec3f"
  else if ftype =? WB_SF_ROTATION then "SFRotation"
  else if ftype =? WB_SF_COLOR then "SFColor"
  else if ftype =? WB_SF_STRING then "SFString"
  else if ftype =? WB_SF_NODE then "SFNode"
  else if ftype =? WB_MF_BOOL then "MFBool"
  else if ftype =? WB_MF_INT32 then "MFInt32"
  else if ftype =? WB_MF_FLOAT then "MFFloat"
  else if ftype =? WB_MF_VEC2F then "MFVec2f"
  else if ftype =? WB_MF_VEC3F then "MFVec3f"
  else if ftype =? WB_MF_COLOR then "MFColor"
  else if ftype =? WB_MF_ROTATION then "MFRotation"
  else if ftype =? WB_MF_STRING then "MFString"
  else if ftype =? WB_MF_NODE then "MFNode"
  else "".

(** [check_field].  [index] is the [int *index] argument, [None] for
    [NULL]; the third component of the result is [*index] afterwards.  The
    type name in the wrong-type diagnostic comes from
    [wb_supervisor_field_get_type_name], whose own [check_field] succeeds
    silently on the field that was just validated. *)
Definition check_field (f : WbFieldRef) (func : string) (type : Z) (check_type : bool)
           (index : option Z) (is_importing check_type_internal : bool) (st : Supervisor)
  : outcome (Supervisor * bool * option Z) :=
  let '(st, allowed) := robot_check_supervisor func st in
  if negb allowed then Ok (st, false, index)
  else if f =? NULL then
    Ok (if negb (is_quitting st)
        then fprintf_stderr "Error: %s() called with NULL 'field' argument.\n" [a_str func] st
        else st, false, index)
  else if negb (field_in_list f (field_list st)) then
    Ok (fprintf_stderr "Error: %s() called with invalid 'field' argument.\n" [a_str func] st,
        false, index)
  else
    fs <- deref_field f (field_list st) ;;
    if check_type_internal && f_is_proto_internal fs then
      Ok (fprintf_stderr "Error: %s() called on a read-only PROTO internal field.\n"
                         [a_str func] st, false, index)
    else if check_type && negb (f_type fs =? type) then
      Ok (if negb (is_quitting st)
          then fprintf_stderr "Error: %s() called with wrong field type: %s.\n"
                              [a_str func; a_str (field_type_name (f_type fs))] st
          else st, false, index)
    else if negb (Z.land type WB_MF =? 0) then
      match index with
      | None => Crash assertion_failed
      | Some i =>
          let count := f_count fs in
          let offset := if is_importing then 0 else -1 in
          if (i <? int_neg (int_add (int_add count 1) offset))
             || (i >? int_add count offset) then
            Ok (fprintf_stderr
                  "Error: %s() called with an out-of-bound index: %d (should be between %d and %d).\n"
                  [a_str func; a_int i; a_int (int_sub (int_sub (int_neg count) 1) offset);
                   a_int (int_add count offset)] st, false, index)
          else if i <? 0 then
            Ok (st, true, Some (int_add i (int_add (int_add count 1) offset)))
          else Ok (st, true, index)
      end
    else Ok (st, true, index).

Definition check_float (function : string) (value : double) (st : Supervisor)
  : Supervisor * bool :=
  if isnan value then
    (fprintf_stderr "Error: %s() called with a NaN value.\n" [a_str function] st, false)
  else if dbl_gt value FLT_MAX then
    (fprintf_stderr "Error: %s() called with a value greater than FLX_MAX: %g > %g.\n"
                    [a_str function; a_dbl value; a_dbl FLT_MAX] st, false)
  else if dbl_lt value (SFopp FLT_MAX) then
    (fprintf_stderr "Error: %s() called with a value smaller than -FLX_MAX): %g < %g.\n"
                    [a_str function; a_dbl value; a_dbl (SFopp FLT_MAX)] st, false)
  else (st, true).

(** The loop of [check_vector] over [values[i]], [i < n]; reading past the
    end of the array the caller passed is a crash. *)
Fixpoint check_floats (function : string) (values : list double) (n : nat) (st : Supervisor)
         {struct n} : outcome (Supervisor * bool) :=
  match n with
  | O => Ok (st, true)
  | S m =>
      match values with
      | [] => Crash invalid_pointer
      | v :: rest =>
          let '(st, ok) := check_float function v st in
          if ok then check_floats function rest m st else Ok (st, false)
      end
  end.

Definition check_vector (function : string) (values : option (list double)) (n : nat)
           (st : Supervisor) : outcome (Supervisor * bool) :=
  match values with
  | None =>
      Ok (fprintf_stderr "Error: %s() called with NULL argument.\n" [a_str function] st, false)
  | Some vs => check_floats function vs n st
  end.

(** [values[i]] of an argument array. *)
Definition element (values : list double) (i : nat) : outcome double :=
  match nth_error values i with
  | Some v => Ok v
  | None => Crash invalid_pointer
  end.

Definition isValidRotation (r : list double) : outcome bool :=
  x <- element r 0 ;;
  if negb (dbl_eq x dbl_zero) then Ok true
  else
    y <- element r 1 ;;
    if negb (dbl_eq y dbl_zero) then Ok true
    else z <- element r 2 ;; Ok (negb (dbl_eq z dbl_zero)).

Fixpoint color_channels (rgb : list double) (n : nat) {struct n} : outcome bool :=
  match n with
  | O => Ok true
  | S m =>
      match rgb with
      | [] => Crash invalid_pointer
      | c :: rest =>
          if dbl_ge c dbl_zero then
            if dbl_le c (S754_finite false 4503599627370496 (-52)) then color_channels rest m
            else Ok false
          else Ok false
      end
  end.

Definition isValidColor (rgb : list double) : outcome bool := color_channels rgb 3.

(** *** Public field API

    The getters, setters and inserters of supervisor.h come in families of
    functions that differ only in the kind of the field: one definition
    per family, indexed by [kind], stands for the functions
    [wb_supervisor_field_get_sf_bool], [..._get_sf_int32], ... of the
    source. *)

Inductive kind : Type :=
| k_bool | k_int32 | k_float | k_vec2f | k_vec3f | k_rotation | k_color | k_string | k_node.

Definition sf_type (k : kind) : Z :=
  match k with
  | k_bool => WB_SF_BOOL | k_int32 => WB_SF_INT32 | k_float => WB_SF_FLOAT
  | k_vec2f => WB_SF_VEC2F | k_vec3f => WB_SF_VEC3F | k_rotation => WB_SF_ROTATION
  | k_color => WB_SF_COLOR | k_string => WB_SF_STRING | k_node => WB_SF_NODE
  end.

Definition mf_type (k : kind) : Z :=
  match k with
  | k_bool => WB_MF_BOOL | k_int32 => WB_MF_INT32 | k_float => WB_MF_FLOAT
  | k_vec2f => WB_MF_VEC2F | k_vec3f => WB_MF_VEC3F | k_rotation => WB_MF_ROTATION
  | k_color => WB_MF_COLOR | k_string => WB_MF_STRING | k_node => WB_MF_NODE
  end.

Definition kind_name (k : kind) : string :=
  match k with
  | k_bool => "bool" | k_int32 => "int32" | k_float => "float"
  | k_vec2f => "vec2f" | k_vec3f => "vec3f" | k_rotation => "rotation"
  | k_color => "color" | k_string => "string" | k_node => "node"
  end.

(** The C type of the value argument of a setter or inserter.  Arrays and
    strings are pointers, [None] being [NULL].  There is no setter for node
    fields. *)
Definition arg (k : kind) : Type :=
  match k with
  | k_bool => bool
  | k_int32 => Z
  | k_float => double
  | k_vec2f | k_vec3f | k_rotation | k_color => option (list double)
  | k_string => option string
  | k_node => Empty_set
  end.

(** What a call returns. *)
Inductive api_result : Type :=
| ret_void
| ret_bool (b : bool)
| ret_int (i : Z)
| ret_double (d : double)
| ret_vector (v : option (list double))
| ret_string (s : option string)
| ret_ref (p : Z).

(** The value returned when [check_field] refuses the call. *)
Definition getter_sentinel (k : kind) : api_result :=
  match k with
  | k_bool => ret_bool false
  | k_int32 => ret_int 0
  | k_float => ret_double dbl_zero
  | k_vec2f | k_vec3f | k_rotation | k_color => ret_vector None
  | k_string => ret_string (Some "")
  | k_node => ret_ref NULL
  end.

(** The member of [field->data] a getter returns. *)
Definition read_member (k : kind) (d : WbFieldData) : api_result :=
  match k with
  | k_bool => ret_bool (get_sf_bool d)
  | k_int32 => ret_int (get_sf_int32 d)
  | k_float => ret_double (get_sf_float d)
  | k_vec2f => ret_vector (Some (get_sf_vec2f d))
  | k_vec3f | k_color => ret_vector (Some (get_sf_vec3f d))
  | k_rotation => ret_vector (Some (get_sf_rotation d))
  | k_string => ret_string (get_sf_string d)
  | k_node => ret_int (get_sf_node_uid d)
  end.

(** The tail of [wb_supervisor_field_get_sf_node] and [..._get_mf_node]. *)
Definition resolve_node (id : Z) (fs : WbFieldStruct) (st : Supervisor)
  : Supervisor * api_result :=
  match find_node_by_id id (node_list st) with
  | Some result =>
      (if f_is_proto_internal fs
       then store_node (fst result) (set_n_is_proto_internal true) st
       else st, ret_ref (fst result))
  | None => (st, ret_ref NULL)
  end.

Definition wb_supervisor_field_get_sf (k : kind) (field : WbFieldRef) (st : Supervisor)
  : outcome (Supervisor * api_result) :=
  let func := String.append "wb_supervisor_field_get_sf_" (kind_name k) in
  '(st, ok, _) <- check_field field func (sf_type k) true None false false st ;;
  if negb ok then Ok (st, getter_sentinel k)
  else
    st <- field_operation field GET (-1) st ;;
    fs <- deref_field field (field_list st) ;;
    match k with
    | k_node =>
        let id := get_sf_node_uid (f_data fs) in
        if id <=? 0 then Ok (st, ret_ref NULL) else Ok (resolve_node id fs st)
    | _ => Ok (st, read_member k (f_data fs))
    end.

Definition wb_supervisor_field_get_mf (k : kind) (field : WbFieldRef) (index : Z)
           (st : Supervisor) : outcome (Supervisor * api_result) :=
  let func := String.append "wb_supervisor_field_get_mf_" (kind_name k) in
  '(st, ok, index) <- check_field field func (mf_type k) true (Some index) false false st ;;
  if negb ok then Ok (st, getter_sentinel k)
  else
    st <- field_operation field GET (match index with Some i => i | None => -1 end) st ;;
    fs <- deref_field field (field_list st) ;;
    match k with
    | k_node => Ok (resolve_node (get_sf_node_uid (f_data fs)) fs st)
    | _ => Ok (st, read_member k (f_data fs))
    end.

(** The checks a setter or inserter runs on its value after [check_field],
    and the [union WbFieldData] it builds: [None] when a check failed. *)
Definition checked_vector (func : string) (values : option (list double)) (n : nat)
           (st : Supervisor) : outcome (Supervisor * option (list double)) :=
  '(st, ok) <- check_vector func values n st ;;
  if ok then Ok (st, values) else Ok (st, None).

Definition pack_value (k : kind) (func : string)
  : arg k -> Supervisor -> outcome (Supervisor * option WbFieldData) :=
  match k return arg k -> Supervisor -> outcome (Supervisor * option WbFieldData) with
  | k_bool => fun value st => Ok (st, Some (sf_bool value))
  | k_int32 => fun value st => Ok (st, Some (sf_int32 value))
  | k_float => fun value st =>
      let '(st, ok) := check_float func value st in
      if ok then Ok (st, Some (sf_float value)) else Ok (st, None)
  | k_vec2f => fun values st =>
      '(st, checked) <- checked_vector func values 2 st ;;
      match checked with
      | None => Ok (st, None)
      | Some vs =>
          x <- element vs 0 ;; y <- element vs 1 ;; Ok (st, Some (sf_vec2f x y))
      end
  | k_vec3f => fun values st =>
      '(st, checked) <- checked_vector func values 3 st ;;
      match checked with
      | None => Ok (st, None)
      | Some vs =>
          x <- element vs 0 ;; y <- element vs 1 ;; z <- element vs 2 ;;
          Ok (st, Some (sf_vec3f x y z))
      end
  | k_rotation => fun values st =>
      '(st, checked) <- checked_vector func values 4 st ;;
      match checked with
      | None => Ok (st, None)
      | Some vs =>
          valid <- isValidRotation vs ;;
          if negb valid then
            Ok (fprintf_stderr
                  "Error: %s() called with invalid values for the [x y z] axis.\n"
                  [a_str func] st, None)
          else
            x <- element vs 0 ;; y <- element vs 1 ;; z <- element vs 2 ;;
            a <- element vs 3 ;;
            Ok (st, Some (sf_rotation x y z a))
      end
  | k_color => fun values st =>
      match values with
      | None =>
          Ok (fprintf_stderr "Error: %s() called with a NULL 'values' argument.\n"
                             [a_str func] st, None)
      | Some vs =>
          valid <- isValidColor vs ;;
          if negb valid then
            Ok (fprintf_stderr
                  "Error: %s() called with invalid RGB values (outside [0,1] range).\n"
                  [a_str func] st, None)
          else
            x <- element vs 0 ;; y <- element vs 1 ;; z <- element vs 2 ;;
            Ok (st, Some (sf_vec3f x y z))
      end
  | k_string => fun value st =>
      match value with
      | None =>
          Ok (fprintf_stderr "Error: %s() called with a NULL string argument.\n"
                             [a_str func] st, None)
      | Some s => Ok (st, Some (sf_string (Some s)))
      end
  | k_node => fun value _ => match value with end
  end.

Definition wb_supervisor_field_set_sf (k : kind) (field : WbFieldRef) (value : arg k)
           (st : Supervisor) : outcome (Supervisor * api_result) :=
  let func := String.append "wb_supervisor_field_set_sf_" (kind_name k) in
  '(st, ok, _) <- check_field field func (sf_type k) true None false true st ;;
  if negb ok then Ok (st, ret_void)
  else
    '(st, data) <- pack_value k func value st ;;
    match data with
    | None => Ok (st, ret_void)
    | Some data => st <- field_operation_with_data field SET (-1) data st ;; Ok (st, ret_void)
    end.

Definition wb_supervisor_field_set_mf (k : kind) (field : WbFieldRef) (index : Z)
           (value : arg k) (st : Supervisor) : outcome (Supervisor * api_result) :=
  let func := String.append "wb_supervisor_field_set_mf_" (kind_name k) in
  '(st, ok, index) <- check_field field func (mf_type k) true (Some index) false true st ;;
  if negb ok then Ok (st, ret_void)
  else
    '(st, data) <- pack_value k func value st ;;
    match data with
    | None => Ok (st, ret_void)
    | Some data =>
        st <- field_operation_with_data field SET
                (match index with Some i => i | None => -1 end) data st ;;
        Ok (st, ret_void)
    end.

Definition wb_supervisor_field_insert_mf (k : kind) (field : WbFieldRef) (index : Z)
           (value : arg k) (st : Supervisor) : outcome (Supervisor * api_result) :=
  let func := String.append "wb_supervisor_field_insert_mf_" (kind_name k) in
  '(st, ok, index) <- check_field field func (mf_type k) true (Some index) true true st ;;
  if negb ok then Ok (st, ret_void)
  else
    '(st, data) <- pack_value k func value st ;;
    match data with
    | None => Ok (st, ret_void)
    | Some data =>
        st <- field_operation_with_data field IMPORT
                (match index with Some i => i | None => -1 end) data st ;;
        fs <- deref_field field (field_list st) ;;
        Ok (store_field field (set_f_count (int_add (f_count fs) 1)) st, ret_void)
    end.

Definition wb_supervisor_field_get_sf_float : WbFieldRef -> Supervisor -> _ :=
  wb_supervisor_field_get_sf k_float.
Definition wb_supervisor_field_set_sf_float : WbFieldRef -> double -> Supervisor -> _ :=
  wb_supervisor_field_set_sf k_float.

Definition wb_supervisor_field_get_type (field : WbFieldRef) (st : Supervisor)
  : outcome (Supervisor * api_result) :=
  '(st, ok, _) <- check_field field "wb_supervisor_field_get_type" WB_NO_FIELD false None
                    false false st ;;
  if negb ok then Ok (st, ret_int WB_NO_FIELD)
  else fs <- deref_field field (field_list st) ;; Ok (st, ret_int (f_type fs)).

Definition wb_supervisor_field_get_count (field : WbFieldRef) (st : Supervisor)
  : outcome (Supervisor * api_result) :=
  '(st, ok, _) <- check_field field "wb_supervisor_field_get_count" WB_NO_FIELD false None
                    false false st ;;
  if negb ok then Ok (st, ret_int 0)
  else
    fs <- deref_field field (field_list st) ;;
    if negb (Z.land (f_type fs) WB_MF =? WB_MF) then
      Ok (if negb (is_quitting st)
          then fprintf_stderr "Error: %s() can only be used with multiple fields (MF).\n"
                              [a_str "wb_supervisor_field_get_count"] st
          else st, ret_int (-1))
    else Ok (st, ret_int (f_count fs)).

Definition wb_supervisor_field_get_type_name (field : WbFieldRef) (st : Supervisor)
  : outcome (Supervisor * api_result) :=
  '(st, ok, _) <- check_field field "wb_supervisor_field_get_type_name" WB_NO_FIELD false None
                    false false st ;;
  if negb ok then Ok (st, ret_string (Some ""))
  else
    fs <- deref_field field (field_list st) ;;
    Ok (st, ret_string (Some (field_type_name (f_type fs)))).

Definition wb_supervisor_field_remove_mf (field : WbFieldRef) (index : Z) (st : Supervisor)
  : outcome (Supervisor * api_result) :=
  let func := "wb_supervisor_field_remove_mf" in
  fs <- deref_field field (field_list st) ;;
  if f_count fs =? 0 then
    Ok (fprintf_stderr "Error: %s() called for an empty field.\n" [a_str func] st, ret_void)
  else
    '(st, ok, index) <- check_field field func WB_MF false (Some index) false true st ;;
    if negb ok then Ok (st, ret_void)
    else
      st <- field_operation field REMOVE (match index with Some i => i | None => -1 end) st ;;
      fs <- deref_field field (field_list st) ;;
      if negb (f_type fs =? WB_MF_NODE) then
        Ok (store_field field (set_f_count (int_sub (f_count fs) 1)) st, ret_void)
      else Ok (st, ret_void).

Definition wb_supervisor_field_remove_mf_node (field : WbFieldRef) (position : Z)
           (st : Supervisor) : outcome (Supervisor * api_result) :=
  wb_supervisor_field_remove_mf field position st.

Definition wb_supervisor_field_remove_sf (field : WbFieldRef) (st : Supervisor)
  : outcome (Supervisor * api_result) :=
  let func := "wb_supervisor_field_remove_sf" in
  fs <- deref_field field (field_list st) ;;
  if get_sf_node_uid (f_data fs) =? 0 then
    Ok (fprintf_stderr "Error: %s() called for an empty field.\n" [a_str func] st, ret_void)
  else
    '(st, ok, _) <- check_field field func WB_SF_NODE true None false true st ;;
    if negb ok then Ok (st, ret_void)
    else
      st <- field_operation field REMOVE (-1) st ;;
      _ <- deref_field field (field_list st) ;;
      Ok (store_field field (set_f_count 0) st, ret_void).

Definition wb_supervisor_node_get_field (node : WbNodeRef) (field_name : option string)
           (st : Supervisor) : outcome (Supervisor * WbFieldRef) :=
  let func := "wb_supervisor_node_get_field" in
  let '(st, allowed) := robot_check_supervisor func st in
  if negb allowed then Ok (st, NULL)
  else if negb (is_node_ref_valid node (node_list st)) then
    Ok (if negb (is_quitting st)
        then fprintf_stderr "Error: %s() called with a NULL or invalid 'node' argument.\n"
                            [a_str func] st
        else st, NULL)
  else
    match field_name with
    | None | Some EmptyString =>
        Ok (fprintf_stderr "Error: %s() called with a NULL or empty 'field_name' argument.\n"
                           [a_str func] st, NULL)
    | Some name =>
        n <- deref_node node (node_list st) ;;
        found <- find_field name (n_id n) (field_list st) ;;
        match found with
        | Some result => Ok (st, fst result)
        | None =>
            let st := set_node_ref (n_id n) (set_requested_field_name (Some name) st) in
            st <- wb_robot_flush_unlocked st ;;
            match requested_field_name st with
            | Some _ =>
                let st := set_requested_field_name None st in
                let result := head_ref (field_list st) in
                if result =? NULL then Ok (st, NULL)
                else
                  n <- deref_node node (node_list st) ;;
                  if n_is_proto_internal n
                  then Ok (store_field result (set_f_is_proto_internal true) st, result)
                  else Ok (st, result)
            | None => Ok (st, NULL)
            end
        end
    end.

(** [strrchr(filename, '.')]: the offset of the last ['.'] and the suffix
    that starts at it. *)
Fixpoint strrchr_dot (s : string) : option (nat * string) :=
  match s with
  | EmptyString => None
  | String c rest =>
      match strrchr_dot rest with
      | Some (i, suffix) => Some (S i, suffix)
      | None => if Ascii.eqb c "."%char then Some (O, s) else None
      end
  end.

(** The common tail of the four node imports: queue the request without
    clamping, flush, and read [imported_nodes_number]. *)
Definition import_and_flush (f : WbFieldRef) (action index : Z) (text : string)
           (st : Supervisor) : outcome Supervisor :=
  st <- create_and_append_field_request f action index (sf_string (Some text)) false st ;;
  wb_robot_flush_unlocked (set_imported_nodes_number (-1) st).

Definition wb_supervisor_field_import_mf_node (field : WbFieldRef) (position : Z)
           (filename : option string) (st : Supervisor) : outcome (Supervisor * api_result) :=
  let func := "wb_supervisor_field_import_mf_node" in
  '(st, ok, _) <- check_field field func WB_NO_FIELD false None false true st ;;
  if negb ok then Ok (st, ret_void)
  else
    match filename with
    | None | Some EmptyString =>
        Ok (fprintf_stderr "Error: %s() called with a NULL or empty 'filename' argument.\n"
                           [a_str func] st, ret_void)
    | Some name =>
        match strrchr_dot name with
        | None | Some (O, _) =>
            Ok (fprintf_stderr
                  "Error: %s() called with a 'filename' argument without extension.\n"
                  [a_str func] st, ret_void)
        | Some (_, dot) =>
            let isWbo := String.eqb dot ".wbo" in
            let isWrl := String.eqb dot ".wrl" in
            if negb isWbo && negb isWrl then
              Ok (fprintf_stderr "Error: %s() supports only '*.wbo' and '*.wrl' files.\n"
                                 [a_str func] st, ret_void)
            else
              '(st, children) <-
                (if isWrl then wb_supervisor_node_get_field (root_ref st) (Some "children") st
                 else Ok (st, field)) ;;
              if isWrl && negb (field =? children) then
                Ok (fprintf_stderr
                      "Error: %s() '*.wrl' import is supported only at the root children field level.\n"
                      [a_str func] st, ret_void)
              else
                fs <- deref_field field (field_list st) ;;
                if negb (f_type fs =? WB_MF_NODE) then
                  Ok (if negb (is_quitting st)
                      then fprintf_stderr "Error: %s() called with wrong field type: %s.\n"
                             [a_str func; a_str (field_type_name (f_type fs))] st
                      else st, ret_void)
                else
                  let count := f_count fs in
                  if (position <? int_neg (int_add count 1)) || (position >? count) then
                    Ok (fprintf_stderr
                          "Error: %s() called with an out-of-bound index: %d (should be between %d and %d).\n"
                          [a_str func; a_int position; a_int (int_neg (int_add count 1));
                           a_int count] st, ret_void)
                  else
                    let position :=
                      if position <? 0 then int_add (int_add count position) 1 else position in
                    if isWrl && negb (position =? f_count fs) then
                      Ok (fprintf_stderr
                            "Error: %s() '*.wrl' import is supported only at the end of the root node children field.\n"
                            [a_str func] st, ret_void)
                    else
                      st <- import_and_flush field IMPORT position name st ;;
                      if imported_nodes_number st >? 0 then
                        fs <- deref_field field (field_list st) ;;
                        Ok (store_field field
                              (set_f_count (int_add (f_count fs) (imported_nodes_number st)))
                              st, ret_void)
                      else Ok (st, ret_void)
        end
    end.

Definition wb_supervisor_field_import_mf_node_from_string (field : WbFieldRef) (position : Z)
           (node_string : option string) (st : Supervisor)
  : outcome (Supervisor * api_result) :=
  let func := "wb_supervisor_field_import_mf_node_from_string" in
  '(st, ok, _) <- check_field field func WB_NO_FIELD false None false true st ;;
  if negb ok then Ok (st, ret_void)
  else
    fs <- deref_field field (field_list st) ;;
    if negb (f_type fs =? WB_MF_NODE) then
      Ok (if negb (is_quitting st)
          then fprintf_stderr "Error: %s() called with a wrong field type: %s.\n"
                 [a_str func; a_str (field_type_name (f_type fs))] st
          else st, ret_void)
    else
      match node_string with
      | None | Some EmptyString =>
          Ok (fprintf_stderr
                "Error: %s() called with a NULL or empty 'node_string' argument.\n"
                [a_str func] st, ret_void)
      | Some text =>
          let count := f_count fs in
          if (position <? int_neg (int_add count 1)) || (position >? count) then
            Ok (fprintf_stderr
                  "Error: %s() called with an out-of-bound index: %d (should be between %d and %d).\n"
                  [a_str func; a_int position; a_int (int_neg (int_add count 1));
                   a_int count] st, ret_void)
          else
            let position :=
              if position <? 0 then int_add (int_add count position) 1 else position in
            st <- import_and_flush field IMPORT_FROM_STRING position text st ;;
            if imported_nodes_number st >? 0 then
              fs <- deref_field field (field_list st) ;;
              Ok (store_field field
                    (set_f_count (int_add (f_count fs) (imported_nodes_number st))) st,
                  ret_void)
            else Ok (st, ret_void)
      end.

Definition wb_supervisor_field_import_sf_node (field : WbFieldRef) (filename : option string)
           (st : Supervisor) : outcome (Supervisor * api_result) :=
  let func := "wb_supervisor_field_import_sf_node" in
  '(st, ok, _) <- check_field field func WB_NO_FIELD false None false true st ;;
  if negb ok then Ok (st, ret_void)
  else
    match filename with
    | None | Some EmptyString =>
        Ok (fprintf_stderr "Error: %s() called with a NULL or empty 'filename' argument.\n"
                           [a_str func] st, ret_void)
    | Some name =>
        match strrchr_dot name with
        | None | Some (O, _) =>
            Ok (fprintf_stderr
                  "Error: %s() called with a 'filename' argument without extension.\n"
                  [a_str func] st, ret_void)
        | Some (_, dot) =>
            if String.eqb dot ".wbo" then
              Ok (fprintf_stderr "Error: %s() supports only '*.wbo' files.\n" [a_str func] st,
                  ret_void)
            else
              fs <- deref_field field (field_list st) ;;
              if negb (f_type fs =? WB_SF_NODE) then
                Ok (if negb (is_quitting st)
                    then fprintf_stderr "Error: %s() called with wrong field type: %s.\n"
                           [a_str func; a_str (field_type_name (f_type fs))] st
                    else st, ret_void)
              else if negb (get_sf_node_uid (f_data fs) =? 0) then
                Ok (fprintf_stderr "Error: %s() called with a non-empty field.\n"
                                   [a_str func] st, ret_void)
              else
                st <- import_and_flush field IMPORT (-1) name st ;;
                if imported_nodes_number st >=? 0 then
                  _ <- deref_field field (field_list st) ;;
                  Ok (store_field field
                        (set_f_data (sf_node_uid (imported_nodes_number st))) st, ret_void)
                else Ok (st, ret_void)
        end
    end.

Definition wb_supervisor_field_import_sf_node_from_string (field : WbFieldRef)
           (node_string : option string) (st : Supervisor)
  : outcome (Supervisor * api_result) :=
  let func := "wb_supervisor_field_import_sf_node_from_string" in
  '(st, ok, _) <- check_field field func WB_NO_FIELD false None false true st ;;
  if negb ok then Ok (st, ret_void)
  else
    fs <- deref_field field (field_list st) ;;
    if negb (f_type fs =? WB_SF_NODE) then
      Ok (if negb (is_quitting st)
          then fprintf_stderr "Error: %s() called with a wrong field type: %s.\n"
                 [a_str func; a_str (field_type_name (f_type fs))] st
          else st, ret_void)
    else
      match node_string with
      | None | Some EmptyString =>
          Ok (fprintf_stderr
                "Error: %s() called with a NULL or empty 'node_string' argument.\n"
                [a_str func] st, ret_void)
      | Some text =>
          if negb (get_sf_node_uid (f_data fs) =? 0) then
            Ok (fprintf_stderr "Error: %s() called with a non-empty field.\n" [a_str func] st,
                ret_void)
          else
            st <- import_and_flush field IMPORT_FROM_STRING (-1) text st ;;
            if imported_nodes_number st >=? 0 then
              _ <- deref_field field (field_list st) ;;
              Ok (store_field field (set_f_data (sf_node_uid (imported_nodes_number st))) st,
                  ret_void)
            else Ok (st, ret_void)
      end.

(** *** Contact points *)

Definition node_get_from_id (id : Z) (st : Supervisor) : outcome (Supervisor * WbNodeRef) :=
  match find_node_by_id id (node_list st) with
  | Some result => Ok (st, fst result)
  | None =>
      let node_list_before := head_ref (node_list st) in
      st <- wb_robot_flush_unlocked (set_node_id id st) ;;
      let result :=
        if negb (head_ref (node_list st) =? node_list_before) then head_ref (node_list st)
        else match find_node_by_id id (node_list st) with
             | Some c => fst c
             | None => NULL
             end in
      Ok (set_node_id (-1) st, result)
  end.

(** [invalid_vector]: its first three components. *)
Definition invalid_vector : list double := [S754_nan; S754_nan; S754_nan].

(** The slot protocol around the contact-point request. *)
Definition refresh_contact_points (node : WbNodeRef) (st : Supervisor) : outcome Supervisor :=
  st <- wb_robot_flush_unlocked (set_contact_points_node_ref node st) ;;
  Ok (set_contact_points_node_ref NULL st).

(** [(node->contact_points && index < node->number_of_contact_points) ?
     node->contact_points + (3 * index) : invalid_vector]: the three doubles
    the returned pointer designates.  A negative [index] yields a pointer
    before the buffer, a crash here. *)
Definition contact_point_at (n : WbNodeStruct) (index : Z) : outcome (list double) :=
  match n_contact_points n with
  | None => Ok invalid_vector
  | Some pts =>
      match n_number_of_contact_points n with
      | None => Crash uninitialised_read
      | Some k =>
          if index <? k then
            if index <? 0 then Crash invalid_pointer
            else Ok (firstn 3 (skipn (Z.to_nat (int_mul 3 index)) pts))
          else Ok invalid_vector
      end
  end.

Definition wb_supervisor_node_get_contact_point (node : WbNodeRef) (index : Z)
           (st : Supervisor) : outcome (Supervisor * list double) :=
  let func := "wb_supervisor_node_get_contact_point" in
  let '(st, allowed) := robot_check_supervisor func st in
  if negb allowed then Ok (st, invalid_vector)
  else if negb (is_node_ref_valid node (node_list st)) then
    Ok (if negb (is_quitting st)
        then fprintf_stderr "Error: %s() called with a NULL or invalid 'node' argument.\n"
                            [a_str func] st
        else st, invalid_vector)
  else
    let t := robot_time st in
    n <- deref_node node (node_list st) ;;
    if dbl_gt t (n_contact_points_time_stamp n) then
      let st := store_node node (set_n_contact_points_time_stamp t) st in
      st <- refresh_contact_points node st ;;
      n <- deref_node node (node_list st) ;;
      p <- contact_point_at n index ;;
      Ok (st, p)
    else
      p <- contact_point_at n index ;;
      Ok (st, p).

(** The part of [wb_supervisor_node_get_contact_point_node] that follows
    the refresh: the handle of the node in contact is looked up, over the
    wire if the registry does not hold it. *)
Definition contact_point_node_lookup (node : WbNodeRef) (index : Z) (st : Supervisor)
  : outcome (Supervisor * WbNodeRef) :=
  n <- deref_node node (node_list st) ;;
  match n_contact_points n with
  | None => Ok (st, NULL)
  | Some _ =>
      match n_number_of_contact_points n with
      | None => Crash uninitialised_read
      | Some k =>
          if index >=? k then Ok (st, NULL)
          else
            let st := set_allows_contact_point_internal_node true st in
            match n_node_id_per_contact_points n with
            | None => Crash invalid_pointer
            | Some ids =>
                if index <? 0 then Crash invalid_pointer
                else
                  match nth_error ids (Z.to_nat index) with
                  | None => Crash invalid_pointer
                  | Some id =>
                      '(st, result) <- node_get_from_id id st ;;
                      Ok (set_allows_contact_point_internal_node false st, result)
                  end
            end
      end
  end.

Definition wb_supervisor_node_get_contact_point_node (node : WbNodeRef) (index : Z)
           (st : Supervisor) : outcome (Supervisor * WbNodeRef) :=
  let func := "wb_supervisor_node_get_contact_point_node" in
  let '(st, allowed) := robot_check_supervisor func st in
  if negb allowed then Ok (st, NULL)
  else if negb (is_node_ref_valid node (node_list st)) then
    Ok (if negb (is_quitting st)
        then fprintf_stderr "Error: %s() called with a NULL or invalid 'node' argument.\n"
                            [a_str func] st
        else st, NULL)
  else
    let t := robot_time st in
    n <- deref_node node (node_list st) ;;
    st <- (if dbl_gt t (n_contact_points_time_stamp n) then
             refresh_contact_points node
               (store_node node (set_n_contact_points_time_stamp t) st)
           else Ok st) ;;
    contact_point_node_lookup node index st.

Definition wb_supervisor_node_get_number_of_contact_points (node : WbNodeRef)
           (include_descendants : bool) (st : Supervisor) : outcome (Supervisor * Z) :=
  let func := "wb_supervisor_node_get_number_of_contact_points" in
  let '(st, allowed) := robot_check_supervisor func st in
  if negb allowed then Ok (st, -1)
  else if negb (is_node_ref_valid node (node_list st)) then
    Ok (if negb (is_quitting st)
        then fprintf_stderr "Error: %s() called with a NULL or invalid 'node' argument.\n"
                            [a_str func] st
        else st, -1)
  else
    let t := robot_time st in
    n <- deref_node node (node_list st) ;;
    if dbl_gt t (n_contact_points_time_stamp n) then
      let st := store_node node (set_n_contact_points_time_stamp t) st in
      st <- refresh_contact_points node
              (set_contact_points_include_descendants include_descendants st) ;;
      n <- deref_node node (node_list st) ;;
      match n_number_of_contact_points n with
      | Some k => Ok (st, k)
      | None => Crash uninitialised_read
      end
    else
      match n_number_of_contact_points n with
      | Some k => Ok (st, k)
      | None => Crash uninitialised_read
      end.

(** *** The public field operations as one call interface *)

Inductive field_call : Type :=
| call_get_type (field : WbFieldRef)
| call_get_count (field : WbFieldRef)
| call_get_type_name (field : WbFieldRef)
| call_get_sf (k : kind) (field : WbFieldRef)
| call_get_mf (k : kind) (field : WbFieldRef) (index : Z)
| call_set_sf (k : kind) (field : WbFieldRef) (value : arg k)
| call_set_mf (k : kind) (field : WbFieldRef) (index : Z) (value : arg k)
| call_insert_mf (k : kind) (field : WbFieldRef) (index : Z) (value : arg k)
| call_remove_mf (field : WbFieldRef) (index : Z)
| call_remove_mf_node (field : WbFieldRef) (position : Z)
| call_remove_sf (field : WbFieldRef)
| call_import_mf_node (field : WbFieldRef) (position : Z) (filename : option string)
| call_import_mf_node_from_string (field : WbFieldRef) (position : Z)
                                  (node_string : option string)
| call_import_sf_node (field : WbFieldRef) (filename : option string)
| call_import_sf_node_from_string (field : WbFieldRef) (node_string : option string).

Definition run_field_call (c : field_call) (st : Supervisor)
  : outcome (Supervisor * api_result) :=
  match c with
  | call_get_type field => wb_supervisor_field_get_type field st
  | call_get_count field => wb_supervisor_field_get_count field st
  | call_get_type_name field => wb_supervisor_field_get_type_name field st
  | call_get_sf k field => wb_supervisor_field_get_sf k field st
  | call_get_mf k field index => wb_supervisor_field_get_mf k field index st
  | call_set_sf k field value => wb_supervisor_field_set_sf k field value st
  | call_set_mf k field index value => wb_supervisor_field_set_mf k field index value st
  | call_insert_mf k field index value => wb_supervisor_field_insert_mf k field index value st
  | call_remove_mf field index => wb_supervisor_field_remove_mf field index st
  | call_remove_mf_node field position => wb_supervisor_field_remove_mf_node field position st
  | call_remove_sf field => wb_supervisor_field_remove_sf field st
  | call_import_mf_node field position filename =>
      wb_supervisor_field_import_mf_node field position filename st
  | call_import_mf_node_from_string field position node_string =>
      wb_supervisor_field_import_mf_node_from_string field position node_string st
  | call_import_sf_node field filename => wb_supervisor_field_import_sf_node field filename st
  | call_import_sf_node_from_string field node_string =>
      wb_supervisor_field_import_sf_node_from_string field node_string st
  end.

Definition call_field (c : field_call) : WbFieldRef :=
  match c with
  | call_get_type field | call_get_count field | call_get_type_name field
  | call_get_sf _ field | call_get_mf _ field _
  | call_set_sf _ field _ | call_set_mf _ field _ _ | call_insert_mf _ field _ _
  | call_remove_mf field _ | call_remove_mf_node field _ | call_remove_sf field
  | call_import_mf_node field _ _ | call_import_mf_node_from_string field _ _
  | call_import_sf_node field _ | call_import_sf_node_from_string field _ => field
  end.

(** *** Node handles

    The entry points that hand out and inspect node handles.  They use
    the handle-resolution slots of the serializer: [node_id],
    [node_def_name] with [proto_id], [node_get_selected], and
    [requested_field_name] with [node_ref] and [allow_search_in_proto]. *)

Definition set_root_ref (v : WbNodeRef) (s : Supervisor) : Supervisor :=
  mkSupervisor
    (is_supervisor s) (is_quitting s) (robot_time s) (incoming s) (outgoing s) (stderr s)
    (next_alloc s) (field_list s) (field_requests_list s) (field_requests_garbage_list s)
    (sent_field_get_request s) (node_list s)
    (imported_nodes_number s) (node_id s) (node_tag s) (allow_search_in_proto s)
    (node_def_name s) (proto_id s) (requested_field_name s) (node_get_selected s) (node_ref s)
    v (contact_points_node_ref s) (contact_points_include_descendants s)
    (allows_contact_point_internal_node s) (self_node_ref s).

Definition set_n_parent_proto (p : WbNodeRef) (n : WbNodeStruct) : WbNodeStruct :=
  mkNode (n_id n) (n_type n) (n_model_name n) (n_def_name n) (n_parent_id n)
         (n_position n) (n_orientation n) (n_center_of_mass n)
         (n_number_of_contact_points n) (n_contact_points n) (n_node_id_per_contact_points n)
         (n_contact_points_time_stamp n) (n_static_balance n) (n_solid_velocity n)
         (n_is_proto n) (n_is_proto_internal n) p (n_tag n).

(** [find_node_by_def]: the first node below [parent_proto] that carries
    the DEF name; without a parent PROTO, internal nodes are passed over. *)
Fixpoint find_node_by_def (def_name : string) (parent_proto : WbNodeRef) (l : node_store)
  : option (WbNodeRef * WbNodeStruct) :=
  match l with
  | [] => None
  | c :: rest =>
      if (n_parent_proto (snd c) =? parent_proto)
         && (negb (parent_proto =? NULL) || negb (n_is_proto_internal (snd c)))
         && match n_def_name (snd c) with
            | Some d => String.eqb def_name d
            | None => false
            end
      then Some c
      else find_node_by_def def_name parent_proto rest
  end.

(** Modelled from the spec: the node type tag [WB_NODE_GROUP] of
    <webots/nodes.h>, which is not part of the sources at hand; it is kept
    symbolic. *)
Variable WB_NODE_GROUP : Z.

(** [wb_supervisor_init], without the three assignments to the device's
    function table: it creates the root node and remembers its handle. *)
Definition wb_supervisor_init (st : Supervisor) : outcome Supervisor :=
  st <- add_node_to_list 0 WB_NODE_GROUP (wb_node_get_name WB_NODE_GROUP) None 0 (-1) false st ;;
  Ok (set_root_ref (head_ref (node_list st)) st).

Definition wb_supervisor_node_get_root (st : Supervisor) : Supervisor * WbNodeRef :=
  let '(st, allowed) := robot_check_supervisor "wb_supervisor_node_get_root" st in
  if negb allowed then (st, NULL) else (st, root_ref st).

Definition wb_supervisor_node_get_self (st : Supervisor) : Supervisor * WbNodeRef :=
  let '(st, allowed) := robot_check_supervisor "wb_supervisor_node_get_self" st in
  if negb allowed then (st, NULL) else (st, self_node_ref st).

Definition wb_supervisor_node_get_id (node : WbNodeRef) (st : Supervisor)
  : outcome (Supervisor * Z) :=
  let func := "wb_supervisor_node_get_id" in
  let '(st, allowed) := robot_check_supervisor func st in
  if negb allowed then Ok (st, -1)
  else if negb (is_node_ref_valid node (node_list st)) then
    Ok (if negb (is_quitting st)
        then fprintf_stderr "Error: %s() called with a NULL or invalid 'node' argument.\n"
                            [a_str func] st
        else st, -1)
  else
    n <- deref_node node (node_list st) ;;
    if n_is_proto_internal n then
      Ok (if negb (is_quitting st)
          then fprintf_stderr "Error: %s() called for an internal PROTO node.\n" [a_str func] st
          else st, -1)
    else Ok (st, n_id n).

Definition wb_supervisor_node_get_from_id (id : Z) (st : Supervisor)
  : outcome (Supervisor * WbNodeRef) :=
  let func := "wb_supervisor_node_get_from_id" in
  let '(st, allowed) := robot_check_supervisor func st in
  if negb allowed then Ok (st, NULL)
  else if id <? 0 then
    Ok (fprintf_stderr "Error: %s() called with a negative 'id' argument.\n" [a_str func] st,
        NULL)
  else node_get_from_id id st.

(** [if (node_id >= 0) result = find_node_by_id(node_id);] after a flush,
    [result] being [NULL] before. *)
Definition resolved_node (st : Supervisor) : option (WbNodeRef * WbNodeStruct) :=
  if node_id st >=? 0 then find_node_by_id (node_id st) (node_list st) else None.

Definition ref_of {A : Type} (c : option (Z * A)) : Z :=
  match c with
  | Some cell => fst cell
  | None => NULL
  end.

Definition wb_supervisor_node_get_from_def (def : option string) (st : Supervisor)
  : outcome (Supervisor * WbNodeRef) :=
  let func := "wb_supervisor_node_get_from_def" in
  let '(st, allowed) := robot_check_supervisor func st in
  if negb allowed then Ok (st, NULL)
  else
    match def with
    | None | Some EmptyString =>
        Ok (fprintf_stderr "Error: %s() called with a NULL or empty 'def' argument.\n"
                           [a_str func] st, NULL)
    | Some d =>
        match find_node_by_def d NULL (node_list st) with
        | Some result => Ok (st, fst result)
        | None =>
            st <- wb_robot_flush_unlocked (set_node_id (-1) (set_node_def_name (Some d) st)) ;;
            let result := ref_of (resolved_node st) in
            Ok (set_node_id (-1) (set_node_def_name None st), result)
        end
    end.

Definition wb_supervisor_node_is_proto (node : WbNodeRef) (st : Supervisor)
  : outcome (Supervisor * bool) :=
  let func := "wb_supervisor_node_is_proto" in
  let '(st, allowed) := robot_check_supervisor func st in
  if negb allowed then Ok (st, false)
  else if negb (is_node_ref_valid node (node_list st)) then
    Ok (if negb (is_quitting st)
        then fprintf_stderr "Error: %s() called with a NULL or invalid 'node' argument.\n"
                            [a_str func] st
        else st, false)
  else n <- deref_node node (node_list st) ;; Ok (st, n_is_proto n).

Definition wb_supervisor_node_get_from_proto_def (node : WbNodeRef) (def : option string)
           (st : Supervisor) : outcome (Supervisor * WbNodeRef) :=
  let func := "wb_supervisor_node_get_from_proto_def" in
  let '(st, allowed) := robot_check_supervisor func st in
  if negb allowed then Ok (st, NULL)
  else
    match def with
    | None | Some EmptyString =>
        Ok (fprintf_stderr "Error: %s() called with NULL or empty 'def' argument.\n"
                           [a_str func] st, NULL)
    | Some d =>
        if negb (is_node_ref_valid node (node_list st)) then
          Ok (if negb (is_quitting st)
              then fprintf_stderr
                     "Error: %s() called with a NULL or invalid 'node' argument.\n"
                     [a_str func] st
              else st, NULL)
        else
          n <- deref_node node (node_list st) ;;
          if negb (n_is_proto n) then
            Ok (if negb (is_quitting st)
                then fprintf_stderr "Error: %s(): 'node' is not a PROTO node.\n" [a_str func] st
                else st, NULL)
          else
            match find_node_by_def d node (node_list st) with
            | Some result => Ok (st, fst result)
            | None =>
                st <- wb_robot_flush_unlocked
                        (set_proto_id (n_id n)
                           (set_node_id (-1) (set_node_def_name (Some d) st))) ;;
                let found := resolved_node st in
                let st :=
                  match found with
                  | Some result =>
                      store_node (fst result)
                                 (fun r => set_n_parent_proto node (set_n_is_proto_internal true r))
                                 st
                  | None => st
                  end in
                Ok (set_proto_id (-1) (set_node_id (-1) (set_node_def_name None st)),
                    ref_of found)
            end
    end.

Definition wb_supervisor_node_get_parent_node (node : WbNodeRef) (st : Supervisor)
  : outcome (Supervisor * WbNodeRef) :=
  let func := "wb_supervisor_node_get_parent_node" in
  let '(st, allowed) := robot_check_supervisor func st in
  if negb allowed then Ok (st, NULL)
  else if negb (is_node_ref_valid node (node_list st)) then
    Ok (if negb (is_quitting st)
        then fprintf_stderr "Error: %s() called with a NULL or invalid 'node' argument.\n"
                            [a_str func] st
        else st, NULL)
  else n <- deref_node node (node_list st) ;; node_get_from_id (n_parent_id n) st.

Definition wb_supervisor_node_get_selected (st : Supervisor)
  : outcome (Supervisor * WbNodeRef) :=
  let func := "wb_supervisor_node_get_selected" in
  let '(st, allowed) := robot_check_supervisor func st in
  if negb allowed then Ok (st, NULL)
  else
    st <- wb_robot_flush_unlocked (set_node_id (-1) (set_node_get_selected true st)) ;;
    let result := ref_of (resolved_node st) in
    Ok (set_node_get_selected false (set_node_id (-1) st), result).

Definition wb_supervisor_node_get_def (node : WbNodeRef) (st : Supervisor)
  : outcome (Supervisor * string) :=
  let func := "wb_supervisor_node_get_def" in
  let '(st, allowed) := robot_check_supervisor func st in
  if negb allowed then Ok (st, "")
  else if negb (is_node_ref_valid node (node_list st)) then
    Ok (if negb (is_quitting st)
        then fprintf_stderr "Error: %s() called with a NULL or invalid 'node' argument.\n"
                            [a_str func] st
        else st, "")
  else
    n <- deref_node node (node_list st) ;;
    Ok (st, match n_def_name n with Some d => d | None => "" end).

Definition wb_supervisor_node_get_type (node : WbNodeRef) (st : Supervisor)
  : outcome (Supervisor * Z) :=
  let func := "wb_supervisor_node_get_type" in
  let '(st, allowed) := robot_check_supervisor func st in
  if negb allowed then Ok (st, 0)
  else if negb (is_node_ref_valid node (node_list st)) then
    Ok (if negb (is_quitting st)
        then fprintf_stderr "Error: %s() called with a NULL or invalid 'node' argument.\n"
                            [a_str func] st
        else st, 0)
  else n <- deref_node node (node_list st) ;; Ok (st, n_type n).

Definition wb_supervisor_node_get_type_name (node : WbNodeRef) (st : Supervisor)
  : outcome (Supervisor * option string) :=
  let func := "wb_supervisor_node_get_type_name" in
  let '(st, allowed) := robot_check_supervisor func st in
  if negb allowed then Ok (st, Some "")
  else if negb (is_node_ref_valid node (node_list st)) then
    Ok (if negb (is_quitting st)
        then fprintf_stderr "Error: %s() called with a NULL or invalid 'node' argument.\n"
                            [a_str func] st
        else st, Some "")
  else
    n <- deref_node node (node_list st) ;;
    match n_model_name n with
    | None => Ok (st, wb_node_get_name (n_type n))
    | Some m => Ok (st, Some m)
    end.

Definition wb_supervisor_node_get_base_type_name (node : WbNodeRef) (st : Supervisor)
  : outcome (Supervisor * option string) :=
  let func := "wb_supervisor_node_get_base_type_name" in
  let '(st, allowed) := robot_check_supervisor func st in
  if negb allowed then Ok (st, Some "")
  else if negb (is_node_ref_valid node (node_list st)) then
    Ok (if negb (is_quitting st)
        then fprintf_stderr "Error: %s() called with a NULL or invalid 'node' argument.\n"
                            [a_str func] st
        else st, Some "")
  else n <- deref_node node (node_list st) ;; Ok (st, wb_node_get_name (n_type n)).

Definition wb_supervisor_node_get_proto_field (node : WbNodeRef) (field_name : option string)
           (st : Supervisor) : outcome (Supervisor * WbFieldRef) :=
  let func := "wb_supervisor_node_get_proto_field" in
  let '(st, allowed) := robot_check_supervisor func st in
  if negb allowed then Ok (st, NULL)
  else if negb (is_node_ref_valid node (node_list st)) then
    Ok (if negb (is_quitting st)
        then fprintf_stderr "Error: %s() called with NULL or invalid 'node' argument.\n"
                            [a_str func] st
        else st, NULL)
  else
    n <- deref_node node (node_list st) ;;
    if negb (n_is_proto n) then
      Ok (if negb (is_quitting st)
          then fprintf_stderr "Error: %s(): 'node' is not a PROTO node.\n" [a_str func] st
          else st, NULL)
    else
      match field_name with
      | None | Some EmptyString =>
          Ok (fprintf_stderr "Error: %s() called with NULL or empty 'field_name' argument.\n"
                             [a_str func] st, NULL)
      | Some name =>
          found <- find_field name (n_id n) (field_list st) ;;
          match found with
          | Some result => Ok (st, fst result)
          | None =>
              let st :=
                set_allow_search_in_proto true
                  (set_node_ref (n_id n) (set_requested_field_name (Some name) st)) in
              st <- wb_robot_flush_unlocked st ;;
              '(st, result) <-
                match requested_field_name st with
                | Some _ =>
                    let st := set_requested_field_name None st in
                    let result := head_ref (field_list st) in
                    if result =? NULL then Ok (st, NULL)
                    else Ok (store_field result (set_f_is_proto_internal true) st, result)
                | None => Ok (st, NULL)
                end ;;
              Ok (set_allow_search_in_proto false st, result)
          end
      end.

(** The handle lookups as one call interface. *)
Inductive lookup_call : Type :=
| call_node_get_from_id (id : Z)
| call_node_get_from_def (def : option string)
| call_node_get_from_proto_def (node : WbNodeRef) (def : option string)
| call_node_get_selected
| call_node_get_field (node : WbNodeRef) (field_name : option string)
| call_node_get_proto_field (node : WbNodeRef) (field_name : option string).

Definition run_lookup_call (c : lookup_call) (st : Supervisor) : outcome (Supervisor * Z) :=
  match c with
  | call_node_get_from_id id => wb_supervisor_node_get_from_id id st
  | call_node_get_from_def def => wb_supervisor_node_get_from_def def st
  | call_node_get_from_proto_def node def => wb_supervisor_node_get_from_proto_def node def st
  | call_node_get_selected => wb_supervisor_node_get_selected st
  | call_node_get_field node field_name => wb_supervisor_node_get_field node field_name st
  | call_node_get_proto_field node field_name =>
      wb_supervisor_node_get_proto_field node field_name st
  end.

(** * Vocabulary of the properties *)

Definition node_ids (l : node_store) : list Z := map (fun c => n_id (snd c)) l.

(** Well-formed registry: the cells have distinct addresses and carry
    distinct ids.  [add_node_to_list] inserts a cell only for an id that
    [find_node_by_id] does not find, at a fresh address. *)
Definition registry_ok (l : node_store) : Prop :=
  NoDup (map fst l) /\ NoDup (node_ids l).

Definition keeps (uid : Z) (c : WbNodeRef * WbNodeStruct) : bool :=
  negb (n_id (snd c) =? uid).

(** Everything [check_field] tests before it looks at the index. *)
Definition field_accepted (f : WbFieldRef) (type : Z) (check_type check_type_internal : bool)
           (st : Supervisor) (fs : WbFieldStruct) : Prop :=
  is_supervisor st = true
  /\ f <> NULL
  /\ field_in_list f (field_list st) = true
  /\ deref_field f (field_list st) = Ok fs
  /\ check_type_internal && f_is_proto_internal fs = false
  /\ check_type && negb (f_type fs =? type) = false.

Definition index_lo (count : Z) (is_importing : bool) : Z :=
  if is_importing then - (count + 1) else - count.
Definition index_hi (count : Z) (is_importing : bool) : Z :=
  if is_importing then count else count - 1.

Definition out_of_bound (func : string) (i count : Z) (is_importing : bool) : diagnostic :=
  mkDiag "Error: %s() called with an out-of-bound index: %d (should be between %d and %d).\n"
         [a_str func; a_int i; a_int (index_lo count is_importing);
          a_int (index_hi count is_importing)].

(** The state after a dropped call: one more line on stderr, nothing else. *)
Definition dropped (func : string) (i count : Z) (is_importing : bool) (st : Supervisor)
  : Supervisor :=
  set_stderr (stderr st ++ [out_of_bound func i count is_importing]) st.

(** What a [GET] that meets a queued [SET] stores in the field. *)
Definition queued_payload (r : WbFieldRequest) : WbFieldData :=
  if r_is_string r then sf_string (get_sf_string (r_data r)) else r_data r.

(** A value the float setters accept: not a NaN and within
    [-FLT_MAX, FLT_MAX], hence finite. *)
Definition finite_within_FLT_MAX (v : double) : Prop :=
  isnan v = false /\ dbl_gt v FLT_MAX = false /\ dbl_lt v (SFopp FLT_MAX) = false.

(** Queued requests on [f] that are not flagged as strings: what
    [create_and_append_field_request] guarantees for a field whose type is
    neither a string nor [WB_MF_NODE]. *)
Definition plain_requests (f : WbFieldRef) (st : Supervisor) : Prop :=
  forall r, In r (field_requests_list st) -> r_field r = f -> r_is_string r = false.

(** No handle resolution is pending: the serializer reaches the queue. *)
Definition idle (st : Supervisor) : Prop :=
  node_id st < 0
  /\ node_def_name st = None
  /\ node_tag st <= 0
  /\ node_get_selected st = false
  /\ requested_field_name st = None.

(** The components no flush ever writes. *)
Definition same_slots (a b : Supervisor) : Prop :=
  is_supervisor b = is_supervisor a
  /\ is_quitting b = is_quitting a
  /\ robot_time b = robot_time a
  /\ stderr b = stderr a
  /\ node_def_name b = node_def_name a
  /\ node_tag b = node_tag a
  /\ node_get_selected b = node_get_selected a
  /\ proto_id b = proto_id a
  /\ node_ref b = node_ref a
  /\ allow_search_in_proto b = allow_search_in_proto a
  /\ root_ref b = root_ref a
  /\ contact_points_node_ref b = contact_points_node_ref a
  /\ contact_points_include_descendants b = contact_points_include_descendants a
  /\ allows_contact_point_internal_node b = allows_contact_point_internal_node a.

Definition is_get (r : WbFieldRequest) : bool := r_type r =? GET.
Definition is_set (r : WbFieldRequest) : bool := r_type r =? SET.

Definition occupied (sent : option WbFieldRequest) : nat :=
  match sent with Some _ => 1%nat | None => 0%nat end.

(** The last [GET] of a chain, or what the slot held. *)
Fixpoint last_get (chain : list WbFieldRequest) (sent : option WbFieldRequest)
  : option WbFieldRequest :=
  match chain with
  | [] => sent
  | r :: rest => last_get rest (if is_get r then Some r else sent)
  end.

(** The components the reply dispatcher never writes either. *)
Definition same_wire (a b : Supervisor) : Prop :=
  same_slots a b
  /\ incoming b = incoming a
  /\ outgoing b = outgoing a
  /\ field_requests_list b = field_requests_list a.

(** [add_node_to_list] writes the node registry and the allocator only. *)
Definition only_nodes (a b : Supervisor) : Prop :=
  same_wire a b
  /\ field_list b = field_list a
  /\ field_requests_garbage_list b = field_requests_garbage_list a
  /\ sent_field_get_request b = sent_field_get_request a
  /\ imported_nodes_number b = imported_nodes_number a
  /\ node_id b = node_id a
  /\ requested_field_name b = requested_field_name a.

(** A reply that resolves a node handle: the only kind that writes
    [node_id]. *)
Definition node_answer (a : Answer) : bool :=
  match a with
  | ans_NODE_GET_FROM_DEF _ _ | ans_NODE_GET _ _ => true
  | _ => false
  end.

Definition quiet (a : Answer) : Prop := node_answer a = false.

Definition queue_only_sets (st : Supervisor) : Prop :=
  Forall (fun r => r_type r = SET) (field_requests_list st).

(** The simulator resolves a node handle only when asked to: no reply frame
    to come carries one, as no field operation asks for one. *)
Definition quiet_replies (st : Supervisor) : Prop :=
  Forall (Forall quiet) (incoming st).

Definition between_calls (st : Supervisor) : Prop :=
  idle st /\ queue_only_sets st /\ quiet_replies st.

(** [b] is [a] with more lines on stderr. *)
Definition logs (a b : Supervisor) : Prop := exists ds, b = set_stderr ds a.

(** A run of the field API: one call after the other. *)
Fixpoint run_field_calls (cs : list field_call) (st : Supervisor) : outcome Supervisor :=
  match cs with
  | [] => Ok st
  | c :: rest => '(st, _) <- run_field_call c st ;; run_field_calls rest st
  end.

(** A reply that writes nothing into the field registry. *)
Definition leaves_fields (a : Answer) : bool :=
  match a with
  | ans_FIELD_GET_FROM_NAME _ _ _ _ | ans_FIELD_GET_VALUE _ _ _
  | ans_NODE_REGENERATED | ans_NODE_REMOVE_NODE _ _ _ _ => false
  | _ => true
  end.

Definition call_name (c : field_call) : string :=
  match c with
  | call_get_type _ => "wb_supervisor_field_get_type"
  | call_get_count _ => "wb_supervisor_field_get_count"
  | call_get_type_name _ => "wb_supervisor_field_get_type_name"
  | call_get_sf k _ => String.append "wb_supervisor_field_get_sf_" (kind_name k)
  | call_get_mf k _ _ => String.append "wb_supervisor_field_get_mf_" (kind_name k)
  | call_set_sf k _ _ => String.append "wb_supervisor_field_set_sf_" (kind_name k)
  | call_set_mf k _ _ _ => String.append "wb_supervisor_field_set_mf_" (kind_name k)
  | call_insert_mf k _ _ _ => String.append "wb_supervisor_field_insert_mf_" (kind_name k)
  | call_remove_mf _ _ | call_remove_mf_node _ _ => "wb_supervisor_field_remove_mf"
  | call_remove_sf _ => "wb_supervisor_field_remove_sf"
  | call_import_mf_node _ _ _ => "wb_supervisor_field_import_mf_node"
  | call_import_mf_node_from_string _ _ _ => "wb_supervisor_field_import_mf_node_from_string"
  | call_import_sf_node _ _ => "wb_supervisor_field_import_sf_node"
  | call_import_sf_node_from_string _ _ => "wb_supervisor_field_import_sf_node_from_string"
  end.

(** What each entry point returns when [check_field] fails. *)
Definition call_sentinel (c : field_call) : api_result :=
  match c with
  | call_get_type _ => ret_int WB_NO_FIELD
  | call_get_count _ => ret_int 0
  | call_get_type_name _ => ret_string (Some "")
  | call_get_sf k _ | call_get_mf k _ _ => getter_sentinel k
  | _ => ret_void
  end.

(** The entry points that read [field->count] or [field->data] before they
    call [check_field]. *)
Definition reads_before_check (c : field_call) : bool :=
  match c with
  | call_remove_mf _ _ | call_remove_mf_node _ _ | call_remove_sf _ => true
  | _ => false
  end.

Definition null_field_line (func : string) : diagnostic :=
  mkDiag "Error: %s() called with NULL 'field' argument.\n" [a_str func].

Definition is_contact_opcode (w : wire_item) : bool :=
  match w with
  | w_opcode C_SUPERVISOR_NODE_GET_CONTACT_POINTS => true
  | _ => false
  end.

(** Does a frame carry a contact-point request? *)
Definition asks_contact_points (frame : list wire_item) : bool :=
  existsb is_contact_opcode frame.

(** The request the contact-point slot writes. *)
Definition contact_request (id : Z) (include_descendants : bool) : list wire_item :=
  [w_opcode C_SUPERVISOR_NODE_GET_CONTACT_POINTS; w_uint32 (to_uint32 id);
   w_uchar (if include_descendants then 1 else 0)].

(** A node the contact-point entry points accept. *)
Definition node_accepted (node : WbNodeRef) (st : Supervisor) (n : WbNodeStruct) : Prop :=
  is_supervisor st = true
  /\ is_node_ref_valid node (node_list st) = true
  /\ deref_node node (node_list st) = Ok n.

(** Every cell of [l'] at an address below [bound] comes from a cell of [l]
    at that address with the same time stamp. *)
Definition stamps_kept (bound : Z) (l l' : node_store) : Prop :=
  forall a n', In (a, n') l' -> a < bound ->
               exists n0, In (a, n0) l
                          /\ n_contact_points_time_stamp n' = n_contact_points_time_stamp n0.

(** The node heap of a state: distinct addresses, all handed out already. *)
Definition node_heap_ok (st : Supervisor) : Prop :=
  NoDup (map fst (node_list st)) /\ Forall (fun c => fst c < next_alloc st) (node_list st).

(** What a flush keeps of the contact-point cache. *)
Definition cache_kept (st st' : Supervisor) : Prop :=
  robot_time st' = robot_time st
  /\ next_alloc st <= next_alloc st'
  /\ forall bound, bound <= next_alloc st ->
                   stamps_kept bound (node_list st) (node_list st').

(** The node is fresh: the simulation time does not exceed its stamp. *)
Definition still_fresh (node : WbNodeRef) (st : Supervisor) : Prop :=
  forall n, deref_node node (node_list st) = Ok n ->
            dbl_gt (robot_time st) (n_contact_points_time_stamp n) = false.

(** Does a string hold a ['.']? *)
Fixpoint has_dot (s : string) : bool :=
  match s with
  | EmptyString => false
  | String c rest => Ascii.eqb c "."%char || has_dot rest
  end.

(** The handles of a state are sound: the allocator has never handed out
    [NULL], the cells of each registry have distinct addresses, all handed
    out already, no address is both a node and a field, and no two nodes
    carry the same id. *)
Definition handles_ok (st : Supervisor) : Prop :=
  0 < next_alloc st
  /\ NoDup (map fst (node_list st))
  /\ NoDup (map fst (field_list st))
  /\ NoDup (node_ids (node_list st))
  /\ (forall a, In a (map fst (node_list st)) -> 0 < a < next_alloc st)
  /\ (forall a, In a (map fst (field_list st)) -> 0 < a < next_alloc st)
  /\ (forall a, In a (map fst (node_list st)) -> ~ In a (map fst (field_list st))).

(** No DEF name of the registry holds a ['.']. *)
Definition def_names_plain (l : node_store) : Prop :=
  forall c d, In c l -> n_def_name (snd c) = Some d -> has_dot d = false.

(** Every cell of [l'] has the DEF name of some cell of [l]. *)
Definition kept_defs (l l' : node_store) : Prop :=
  forall c', In c' l' -> exists c, In c l /\ n_def_name (snd c') = n_def_name (snd c).

(** A value [check_float] refuses, and the line it prints for it. *)
Definition refused_float (v : double) : bool :=
  isnan v || dbl_gt v FLT_MAX || dbl_lt v (SFopp FLT_MAX).

Definition check_float_line (function : string) (value : double) : diagnostic :=
  if isnan value then mkDiag "Error: %s() called with a NaN value.\n" [a_str function]
  else if dbl_gt value FLT_MAX then
    mkDiag "Error: %s() called with a value greater than FLX_MAX: %g > %g.\n"
           [a_str function; a_dbl value; a_dbl FLT_MAX]
  else
    mkDiag "Error: %s() called with a value smaller than -FLX_MAX): %g < %g.\n"
           [a_str function; a_dbl value; a_dbl (SFopp FLT_MAX)].

(** The three axis components all compare equal to [0.0]. *)
Definition zero_axis (x y z : double) : bool :=
  dbl_eq x dbl_zero && dbl_eq y dbl_zero && dbl_eq z dbl_zero.

(** [c >= 0.0 && c <= 1.0]. *)
Definition in_unit_range (c : double) : bool :=
  dbl_ge c dbl_zero && dbl_le c (S754_finite false 4503599627370496 (-52)).

(** The state after a refused call: one more line on stderr. *)
Definition complains (fmt : string) (func : string) (st : Supervisor) : Supervisor :=
  set_stderr (stderr st ++ [mkDiag fmt [a_str func]]) st.

(** The three families of calls that take a value. *)
Inductive value_call : Type :=
| into_sf
| into_mf (index : Z)
| insert_at (index : Z).

Definition value_call_name (c : value_call) (k : kind) : string :=
  match c with
  | into_sf => String.append "wb_supervisor_field_set_sf_" (kind_name k)
  | into_mf _ => String.append "wb_supervisor_field_set_mf_" (kind_name k)
  | insert_at _ => String.append "wb_supervisor_field_insert_mf_" (kind_name k)
  end.

Definition run_value_call (c : value_call) (k : kind) (field : WbFieldRef) (value : arg k)
           (st : Supervisor) : outcome (Supervisor * api_result) :=
  match c with
  | into_sf => wb_supervisor_field_set_sf k field value st
  | into_mf index => wb_supervisor_field_set_mf k field index value st
  | insert_at index => wb_supervisor_field_insert_mf k field index value st
  end.

(** The caller, the field and the index of a call that takes a value are
    accepted by [check_field]; the index is not negative. *)
Definition value_call_accepted (c : value_call) (k : kind) (f : WbFieldRef) (st : Supervisor)
           (fs : WbFieldStruct) : Prop :=
  match c with
  | into_sf => field_accepted f (sf_type k) true true st fs
  | into_mf index =>
      field_accepted f (mf_type k) true true st fs
      /\ 0 <= f_count fs < INT_MAX /\ 0 <= index <= f_count fs - 1
  | insert_at index =>
      field_accepted f (mf_type k) true true st fs
      /\ 0 <= f_count fs < INT_MAX /\ 0 <= index <= f_count fs
  end.

(** The request the serializer writes for the handle resolution that is
    pending, if any. *)
Definition resolution_request (st : Supervisor) : option (list wire_item) :=
  if node_id st >=? 0 then Some [w_opcode C_SUPERVISOR_NODE_GET_FROM_ID; w_int32 (node_id st)]
  else
    match node_def_name st with
    | Some d => Some [w_opcode C_SUPERVISOR_NODE_GET_FROM_DEF; w_string d; w_int32 (proto_id st)]
    | None =>
        if node_tag st >? 0
        then Some [w_opcode C_SUPERVISOR_NODE_GET_FROM_TAG; w_int32 (node_tag st)]
        else if node_get_selected st then Some [w_opcode C_SUPERVISOR_NODE_GET_SELECTED]
        else
          match requested_field_name st with
          | Some name =>
              Some [w_opcode C_SUPERVISOR_FIELD_GET_FROM_NAME;
                    w_uint32 (to_uint32 (node_ref st)); w_string name;
                    w_uchar (if allow_search_in_proto st then 1 else 0)]
          | None => None
          end
    end.


(** The record [add_node_to_list] creates for an id the registry does not
    hold. *)
Definition new_node (uid type : Z) (model_name def_name : option string)
           (tag parent_id : Z) (is_proto : bool) : WbNodeStruct :=
  mkNode uid type
         match wb_node_get_name type, model_name with
         | Some base_name, Some m => if String.eqb base_name m then None else Some m
         | _, _ => None
         end
         (extract_node_def def_name) parent_id
         None None None None None None dbl_minus_one false None
         is_proto false NULL tag.

(** The record a [NODE_GET] reply describes. *)
Definition node_of_reply (uid : Z) (info : node_info) : WbNodeStruct :=
  new_node uid (i_type info) (Some (i_model_name info)) (Some (i_def_name info))
           (i_tag info) (i_parent_uid info) (i_is_proto info).

(** The lookups that resolve a node handle. *)
Definition node_lookup (c : lookup_call) : bool :=
  match c with
  | call_node_get_field _ _ | call_node_get_proto_field _ _ => false
  | _ => true
  end.

(** * A concrete scene

    The root node and a robot with a child, with a float field, a
    multi-valued float field, a multi-valued node field and a single-valued
    node field. *)

Definition no_names : Z -> option string := fun _ => None.

(** A value for the node type of a robot. *)
Definition robot_type : Z := 40.

Definition dbl_one : double := S754_finite false 4503599627370496 (-52).
Definition dbl_two : double := S754_finite false 4503599627370496 (-51).

Definition plain_node (id parent : Z) : WbNodeStruct :=
  mkNode id 0 None None parent None None None None None None dbl_minus_one false None
         false false NULL 0.

Definition demo_nodes : node_store :=
  [(2, plain_node 7 0); (3, plain_node 8 7); (1, plain_node 0 (-1))].

Definition mass : WbFieldStruct :=
  mkField (Some "mass") WB_SF_FLOAT (-1) 7 3 false (sf_string None).
Definition weights : WbFieldStruct :=
  mkField (Some "weights") WB_MF_FLOAT 3 7 4 false (sf_string None).
Definition children : WbFieldStruct :=
  mkField (Some "children") WB_MF_NODE 3 0 5 false (sf_string None).
Definition physics : WbFieldStruct :=
  mkField (Some "physics") WB_SF_NODE (-1) 7 6 false (sf_string None).

Definition demo_fields : field_store :=
  [(10, mass); (11, weights); (12, children); (13, physics)].

Definition demo (replies : list (list Answer)) : Supervisor :=
  mkSupervisor true false dbl_one replies [] [] 100 demo_fields [] [] None demo_nodes
               (-1) (-1) (-1) false None (-1) None false 0 1 NULL false false NULL.

Definition no_info : node_info := mkInfo 0 0 0 false false "" "".

Definition demo_calls : list field_call :=
  [call_set_sf k_float 10 dbl_two; call_get_mf k_float 11 0; call_set_mf k_float 11 1 dbl_two].

Definition demo_replies : list (list Answer) :=
  [[ans_FIELD_GET_VALUE WB_MF_FLOAT (sf_float dbl_one) no_info]].

Definition get_request : WbFieldRequest := mkRequest GET 0 false (sf_string None) 11.
Definition set_request : WbFieldRequest := mkRequest SET (-1) false (sf_float dbl_two) 10.

Definition demo_queued (q : list WbFieldRequest) : Supervisor :=
  set_field_requests_list q (demo []).

Definition demo_quitting : Supervisor :=
  mkSupervisor true true dbl_one [] [] [] 100 demo_fields [] [] None demo_nodes
               (-1) (-1) (-1) false None (-1) None false 0 1 NULL false false NULL.

Definition touched_node : WbNodeStruct :=
  mkNode 7 0 None None 0 None None None (Some 1) (Some [dbl_one; dbl_zero; dbl_two])
         (Some [9]) dbl_one false None false false NULL 0.

(** The simulator's answer to a contact-point request: one contact. *)
Definition demo_contacts : list (list Answer) :=
  [[ans_NODE_GET_CONTACT_POINTS 1 [dbl_one; dbl_zero; dbl_two] [9]]].

Definition demo_touched (replies : list (list Answer)) : Supervisor :=
  mkSupervisor true false dbl_one replies [] [] 100 demo_fields [] [] None
               [(2, touched_node); (1, plain_node 0 (-1))]
               (-1) (-1) (-1) false None (-1) None false 0 1 NULL false false NULL.

(** A controller that holds no handle yet. *)
Definition fresh_controller : Supervisor :=
  mkSupervisor true false dbl_zero [] [] [] 1 [] [] [] None []
               (-1) (-1) (-1) false None (-1) None false 0 NULL NULL false false NULL.

(** The description of a solid below the robot, with the DEF name [ARM]. *)
Definition arm_info : node_info := mkInfo 5 0 7 false false "Solid" "ARM".

(** A rotation, a colour and a PROTO-internal field of the robot, and a
    PROTO-internal node below it. *)
Definition heading : WbFieldStruct :=
  mkField (Some "rotation") WB_SF_ROTATION (-1) 7 7 false (sf_string None).
Definition tint : WbFieldStruct :=
  mkField (Some "baseColor") WB_SF_COLOR (-1) 7 8 false (sf_string None).
Definition hidden : WbFieldStruct :=
  mkField (Some "hidden") WB_SF_FLOAT (-1) 7 9 true (sf_string None).
Definition inner_node : WbNodeStruct := set_n_is_proto_internal true (plain_node 9 7).

Definition demo_proto (replies : list (list Answer)) : Supervisor :=
  set_node_list ((4, inner_node) :: demo_nodes)
    (set_field_list ((14, heading) :: (15, tint) :: (16, hidden) :: demo_fields)
                    (demo replies)).

(** A queued [SET] on the second weight. *)
Definition set_weight : WbFieldRequest := mkRequest SET 1 false (sf_float dbl_two) 11.

(** A reply waiting while a [SET] is queued. *)
Definition demo_waiting (replies : list (list Answer)) : Supervisor :=
  set_incoming replies (demo_queued [set_request]).

(** * Properties *)

(** ** Node registry: removal *)

Lemma find_node_by_id_none (uid : Z) (l : node_store) :
  find_node_by_id uid l = None <-> ~ In uid (node_ids l).
Proof.
  induction l as [|c l IH]; simpl.
  - split; [intros _ [] | reflexivity].
  - destruct (Z.eqb_spec (n_id (snd c)) uid) as [E|E].
    + split; [discriminate | intros H; exfalso; apply H; now left].
    + rewrite IH. split; [intros H [A|A]; [now apply E | now apply H]|].
      intros H A. apply H. now right.
Qed.

Lemma find_node_by_id_some (uid : Z) (l : node_store) (c : WbNodeRef * WbNodeStruct) :
  find_node_by_id uid l = Some c -> In c l /\ n_id (snd c) = uid.
Proof.
  induction l as [|d l IH]; simpl; [discriminate|].
  destruct (Z.eqb_spec (n_id (snd d)) uid) as [E|E].
  - intros H; injection H as <-. auto.
  - intros H. destruct (IH H). auto.
Qed.

Lemma filter_keeps_absent (uid : Z) (l : node_store) :
  ~ In uid (node_ids l) -> filter (keeps uid) l = l.
Proof.
  induction l as [|c l IH]; simpl; intros H; [reflexivity|].
  unfold keeps at 1. destruct (Z.eqb_spec (n_id (snd c)) uid) as [E|E]; simpl.
  - exfalso. apply H. now left.
  - f_equal. apply IH. intros A. apply H. now right.
Qed.

Lemma unlink_next_filter (uid : Z) (l : node_store) :
  NoDup (node_ids l) ->
  match l with [] => True | hd :: _ => n_id (snd hd) <> uid end ->
  unlink_next uid l = filter (keeps uid) l.
Proof.
  induction l as [|prev tl IH]; intros ND Hhd; [reflexivity|].
  cbn [unlink_next]. destruct tl as [|nxt rest].
  - simpl. unfold keeps. destruct (Z.eqb_spec (n_id (snd prev)) uid); [contradiction|reflexivity].
  - assert (Kp : keeps uid prev = true)
      by (unfold keeps; destruct (Z.eqb_spec (n_id (snd prev)) uid); [contradiction|reflexivity]).
    cbn [filter]. rewrite Kp.
    inversion ND as [|x xs Hnotin ND']; subst.
    destruct (Z.eqb_spec (n_id (snd nxt)) uid) as [E|E].
    + unfold keeps at 1. rewrite (proj2 (Z.eqb_eq _ _) E). simpl.
      f_equal. symmetry. apply filter_keeps_absent.
      inversion ND' as [|y ys Hn _]; subst. exact Hn.
    + f_equal. apply IH; assumption.
Qed.

Lemma remove_node_from_list_filter (uid : Z) (l : node_store) :
  registry_ok l ->
  remove_node_from_list uid l = map (orphan uid) (filter (keeps uid) l).
Proof.
  intros [NDa NDi]. unfold remove_node_from_list. f_equal.
  destruct (find_node_by_id uid l) as [node|] eqn:F.
  - destruct l as [|hd tl]; [discriminate|].
    destruct (Z.eqb_spec (fst hd) (fst node)) as [E|E].
    + (* the head is the node found *)
      assert (hd = node) as ->.
      { apply find_node_by_id_some in F as [[->|Hin] _]; [reflexivity|].
        exfalso. inversion NDa as [|x xs Hnotin _]; subst.
        apply Hnotin. rewrite E. now apply in_map. }
      apply find_node_by_id_some in F as [_ Hid].
      cbn [filter]. unfold keeps at 1. rewrite (proj2 (Z.eqb_eq _ _) Hid). simpl.
      symmetry. apply filter_keeps_absent.
      inversion NDi as [|x xs Hnotin _]; subst. exact Hnotin.
    + apply unlink_next_filter; [assumption|].
      intros Hid. simpl in F. rewrite (proj2 (Z.eqb_eq _ _) Hid) in F.
      injection F as <-. now apply E.
  - symmetry. apply filter_keeps_absent. now apply find_node_by_id_none.
Qed.

(** C6.  On a well-formed registry [remove_node_from_list uid] leaves exactly
    the cells whose id is not [uid], in their order: no remaining cell
    carries the id [uid], no remaining cell has [uid] as parent unless [uid]
    is [-1], every remaining cell whose parent was [uid] now has parent [-1]
    and is otherwise unchanged, and every other remaining cell is
    unchanged. *)
Theorem C6_remove_node_orphans (uid : Z) (l : node_store) :
  registry_ok l ->
  let l' := remove_node_from_list uid l in
  find_node_by_id uid l' = None
  /\ (forall c, In c l' -> n_id (snd c) <> uid)
  /\ (forall c, In c l' -> n_parent_id (snd c) = uid -> uid = -1)
  /\ l' = map (orphan uid) (filter (fun c => negb (n_id (snd c) =? uid)) l)
  /\ (forall c, In c l -> n_id (snd c) <> uid -> n_parent_id (snd c) = uid ->
                In (fst c, set_n_parent_id (-1) (snd c)) l')
  /\ (forall c, In c l -> n_id (snd c) <> uid -> n_parent_id (snd c) <> uid -> In c l').
Proof.
  intros OK l'. subst l'. rewrite (remove_node_from_list_filter uid l OK).
  fold (keeps uid).
  assert (Hmem : forall c, In c (map (orphan uid) (filter (keeps uid) l)) ->
                           exists c0, In c0 l /\ n_id (snd c0) <> uid /\ c = orphan uid c0).
  { intros c Hc. apply in_map_iff in Hc as [c0 [<- Hc0]].
    apply filter_In in Hc0 as [Hin K]. exists c0. repeat split; try assumption.
    unfold keeps in K. destruct (Z.eqb_spec (n_id (snd c0)) uid); [discriminate|assumption]. }
  assert (Hid : forall c0, n_id (snd (orphan uid c0)) = n_id (snd c0)).
  { intros c0. unfold orphan. destruct (n_parent_id (snd c0) =? uid); reflexivity. }
  assert (Hno : forall c, In c (map (orphan uid) (filter (keeps uid) l)) -> n_id (snd c) <> uid).
  { intros c Hc. destruct (Hmem c Hc) as [c0 [_ [Hne ->]]]. now rewrite Hid. }
  repeat split.
  - apply find_node_by_id_none. intros Hin. apply in_map_iff in Hin as [c [E Hc]].
    now apply (Hno c Hc).
  - exact Hno.
  - intros c Hc Hp. destruct (Hmem c Hc) as [c0 [_ [_ ->]]]. unfold orphan in Hp.
    destruct (Z.eqb_spec (n_parent_id (snd c0)) uid) as [E|E]; simpl in Hp; congruence.
  - intros c Hin Hne Hp. apply in_map_iff. exists c. split.
    + unfold orphan. now rewrite (proj2 (Z.eqb_eq _ _) Hp).
    + apply filter_In. split; [assumption|]. unfold keeps.
      destruct (Z.eqb_spec (n_id (snd c)) uid); [contradiction|reflexivity].
  - intros c Hin Hne Hp. apply in_map_iff. exists c. split.
    + unfold orphan. destruct (Z.eqb_spec (n_parent_id (snd c)) uid); [contradiction|reflexivity].
    + apply filter_In. split; [assumption|]. unfold keeps.
      destruct (Z.eqb_spec (n_id (snd c)) uid); [contradiction|reflexivity].
Qed.
(** ** Request records *)

Lemma is_string_expression_value (ftype action : Z) :
  fst (is_string_expression ftype action)
  = (ftype =? WB_SF_STRING) || (ftype =? WB_MF_STRING) || (action =? IMPORT_FROM_STRING)
    || (ftype =? WB_MF_NODE).
Proof.
  unfold is_string_expression.
  destruct (ftype =? WB_SF_STRING); [reflexivity|].
  destruct (ftype =? WB_MF_STRING); [reflexivity|].
  destruct (action =? IMPORT_FROM_STRING); [reflexivity|].
  destruct (ftype =? WB_MF_NODE); reflexivity.
Qed.

(** C10.  [create_and_append_field_request] on a live field returns; it
    appends exactly one request at the tail of the FIFO, whose type is the
    [action] the caller passed, whatever the later assignment does to the
    local variable, and whose [is_string] flag is true exactly when the
    field is [WB_SF_STRING] or [WB_MF_STRING], or the action is
    [IMPORT_FROM_STRING], or the field is [WB_MF_NODE]: so it is true for
    [GET], [SET] and [REMOVE] requests on an [WB_MF_NODE] field too. *)
Theorem C10_request_record (f : WbFieldRef) (action index : Z) (data : WbFieldData)
        (clamp_index : bool) (st : Supervisor) (fs : WbFieldStruct) :
  deref_field f (field_list st) = Ok fs ->
  exists st' request,
    create_and_append_field_request f action index data clamp_index st = Ok st'
    /\ field_requests_list st' = field_requests_list st ++ [request]
    /\ r_type request = action
    /\ r_field request = f
    /\ r_data request = data
    /\ r_is_string request
       = (f_type fs =? WB_SF_STRING) || (f_type fs =? WB_MF_STRING)
         || (action =? IMPORT_FROM_STRING) || (f_type fs =? WB_MF_NODE)
    /\ (f_type fs = WB_MF_NODE -> r_is_string request = true).
Proof.
  intros D. unfold create_and_append_field_request. rewrite D. cbn [bind].
  pose proof (is_string_expression_value (f_type fs) action) as V.
  destruct (is_string_expression (f_type fs) action) as [is_string after] eqn:E.
  cbn [fst] in V.
  set (clamped := if clamp_index then _ else _).
  destruct clamped as [index' st1] eqn:C.
  assert (Q : field_requests_list st1 = field_requests_list st).
  { subst clamped. destruct clamp_index; [|now injection C as _ <-].
    match type of C with (if ?b then _ else _) = _ => destruct b end;
      injection C as _ <-; reflexivity. }
  eexists. eexists. split; [reflexivity|].
  cbn. rewrite Q. repeat split; try assumption.
  intros T. rewrite V, T. unfold WB_MF_NODE, WB_SF_STRING, WB_MF_STRING. cbn.
  now rewrite orb_true_r.
Qed.

(** ** Validation of multi-valued indices *)

Lemma wrap_int_id (z : Z) : in_int z -> wrap_int z = z.
Proof.
  unfold in_int, INT_MIN, INT_MAX, wrap_int. intros H.
  rewrite Z.mod_small by lia. lia.
Qed.

Lemma check_field_index (f : WbFieldRef) (func : string) (type : Z)
      (check_type is_importing check_type_internal : bool) (st : Supervisor)
      (fs : WbFieldStruct) (i : Z) :
  field_accepted f type check_type check_type_internal st fs ->
  Z.land type WB_MF <> 0 ->
  0 <= f_count fs < INT_MAX ->
  in_int i ->
  check_field f func type check_type (Some i) is_importing check_type_internal st
  = if (index_lo (f_count fs) is_importing <=? i) && (i <=? index_hi (f_count fs) is_importing)
    then Ok (st, true,
             Some (if i <? 0 then i + f_count fs + (if is_importing then 1 else 0) else i))
    else Ok (set_stderr (stderr st ++ [out_of_bound func i (f_count fs) is_importing]) st,
             false, Some i).
Proof.
  intros (Hs & Hn & Hin & Hd & Hpi & Hty) Hmf Hc Hi.
  unfold check_field, robot_check_supervisor. rewrite Hs. cbn [negb].
  rewrite (proj2 (Z.eqb_neq _ _) Hn), Hin. cbn [negb]. rewrite Hd. cbn [bind].
  rewrite Hpi, Hty, (proj2 (Z.eqb_neq _ _) Hmf). cbn [negb].
  unfold in_int, INT_MIN, INT_MAX in *.
  unfold out_of_bound, index_lo, index_hi, fprintf_stderr, int_neg, int_add, int_sub.
  destruct is_importing.
  - rewrite !(wrap_int_id (f_count fs + 1)) by (unfold in_int, INT_MIN, INT_MAX; lia).
    rewrite !(wrap_int_id (f_count fs + 1 + 0)) by (unfold in_int, INT_MIN, INT_MAX; lia).
    rewrite !(wrap_int_id (f_count fs + 0)) by (unfold in_int, INT_MIN, INT_MAX; lia).
    rewrite !(wrap_int_id (- (f_count fs + 1 + 0))) by (unfold in_int, INT_MIN, INT_MAX; lia).
    rewrite !(wrap_int_id (- f_count fs)) by (unfold in_int, INT_MIN, INT_MAX; lia).
    rewrite !(wrap_int_id (- f_count fs - 1)) by (unfold in_int, INT_MIN, INT_MAX; lia).
    rewrite !(wrap_int_id (- f_count fs - 1 - 0)) by (unfold in_int, INT_MIN, INT_MAX; lia).
    destruct (Z.ltb_spec i (- (f_count fs + 1 + 0))), (Z.gtb_spec i (f_count fs + 0)),
      (Z.leb_spec (- (f_count fs + 1)) i), (Z.leb_spec i (f_count fs)); try lia; cbn [orb andb];
      try (repeat f_equal; lia);
      (destruct (Z.ltb_spec i 0); [|reflexivity];
       rewrite wrap_int_id by (unfold in_int, INT_MIN, INT_MAX; lia); do 3 f_equal; lia).
  - rewrite !(wrap_int_id (f_count fs + 1)) by (unfold in_int, INT_MIN, INT_MAX; lia).
    rewrite !(wrap_int_id (f_count fs + 1 + -1)) by (unfold in_int, INT_MIN, INT_MAX; lia).
    rewrite !(wrap_int_id (f_count fs + -1)) by (unfold in_int, INT_MIN, INT_MAX; lia).
    rewrite !(wrap_int_id (- (f_count fs + 1 + -1))) by (unfold in_int, INT_MIN, INT_MAX; lia).
    rewrite !(wrap_int_id (- f_count fs)) by (unfold in_int, INT_MIN, INT_MAX; lia).
    rewrite !(wrap_int_id (- f_count fs - 1)) by (unfold in_int, INT_MIN, INT_MAX; lia).
    rewrite !(wrap_int_id (- f_count fs - 1 - -1)) by (unfold in_int, INT_MIN, INT_MAX; lia).
    destruct (Z.ltb_spec i (- (f_count fs + 1 + -1))), (Z.gtb_spec i (f_count fs + -1)),
      (Z.leb_spec (- f_count fs) i), (Z.leb_spec i (f_count fs - 1)); try lia; cbn [orb andb];
      try (repeat f_equal; lia);
      (destruct (Z.ltb_spec i 0); [|reflexivity];
       rewrite wrap_int_id by (unfold in_int, INT_MIN, INT_MAX; lia); do 3 f_equal; lia).
Qed.

Lemma mf_type_bit (k : kind) : Z.land (mf_type k) WB_MF <> 0.
Proof. destruct k; discriminate. Qed.

Lemma in_range_dec (lo hi i : Z) :
  (lo <=? i) && (i <=? hi) = true <-> lo <= i <= hi.
Proof. rewrite andb_true_iff, !Z.leb_le. reflexivity. Qed.

Lemma out_of_range_dec (lo hi i : Z) :
  ~ lo <= i <= hi -> (lo <=? i) && (i <=? hi) = false.
Proof.
  intros H. destruct ((lo <=? i) && (i <=? hi)) eqn:E; [|reflexivity].
  apply in_range_dec in E. contradiction.
Qed.

(** C4.  Once [check_field] has accepted the caller, the field and its type,
    an index for a multi-valued type is accepted exactly when it lies in
    [-(count+1), count] for an insertion and in [-count, count-1] otherwise;
    an accepted negative index [i] becomes [i + count + 1] when inserting
    and [i + count] otherwise, and an accepted index that is not negative
    is kept; an index out of range costs one diagnostic line, [check_field]
    answers false, and the getters, setters, inserters and
    [wb_supervisor_field_remove_mf] then return with nothing queued and
    nothing sent. *)
Theorem C4_mf_index_validation (f : WbFieldRef) (st : Supervisor) (fs : WbFieldStruct)
        (i : Z) :
  0 <= f_count fs < INT_MAX ->
  in_int i ->
  let count := f_count fs in
  (forall (func : string) (type : Z) (check_type is_importing check_type_internal : bool),
      field_accepted f type check_type check_type_internal st fs ->
      Z.land type WB_MF <> 0 ->
      let lo := if is_importing then - (count + 1) else - count in
      let hi := if is_importing then count else count - 1 in
      (lo <= i <= hi ->
       check_field f func type check_type (Some i) is_importing check_type_internal st
       = Ok (st, true,
             Some (if i <? 0 then i + count + (if is_importing then 1 else 0) else i)))
      /\ (~ lo <= i <= hi ->
          check_field f func type check_type (Some i) is_importing check_type_internal st
          = Ok (dropped func i count is_importing st, false, Some i)
          /\ field_requests_list (dropped func i count is_importing st)
             = field_requests_list st
          /\ outgoing (dropped func i count is_importing st) = outgoing st))
  /\ (forall k,
         field_accepted f (mf_type k) true false st fs ->
         ~ - count <= i <= count - 1 ->
         wb_supervisor_field_get_mf k f i st
         = Ok (dropped (String.append "wb_supervisor_field_get_mf_" (kind_name k)) i count
                       false st, getter_sentinel k))
  /\ (forall (k : kind) (value : arg k),
         field_accepted f (mf_type k) true true st fs ->
         ~ - count <= i <= count - 1 ->
         wb_supervisor_field_set_mf k f i value st
         = Ok (dropped (String.append "wb_supervisor_field_set_mf_" (kind_name k)) i count
                       false st, ret_void))
  /\ (forall (k : kind) (value : arg k),
         field_accepted f (mf_type k) true true st fs ->
         ~ - (count + 1) <= i <= count ->
         wb_supervisor_field_insert_mf k f i value st
         = Ok (dropped (String.append "wb_supervisor_field_insert_mf_" (kind_name k)) i count
                       true st, ret_void))
  /\ (field_accepted f WB_MF false true st fs ->
      count <> 0 ->
      ~ - count <= i <= count - 1 ->
      wb_supervisor_field_remove_mf f i st
      = Ok (dropped "wb_supervisor_field_remove_mf" i count false st, ret_void)).
Proof.
  intros Hc Hi count. subst count. repeat split.
  - intros R. rewrite (check_field_index _ _ _ _ _ _ _ _ _ H H0 Hc Hi).
    unfold index_lo, index_hi.
    now rewrite (proj2 (in_range_dec _ _ _)) by (destruct is_importing; exact R).
  - rewrite (check_field_index _ _ _ _ _ _ _ _ _ H H0 Hc Hi).
    unfold index_lo, index_hi.
    now rewrite out_of_range_dec by (destruct is_importing; exact H1).
  - intros k A R. unfold wb_supervisor_field_get_mf.
    rewrite (check_field_index _ _ _ _ _ _ _ _ _ A (mf_type_bit k) Hc Hi).
    unfold index_lo, index_hi. now rewrite out_of_range_dec by exact R.
  - intros k value A R. unfold wb_supervisor_field_set_mf.
    rewrite (check_field_index _ _ _ _ _ _ _ _ _ A (mf_type_bit k) Hc Hi).
    unfold index_lo, index_hi. now rewrite out_of_range_dec by exact R.
  - intros k value A R. unfold wb_supervisor_field_insert_mf.
    rewrite (check_field_index _ _ _ _ _ _ _ _ _ A (mf_type_bit k) Hc Hi).
    unfold index_lo, index_hi. now rewrite out_of_range_dec by exact R.
  - intros A Z0 R. unfold wb_supervisor_field_remove_mf.
    destruct A as (Hs & Hn & Hin & Hd & Hpi & Hty) eqn:EA. rewrite Hd. cbn [bind].
    rewrite (proj2 (Z.eqb_neq _ _) Z0).
    assert (A' : field_accepted f WB_MF false true st fs) by (repeat split; assumption).
    rewrite (check_field_index _ _ _ _ _ _ _ _ _ A' ltac:(discriminate) Hc Hi).
    unfold index_lo, index_hi. now rewrite out_of_range_dec by exact R.
Qed.

(** ** Read-your-writes on the pending queue *)

Lemma field_at_update (f : WbFieldRef) (g : WbFieldStruct -> WbFieldStruct) (l : field_store) :
  field_at f (update_field f g l) = option_map g (field_at f l).
Proof.
  induction l as [|c l IH]; [reflexivity|]. simpl.
  destruct (Z.eqb_spec (fst c) f) as [E|E]; simpl.
  - now rewrite (proj2 (Z.eqb_eq _ _) E).
  - now rewrite (proj2 (Z.eqb_neq _ _) E).
Qed.

Lemma field_in_list_update (f p : WbFieldRef) (g : WbFieldStruct -> WbFieldStruct)
      (l : field_store) :
  field_in_list f (update_field p g l) = field_in_list f l.
Proof.
  induction l as [|c l IH]; [reflexivity|]. simpl.
  destruct (fst c =? p); simpl; [reflexivity|]. now rewrite IH.
Qed.

Lemma deref_field_at (f : WbFieldRef) (l : field_store) (fs : WbFieldStruct) :
  deref_field f l = Ok fs <-> f <> NULL /\ field_at f l = Some fs.
Proof.
  unfold deref_field. destruct (Z.eqb_spec f NULL) as [E|E].
  - split; [discriminate | intros [H _]; contradiction].
  - destruct (field_at f l); split; try discriminate.
    + intros H; injection H as <-; auto.
    + intros [_ H]; injection H as <-; reflexivity.
    + intros [_ H]; discriminate.
Qed.

Lemma deref_field_store (f : WbFieldRef) (g : WbFieldStruct -> WbFieldStruct) (st : Supervisor)
      (fs : WbFieldStruct) :
  deref_field f (field_list st) = Ok fs ->
  deref_field f (field_list (store_field f g st)) = Ok (g fs).
Proof.
  rewrite !deref_field_at. intros [N A]. split; [assumption|].
  cbn. now rewrite field_at_update, A.
Qed.

Lemma find_queued_set_some (f : WbFieldRef) (index : Z) (q : list WbFieldRequest)
      (r : WbFieldRequest) :
  find_queued_set f index q = Some r ->
  In r q /\ r_field r = f /\ r_type r = SET /\ r_index r = index.
Proof.
  induction q as [|x q IH]; simpl; [discriminate|].
  destruct (same_set f index x) eqn:E.
  - intros H; injection H as <-. unfold same_set in E.
    apply andb_true_iff in E as [E E3]. apply andb_true_iff in E as [E1 E2].
    apply Z.eqb_eq in E1, E2, E3. auto.
  - intros H. destruct (IH H) as (A & B). auto.
Qed.

Lemma find_queued_set_update (f : WbFieldRef) (index : Z) (d : WbFieldData)
      (q : list WbFieldRequest) (r : WbFieldRequest) :
  find_queued_set f index q = Some r ->
  find_queued_set f index (update_queued_set f index (set_r_data d) q) = Some (set_r_data d r).
Proof.
  induction q as [|x q IH]; simpl; [discriminate|].
  destruct (same_set f index x) eqn:E.
  - intros H; injection H as <-. simpl.
    assert (E' : same_set f index (set_r_data d x) = true) by exact E.
    now rewrite E'.
  - intros H. simpl. rewrite E. auto.
Qed.

Lemma find_queued_set_append (f : WbFieldRef) (index : Z) (q : list WbFieldRequest)
      (r : WbFieldRequest) :
  find_queued_set f index q = None ->
  same_set f index r = true ->
  find_queued_set f index (q ++ [r]) = Some r.
Proof.
  induction q as [|x q IH]; simpl; intros H S.
  - now rewrite S.
  - destruct (same_set f index x); [discriminate|]. auto.
Qed.

Lemma update_queued_set_types (f : WbFieldRef) (index : Z) (d : WbFieldData)
      (q : list WbFieldRequest) :
  map r_type (update_queued_set f index (set_r_data d) q) = map r_type q.
Proof.
  induction q as [|x q IH]; [reflexivity|]. simpl.
  destruct (same_set f index x); simpl; [reflexivity|]. now rewrite IH.
Qed.

Lemma get_meets_queued_set (f : WbFieldRef) (index : Z) (data : WbFieldData) (st : Supervisor)
      (fs : WbFieldStruct) (r : WbFieldRequest) :
  deref_field f (field_list st) = Ok fs ->
  find_queued_set f index (field_requests_list st) = Some r ->
  field_operation_with_data f GET index data st
  = Ok (store_field f (set_f_data (queued_payload r)) st).
Proof.
  intros D F. unfold field_operation_with_data. rewrite F. cbn [GET Z.eqb Pos.eqb].
  rewrite D. cbn [bind]. unfold queued_payload. now destruct (r_is_string r).
Qed.

Lemma check_float_accepts (func : string) (v : double) (st : Supervisor) :
  finite_within_FLT_MAX v -> check_float func v st = (st, true).
Proof. intros (A & B & C). unfold check_float. now rewrite A, B, C. Qed.

Lemma check_field_plain (f : WbFieldRef) (func : string) (type : Z)
      (check_type check_type_internal : bool) (st : Supervisor) (fs : WbFieldStruct) :
  field_accepted f type check_type check_type_internal st fs ->
  Z.land type WB_MF = 0 ->
  check_field f func type check_type None false check_type_internal st = Ok (st, true, None).
Proof.
  intros (Hs & Hn & Hin & Hd & Hpi & Hty) Hmf.
  unfold check_field, robot_check_supervisor. rewrite Hs. cbn [negb].
  rewrite (proj2 (Z.eqb_neq _ _) Hn), Hin. cbn [negb]. rewrite Hd. cbn [bind].
  now rewrite Hpi, Hty, Hmf.
Qed.

Lemma sf_type_bit (k : kind) : Z.land (sf_type k) WB_MF = 0.
Proof. now destruct k. Qed.

Lemma getter_meets_queued_set (k : kind) (f : WbFieldRef) (st : Supervisor)
      (fs : WbFieldStruct) (r : WbFieldRequest) :
  k <> k_node ->
  field_accepted f (sf_type k) true false st fs ->
  find_queued_set f (-1) (field_requests_list st) = Some r ->
  wb_supervisor_field_get_sf k f st
  = Ok (store_field f (set_f_data (queued_payload r)) st, read_member k (queued_payload r)).
Proof.
  intros K A F. unfold wb_supervisor_field_get_sf.
  rewrite (check_field_plain _ _ _ _ _ _ _ A (sf_type_bit k)). cbn [bind negb].
  destruct A as (_ & _ & _ & D & _). unfold field_operation.
  rewrite (get_meets_queued_set _ _ _ _ _ _ D F). cbn [bind].
  rewrite (deref_field_store _ _ _ _ D). cbn [bind].
  destruct k; try reflexivity. contradiction.
Qed.

(** A [SET] on a single-valued field whose requests are not strings: it
    returns without a flush and leaves a queued [SET] that carries the new
    payload. *)
Lemma setter_queues (f : WbFieldRef) (d : WbFieldData) (st : Supervisor) (fs : WbFieldStruct) :
  deref_field f (field_list st) = Ok fs ->
  f_count fs = -1 ->
  fst (is_string_expression (f_type fs) SET) = false ->
  plain_requests f st ->
  exists st1 r,
    field_operation_with_data f SET (-1) d st = Ok st1
    /\ find_queued_set f (-1) (field_requests_list st1) = Some r
    /\ r_data r = d /\ r_is_string r = false
    /\ field_list st1 = field_list st
    /\ is_supervisor st1 = is_supervisor st
    /\ outgoing st1 = outgoing st
    /\ incoming st1 = incoming st
    /\ stderr st1 = stderr st.
Proof.
  intros D C S P. unfold field_operation_with_data.
  destruct (find_queued_set f (-1) (field_requests_list st)) as [r|] eqn:F.
  - cbn [SET GET Z.eqb Pos.eqb].
    destruct (find_queued_set_some _ _ _ _ F) as (Hin & Hf & _).
    rewrite (P r Hin Hf). cbn [negb].
    eexists. exists (set_r_data d r). split; [reflexivity|].
    cbn. rewrite (find_queued_set_update _ _ d _ _ F).
    repeat split. exact (P r Hin Hf).
  - cbn [SET GET Z.eqb Pos.eqb negb orb assert bind].
    unfold create_and_append_field_request. rewrite D. cbn [bind].
    rewrite C. cbn [Z.eqb negb andb Pos.eqb].
    destruct (is_string_expression (f_type fs) SET) as [flag after] eqn:E.
    cbn [fst] in S. subst flag.
    cbn [SET Z.eqb Pos.eqb negb bind assert orb].
    eexists. eexists. split; [reflexivity|]. cbn.
    rewrite find_queued_set_append; [repeat split | exact F |].
    unfold same_set. cbn. now rewrite Z.eqb_refl.
Qed.


(** [check_field] on an index within the bounds of a getter, a setter or a
    removal: the index counted from the front. *)
Lemma check_field_element (f : WbFieldRef) (func : string) (type : Z)
      (check_type check_type_internal : bool) (st : Supervisor) (fs : WbFieldStruct) (i : Z) :
  field_accepted f type check_type check_type_internal st fs ->
  Z.land type WB_MF <> 0 ->
  0 <= f_count fs < INT_MAX ->
  - f_count fs <= i <= f_count fs - 1 ->
  check_field f func type check_type (Some i) false check_type_internal st
  = Ok (st, true, Some (if i <? 0 then i + f_count fs else i)).
Proof.
  intros A M C I.
  assert (II : in_int i) by (unfold in_int, INT_MIN, INT_MAX in *; lia).
  rewrite (check_field_index f func type check_type false check_type_internal st fs i
             A M C II).
  assert (R : (index_lo (f_count fs) false <=? i) && (i <=? index_hi (f_count fs) false)
              = true).
  { rewrite andb_true_iff, !Z.leb_le. unfold index_lo, index_hi. lia. }
  rewrite R. now replace (i + f_count fs + 0) with (i + f_count fs) by lia.
Qed.



(** ** The serializer and the flush *)

(** Case analysis on the first computation of a sequence that returned. *)
Tactic Notation "step_bind" hyp(H) ident(x) ident(E) :=
  match type of H with
  | bind ?c _ = Ok _ => destruct c as [x|] eqn:E; [cbn [bind] in H | discriminate H]
  end.

Lemma same_slots_refl (a : Supervisor) : same_slots a a.
Proof. unfold same_slots. now repeat split. Qed.

Lemma same_slots_trans (a b c : Supervisor) :
  same_slots a b -> same_slots b c -> same_slots a c.
Proof.
  unfold same_slots. intros H1 H2.
  decompose [and] H1. decompose [and] H2. repeat split; congruence.
Qed.

Lemma drain_requests_spec (fl : field_store) (chain : list WbFieldRequest) :
  forall buf garbage sent buf' garbage' sent',
    drain_requests fl chain buf garbage sent = Ok (buf', garbage', sent') ->
    garbage' = rev (filter (fun r => negb (is_get r)) chain) ++ garbage
    /\ sent' = last_get chain sent
    /\ (List.length (filter is_get chain) + occupied sent <= 1)%nat
    /\ (List.length (filter is_get chain) = 1%nat -> sent = None).
Proof.
  induction chain as [|r rest IH]; intros buf garbage sent buf' garbage' sent' H.
  - cbn in H. injection H as <- <- <-. cbn. repeat split; [destruct sent; cbn; lia | discriminate].
  - cbn [drain_requests] in H.
    destruct (deref_field (r_field r) fl) as [f|]; [|discriminate]. cbn [bind] in H.
    destruct (write_field_request f r) as [items|]; [|discriminate]. cbn [bind] in H.
    cbn [filter last_get].
    destruct (is_get r) eqn:G; unfold is_get in G; rewrite G in H; cbn [negb] in H |- *.
    + destruct sent as [s|]; [discriminate|]. cbn [assert bind] in H.
      apply IH in H as (A & B & C & D). cbn [occupied List.length] in *.
      repeat split; try assumption; lia.
    + apply IH in H as (A & B & C & D). cbn [rev].
      rewrite <- app_assoc. cbn [app]. repeat split; assumption.
Qed.

(** What [supervisor_write_request] does when no handle resolution is
    pending. *)
Lemma write_request_idle (st st' : Supervisor) :
  idle st ->
  supervisor_write_request st = Ok st' ->
  field_requests_list st' = []
  /\ field_requests_garbage_list st'
     = rev (filter (fun r => negb (is_get r)) (field_requests_list st))
       ++ field_requests_garbage_list st
  /\ sent_field_get_request st'
     = last_get (field_requests_list st) (sent_field_get_request st)
  /\ (List.length (filter is_get (field_requests_list st))
      + occupied (sent_field_get_request st) <= 1)%nat
  /\ (List.length (filter is_get (field_requests_list st)) = 1%nat ->
      sent_field_get_request st = None).
Proof.
  intros (I1 & I2 & I3 & I4 & I5) H. unfold supervisor_write_request in H.
  destruct (Z.geb_spec (node_id st) 0); [lia|]. rewrite I2 in H.
  destruct (Z.gtb_spec (node_tag st) 0); [lia|]. rewrite I4, I5 in H.
  destruct (drain_requests (field_list st) (field_requests_list st) []
              (field_requests_garbage_list st) (sent_field_get_request st))
    as [[[buf garbage] sent]|] eqn:D; [|discriminate].
  cbn [bind] in H. step_bind H contact Ec. injection H as <-. cbn.
  apply drain_requests_spec in D as (A & B & C & D2). repeat split; assumption.
Qed.

(** The serializer writes one frame and otherwise touches the queue, the
    garbage list and the sent slot only. *)
Lemma write_request_frame (st st' : Supervisor) :
  supervisor_write_request st = Ok st' ->
  same_slots st st'
  /\ incoming st' = incoming st
  /\ next_alloc st' = next_alloc st
  /\ field_list st' = field_list st
  /\ node_list st' = node_list st
  /\ imported_nodes_number st' = imported_nodes_number st
  /\ node_id st' = node_id st
  /\ requested_field_name st' = requested_field_name st
  /\ exists frame, outgoing st' = outgoing st ++ [frame].
Proof.
  intros H. unfold supervisor_write_request in H.
  match type of H with
  | bind ?c _ = _ => destruct c as [[buf st1]|] eqn:E; [|discriminate]
  end.
  cbn [bind] in H. step_bind H contact Ec. injection H as <-.
  assert (S : st1 = st \/ exists g s, st1 = set_sent_field_get_request s
                 (set_field_requests_garbage_list g (set_field_requests_list [] st))).
  { destruct (node_id st >=? 0); [injection E as _ <-; now left|].
    destruct (node_def_name st); [injection E as _ <-; now left|].
    destruct (node_tag st >? 0); [injection E as _ <-; now left|].
    destruct (node_get_selected st); [injection E as _ <-; now left|].
    destruct (requested_field_name st); [injection E as _ <-; now left|].
    match type of E with
    | bind ?c _ = _ => destruct c as [[[b g] s]|]; [|discriminate]
    end.
    cbn [bind] in E. injection E as _ <-. right. now exists g, s. }
  destruct S as [->|(g & s & ->)]; unfold same_slots; cbn;
    repeat split; eexists; reflexivity.
Qed.

Lemma same_wire_refl (a : Supervisor) : same_wire a a.
Proof. unfold same_wire. auto using same_slots_refl. Qed.

Lemma same_wire_trans (a b c : Supervisor) : same_wire a b -> same_wire b c -> same_wire a c.
Proof.
  intros (S1 & A1 & B1 & C1) (S2 & A2 & B2 & C2).
  split; [eapply same_slots_trans; eassumption | repeat split; congruence].
Qed.

(** Closes a [same_slots] or [same_wire] goal between a state and setters
    applied to it. *)
Ltac same_by_computation :=
  unfold same_wire, same_slots; cbn; repeat split; reflexivity.

Lemma add_node_to_list_only_nodes (uid type : Z) (model_name def_name : option string)
      (tag parent_id : Z) (is_proto : bool) (st st' : Supervisor) :
  add_node_to_list uid type model_name def_name tag parent_id is_proto st = Ok st' ->
  only_nodes st st'.
Proof.
  unfold add_node_to_list. intros H.
  destruct (find_node_by_id uid (node_list st)) as [c|].
  - destruct def_name as [d|]; [|injection H as <-; unfold only_nodes; same_by_computation].
    destruct (n_def_name (snd c)); [|discriminate].
    destruct (String.eqb s d); injection H as <-; unfold only_nodes; same_by_computation.
  - injection H as <-. unfold only_nodes; same_by_computation.
Qed.

Lemma read_answer_frame (a : Answer) (st st' : Supervisor) :
  supervisor_read_answer a st = Ok st' ->
  same_wire st st'
  /\ field_requests_garbage_list st' = []
  /\ (node_answer a = false -> node_id st' = node_id st)
  /\ (requested_field_name st' = requested_field_name st \/ requested_field_name st' = None).
Proof.
  unfold supervisor_read_answer. intros H0. step_bind H0 st1 H. injection H0 as <-.
  enough (G : same_wire st st1
              /\ (node_answer a = false -> node_id st1 = node_id st)
              /\ (requested_field_name st1 = requested_field_name st
                  \/ requested_field_name st1 = None)).
  { destruct G as (W & N & R).
    split; [eapply same_wire_trans; [exact W | same_by_computation]|].
    split; [reflexivity|]. split; assumption. }
  destruct a; cbn [node_answer].
  - step_bind H st2 E. cbv zeta in H. step_bind H self D. injection H as <-.
    apply add_node_to_list_only_nodes in E as (W & _ & _ & _ & _ & N & R).
    split; [eapply same_wire_trans; [exact W | same_by_computation]|].
    split; [intros _; exact N|]. left. exact R.
  - destruct (negb (uid =? 0)).
    + step_bind H st2 E. injection H as <-.
      apply add_node_to_list_only_nodes in E as (W & _ & _ & _ & _ & _ & R).
      split; [eapply same_wire_trans; [exact W | same_by_computation]|].
      split; [discriminate|]. left. exact R.
    + injection H as <-. split; [apply same_wire_refl|]. auto.
  - destruct (negb (uid =? 0) && _).
    + step_bind H st2 E. injection H as <-.
      apply add_node_to_list_only_nodes in E as (W & _ & _ & _ & _ & _ & R).
      split; [eapply same_wire_trans; [exact W | same_by_computation]|].
      split; [discriminate|]. left. exact R.
    + injection H as <-. split; [apply same_wire_refl|]. auto.
  - destruct (field_ref =? -1); injection H as <-.
    + split; [same_by_computation|]. split; [reflexivity|]. now right.
    + split; [same_by_computation|]. split; [reflexivity|]. now left.
  - destruct (sent_field_get_request st) as [sent|]; [|discriminate].
    step_bind H st2 E. injection H as <-.
    enough (G : only_nodes st st2 \/ exists fl, only_nodes (set_field_list fl st) st2).
    { destruct G as [(W & _ & _ & _ & _ & N & R) | (fl & W & _ & _ & _ & _ & N & R)].
      - split; [eapply same_wire_trans; [exact W | same_by_computation]|]. cbn. auto.
      - split; [eapply same_wire_trans;
                [same_by_computation | eapply same_wire_trans; [exact W | same_by_computation]]|].
        cbn. auto. }
    destruct (negb (field_type =? 0)).
    + step_bind E f Ef. destruct (_ || _) in E.
      * destruct (negb (get_sf_node_uid value =? 0)).
        -- apply add_node_to_list_only_nodes in E. right. eexists. exact E.
        -- injection E as <-. right. eexists. unfold store_field, only_nodes.
           same_by_computation.
      * step_bind E d Ed. injection E as <-. right. eexists. unfold store_field, only_nodes.
        same_by_computation.
    + injection E as <-. left. unfold only_nodes. same_by_computation.
  - injection H as <-. split; [same_by_computation|]. auto.
  - injection H as <-. split; [same_by_computation|]. auto.
  - destruct (parent_node_unique_id >=? 0).
    + step_bind H found Ef. destruct found; injection H as <-;
        (split; [same_by_computation|]); auto.
    + injection H as <-. split; [same_by_computation|]. auto.
  - step_bind H nd En. injection H as <-. split; [same_by_computation|]. auto.
  - injection H as <-. split; [apply same_wire_refl|]. auto.
Qed.

Lemma read_answers_frame (frame : list Answer) :
  forall st st',
    read_answers frame st = Ok st' ->
    same_wire st st'
    /\ (Forall quiet frame -> node_id st' = node_id st)
    /\ (requested_field_name st' = requested_field_name st \/ requested_field_name st' = None).
Proof.
  induction frame as [|a frame IH]; intros st st' H.
  - injection H as <-. split; [apply same_wire_refl|]. auto.
  - cbn [read_answers] in H. step_bind H st1 E.
    apply read_answer_frame in E as (W1 & _ & N1 & R1).
    apply IH in H as (W2 & N2 & R2).
    split; [eapply same_wire_trans; eassumption|]. split.
    + intros Q. inversion Q; subst. rewrite N2, N1; auto.
    + destruct R2 as [R2|R2]; [rewrite R2; exact R1 | now right].
Qed.

(** What a flush does to the wire and to the queue. *)
Lemma flush_frame (st st' : Supervisor) :
  wb_robot_flush_unlocked st = Ok st' ->
  same_slots st st'
  /\ incoming st' = tl (incoming st)
  /\ (exists frame, outgoing st' = outgoing st ++ [frame])
  /\ (idle st -> field_requests_list st' = [])
  /\ (field_requests_list st' = field_requests_list st \/ field_requests_list st' = [])
  /\ (Forall quiet (hd [] (incoming st)) -> node_id st' = node_id st)
  /\ (requested_field_name st' = requested_field_name st \/ requested_field_name st' = None).
Proof.
  unfold wb_robot_flush_unlocked. intros H. step_bind H st1 E.
  pose proof (write_request_frame _ _ E) as (S1 & I1 & _ & _ & _ & _ & N1 & R1 & frame & O1).
  apply read_answers_frame in H as ((S2 & I2 & O2 & Q2) & N2 & R2). cbn in *.
  split; [eapply same_slots_trans; [exact S1|]|].
  { eapply same_slots_trans; [|exact S2]. same_by_computation. }
  split; [now rewrite I2, I1|].
  split; [exists frame; now rewrite O2|].
  split; [intros I; rewrite Q2; now apply (write_request_idle _ _ I E)|].
  split.
  { rewrite Q2. clear - E. unfold supervisor_write_request in E.
    match type of E with
    | bind ?c _ = _ => destruct c as [[buf st2]|] eqn:E2; [|discriminate]
    end.
    cbn [bind] in E. step_bind E contact Ec. injection E as <-. cbn.
    destruct (node_id st >=? 0); [injection E2 as _ <-; now left|].
    destruct (node_def_name st); [injection E2 as _ <-; now left|].
    destruct (node_tag st >? 0); [injection E2 as _ <-; now left|].
    destruct (node_get_selected st); [injection E2 as _ <-; now left|].
    destruct (requested_field_name st); [injection E2 as _ <-; now left|].
    match type of E2 with
    | bind ?c _ = _ => destruct c as [[[b g] s]|]; [|discriminate]
    end.
    cbn [bind] in E2. injection E2 as _ <-. now right. }
  split; [intros Q; rewrite <- I1 in Q; rewrite (N2 Q); exact N1|].
  rewrite <- R1. exact R2.
Qed.

(** ** The queue between two calls of the public API *)

Lemma logs_refl (a : Supervisor) : logs a a.
Proof. exists (stderr a). now destruct a. Qed.

Lemma logs_trans (a b c : Supervisor) : logs a b -> logs b c -> logs a c.
Proof. intros [d1 ->] [d2 ->]. exists d2. now destruct a. Qed.

Lemma logs_fprintf (fmt : string) (args : list fmt_arg) (a : Supervisor) :
  logs a (fprintf_stderr fmt args a).
Proof. now eexists. Qed.

Create HintDb logs.
#[local] Hint Resolve logs_refl logs_fprintf : logs.

Lemma logs_between_calls (a b : Supervisor) : logs a b -> between_calls a -> between_calls b.
Proof. intros [ds ->]. exact (fun H => H). Qed.

Lemma robot_check_supervisor_logs (func : string) (st st' : Supervisor) (b : bool) :
  robot_check_supervisor func st = (st', b) -> logs st st'.
Proof.
  unfold robot_check_supervisor. destruct (is_supervisor st); intros H; injection H as <- _;
    auto with logs.
Qed.

Lemma check_field_logs (f : WbFieldRef) (func : string) (type : Z) (check_type : bool)
      (index : option Z) (is_importing check_type_internal : bool) (st st' : Supervisor)
      (b : bool) (index' : option Z) :
  check_field f func type check_type index is_importing check_type_internal st
  = Ok (st', b, index') ->
  logs st st'.
Proof.
  unfold check_field. destruct (robot_check_supervisor func st) as [st1 allowed] eqn:R.
  apply robot_check_supervisor_logs in R. intros H.
  apply (logs_trans _ _ _ R). clear R.
  destruct (negb allowed); [injection H as <- _ _; auto with logs|].
  destruct (f =? NULL).
  { destruct (negb (is_quitting st1)); injection H as <- _ _; auto with logs. }
  destruct (negb (field_in_list f (field_list st1))); [injection H as <- _ _; auto with logs|].
  step_bind H fs E.
  destruct (check_type_internal && f_is_proto_internal fs);
    [injection H as <- _ _; auto with logs|].
  destruct (check_type && negb (f_type fs =? type)).
  { destruct (negb (is_quitting st1)); injection H as <- _ _; auto with logs. }
  destruct (negb (Z.land type WB_MF =? 0)); [|injection H as <- _ _; auto with logs].
  destruct index as [i|]; [|discriminate].
  destruct (_ || _); [injection H as <- _ _; auto with logs|].
  destruct (i <? 0); injection H as <- _ _; auto with logs.
Qed.

Lemma check_float_logs (func : string) (v : double) (st st' : Supervisor) (b : bool) :
  check_float func v st = (st', b) -> logs st st'.
Proof.
  unfold check_float. destruct (isnan v); [intros H; injection H as <- _; auto with logs|].
  destruct (dbl_gt v FLT_MAX); [intros H; injection H as <- _; auto with logs|].
  destruct (dbl_lt v (SFopp FLT_MAX)); intros H; injection H as <- _; auto with logs.
Qed.

Lemma check_floats_logs (func : string) (n : nat) :
  forall values st st' b, check_floats func values n st = Ok (st', b) -> logs st st'.
Proof.
  induction n as [|n IH]; intros values st st' b H; simpl in H.
  - injection H as <- _. auto with logs.
  - destruct values as [|v rest]; [discriminate|].
    destruct (check_float func v st) as [st1 ok] eqn:C. apply check_float_logs in C.
    destruct ok; [apply IH in H | injection H as <- _]; eauto using logs_trans with logs.
Qed.

Lemma pack_value_logs (k : kind) (func : string) (value : arg k) (st st' : Supervisor)
      (data : option WbFieldData) :
  pack_value k func value st = Ok (st', data) -> logs st st'.
Proof.
  assert (V : forall values n st1 st2 checked,
             checked_vector func values n st1 = Ok (st2, checked) -> logs st1 st2).
  { intros values n st1 st2 checked H. unfold checked_vector, check_vector in H.
    destruct values as [vs|].
    - step_bind H r E. destruct r as [st3 ok]. apply check_floats_logs in E.
      destruct ok; injection H as <- _; exact E.
    - cbn in H. injection H as <- _. auto with logs. }
  destruct k; cbn [pack_value]; intros H.
  - injection H as <- _. auto with logs.
  - injection H as <- _. auto with logs.
  - destruct (check_float func value st) as [st1 ok] eqn:C. apply check_float_logs in C.
    destruct ok; injection H as <- _; exact C.
  - step_bind H r E. destruct r as [st1 checked]. apply V in E.
    destruct checked as [vs|]; [|injection H as <- _; exact E].
    step_bind H x Ex. step_bind H y Ey. injection H as <- _. exact E.
  - step_bind H r E. destruct r as [st1 checked]. apply V in E.
    destruct checked as [vs|]; [|injection H as <- _; exact E].
    step_bind H x Ex. step_bind H y Ey. step_bind H z Ez. injection H as <- _. exact E.
  - step_bind H r E. destruct r as [st1 checked]. apply V in E.
    destruct checked as [vs|]; [|injection H as <- _; exact E].
    step_bind H valid Ev. destruct (negb valid).
    + injection H as <- _. eauto using logs_trans with logs.
    + step_bind H x Ex. step_bind H y Ey. step_bind H z Ez. step_bind H a Ea.
      injection H as <- _. exact E.
  - destruct value as [vs|]; [|injection H as <- _; auto with logs].
    step_bind H valid Ev. destruct (negb valid).
    + injection H as <- _. auto with logs.
    + step_bind H x Ex. step_bind H y Ey. step_bind H z Ez. injection H as <- _.
      auto with logs.
  - destruct value; injection H as <- _; auto with logs.
  - destruct value.
Qed.

Lemma create_and_append_inv (f : WbFieldRef) (action index : Z) (data : WbFieldData)
      (clamp_index : bool) (st st' : Supervisor) :
  create_and_append_field_request f action index data clamp_index st = Ok st' ->
  exists fs st1 request,
    deref_field f (field_list st) = Ok fs
    /\ logs st st1
    /\ st' = set_field_requests_list (field_requests_list st ++ [request]) st1
    /\ r_type request = action
    /\ r_field request = f
    /\ r_data request = data
    /\ r_is_string request = fst (is_string_expression (f_type fs) action)
    /\ (clamp_index = false -> r_index request = index /\ st1 = st).
Proof.
  unfold create_and_append_field_request. intros H. step_bind H fs D.
  destruct (is_string_expression (f_type fs) action) as [flag after] eqn:E.
  match type of H with
  | (let '(_, _) := ?c in _) = _ => destruct c as [index' st1] eqn:C
  end.
  injection H as <-.
  assert (L : logs st st1 /\ field_requests_list st1 = field_requests_list st
              /\ (clamp_index = false -> index' = index /\ st1 = st)).
  { destruct clamp_index; [|injection C as <- <-; auto with logs].
    match type of C with (if ?b then _ else _) = _ => destruct b end;
      injection C as <- <-; (split; [auto with logs|]); split; try reflexivity; discriminate. }
  destruct L as (L & Q & K).
  exists fs, st1. eexists. split; [reflexivity|]. split; [exact L|].
  rewrite Q. split; [reflexivity|]. cbn.
  split; [reflexivity|]. split; [reflexivity|]. split; [reflexivity|].
  split; [now rewrite E|]. exact K.
Qed.

Lemma update_queued_set_only_sets (f : WbFieldRef) (index : Z) (d : WbFieldData)
      (q : list WbFieldRequest) :
  Forall (fun r => r_type r = SET) q ->
  Forall (fun r => r_type r = SET) (update_queued_set f index (set_r_data d) q).
Proof.
  induction 1 as [|x q Hx Hq IH]; cbn [update_queued_set]; [constructor|].
  destruct (same_set f index x); constructor; assumption.
Qed.

Lemma idle_logs (a b : Supervisor) : logs a b -> idle a -> idle b.
Proof. intros [ds ->]. exact (fun H => H). Qed.

Lemma quiet_replies_tl (a b : Supervisor) :
  incoming b = tl (incoming a) -> quiet_replies a -> quiet_replies b.
Proof.
  unfold quiet_replies. intros ->. destruct (incoming a); [auto|]. intros H. now inversion H.
Qed.

Lemma quiet_replies_hd (a : Supervisor) : quiet_replies a -> Forall quiet (hd [] (incoming a)).
Proof.
  unfold quiet_replies. destruct (incoming a); cbn; [constructor|]. intros H. now inversion H.
Qed.

(** A flush between two calls: the queue is emptied, one frame is written,
    and the state is between two calls again. *)
Lemma flush_between_calls (st st' : Supervisor) :
  idle st -> quiet_replies st ->
  wb_robot_flush_unlocked st = Ok st' ->
  between_calls st'
  /\ field_requests_list st' = []
  /\ exists frame, outgoing st' = outgoing st ++ [frame].
Proof.
  intros I Q H.
  pose proof (flush_frame _ _ H) as (S & In & O & E & _ & N & R).
  pose proof (E I) as E'.
  destruct I as (I1 & I2 & I3 & I4 & I5).
  destruct S as (_ & _ & _ & _ & S5 & S6 & S7 & _).
  repeat split; try assumption.
  - rewrite (N (quiet_replies_hd _ Q)). exact I1.
  - congruence.
  - congruence.
  - congruence.
  - destruct R as [R|R]; congruence.
  - unfold queue_only_sets. rewrite E'. constructor.
  - eapply quiet_replies_tl; eassumption.
Qed.

(** The two places where a request that is not a [SET] is queued,
    [field_operation_with_data] and the imports, flush it at once. *)
Lemma field_operation_between_calls (f : WbFieldRef) (action index : Z) (data : WbFieldData)
      (st st' : Supervisor) :
  between_calls st ->
  field_operation_with_data f action index data st = Ok st' ->
  between_calls st'
  /\ (action <> SET ->
      find_queued_set f index (field_requests_list st) = None ->
      field_requests_list st' = []
      /\ exists frame, outgoing st' = outgoing st ++ [frame]).
Proof.
  intros (I & Q & P) H. unfold field_operation_with_data in H.
  destruct (find_queued_set f index (field_requests_list st)) as [r|] eqn:F.
  - assert (B : between_calls st) by exact (conj I (conj Q P)).
    split; [|intros _ X; discriminate X].
    destruct (action =? GET).
    { step_bind H fs D. destruct (negb (r_is_string r)); injection H as <-; exact B. }
    destruct (action =? SET); [|injection H as <-; exact B].
    destruct (negb (r_is_string r)).
    + injection H as <-. split; [exact I|]. split; [|exact P].
      apply update_queued_set_only_sets. exact Q.
    + step_bind H fs D. injection H as <-. split; [exact I|]. split; [|exact P].
      apply update_queued_set_only_sets. exact Q.
  - step_bind H u A. step_bind H st1 C.
    apply create_and_append_inv in C
      as (fs & st0 & request & _ & L & -> & T & _).
    destruct (Z.eqb_spec action SET) as [->|NS]; cbn [negb] in H.
    + cbn [bind] in H. step_bind H u2 A2. injection H as <-.
      split; [|intros X; now contradiction X].
      pose proof (logs_between_calls _ _ L (conj I (conj Q P))) as (I0 & Q0 & P0).
      split; [exact I0|]. split; [|exact P0].
      unfold queue_only_sets. cbn. destruct L as [ds ->]. cbn.
      apply Forall_app. split; [exact Q|]. constructor; [exact T|constructor].
    + step_bind H st2 FL. step_bind H u2 A2. injection H as <-.
      pose proof (logs_between_calls _ _ L (conj I (conj Q P))) as (I0 & Q0 & P0).
      apply flush_between_calls in FL as (B & E & frame & O); [| exact I0 | exact P0].
      split; [exact B|]. intros _ _. split; [exact E|].
      exists frame. rewrite O. cbn. destruct L as [ds ->]. reflexivity.
Qed.

Lemma import_and_flush_between_calls (f : WbFieldRef) (action index : Z) (text : string)
      (st st' : Supervisor) :
  between_calls st ->
  import_and_flush f action index text st = Ok st' ->
  between_calls st'
  /\ field_requests_list st' = []
  /\ exists frame, outgoing st' = outgoing st ++ [frame].
Proof.
  intros (I & Q & P) H. unfold import_and_flush in H. step_bind H st1 C.
  apply create_and_append_inv in C as (fs & st0 & request & _ & _ & -> & _ & _ & _ & _ & K).
  destruct (K eq_refl) as [_ ->].
  apply flush_between_calls in H as (B & E & frame & O); [| exact I | exact P].
  split; [exact B|]. split; [exact E|]. exists frame. exact O.
Qed.

Lemma node_get_field_between_calls (node : WbNodeRef) (field_name : option string)
      (st st' : Supervisor) (result : WbFieldRef) :
  between_calls st ->
  wb_supervisor_node_get_field node field_name st = Ok (st', result) ->
  between_calls st'.
Proof.
  intros B H. unfold wb_supervisor_node_get_field in H.
  destruct (robot_check_supervisor _ st) as [st1 allowed] eqn:R.
  apply robot_check_supervisor_logs in R. apply (logs_between_calls _ _ R) in B. clear R.
  destruct (negb allowed); [injection H as <- _; exact B|].
  destruct (negb (is_node_ref_valid node (node_list st1))).
  { destruct (negb (is_quitting st1)); injection H as <- _; exact B. }
  destruct field_name as [name|]; [|injection H as <- _; exact B].
  destruct name as [|c name]; [injection H as <- _; exact B|].
  step_bind H n Dn. step_bind H found F.
  destruct found as [cell|]; [injection H as <- _; exact B|].
  step_bind H st2 FL.
  pose proof (flush_frame _ _ FL) as (S & In & _ & _ & Q & N & _).
  destruct B as ((I1 & I2 & I3 & I4 & I5) & BQ & BP).
  destruct S as (_ & _ & _ & _ & S5 & S6 & S7 & _). cbn in S5, S6, S7, In, Q, N.
  assert (B2 : forall st3, node_id st3 = node_id st2 ->
                           node_def_name st3 = node_def_name st2 ->
                           node_tag st3 = node_tag st2 ->
                           node_get_selected st3 = node_get_selected st2 ->
                           requested_field_name st3 = None ->
                           field_requests_list st3 = field_requests_list st2 ->
                           incoming st3 = incoming st2 ->
                           between_calls st3).
  { intros st3 E1 E2 E3 E4 E5 E6 E7. split; [|split].
    - unfold idle. rewrite E1, E2, E3, E4, E5, S5, S6, S7, (N (quiet_replies_hd _ BP)).
      now repeat split.
    - unfold queue_only_sets. rewrite E6. destruct Q as [-> | ->]; [exact BQ | constructor].
    - unfold quiet_replies. rewrite E7, In. clear - BP. unfold quiet_replies in BP.
      destruct (incoming st1); [assumption|]. now inversion BP. }
  destruct (requested_field_name st2) eqn:RQ; [|injection H as <- _; now apply B2].
  destruct (head_ref _ =? NULL); [injection H as <- _; now apply B2|].
  step_bind H n2 Dn2. destruct (n_is_proto_internal n2); injection H as <- _; now apply B2.
Qed.

(** A call of the field API that returns leaves the state between two
    calls. *)
Lemma run_field_call_between_calls (c : field_call) (st st' : Supervisor) (r : api_result) :
  between_calls st ->
  run_field_call c st = Ok (st', r) ->
  between_calls st'.
Proof.
  intros B H.
  assert (CF : forall f func type ct idx imp cti s s' b idx',
             check_field f func type ct idx imp cti s = Ok (s', b, idx') ->
             between_calls s -> between_calls s').
  { intros. eapply logs_between_calls; [eapply check_field_logs|]; eassumption. }
  assert (PV : forall k func value s s' d,
             pack_value k func value s = Ok (s', d) -> between_calls s -> between_calls s').
  { intros. eapply logs_between_calls; [eapply pack_value_logs|]; eassumption. }
  assert (FO : forall f action index data s s',
             field_operation_with_data f action index data s = Ok s' ->
             between_calls s -> between_calls s').
  { intros f action index data s s' X Y.
    exact (proj1 (field_operation_between_calls _ _ _ _ _ _ Y X)). }
  assert (IF : forall f action index text s s',
             import_and_flush f action index text s = Ok s' ->
             between_calls s -> between_calls s').
  { intros f action index text s s' X Y.
    exact (proj1 (import_and_flush_between_calls _ _ _ _ _ _ Y X)). }
  destruct c; cbn [run_field_call] in H.
  - (* get_type *)
    unfold wb_supervisor_field_get_type in H. step_bind H t E. destruct t as [[s1 ok] i].
    apply CF in E; [|exact B]. destruct (negb ok); [injection H as <- _; exact E|].
    step_bind H fs D. injection H as <- _. exact E.
  - (* get_count *)
    unfold wb_supervisor_field_get_count in H. step_bind H t E. destruct t as [[s1 ok] i].
    apply CF in E; [|exact B]. destruct (negb ok); [injection H as <- _; exact E|].
    step_bind H fs D. destruct (negb _); [|injection H as <- _; exact E].
    destruct (negb _); injection H as <- _; exact E.
  - (* get_type_name *)
    unfold wb_supervisor_field_get_type_name in H. step_bind H t E.
    destruct t as [[s1 ok] i].
    apply CF in E; [|exact B]. destruct (negb ok); [injection H as <- _; exact E|].
    step_bind H fs D. injection H as <- _. exact E.
  - (* get_sf *)
    unfold wb_supervisor_field_get_sf in H. step_bind H t E. destruct t as [[s1 ok] i].
    apply CF in E; [|exact B]. destruct (negb ok); [injection H as <- _; exact E|].
    step_bind H s2 O. apply FO in O; [|exact E]. step_bind H fs D.
    destruct k; try (injection H as <- _; exact O).
    destruct (_ <=? 0); [injection H as <- _; exact O|].
    unfold resolve_node in H. destruct (find_node_by_id _ _); [|injection H as <- _; exact O].
    destruct (f_is_proto_internal fs); injection H as <- _; exact O.
  - (* get_mf *)
    unfold wb_supervisor_field_get_mf in H. step_bind H t E. destruct t as [[s1 ok] i].
    apply CF in E; [|exact B]. destruct (negb ok); [injection H as <- _; exact E|].
    step_bind H s2 O. apply FO in O; [|exact E]. step_bind H fs D.
    destruct k; try (injection H as <- _; exact O).
    unfold resolve_node in H. destruct (find_node_by_id _ _); [|injection H as <- _; exact O].
    destruct (f_is_proto_internal fs); injection H as <- _; exact O.
  - (* set_sf *)
    unfold wb_supervisor_field_set_sf in H. step_bind H t E. destruct t as [[s1 ok] i].
    apply CF in E; [|exact B]. destruct (negb ok); [injection H as <- _; exact E|].
    step_bind H p P. destruct p as [s2 d]. apply PV in P; [|exact E].
    destruct d as [d|]; [|injection H as <- _; exact P].
    step_bind H s3 O. apply FO in O; [|exact P]. injection H as <- _. exact O.
  - (* set_mf *)
    unfold wb_supervisor_field_set_mf in H. step_bind H t E. destruct t as [[s1 ok] i].
    apply CF in E; [|exact B]. destruct (negb ok); [injection H as <- _; exact E|].
    step_bind H p P. destruct p as [s2 d]. apply PV in P; [|exact E].
    destruct d as [d|]; [|injection H as <- _; exact P].
    step_bind H s3 O. apply FO in O; [|exact P]. injection H as <- _. exact O.
  - (* insert_mf *)
    unfold wb_supervisor_field_insert_mf in H. step_bind H t E. destruct t as [[s1 ok] i].
    apply CF in E; [|exact B]. destruct (negb ok); [injection H as <- _; exact E|].
    step_bind H p P. destruct p as [s2 d]. apply PV in P; [|exact E].
    destruct d as [d|]; [|injection H as <- _; exact P].
    step_bind H s3 O. apply FO in O; [|exact P]. step_bind H fs D.
    injection H as <- _. exact O.
  - (* remove_mf *)
    unfold wb_supervisor_field_remove_mf in H. step_bind H fs0 D0.
    destruct (f_count fs0 =? 0); [injection H as <- _; exact B|].
    step_bind H t E. destruct t as [[s1 ok] i].
    apply CF in E; [|exact B]. destruct (negb ok); [injection H as <- _; exact E|].
    step_bind H s2 O. apply FO in O; [|exact E]. step_bind H fs D.
    destruct (negb _); injection H as <- _; exact O.
  - (* remove_mf_node *)
    unfold wb_supervisor_field_remove_mf_node, wb_supervisor_field_remove_mf in H.
    step_bind H fs0 D0.
    destruct (f_count fs0 =? 0); [injection H as <- _; exact B|].
    step_bind H t E. destruct t as [[s1 ok] i].
    apply CF in E; [|exact B]. destruct (negb ok); [injection H as <- _; exact E|].
    step_bind H s2 O. apply FO in O; [|exact E]. step_bind H fs D.
    destruct (negb _); injection H as <- _; exact O.
  - (* remove_sf *)
    unfold wb_supervisor_field_remove_sf in H. step_bind H fs0 D0.
    destruct (_ =? 0); [injection H as <- _; exact B|].
    step_bind H t E. destruct t as [[s1 ok] i].
    apply CF in E; [|exact B]. destruct (negb ok); [injection H as <- _; exact E|].
    step_bind H s2 O. apply FO in O; [|exact E]. step_bind H fs D.
    injection H as <- _. exact O.
  - (* import_mf_node *)
    unfold wb_supervisor_field_import_mf_node in H. step_bind H t E.
    destruct t as [[s1 ok] i].
    apply CF in E; [|exact B]. destruct (negb ok); [injection H as <- _; exact E|].
    destruct filename as [name|]; [|injection H as <- _; exact E].
    destruct name as [|ch name]; [injection H as <- _; exact E|].
    destruct (strrchr_dot _) as [[[|off] dot]|]; try (injection H as <- _; exact E).
    destruct (negb _ && negb _); [injection H as <- _; exact E|].
    step_bind H p G. destruct p as [s2 children].
    assert (B2 : between_calls s2).
    { destruct (String.eqb dot ".wrl").
      - eapply node_get_field_between_calls; eassumption.
      - injection G as <- _. exact E. }
    destruct (_ && negb (field =? children)); [injection H as <- _; exact B2|].
    step_bind H fs D.
    destruct (negb (f_type fs =? WB_MF_NODE)).
    { destruct (negb (is_quitting s2)); injection H as <- _; exact B2. }
    destruct (_ || _); [injection H as <- _; exact B2|].
    destruct (_ && _); [injection H as <- _; exact B2|].
    step_bind H s3 I. apply IF in I; [|exact B2].
    destruct (_ >? 0); [|injection H as <- _; exact I].
    step_bind H fs2 D2. injection H as <- _. exact I.
  - (* import_mf_node_from_string *)
    unfold wb_supervisor_field_import_mf_node_from_string in H. step_bind H t E.
    destruct t as [[s1 ok] i].
    apply CF in E; [|exact B]. destruct (negb ok); [injection H as <- _; exact E|].
    step_bind H fs D.
    destruct (negb (f_type fs =? WB_MF_NODE)).
    { destruct (negb (is_quitting s1)); injection H as <- _; exact E. }
    destruct node_string as [text|]; [|injection H as <- _; exact E].
    destruct text as [|ch text]; [injection H as <- _; exact E|].
    destruct (_ || _); [injection H as <- _; exact E|].
    step_bind H s3 I. apply IF in I; [|exact E].
    destruct (_ >? 0); [|injection H as <- _; exact I].
    step_bind H fs2 D2. injection H as <- _. exact I.
  - (* import_sf_node *)
    unfold wb_supervisor_field_import_sf_node in H. step_bind H t E.
    destruct t as [[s1 ok] i].
    apply CF in E; [|exact B]. destruct (negb ok); [injection H as <- _; exact E|].
    destruct filename as [name|]; [|injection H as <- _; exact E].
    destruct name as [|ch name]; [injection H as <- _; exact E|].
    destruct (strrchr_dot _) as [[[|off] dot]|]; try (injection H as <- _; exact E).
    destruct (String.eqb dot ".wbo"); [injection H as <- _; exact E|].
    step_bind H fs D.
    destruct (negb (f_type fs =? WB_SF_NODE)).
    { destruct (negb (is_quitting s1)); injection H as <- _; exact E. }
    destruct (negb (_ =? 0)); [injection H as <- _; exact E|].
    step_bind H s3 I. apply IF in I; [|exact E].
    destruct (_ >=? 0); [|injection H as <- _; exact I].
    step_bind H fs2 D2. injection H as <- _. exact I.
  - (* import_sf_node_from_string *)
    unfold wb_supervisor_field_import_sf_node_from_string in H. step_bind H t E.
    destruct t as [[s1 ok] i].
    apply CF in E; [|exact B]. destruct (negb ok); [injection H as <- _; exact E|].
    step_bind H fs D.
    destruct (negb (f_type fs =? WB_SF_NODE)).
    { destruct (negb (is_quitting s1)); injection H as <- _; exact E. }
    destruct node_string as [text|]; [|injection H as <- _; exact E].
    destruct text as [|ch text]; [injection H as <- _; exact E|].
    destruct (negb (_ =? 0)); [injection H as <- _; exact E|].
    step_bind H s3 I. apply IF in I; [|exact E].
    destruct (_ >=? 0); [|injection H as <- _; exact I].
    step_bind H fs2 D2. injection H as <- _. exact I.
Qed.

(** C2.  Starting between two calls (no handle resolution pending, only
    [SET] requests queued) every public field operation that returns leaves
    only [SET] requests in the pending FIFO, and so does every sequence of
    them; a [GET], [IMPORT], [IMPORT_FROM_STRING] or [REMOVE] that
    [field_operation_with_data] or an import queues is flushed within the
    same call, which leaves the FIFO empty and writes one frame. *)
Theorem C2_queue_discipline :
  (forall (c : field_call) (st st' : Supervisor) (r : api_result),
      between_calls st ->
      run_field_call c st = Ok (st', r) ->
      Forall (fun q => r_type q = SET) (field_requests_list st') /\ between_calls st')
  /\ (forall (cs : list field_call) (st st' : Supervisor),
         between_calls st ->
         run_field_calls cs st = Ok st' ->
         Forall (fun q => r_type q = SET) (field_requests_list st') /\ between_calls st')
  /\ (forall (f : WbFieldRef) (action index : Z) (data : WbFieldData) (st st' : Supervisor),
         between_calls st ->
         action <> SET ->
         find_queued_set f index (field_requests_list st) = None ->
         field_operation_with_data f action index data st = Ok st' ->
         field_requests_list st' = []
         /\ exists frame, outgoing st' = outgoing st ++ [frame])
  /\ (forall (f : WbFieldRef) (action index : Z) (text : string) (st st' : Supervisor),
         between_calls st ->
         import_and_flush f action index text st = Ok st' ->
         field_requests_list st' = []
         /\ exists frame, outgoing st' = outgoing st ++ [frame]).
Proof.
  split; [|split; [|split]].
  - intros c st st' r B H.
    pose proof (run_field_call_between_calls _ _ _ _ B H) as B'.
    split; [apply B' | exact B'].
  - induction cs as [|c cs IH]; intros st st' B H; cbn [run_field_calls] in H.
    + injection H as <-. split; [apply B | exact B].
    + step_bind H p E. destruct p as [st1 r].
      apply (IH st1 st'); [|exact H].
      eapply run_field_call_between_calls; eassumption.
  - intros f action index data st st' B NS F H.
    exact (proj2 (field_operation_between_calls _ _ _ _ _ _ B H) NS F).
  - intros f action index text st st' B H.
    exact (proj2 (import_and_flush_between_calls _ _ _ _ _ _ B H)).
Qed.

(** ** One [GET] in flight *)





(** ** Removal from a multi-valued field *)

Lemma read_answer_leaves_fields (a : Answer) (st st' : Supervisor) :
  leaves_fields a = true ->
  supervisor_read_answer a st = Ok st' ->
  field_list st' = field_list st.
Proof.
  intros L H. unfold supervisor_read_answer in H. step_bind H st1 E. injection H as <-.
  cbn. destruct a; try discriminate L.
  - step_bind E st2 A. cbv zeta in E. step_bind E self D. injection E as <-. cbn.
    apply add_node_to_list_only_nodes in A as (_ & F & _). exact F.
  - destruct (negb (uid =? 0)); [|now injection E as <-].
    step_bind E st2 A. injection E as <-.
    apply add_node_to_list_only_nodes in A as (_ & F & _). exact F.
  - destruct (negb (uid =? 0) && _); [|now injection E as <-].
    step_bind E st2 A. injection E as <-.
    apply add_node_to_list_only_nodes in A as (_ & F & _). exact F.
  - now injection E as <-.
  - step_bind E nd D. now injection E as <-.
  - now injection E as <-.
Qed.

Lemma read_answers_leave_fields (frame : list Answer) :
  forall st st',
    Forall (fun a => leaves_fields a = true) frame ->
    read_answers frame st = Ok st' ->
    field_list st' = field_list st.
Proof.
  induction frame as [|a frame IH]; intros st st' L H; cbn [read_answers] in H.
  - now injection H as <-.
  - step_bind H st1 E. inversion L; subst.
    rewrite (IH _ _ ltac:(assumption) H). now apply read_answer_leaves_fields with a.
Qed.

Lemma flush_leaves_fields (st st' : Supervisor) :
  Forall (fun a => leaves_fields a = true) (hd [] (incoming st)) ->
  wb_robot_flush_unlocked st = Ok st' ->
  field_list st' = field_list st.
Proof.
  intros L H. unfold wb_robot_flush_unlocked in H. step_bind H st1 E.
  pose proof (write_request_frame _ _ E) as (_ & I & _ & F & _).
  apply read_answers_leave_fields in H; [|now rewrite I]. cbn in H. congruence.
Qed.

(** The [REMOVE] operation leaves the field registry alone when the reply
    does. *)
Lemma remove_operation_leaves_fields (f : WbFieldRef) (index : Z) (st st' : Supervisor) :
  Forall (fun a => leaves_fields a = true) (hd [] (incoming st)) ->
  field_operation f REMOVE index st = Ok st' ->
  field_list st' = field_list st.
Proof.
  intros L H. unfold field_operation, field_operation_with_data in H.
  destruct (find_queued_set f index (field_requests_list st)).
  - cbn in H. now injection H as <-.
  - cbn [REMOVE GET SET Z.eqb Pos.eqb negb orb assert bind] in H.
    step_bind H st1 C.
    apply create_and_append_inv in C as (fs & st0 & request & _ & [ds ->] & -> & _).
    step_bind H st2 FL. injection H as <-.
    apply flush_leaves_fields in FL; [exact FL | exact L].
Qed.

Lemma node_removed_reply (uid parent : Z) (name : string) (new_count : Z)
      (st st' : Supervisor) :
  supervisor_read_answer (ans_NODE_REMOVE_NODE uid parent name new_count) st = Ok st' ->
  node_list st' = remove_node_from_list uid (node_list st)
  /\ (parent < 0 -> field_list st' = field_list st)
  /\ (0 <= parent ->
      exists found,
        find_field name parent (field_list st) = Ok found
        /\ match found with
           | Some c =>
               field_list st' = update_field (fst c) (set_f_count new_count) (field_list st)
               /\ option_map f_count (field_at (fst c) (field_list st')) = Some new_count
           | None => field_list st' = field_list st
           end).
Proof.
  intros H. unfold supervisor_read_answer in H. step_bind H st1 E. injection H as <-. cbn.
  destruct (Z.geb_spec parent 0) as [G|G].
  - step_bind E found F. cbn in F.
    destruct found as [c|]; injection E as <-; cbn.
    + split; [reflexivity|]. split; [lia|]. intros _. exists (Some c).
      split; [exact F|]. split; [reflexivity|].
      rewrite field_at_update.
      assert (X : exists fs, field_at (fst c) (field_list st) = Some fs).
      { clear - F. induction (field_list st) as [|d l IH]; [discriminate|]. cbn in F |- *.
        destruct (Z.eqb_spec (fst d) (fst c)) as [A|A]; [eauto|].
        destruct (f_node_unique_id (snd d) =? parent); [|now apply IH].
        destruct (f_name (snd d)); [|discriminate].
        destruct (String.eqb name s); [|now apply IH].
        injection F as <-. contradiction. }
      destruct X as [fs ->]. reflexivity.
    + split; [reflexivity|]. split; [lia|]. intros _. exists None. now split.
  - injection E as <-. cbn. split; [reflexivity|]. split; [reflexivity | lia].
Qed.

(** ** Extension gate of the single-valued node import *)

Lemma check_field_untyped (f : WbFieldRef) (func : string) (st : Supervisor)
      (fs : WbFieldStruct) :
  field_accepted f WB_NO_FIELD false true st fs ->
  check_field f func WB_NO_FIELD false None false true st = Ok (st, true, None).
Proof. intros A. now apply check_field_plain with fs. Qed.

Lemma strrchr_dot_nonempty (name : string) (i : nat) (suffix : string) :
  strrchr_dot name = Some (i, suffix) -> exists c rest, name = String c rest.
Proof. destruct name as [|c rest]; [discriminate|]. eauto. Qed.

Lemma create_and_append_unclamped (f : WbFieldRef) (action index : Z) (data : WbFieldData)
      (st : Supervisor) (fs : WbFieldStruct) :
  deref_field f (field_list st) = Ok fs ->
  create_and_append_field_request f action index data false st
  = Ok (set_field_requests_list
          (field_requests_list st
           ++ [mkRequest action index (fst (is_string_expression (f_type fs) action)) data f])
          st).
Proof.
  intros D. unfold create_and_append_field_request. rewrite D. cbn [bind].
  now destruct (is_string_expression (f_type fs) action).
Qed.

(** C7, on the code.  [wb_supervisor_field_import_sf_node] refuses every
    file name whose extension is [.wbo], with the diagnostic that says only
    such files are supported, and queues nothing; a file name with another
    extension gets past the gate: for an empty [WB_SF_NODE] field the call
    appends an [IMPORT] request that carries the file name and flushes. *)
Theorem C7_import_sf_node_gate (field : WbFieldRef) (name : string) (off : nat)
        (dot : string) (st : Supervisor) (fs : WbFieldStruct) :
  field_accepted field WB_NO_FIELD false true st fs ->
  strrchr_dot name = Some (S off, dot) ->
  (dot = ".wbo" ->
   wb_supervisor_field_import_sf_node field (Some name) st
   = Ok (fprintf_stderr "Error: %s() supports only '*.wbo' files.\n"
                        [a_str "wb_supervisor_field_import_sf_node"] st, ret_void))
  /\ (dot <> ".wbo" ->
      f_type fs = WB_SF_NODE ->
      get_sf_node_uid (f_data fs) = 0 ->
      wb_supervisor_field_import_sf_node field (Some name) st
      = (st1 <- wb_robot_flush_unlocked
                  (set_imported_nodes_number (-1)
                     (set_field_requests_list
                        (field_requests_list st
                         ++ [mkRequest IMPORT (-1) false (sf_string (Some name)) field])
                        st)) ;;
         if imported_nodes_number st1 >=? 0 then
           _ <- deref_field field (field_list st1) ;;
           Ok (store_field field (set_f_data (sf_node_uid (imported_nodes_number st1))) st1,
               ret_void)
         else Ok (st1, ret_void))).
Proof.
  intros A S. pose proof A as (_ & _ & _ & D & _).
  destruct (strrchr_dot_nonempty _ _ _ S) as (c & rest & ->).
  unfold wb_supervisor_field_import_sf_node.
  rewrite (check_field_untyped _ _ _ _ A). cbn [bind negb]. rewrite S. split.
  - intros ->. reflexivity.
  - intros N T U. rewrite (proj2 (String.eqb_neq _ _) N), D. cbn [bind].
    rewrite T, U. cbn [Z.eqb negb]. unfold import_and_flush.
    rewrite (create_and_append_unclamped _ _ _ _ _ _ D), T. reflexivity.
Qed.

(** ** A [NULL] field *)

Lemma check_field_null (func : string) (type : Z) (check_type : bool) (index : option Z)
      (is_importing check_type_internal : bool) (st : Supervisor) :
  is_supervisor st = true ->
  check_field NULL func type check_type index is_importing check_type_internal st
  = Ok (if is_quitting st then st else set_stderr (stderr st ++ [null_field_line func]) st,
        false, index).
Proof.
  intros S. unfold check_field, robot_check_supervisor. rewrite S. cbn.
  now destruct (is_quitting st).
Qed.

(** C9, as the code has it.  In a supervisor controller, every public field
    operation that starts with [check_field], called with a [NULL] field,
    returns its sentinel and changes nothing but stderr, where it prints
    the one line about the [NULL] field unless the robot is quitting, in
    which case it prints nothing. *)
Theorem C9_null_field (c : field_call) (st : Supervisor) :
  is_supervisor st = true ->
  call_field c = NULL ->
  reads_before_check c = false ->
  run_field_call c st
  = Ok (if is_quitting st then st
        else set_stderr (stderr st ++ [null_field_line (call_name c)]) st,
        call_sentinel c).
Proof.
  intros S N R.
  destruct c; cbn [call_field] in N; subst; try discriminate R;
    cbn [run_field_call call_name call_sentinel];
    unfold wb_supervisor_field_get_type, wb_supervisor_field_get_count,
      wb_supervisor_field_get_type_name, wb_supervisor_field_get_sf,
      wb_supervisor_field_get_mf, wb_supervisor_field_set_sf, wb_supervisor_field_set_mf,
      wb_supervisor_field_insert_mf, wb_supervisor_field_import_mf_node,
      wb_supervisor_field_import_mf_node_from_string, wb_supervisor_field_import_sf_node,
      wb_supervisor_field_import_sf_node_from_string;
    rewrite (check_field_null _ _ _ _ _ _ _ S); reflexivity.
Qed.

(** The two removals read through the pointer first: on [NULL] they crash
    before any diagnostic. *)
Lemma remove_of_null_crashes (index : Z) (st : Supervisor) :
  wb_supervisor_field_remove_mf NULL index st = Crash invalid_pointer
  /\ wb_supervisor_field_remove_mf_node NULL index st = Crash invalid_pointer
  /\ wb_supervisor_field_remove_sf NULL st = Crash invalid_pointer.
Proof. repeat split. Qed.

(** ** Contact-point cache *)

Lemma doubles_no_contact (l : list double) : asks_contact_points (map w_double l) = false.
Proof. induction l; [reflexivity | assumption]. Qed.

Lemma write_field_request_no_contact (f : WbFieldStruct) (r : WbFieldRequest)
      (items : list wire_item) :
  write_field_request f r = Ok items -> asks_contact_points items = false.
Proof.
  assert (P1 : forall t d l, write_set_payload t d = Ok l -> asks_contact_points l = false).
  { intros t d l H. unfold write_set_payload in H.
    repeat match type of H with
           | (if ?b then _ else _) = _ => destruct b
           | match ?x with _ => _ end = _ => destruct x
           end;
      try discriminate; injection H as <-; auto using doubles_no_contact. }
  assert (P2 : forall s l, write_string s = Ok l -> asks_contact_points l = false).
  { intros [s|] l H; [injection H as <-; reflexivity | discriminate]. }
  assert (P3 : forall t d l, write_import_payload t d = Ok l -> asks_contact_points l = false).
  { intros t d l H. unfold write_import_payload in H.
    repeat match type of H with
           | (if ?b then _ else _) = _ => destruct b
           end;
      try discriminate; try (injection H as <-; auto using doubles_no_contact);
      eapply P2; eassumption. }
  unfold write_field_request, asks_contact_points. intros H.
  destruct (r_type r =? GET).
  { injection H as <-. cbn. destruct (negb _); reflexivity. }
  destruct (r_type r =? SET).
  { step_bind H l E. injection H as <-. cbn. eapply P1; eassumption. }
  destruct (r_type r =? IMPORT).
  { step_bind H l E. injection H as <-. cbn. eapply P3; eassumption. }
  destruct (r_type r =? IMPORT_FROM_STRING).
  { step_bind H l E. injection H as <-. cbn. eapply P2; eassumption. }
  destruct (r_type r =? REMOVE); [|discriminate].
  injection H as <-. reflexivity.
Qed.

Lemma drain_requests_no_contact (fl : field_store) (chain : list WbFieldRequest) :
  forall buf garbage sent buf' garbage' sent',
    drain_requests fl chain buf garbage sent = Ok (buf', garbage', sent') ->
    asks_contact_points buf = false ->
    asks_contact_points buf' = false.
Proof.
  induction chain as [|r rest IH]; intros buf garbage sent buf' garbage' sent' H B.
  - injection H as <- _ _. exact B.
  - cbn [drain_requests] in H. step_bind H f D. step_bind H items W.
    apply write_field_request_no_contact in W.
    assert (B2 : asks_contact_points (buf ++ items) = false).
    { unfold asks_contact_points in *. rewrite existsb_app, B, W. reflexivity. }
    destruct (negb (r_type r =? GET)); [now apply IH in H|].
    step_bind H u A. now apply IH in H.
Qed.

(** The frame the serializer writes: it ends with the contact-point request
    when the slot is set, and carries none otherwise. *)
Lemma write_request_contact (st st' : Supervisor) :
  supervisor_write_request st = Ok st' ->
  exists buf,
    asks_contact_points buf = false
    /\ if contact_points_node_ref st =? NULL
       then outgoing st' = outgoing st ++ [buf]
       else exists n,
           deref_node (contact_points_node_ref st) (node_list st) = Ok n
           /\ outgoing st' = outgoing st
                             ++ [buf ++ contact_request
                                          (n_id n) (contact_points_include_descendants st)].
Proof.
  intros H. unfold supervisor_write_request in H.
  match type of H with
  | bind ?c _ = _ => destruct c as [[buf st1]|] eqn:E; [|discriminate]
  end.
  cbn [bind] in H.
  assert (S : asks_contact_points buf = false
              /\ contact_points_node_ref st1 = contact_points_node_ref st
              /\ node_list st1 = node_list st
              /\ contact_points_include_descendants st1
                 = contact_points_include_descendants st
              /\ outgoing st1 = outgoing st).
  { destruct (node_id st >=? 0); [injection E as <- <-; now repeat split|].
    destruct (node_def_name st); [injection E as <- <-; now repeat split|].
    destruct (node_tag st >? 0); [injection E as <- <-; now repeat split|].
    destruct (node_get_selected st); [injection E as <- <-; now repeat split|].
    destruct (requested_field_name st); [injection E as <- <-; now repeat split|].
    match type of E with
    | bind ?c _ = _ => destruct c as [[[b g] s]|] eqn:D; [|discriminate]
    end.
    cbn [bind] in E. injection E as <- <-.
    apply drain_requests_no_contact in D; [|reflexivity]. now repeat split. }
  destruct S as (B & S1 & S2 & S3 & S4). rewrite S1, S2, S3, S4 in H.
  exists buf. split; [exact B|].
  destruct (contact_points_node_ref st =? NULL).
  - cbn [bind] in H. injection H as <-. cbn. now rewrite app_nil_r.
  - destruct (deref_node (contact_points_node_ref st) (node_list st)) as [n|] eqn:D;
      [|discriminate].
    cbn [bind] in H. injection H as <-. exists n. split; reflexivity.
Qed.

Lemma read_answers_outgoing (frame : list Answer) (st st' : Supervisor) :
  read_answers frame st = Ok st' -> outgoing st' = outgoing st.
Proof. intros H. now apply read_answers_frame in H as ((_ & _ & O & _) & _). Qed.

Lemma flush_contact (st st' : Supervisor) :
  wb_robot_flush_unlocked st = Ok st' ->
  exists buf,
    asks_contact_points buf = false
    /\ if contact_points_node_ref st =? NULL
       then outgoing st' = outgoing st ++ [buf]
       else exists n,
           deref_node (contact_points_node_ref st) (node_list st) = Ok n
           /\ outgoing st' = outgoing st
                             ++ [buf ++ contact_request
                                          (n_id n) (contact_points_include_descendants st)].
Proof.
  unfold wb_robot_flush_unlocked. intros H. step_bind H st1 W.
  apply read_answers_outgoing in H. cbn in H. rewrite H.
  now apply write_request_contact.
Qed.

Lemma node_in_list_at (node : WbNodeRef) (l : node_store) :
  node_in_list node l = true -> exists n, node_at node l = Some n.
Proof.
  induction l as [|c l IH]; [discriminate|]. cbn.
  destruct (fst c =? node); [eauto | exact IH].
Qed.

Lemma node_at_update (node : WbNodeRef) (g : WbNodeStruct -> WbNodeStruct) (l : node_store) :
  node_at node (update_node node g l) = option_map g (node_at node l).
Proof.
  induction l as [|c l IH]; [reflexivity|]. cbn.
  destruct (Z.eqb_spec (fst c) node) as [E|E]; cbn.
  - now rewrite (proj2 (Z.eqb_eq _ _) E).
  - now rewrite (proj2 (Z.eqb_neq _ _) E).
Qed.

Lemma deref_node_store (node : WbNodeRef) (g : WbNodeStruct -> WbNodeStruct) (st : Supervisor)
      (n : WbNodeStruct) :
  deref_node node (node_list st) = Ok n ->
  deref_node node (node_list (store_node node g st)) = Ok (g n).
Proof.
  unfold deref_node. destruct (node =? NULL); [discriminate|]. cbn.
  rewrite node_at_update. destruct (node_at node (node_list st)); [|discriminate].
  intros H. now injection H as <-.
Qed.

(** The refresh: the time stamp is set, and the flush writes a frame that
    ends with the contact-point request for the node. *)
Lemma refresh_contact_points_frame (node : WbNodeRef) (st st' : Supervisor)
      (n : WbNodeStruct) :
  node <> NULL ->
  deref_node node (node_list st) = Ok n ->
  refresh_contact_points node st = Ok st' ->
  exists buf,
    asks_contact_points buf = false
    /\ outgoing st' = outgoing st
                      ++ [buf ++ contact_request
                                   (n_id n) (contact_points_include_descendants st)].
Proof.
  intros N D H. unfold refresh_contact_points in H. step_bind H st1 F.
  injection H as <-. apply flush_contact in F as (buf & B & O). cbn in O.
  rewrite (proj2 (Z.eqb_neq _ _) N) in O. destruct O as (n' & D' & O).
  rewrite D in D'. injection D' as <-. exists buf. split; [exact B|]. exact O.
Qed.

(** *** Time stamps survive a flush *)

Lemma stamps_kept_refl (bound : Z) (l : node_store) : stamps_kept bound l l.
Proof. intros a n H _. now exists n. Qed.

Lemma stamps_kept_trans (bound : Z) (l1 l2 l3 : node_store) :
  stamps_kept bound l1 l2 -> stamps_kept bound l2 l3 -> stamps_kept bound l1 l3.
Proof.
  intros H1 H2 a n3 I3 B. destruct (H2 a n3 I3 B) as (n2 & I2 & E2).
  destruct (H1 a n2 I2 B) as (n1 & I1 & E1). exists n1. split; [exact I1 | congruence].
Qed.

Lemma cache_kept_refl (st : Supervisor) : cache_kept st st.
Proof. repeat split; [lia | intros; apply stamps_kept_refl]. Qed.

Lemma cache_kept_trans (a b c : Supervisor) : cache_kept a b -> cache_kept b c -> cache_kept a c.
Proof.
  intros (T1 & N1 & K1) (T2 & N2 & K2). repeat split; [congruence | lia |].
  intros bound B. eapply stamps_kept_trans; [apply K1 | apply K2]; lia.
Qed.

Lemma cache_kept_same (a b : Supervisor) :
  robot_time b = robot_time a ->
  next_alloc a <= next_alloc b ->
  node_list b = node_list a ->
  cache_kept a b.
Proof.
  intros T N L. repeat split; [exact T | exact N |]. intros bound _. rewrite L.
  apply stamps_kept_refl.
Qed.

(** Closes [cache_kept] between a state and setters that leave the node
    registry and the clock alone. *)
Ltac cache_untouched := apply cache_kept_same; cbn; (reflexivity || lia).

Lemma stamps_kept_sublist (bound : Z) (l l' : node_store) :
  (forall c, In c l' -> In c l) -> stamps_kept bound l l'.
Proof. intros S a n H _. exists n. split; [now apply S | reflexivity]. Qed.

Lemma stamps_kept_update (bound : Z) (p : WbNodeRef) (g : WbNodeStruct -> WbNodeStruct)
      (l : node_store) :
  (forall n, n_contact_points_time_stamp (g n) = n_contact_points_time_stamp n) ->
  stamps_kept bound l (update_node p g l).
Proof.
  intros G. induction l as [|c l IH]; [intros a n []|].
  cbn [update_node]. destruct (fst c =? p).
  - intros a n [E|I] B.
    + injection E as <- <-. exists (snd c). split; [left; now destruct c | apply G].
    + exists n. split; [now right | reflexivity].
  - intros a n [E|I] B.
    + exists n. split; [now left | reflexivity].
    + destruct (IH a n I B) as (n0 & I0 & E0). exists n0. split; [now right | exact E0].
Qed.

Lemma unlink_next_sublist (uid : Z) (l : node_store) (c : WbNodeRef * WbNodeStruct) :
  In c (unlink_next uid l) -> In c l.
Proof.
  induction l as [|prev tl IH]; [intros []|]. cbn [unlink_next].
  destruct tl as [|nxt rest]; [exact (fun H => H)|].
  destruct (n_id (snd nxt) =? uid).
  - intros [E|I]; [now left | right; now right].
  - intros [E|I]; [now left | right; now apply IH].
Qed.

Lemma stamps_kept_remove (bound uid : Z) (l : node_store) :
  stamps_kept bound l (remove_node_from_list uid l).
Proof.
  unfold remove_node_from_list.
  set (unlinked := match find_node_by_id uid l with Some _ => _ | None => _ end).
  assert (S : forall c, In c unlinked -> In c l).
  { subst unlinked. destruct (find_node_by_id uid l); [|exact (fun c H => H)].
    destruct l as [|hd tl]; [exact (fun c H => H)|].
    destruct (fst hd =? fst p).
    - intros c H. now right.
    - intros c. apply unlink_next_sublist. }
  intros a n H _. apply in_map_iff in H as (c & E & I). apply S in I.
  unfold orphan in E. destruct (n_parent_id (snd c) =? uid).
  - injection E as <- <-. exists (snd c). split; [now destruct c | reflexivity].
  - subst c. exists n. split; [exact I | reflexivity].
Qed.

Lemma add_node_to_list_cache_kept (uid type : Z) (model_name def_name : option string)
      (tag parent_id : Z) (is_proto : bool) (st st' : Supervisor) :
  add_node_to_list uid type model_name def_name tag parent_id is_proto st = Ok st' ->
  cache_kept st st'.
Proof.
  unfold add_node_to_list. intros H.
  destruct (find_node_by_id uid (node_list st)) as [c|].
  - destruct def_name as [d|]; [|injection H as <-; apply cache_kept_refl].
    destruct (n_def_name (snd c)); [|discriminate].
    destruct (String.eqb s d); injection H as <-; [apply cache_kept_refl|].
    repeat split; [cbn; lia|]. intros bound _. cbn. now apply stamps_kept_update.
  - injection H as <-. repeat split; [cbn; lia|]. intros bound B a n [E|I] A; cbn in *.
    + injection E as E _. lia.
    + now exists n.
Qed.

Lemma read_answer_cache_kept (a : Answer) (st st' : Supervisor) :
  supervisor_read_answer a st = Ok st' -> cache_kept st st'.
Proof.
  unfold supervisor_read_answer. intros H0. step_bind H0 st1 H. injection H0 as <-.
  enough (G : cache_kept st st1).
  { eapply cache_kept_trans; [exact G | cache_untouched]. }
  destruct a.
  - step_bind H st2 A. cbv zeta in H. step_bind H self D. injection H as <-.
    apply add_node_to_list_cache_kept in A.
    eapply cache_kept_trans; [exact A|].
    repeat split; [cbn; lia|]. intros bound _. cbn. now apply stamps_kept_update.
  - destruct (negb (uid =? 0)); [|injection H as <-; apply cache_kept_refl].
    step_bind H st2 A. injection H as <-. apply add_node_to_list_cache_kept in A.
    eapply cache_kept_trans; [exact A | cache_untouched].
  - destruct (negb (uid =? 0) && _); [|injection H as <-; apply cache_kept_refl].
    step_bind H st2 A. injection H as <-. apply add_node_to_list_cache_kept in A.
    eapply cache_kept_trans; [exact A | cache_untouched].
  - destruct (field_ref =? -1); injection H as <-; cache_untouched.
  - destruct (sent_field_get_request st) as [sent|]; [|discriminate].
    step_bind H st2 E. injection H as <-.
    enough (G : cache_kept st st2).
    { eapply cache_kept_trans; [exact G | cache_untouched]. }
    destruct (negb (field_type =? 0)); [|injection E as <-; apply cache_kept_refl].
    step_bind E f Ef. destruct (_ || _) in E.
    + destruct (negb (get_sf_node_uid value =? 0)).
      * apply add_node_to_list_cache_kept in E.
        eapply cache_kept_trans; [|exact E]. unfold store_field. cache_untouched.
      * injection E as <-. unfold store_field. cache_untouched.
    + step_bind E d Ed. injection E as <-. unfold store_field. cache_untouched.
  - injection H as <-. repeat split; [cbn; lia|]. intros bound _. cbn.
    apply stamps_kept_sublist. intros c I. now apply filter_In in I.
  - injection H as <-. cache_untouched.
  - assert (R : cache_kept st (set_node_list (remove_node_from_list uid (node_list st)) st)).
    { repeat split; [cbn; lia|]. intros bound _. cbn. apply stamps_kept_remove. }
    destruct (parent_node_unique_id >=? 0); [|injection H as <-; exact R].
    step_bind H found F. destruct found; injection H as <-; [|exact R].
    eapply cache_kept_trans; [exact R |]. unfold store_field. cache_untouched.
  - step_bind H nd D. injection H as <-. repeat split; [cbn; lia|]. intros bound _. cbn.
    apply stamps_kept_update. intros x. now destruct (n >? 0).
  - injection H as <-. apply cache_kept_refl.
Qed.

Lemma flush_cache_kept (st st' : Supervisor) :
  wb_robot_flush_unlocked st = Ok st' -> cache_kept st st'.
Proof.
  unfold wb_robot_flush_unlocked. intros H. step_bind H st1 W.
  pose proof (write_request_frame _ _ W) as ((_ & _ & T & _) & _ & A & _ & N & _).
  assert (G : forall frame s s', read_answers frame s = Ok s' -> cache_kept s s').
  { induction frame as [|a frame IH]; intros s s' R; cbn [read_answers] in R.
    - injection R as <-. apply cache_kept_refl.
    - step_bind R s1 E. apply read_answer_cache_kept in E.
      eapply cache_kept_trans; [exact E | now apply IH]. }
  apply G in H. destruct H as (T2 & A2 & K2). cbn in T2, A2, K2.
  repeat split; [congruence | lia |]. intros bound B. rewrite <- N. apply K2. lia.
Qed.

Lemma dbl_gt_irrefl (t : double) : dbl_gt t t = false.
Proof.
  unfold dbl_gt, SFltb, SFcompare. destruct t as [s|s| |s m e]; try destruct s; try reflexivity.
  - rewrite Z.compare_refl, Pos.compare_cont_refl. reflexivity.
  - rewrite Z.compare_refl, Pos.compare_cont_refl. reflexivity.
Qed.

Lemma node_at_in (node : WbNodeRef) (l : node_store) (n : WbNodeStruct) :
  node_at node l = Some n -> In (node, n) l.
Proof.
  induction l as [|c l IH]; [discriminate|]. cbn.
  destruct (Z.eqb_spec (fst c) node) as [E|E].
  - intros H. injection H as <-. left. destruct c. cbn in E. now subst.
  - intros H. right. now apply IH.
Qed.

Lemma deref_node_at (node : WbNodeRef) (l : node_store) (n : WbNodeStruct) :
  deref_node node l = Ok n -> node_at node l = Some n.
Proof.
  unfold deref_node. destruct (node =? NULL); [discriminate|].
  destruct (node_at node l); [|discriminate]. intros H. now injection H as <-.
Qed.

Lemma same_address_same_cell (l : node_store) (a : WbNodeRef) (n1 n2 : WbNodeStruct) :
  NoDup (map fst l) -> In (a, n1) l -> In (a, n2) l -> n1 = n2.
Proof.
  induction l as [|c l IH]; [intros _ []|]. cbn. intros ND [E1|I1] [E2|I2].
  - congruence.
  - exfalso. inversion ND as [|x xs X _]; subst. apply X. cbn.
    change a with (fst (a, n2)). now apply in_map.
  - exfalso. inversion ND as [|x xs X _]; subst. apply X. cbn.
    change a with (fst (a, n1)). now apply in_map.
  - inversion ND; subst. now apply IH.
Qed.

Lemma update_node_addresses (p : WbNodeRef) (g : WbNodeStruct -> WbNodeStruct)
      (l : node_store) :
  map fst (update_node p g l) = map fst l.
Proof.
  induction l as [|c l IH]; [reflexivity|]. cbn [update_node].
  destruct (fst c =? p); cbn; [reflexivity | now rewrite IH].
Qed.

Lemma node_heap_ok_store (node : WbNodeRef) (g : WbNodeStruct -> WbNodeStruct)
      (st : Supervisor) :
  node_heap_ok st -> node_heap_ok (store_node node g st).
Proof.
  intros (ND & B). split; cbn.
  - now rewrite update_node_addresses.
  - rewrite Forall_forall in *. intros c I.
    assert (A : In (fst c) (map fst (update_node node g (node_list st))))
      by now apply in_map.
    rewrite update_node_addresses in A. apply in_map_iff in A as (d & E & Id).
    rewrite <- E. now apply B.
Qed.

Lemma update_node_ids (p : WbNodeRef) (g : WbNodeStruct -> WbNodeStruct) (l : node_store) :
  (forall n, n_id (g n) = n_id n) ->
  node_ids (update_node p g l) = node_ids l.
Proof.
  intros G. unfold node_ids.
  induction l as [|c l IH]; [reflexivity|]. cbn [update_node].
  destruct (fst c =? p); cbn; [now rewrite G | now rewrite IH].
Qed.

(** The registry stays well formed when [add_node_to_list] runs: a new
    cell gets a fresh address and an id the registry did not hold. *)
Lemma add_node_to_list_well_formed (uid type : Z) (model_name def_name : option string)
      (tag parent_id : Z) (is_proto : bool) (st st' : Supervisor) :
  node_heap_ok st ->
  registry_ok (node_list st) ->
  add_node_to_list uid type model_name def_name tag parent_id is_proto st = Ok st' ->
  node_heap_ok st' /\ registry_ok (node_list st').
Proof.
  intros HO RO H. unfold add_node_to_list in H.
  destruct (find_node_by_id uid (node_list st)) as [c|] eqn:F.
  - destruct def_name as [d|]; [|injection H as <-; now split].
    destruct (n_def_name (snd c)); [|discriminate].
    destruct (String.eqb s d); injection H as <-; [now split|].
    split; [exact (node_heap_ok_store _ _ _ HO)|].
    destruct RO as (A & I). split; cbn.
    + now rewrite update_node_addresses.
    + now rewrite update_node_ids.
  - injection H as <-. destruct HO as (ND & B), RO as (_ & I).
    apply find_node_by_id_none in F.
    assert (Fresh : ~ In (next_alloc st) (map fst (node_list st))).
    { intros X. apply in_map_iff in X as (c & E & Ic).
      rewrite Forall_forall in B. specialize (B _ Ic). cbv beta in B.
      unfold WbNodeRef in *. lia. }
    split; [split|split]; cbn.
    + now constructor.
    + constructor; [cbn; lia|]. rewrite Forall_forall in *. intros c Ic.
      specialize (B _ Ic). cbv beta in B. lia.
    + now constructor.
    + now constructor.
Qed.

(** The time stamp of a node that is still live is the one it had. *)
Lemma stamp_same (node : WbNodeRef) (st st' : Supervisor) (n n' : WbNodeStruct) :
  node_heap_ok st ->
  deref_node node (node_list st) = Ok n ->
  cache_kept st st' ->
  deref_node node (node_list st') = Ok n' ->
  n_contact_points_time_stamp n' = n_contact_points_time_stamp n.
Proof.
  intros (ND & B) D (_ & _ & K) D'.
  apply deref_node_at in D, D'. apply node_at_in in D, D'.
  assert (Ba : node < next_alloc st).
  { rewrite Forall_forall in B. exact (B _ D). }
  destruct (K (next_alloc st) ltac:(lia) node n' D' Ba) as (n0 & I0 & E0).
  now rewrite E0, (same_address_same_cell _ _ _ _ ND I0 D).
Qed.

Lemma refresh_cache_kept (node : WbNodeRef) (st st' : Supervisor) :
  refresh_contact_points node st = Ok st' -> cache_kept st st'.
Proof.
  unfold refresh_contact_points. intros H. step_bind H st1 F. injection H as <-.
  apply flush_cache_kept in F.
  eapply cache_kept_trans; [|eapply cache_kept_trans; [exact F|]]; cache_untouched.
Qed.

Lemma lookup_cache_kept (node : WbNodeRef) (index : Z) (st st' : Supervisor)
      (result : WbNodeRef) :
  contact_point_node_lookup node index st = Ok (st', result) -> cache_kept st st'.
Proof.
  unfold contact_point_node_lookup. intros H. step_bind H n D.
  destruct (n_contact_points n); [|injection H as <- _; apply cache_kept_refl].
  destruct (n_number_of_contact_points n) as [k|]; [|discriminate].
  destruct (index >=? k); [injection H as <- _; apply cache_kept_refl|].
  destruct (n_node_id_per_contact_points n) as [ids|]; [|discriminate].
  destruct (index <? 0); [discriminate|].
  destruct (nth_error ids (Z.to_nat index)) as [id|]; [|discriminate].
  step_bind H p G. destruct p as [st1 res]. injection H as <- _.
  unfold node_get_from_id in G. cbn [node_list] in G.
  destruct (find_node_by_id id _); [injection G as <- _; cache_untouched|].
  step_bind G st2 F. injection G as <- _. apply flush_cache_kept in F.
  eapply cache_kept_trans; [|eapply cache_kept_trans; [exact F|]]; cache_untouched.
Qed.

(** After a refresh at time [t] the node, if it is still live, carries the
    stamp [t]. *)
Lemma refreshed_is_fresh (node : WbNodeRef) (st st1 st' : Supervisor) (n : WbNodeStruct) :
  node_heap_ok st ->
  deref_node node (node_list st) = Ok n ->
  cache_kept (store_node node (set_n_contact_points_time_stamp (robot_time st)) st) st1 ->
  cache_kept st1 st' ->
  still_fresh node st'.
Proof.
  intros HO D K1 K2 n' D'.
  pose proof (cache_kept_trans _ _ _ K1 K2) as K.
  rewrite (stamp_same node _ st' _ n' (node_heap_ok_store _ _ _ HO)
             (deref_node_store _ _ _ _ D) K D').
  destruct K as (T & _). rewrite T. cbn. apply dbl_gt_irrefl.
Qed.

Lemma contact_point_node_lookup_frames (node : WbNodeRef) (index : Z) (st st' : Supervisor)
      (result : WbNodeRef) :
  contact_points_node_ref st = NULL ->
  contact_point_node_lookup node index st = Ok (st', result) ->
  exists frames,
    outgoing st' = outgoing st ++ frames
    /\ (List.length frames <= 1)%nat
    /\ Forall (fun frame => asks_contact_points frame = false) frames.
Proof.
  intros C H.
  assert (Z0 : forall s, s = st' -> outgoing s = outgoing st ->
                         exists frames,
                           outgoing s = outgoing st ++ frames
                           /\ (List.length frames <= 1)%nat
                           /\ Forall (fun frame => asks_contact_points frame = false) frames).
  { intros s _ E. exists []. rewrite app_nil_r. repeat split; [exact E | cbn; lia | constructor]. }
  unfold contact_point_node_lookup in H. step_bind H n D.
  destruct (n_contact_points n); [|injection H as <- _; now apply Z0].
  destruct (n_number_of_contact_points n) as [k|]; [|discriminate].
  destruct (index >=? k); [injection H as <- _; now apply Z0|].
  destruct (n_node_id_per_contact_points n) as [ids|]; [|discriminate].
  destruct (index <? 0); [discriminate|].
  destruct (nth_error ids (Z.to_nat index)) as [id|]; [|discriminate].
  step_bind H p G. destruct p as [st1 res]. injection H as <- _.
  unfold node_get_from_id in G. cbn [node_list] in G.
  destruct (find_node_by_id id _); [injection G as <- _; now apply Z0|].
  step_bind G st2 F. injection G as <- _.
  apply flush_contact in F as (buf & B & O). cbn in O. rewrite C in O. cbn in O.
  exists [buf]. cbn. repeat split; [exact O | lia | constructor; [exact B | constructor]].
Qed.

Lemma node_accepted_checks (node : WbNodeRef) (func : string) (st : Supervisor)
      (n : WbNodeStruct) :
  node_accepted node st n ->
  robot_check_supervisor func st = (st, true)
  /\ negb (is_node_ref_valid node (node_list st)) = false
  /\ node <> NULL.
Proof.
  intros (S & V & D). unfold robot_check_supervisor. rewrite S, V. repeat split.
  intros ->. discriminate V.
Qed.

(** C8, as the code has it.  For a node the entry points accept, with [t]
    the simulation time: when [t] is not strictly greater than the stored
    time stamp, [wb_supervisor_node_get_number_of_contact_points] and
    [wb_supervisor_node_get_contact_point] return the cached data and leave
    the whole state as it was, so nothing is written, and
    [wb_supervisor_node_get_contact_point_node] writes no contact-point
    request, though it may flush once to resolve the handle of the node in
    contact; when [t] is strictly greater, each of the three writes a frame
    that ends with the contact-point request for the node.  In both cases,
    when the call returns the node, if it is still in the registry, is
    fresh for the current simulation time: a further query at the same
    time refreshes nothing. *)
Theorem C8_contact_point_freshness (node : WbNodeRef) (st : Supervisor) (n : WbNodeStruct) :
  node_accepted node st n ->
  (dbl_gt (robot_time st) (n_contact_points_time_stamp n) = false ->
   (forall include_descendants,
       wb_supervisor_node_get_number_of_contact_points node include_descendants st
       = match n_number_of_contact_points n with
         | Some k => Ok (st, k)
         | None => Crash uninitialised_read
         end)
   /\ (forall index,
          wb_supervisor_node_get_contact_point node index st
          = (p <- contact_point_at n index ;; Ok (st, p)))
   /\ (forall index st' result,
          contact_points_node_ref st = NULL ->
          wb_supervisor_node_get_contact_point_node node index st = Ok (st', result) ->
          exists frames,
            outgoing st' = outgoing st ++ frames
            /\ (List.length frames <= 1)%nat
            /\ Forall (fun frame => asks_contact_points frame = false) frames))
  /\ (dbl_gt (robot_time st) (n_contact_points_time_stamp n) = true ->
      (forall include_descendants st' k,
          wb_supervisor_node_get_number_of_contact_points node include_descendants st
          = Ok (st', k) ->
          exists buf,
            asks_contact_points buf = false
            /\ outgoing st'
               = outgoing st ++ [buf ++ contact_request (n_id n) include_descendants])
      /\ (forall index st' p,
             wb_supervisor_node_get_contact_point node index st = Ok (st', p) ->
             exists buf,
               asks_contact_points buf = false
               /\ outgoing st'
                  = outgoing st
                    ++ [buf ++ contact_request (n_id n)
                                 (contact_points_include_descendants st)])
      /\ (forall index st' result,
             wb_supervisor_node_get_contact_point_node node index st = Ok (st', result) ->
             exists buf frames,
               asks_contact_points buf = false
               /\ outgoing st'
                  = outgoing st
                    ++ (buf ++ contact_request (n_id n)
                                 (contact_points_include_descendants st)) :: frames
               /\ (List.length frames <= 1)%nat
               /\ Forall (fun frame => asks_contact_points frame = false) frames))
  /\ (node_heap_ok st ->
      (forall include_descendants st' k,
          wb_supervisor_node_get_number_of_contact_points node include_descendants st
          = Ok (st', k) ->
          robot_time st' = robot_time st /\ still_fresh node st')
      /\ (forall index st' p,
             wb_supervisor_node_get_contact_point node index st = Ok (st', p) ->
             robot_time st' = robot_time st /\ still_fresh node st')
      /\ (forall index st' result,
             wb_supervisor_node_get_contact_point_node node index st = Ok (st', result) ->
             robot_time st' = robot_time st /\ still_fresh node st')).
Proof.
  intros A. pose proof A as (S & V & D).
  split; [|split].
  - intros Fresh. split; [|split].
    + intros incl. unfold wb_supervisor_node_get_number_of_contact_points.
      destruct (node_accepted_checks _ "wb_supervisor_node_get_number_of_contact_points" _ _ A)
        as (-> & -> & _).
      cbn [negb]. rewrite D. cbn [bind]. rewrite Fresh. reflexivity.
    + intros index. unfold wb_supervisor_node_get_contact_point.
      destruct (node_accepted_checks _ "wb_supervisor_node_get_contact_point" _ _ A)
        as (-> & -> & _).
      cbn [negb]. rewrite D. cbn [bind]. rewrite Fresh. reflexivity.
    + intros index st' result C H. unfold wb_supervisor_node_get_contact_point_node in H.
      destruct (node_accepted_checks _ "wb_supervisor_node_get_contact_point_node" _ _ A)
        as (R & V' & _).
      rewrite R in H. cbn [negb] in H. rewrite V', D in H. cbn [bind] in H.
      rewrite Fresh in H. cbn [bind] in H.
      now apply contact_point_node_lookup_frames with node index result.
  - intros Stale. split; [|split].
    + intros incl st' k H. unfold wb_supervisor_node_get_number_of_contact_points in H.
      destruct (node_accepted_checks _ "wb_supervisor_node_get_number_of_contact_points" _ _ A)
        as (R & V' & N).
      rewrite R in H. cbn [negb] in H. rewrite V', D in H. cbn [bind] in H.
      rewrite Stale in H. step_bind H st1 F.
      eapply refresh_contact_points_frame in F as (buf & B & O); [|exact N|].
      2:{ apply (deref_node_store node (set_n_contact_points_time_stamp (robot_time st))
                   _ _ D). }
      exists buf. split; [exact B|].
      step_bind H n1 D1. destruct (n_number_of_contact_points n1); [|discriminate].
      injection H as <- _. exact O.
    + intros index st' p H. unfold wb_supervisor_node_get_contact_point in H.
      destruct (node_accepted_checks _ "wb_supervisor_node_get_contact_point" _ _ A)
        as (R & V' & N).
      rewrite R in H. cbn [negb] in H. rewrite V', D in H. cbn [bind] in H.
      rewrite Stale in H. step_bind H st1 F.
      eapply refresh_contact_points_frame in F as (buf & B & O); [|exact N|].
      2:{ apply (deref_node_store node (set_n_contact_points_time_stamp (robot_time st))
                   _ _ D). }
      exists buf. split; [exact B|].
      step_bind H n1 D1. step_bind H q Q. injection H as <- _. exact O.
    + intros index st' result H. unfold wb_supervisor_node_get_contact_point_node in H.
      destruct (node_accepted_checks _ "wb_supervisor_node_get_contact_point_node" _ _ A)
        as (R & V' & N).
      rewrite R in H. cbn [negb] in H. rewrite V', D in H. cbn [bind] in H.
      rewrite Stale in H. step_bind H st1 F.
      assert (C1 : contact_points_node_ref st1 = NULL).
      { unfold refresh_contact_points in F. step_bind F st2 F2. now injection F as <-. }
      eapply refresh_contact_points_frame in F as (buf & B & O); [|exact N|].
      2:{ apply (deref_node_store node (set_n_contact_points_time_stamp (robot_time st))
                   _ _ D). }
      apply contact_point_node_lookup_frames in H as (frames & O2 & L & NC); [|exact C1].
      exists buf, frames. split; [exact B|]. split; [|split; assumption].
      rewrite O2, O. cbn. now rewrite <- app_assoc.
  - intros HO.
    split; [|split].
    + intros incl st' k H. unfold wb_supervisor_node_get_number_of_contact_points in H.
      destruct (node_accepted_checks _ "wb_supervisor_node_get_number_of_contact_points" _ _ A)
        as (R & V' & N).
      rewrite R in H. cbn [negb] in H. rewrite V', D in H. cbn [bind] in H.
      destruct (dbl_gt (robot_time st) (n_contact_points_time_stamp n)) eqn:G.
      * step_bind H st1 F. step_bind H n1 D1.
        destruct (n_number_of_contact_points n1); [|discriminate]. injection H as <- _.
        apply refresh_cache_kept in F.
        assert (K : cache_kept
                      (store_node node (set_n_contact_points_time_stamp (robot_time st)) st)
                      st1).
        { eapply cache_kept_trans; [|exact F]. cache_untouched. }
        split; [destruct K as (T & _); exact T|].
        exact (refreshed_is_fresh node st st1 st1 n HO D K (cache_kept_refl _)).
      * destruct (n_number_of_contact_points n); [|discriminate]. injection H as <- _.
        split; [reflexivity|]. intros n' D'. rewrite D in D'. now injection D' as <-.
    + intros index st' p H. unfold wb_supervisor_node_get_contact_point in H.
      destruct (node_accepted_checks _ "wb_supervisor_node_get_contact_point" _ _ A)
        as (R & V' & N).
      rewrite R in H. cbn [negb] in H. rewrite V', D in H. cbn [bind] in H.
      destruct (dbl_gt (robot_time st) (n_contact_points_time_stamp n)) eqn:G.
      * step_bind H st1 F. step_bind H n1 D1. step_bind H q Q. injection H as <- _.
        apply refresh_cache_kept in F.
        split; [destruct F as (T & _); exact T|].
        exact (refreshed_is_fresh node st st1 st1 n HO D F (cache_kept_refl _)).
      * step_bind H q Q. injection H as <- _.
        split; [reflexivity|]. intros n' D'. rewrite D in D'. now injection D' as <-.
    + intros index st' result H. unfold wb_supervisor_node_get_contact_point_node in H.
      destruct (node_accepted_checks _ "wb_supervisor_node_get_contact_point_node" _ _ A)
        as (R & V' & N).
      rewrite R in H. cbn [negb] in H. rewrite V', D in H. cbn [bind] in H.
      destruct (dbl_gt (robot_time st) (n_contact_points_time_stamp n)) eqn:G.
      * step_bind H st1 F. apply refresh_cache_kept in F. apply lookup_cache_kept in H.
        split; [destruct F as (T1 & _), H as (T2 & _); cbn in T1; congruence|].
        exact (refreshed_is_fresh node st st1 st' n HO D F H).
      * cbn [bind] in H. apply lookup_cache_kept in H.
        split; [destruct H as (T & _); exact T|].
        intros n' D'. rewrite (stamp_same node st st' n n' HO D H D').
        destruct H as (T & _). now rewrite T.
Qed.

(** ** DEF expressions *)

Lemma after_last_dot_spec (s : string) :
  match after_last_dot s with
  | Some t => has_dot t = false /\ exists prefix, s = String.append prefix (String "."%char t)
  | None => has_dot s = false
  end.
Proof.
  induction s as [|c rest IH]; cbn; [reflexivity|].
  destruct (after_last_dot rest) as [t|].
  - destruct IH as (D & prefix & E). split; [exact D|].
    exists (String c prefix). cbn. now rewrite E.
  - destruct (Ascii.eqb_spec c "."%char) as [->|N].
    + split; [exact IH|]. now exists EmptyString.
    + cbn. rewrite IH. now destruct (Ascii.eqb_spec c "."%char).
Qed.

(** X1.  [extract_node_def] maps [NULL] to [NULL]; of a DEF expression it
    returns the segment that follows the last ['.']: a string without
    ['.'] that the expression ends with, the whole expression when it has
    no ['.'].  Extracting twice changes nothing. *)
Theorem extract_node_def_last_segment :
  extract_node_def None = None
  /\ forall s : string,
      exists t,
        extract_node_def (Some s) = Some t
        /\ has_dot t = false
        /\ (has_dot s = false -> t = s)
        /\ (has_dot s = true -> exists prefix, s = String.append prefix (String "."%char t))
        /\ extract_node_def (Some t) = Some t.
Proof.
  split; [reflexivity|]. intros s. unfold extract_node_def.
  assert (Plain : forall u, has_dot u = false -> after_last_dot u = None).
  { intros u U. pose proof (after_last_dot_spec u) as A.
    destruct (after_last_dot u) as [v|]; [|reflexivity].
    destruct A as (_ & prefix & E). exfalso. rewrite E in U. clear E.
    induction prefix as [|c prefix IH]; cbn in U; [discriminate|].
    apply orb_false_iff in U. now apply IH. }
  pose proof (after_last_dot_spec s) as A.
  destruct (after_last_dot s) as [t|] eqn:E.
  - destruct A as (D & prefix & Es). exists t. split; [reflexivity|]. split; [exact D|].
    split; [|split].
    + intros N. apply Plain in N. congruence.
    + intros _. now exists prefix.
    + now rewrite (Plain t D).
  - exists s. split; [reflexivity|]. split; [exact A|]. split; [reflexivity|].
    split; [congruence | now rewrite E].
Qed.

Lemma extract_node_def_plain (e : option string) (d : string) :
  extract_node_def e = Some d -> has_dot d = false.
Proof.
  destruct e as [s|]; [|discriminate]. unfold extract_node_def.
  pose proof (after_last_dot_spec s) as A. destruct (after_last_dot s) as [t|].
  - intros H. injection H as <-. apply A.
  - intros H. injection H as <-. exact A.
Qed.

(** ** Node registry: insertion and lookup *)

Lemma find_node_by_id_update (uid : Z) (p : WbNodeRef) (g : WbNodeStruct -> WbNodeStruct)
      (l : node_store) :
  (forall n, n_id (g n) = n_id n) ->
  option_map fst (find_node_by_id uid (update_node p g l))
  = option_map fst (find_node_by_id uid l)
  /\ option_map (fun c => n_id (snd c)) (find_node_by_id uid (update_node p g l))
     = option_map (fun c => n_id (snd c)) (find_node_by_id uid l).
Proof.
  intros G. induction l as [|c l IH]; [now split|]. cbn [update_node].
  destruct (fst c =? p); cbn [find_node_by_id snd].
  - rewrite G. destruct (n_id (snd c) =? uid); cbn; rewrite ?G; now split.
  - destruct (n_id (snd c) =? uid); [now split | exact IH].
Qed.

(** X2.  Insertion and lookup in the node registry.  After
    [add_node_to_list] for [uid] returns, [find_node_by_id uid] finds a
    node with that id; it is the cell that was there before when the id was
    known, and then the registry has not grown (no duplicate); otherwise it
    is one new cell at the head.  The lookup of every other id gives the
    handle it gave before. *)
Theorem add_node_then_find (uid type : Z) (model_name def_name : option string)
        (tag parent_id : Z) (is_proto : bool) (st st' : Supervisor) :
  add_node_to_list uid type model_name def_name tag parent_id is_proto st = Ok st' ->
  (exists c, find_node_by_id uid (node_list st') = Some c /\ n_id (snd c) = uid)
  /\ (forall c0, find_node_by_id uid (node_list st) = Some c0 ->
                 option_map fst (find_node_by_id uid (node_list st')) = Some (fst c0)
                 /\ List.length (node_list st') = List.length (node_list st)
                 /\ next_alloc st' = next_alloc st)
  /\ (find_node_by_id uid (node_list st) = None ->
      exists n, node_list st' = (next_alloc st, n) :: node_list st
                /\ n_id n = uid /\ n_type n = type /\ n_parent_id n = parent_id
                /\ n_tag n = tag /\ n_is_proto n = is_proto
                /\ n_def_name n = extract_node_def def_name
                /\ n_is_proto_internal n = false
                /\ n_contact_points n = None
                /\ next_alloc st' = next_alloc st + 1)
  /\ (forall other, other <> uid ->
                    option_map fst (find_node_by_id other (node_list st'))
                    = option_map fst (find_node_by_id other (node_list st))).
Proof.
  unfold add_node_to_list. intros H.
  assert (Len : forall p g l, List.length (update_node p g l) = List.length l).
  { intros p g l. induction l as [|c l IH]; [reflexivity|]. cbn [update_node].
    destruct (fst c =? p); cbn; [reflexivity | now rewrite IH]. }
  destruct (find_node_by_id uid (node_list st)) as [c|] eqn:F.
  - pose proof (find_node_by_id_some _ _ _ F) as (_ & Ic).
    assert (Same : st' = st
                   \/ st' = set_node_list
                              (update_node (fst c) (set_n_def_name (extract_node_def def_name))
                                           (node_list st)) st).
    { destruct def_name as [d|]; [|left; now injection H as <-].
      destruct (n_def_name (snd c)); [|discriminate].
      destruct (String.eqb s d); injection H as <-; [now left | now right]. }
    destruct Same as [->| ->].
    + split; [now exists c|]. split; [|split; [discriminate | reflexivity]].
      intros c0 E. injection E as <-. rewrite F. now repeat split.
    + cbn [node_list set_node_list].
      destruct (find_node_by_id_update uid (fst c) (set_n_def_name (extract_node_def def_name))
                  (node_list st) (fun n => eq_refl)) as (A & I).
      rewrite F in A, I. cbn in A, I.
      split; [|split; [|split]].
      * destruct (find_node_by_id uid (update_node _ _ _)) as [c1|]; [|discriminate].
        exists c1. split; [reflexivity|]. cbn in I. injection I as I. congruence.
      * intros c0 E. injection E as <-. split; [exact A|]. split; [apply Len | reflexivity].
      * discriminate.
      * intros other _.
        apply (proj1 (find_node_by_id_update other (fst c)
                        (set_n_def_name (extract_node_def def_name)) (node_list st)
                        (fun n => eq_refl))).
  - injection H as <-. cbn [node_list set_node_list set_next_alloc next_alloc].
    split; [|split; [discriminate|split]].
    + eexists. cbn [find_node_by_id snd n_id]. rewrite Z.eqb_refl. split; reflexivity.
    + intros _. eexists. split; [reflexivity|]. cbn. now repeat split.
    + intros other N. cbn [find_node_by_id snd n_id].
      destruct (Z.eqb_spec uid other) as [E|_]; [now elim N | reflexivity].
Qed.

(** ** Handles stay sound *)

Lemma update_field_addresses (p : WbFieldRef) (g : WbFieldStruct -> WbFieldStruct)
      (l : field_store) :
  map fst (update_field p g l) = map fst l.
Proof.
  induction l as [|c l IH]; [reflexivity|]. cbn [update_field].
  destruct (fst c =? p); cbn; [reflexivity | now rewrite IH].
Qed.

(** Dropping cells of a registry keeps the keys of the others apart. *)
Lemma kept_cells_in {Cell Key : Type} (key : Cell -> Key) (keep : Cell -> bool)
      (cells : list Cell) (k : Key) :
  In k (map key (filter keep cells)) -> In k (map key cells).
Proof.
  rewrite !in_map_iff. intros (c & E & I). exists c. split; [exact E|].
  now apply filter_In in I.
Qed.

Lemma kept_cells_distinct {Cell Key : Type} (key : Cell -> Key) (keep : Cell -> bool)
      (cells : list Cell) :
  NoDup (map key cells) -> NoDup (map key (filter keep cells)).
Proof.
  induction cells as [|c cells IH]; [trivial|]. cbn [map filter]. intros D.
  apply NoDup_cons_iff in D as (Fresh & D). destruct (keep c); [|now apply IH].
  cbn [map]. apply NoDup_cons_iff. split; [|now apply IH].
  intros I. apply Fresh. now apply kept_cells_in in I.
Qed.

(** What the unlinking loop does to the list: nothing, or it takes one cell
    out. *)
Lemma unlink_next_shape (uid : Z) (l : node_store) :
  unlink_next uid l = l
  \/ exists l1 x l2, l = l1 ++ x :: l2 /\ unlink_next uid l = l1 ++ l2.
Proof.
  induction l as [|prev tl IH]; [now left|]. cbn [unlink_next].
  destruct tl as [|nxt rest]; [now left|].
  destruct (n_id (snd nxt) =? uid).
  - right. now exists [prev], nxt, rest.
  - destruct IH as [E|(l1 & x & l2 & E1 & E2)].
    + left. now rewrite E.
    + right. exists (prev :: l1), x, l2. split; [now rewrite E1 | now rewrite E2].
Qed.

Lemma remove_node_from_list_shape (uid : Z) (l : node_store) :
  exists kept,
    remove_node_from_list uid l = map (orphan uid) kept
    /\ (kept = l \/ exists l1 x l2, l = l1 ++ x :: l2 /\ kept = l1 ++ l2).
Proof.
  unfold remove_node_from_list. eexists. split; [reflexivity|].
  destruct (find_node_by_id uid l) as [node|]; [|now left].
  destruct l as [|hd tl]; [now left|].
  destruct (fst hd =? fst node).
  - right. now exists [], hd, tl.
  - apply unlink_next_shape.
Qed.

Lemma orphan_keeps (uid : Z) (c : WbNodeRef * WbNodeStruct) :
  fst (orphan uid c) = fst c
  /\ n_id (snd (orphan uid c)) = n_id (snd c)
  /\ n_def_name (snd (orphan uid c)) = n_def_name (snd c).
Proof. unfold orphan. now destruct (n_parent_id (snd c) =? uid). Qed.

Lemma NoDup_map_without {A B : Type} (f : A -> B) (l1 l2 : list A) (x : A) :
  NoDup (map f (l1 ++ x :: l2)) -> NoDup (map f (l1 ++ l2)).
Proof.
  rewrite !map_app. cbn [map]. apply NoDup_remove_1.
Qed.

Lemma remove_node_from_list_sound (uid : Z) (l : node_store) :
  (NoDup (map fst l) -> NoDup (map fst (remove_node_from_list uid l)))
  /\ (NoDup (node_ids l) -> NoDup (node_ids (remove_node_from_list uid l)))
  /\ (forall a, In a (map fst (remove_node_from_list uid l)) -> In a (map fst l))
  /\ kept_defs l (remove_node_from_list uid l).
Proof.
  destruct (remove_node_from_list_shape uid l) as (kept & -> & K).
  assert (A : map fst (map (orphan uid) kept) = map fst kept).
  { rewrite map_map. apply map_ext. intros c. apply orphan_keeps. }
  assert (I : node_ids (map (orphan uid) kept) = node_ids kept).
  { unfold node_ids. rewrite map_map. apply map_ext. intros c. apply orphan_keeps. }
  assert (S : forall c, In c kept -> In c l).
  { destruct K as [->|(l1 & x & l2 & -> & ->)]; [trivial|].
    intros c Ic. apply in_app_iff in Ic as [Ic|Ic]; apply in_app_iff; [now left|].
    right. now right. }
  rewrite A, I. repeat split.
  - destruct K as [->|(l1 & x & l2 & -> & ->)]; [trivial | apply NoDup_map_without].
  - destruct K as [->|(l1 & x & l2 & -> & ->)]; [trivial | apply NoDup_map_without].
  - intros a Ia. apply in_map_iff in Ia as (c & E & Ic). apply in_map_iff. exists c.
    split; [exact E | now apply S].
  - intros c' Ic. apply in_map_iff in Ic as (c & E & Ic). exists c.
    split; [now apply S|]. rewrite <- E. apply orphan_keeps.
Qed.

Lemma handles_ok_same (a b : Supervisor) :
  next_alloc b = next_alloc a ->
  node_list b = node_list a ->
  field_list b = field_list a ->
  handles_ok a -> handles_ok b.
Proof. unfold handles_ok. intros -> -> ->. trivial. Qed.

(** Closes [handles_ok] for setters that leave the registries and the
    allocator alone. *)
Ltac handles_untouched H := apply (handles_ok_same _ _ eq_refl eq_refl eq_refl H).

Lemma handles_ok_store_field (f : WbFieldRef) (g : WbFieldStruct -> WbFieldStruct)
      (st : Supervisor) :
  handles_ok st -> handles_ok (store_field f g st).
Proof.
  unfold handles_ok, store_field. cbn. now rewrite update_field_addresses.
Qed.

Lemma handles_ok_store_node (p : WbNodeRef) (g : WbNodeStruct -> WbNodeStruct)
      (st : Supervisor) :
  (forall n, n_id (g n) = n_id n) ->
  handles_ok st -> handles_ok (store_node p g st).
Proof.
  unfold handles_ok, store_node. cbn. intros G.
  now rewrite update_node_addresses, (update_node_ids _ _ _ G).
Qed.

Lemma handles_ok_add_node (uid type : Z) (model_name def_name : option string)
      (tag parent_id : Z) (is_proto : bool) (st st' : Supervisor) :
  add_node_to_list uid type model_name def_name tag parent_id is_proto st = Ok st' ->
  handles_ok st -> handles_ok st'.
Proof.
  unfold add_node_to_list. intros H HO.
  destruct (find_node_by_id uid (node_list st)) as [c|] eqn:F.
  - destruct def_name as [d|]; [|now injection H as <-].
    destruct (n_def_name (snd c)); [|discriminate].
    destruct (String.eqb s d); injection H as <-; [exact HO|].
    now apply (handles_ok_store_node (fst c) _ st).
  - injection H as <-. destruct HO as (P & NA & NF & NI & BA & BF & D).
    apply find_node_by_id_none in F. unfold handles_ok. cbn.
    split; [lia|]. split; [|split; [exact NF|split; [now constructor|split; [|split]]]].
    + constructor; [|exact NA]. intros X. specialize (BA _ X). lia.
    + intros a [<-|X]; [lia|]. specialize (BA _ X). lia.
    + intros a X. specialize (BF _ X). lia.
    + intros a [<-|X]; [|now apply D]. intros Y. specialize (BF _ Y). lia.
Qed.

Lemma read_answer_handles_ok (a : Answer) (st st' : Supervisor) :
  supervisor_read_answer a st = Ok st' -> handles_ok st -> handles_ok st'.
Proof.
  unfold supervisor_read_answer. intros H0 HO. step_bind H0 st1 H. injection H0 as <-.
  enough (G : handles_ok st1) by (handles_untouched G).
  destruct a.
  - step_bind H st2 A. cbv zeta in H. step_bind H self D. injection H as <-.
    apply handles_ok_add_node in A; [|exact HO].
    apply handles_ok_store_node; [reflexivity|]. handles_untouched A.
  - destruct (negb (uid =? 0)); [|now injection H as <-].
    step_bind H st2 A. injection H as <-. apply handles_ok_add_node in A; [|exact HO].
    handles_untouched A.
  - destruct (negb (uid =? 0) && _); [|now injection H as <-].
    step_bind H st2 A. injection H as <-. apply handles_ok_add_node in A; [|exact HO].
    handles_untouched A.
  - destruct (field_ref =? -1); injection H as <-; [handles_untouched HO|].
    destruct HO as (P & NA & NF & NI & BA & BF & D). unfold handles_ok. cbn.
    split; [lia|]. split; [exact NA|]. split; [|split; [exact NI|split; [|split]]].
    + constructor; [|exact NF]. intros X. specialize (BF _ X). lia.
    + intros a X. specialize (BA _ X). lia.
    + intros a [<-|X]; [lia|]. specialize (BF _ X). lia.
    + intros a X [<-|Y]; [|now apply (D a)]. specialize (BA _ X). lia.
  - destruct (sent_field_get_request st) as [sent|]; [|discriminate].
    step_bind H st2 E. injection H as <-.
    enough (G : handles_ok st2) by (handles_untouched G).
    destruct (negb (field_type =? 0)); [|now injection E as <-].
    step_bind E f Ef. destruct (_ || _) in E.
    + destruct (negb (get_sf_node_uid value =? 0)).
      * apply handles_ok_add_node in E; [exact E | now apply handles_ok_store_field].
      * injection E as <-. now apply handles_ok_store_field.
    + step_bind E d Ed. injection E as <-. now apply handles_ok_store_field.
  - injection H as <-. destruct HO as (P & NA & NF & NI & BA & BF & D).
    unfold handles_ok, remove_internal_proto_nodes_and_fields_from_list. cbn.
    split; [exact P|]. split; [now apply kept_cells_distinct|].
    split; [now apply kept_cells_distinct|].
    split; [now apply (kept_cells_distinct (fun c => n_id (snd c)))|].
    split; [|split].
    + intros a X. apply BA. now apply kept_cells_in in X.
    + intros a X. apply BF. now apply kept_cells_in in X.
    + intros a X Y. apply kept_cells_in in X, Y. now apply (D a).
  - injection H as <-. handles_untouched HO.
  - assert (R : handles_ok (set_node_list (remove_node_from_list uid (node_list st)) st)).
    { destruct HO as (P & NA & NF & NI & BA & BF & D).
      destruct (remove_node_from_list_sound uid (node_list st)) as (RA & RI & RS & _).
      unfold handles_ok. cbn.
      split; [exact P|]. split; [now apply RA|]. split; [exact NF|].
      split; [now apply RI|]. split; [|split; [exact BF|]].
      - intros a X. now apply BA, RS.
      - intros a X. now apply D, RS. }
    destruct (parent_node_unique_id >=? 0); [|now injection H as <-].
    step_bind H found F. destruct found; injection H as <-; [|exact R].
    now apply handles_ok_store_field.
  - step_bind H nd D. injection H as <-. apply handles_ok_store_node; [|exact HO].
    intros x. now destruct (n >? 0).
  - now injection H as <-.
Qed.

(** An invariant of the serializer and of the reply dispatcher is an
    invariant of a flush. *)
Lemma flush_invariant (P : Supervisor -> Prop) :
  (forall a b, next_alloc b = next_alloc a -> node_list b = node_list a ->
               field_list b = field_list a -> P a -> P b) ->
  (forall a st st', supervisor_read_answer a st = Ok st' -> P st -> P st') ->
  forall st st', wb_robot_flush_unlocked st = Ok st' -> P st -> P st'.
Proof.
  intros Same Step st st' H HP. unfold wb_robot_flush_unlocked in H. step_bind H st1 W.
  pose proof (write_request_frame _ _ W) as (_ & _ & A & F & N & _).
  assert (G : forall frame s s', read_answers frame s = Ok s' -> P s -> P s').
  { induction frame as [|a frame IH]; intros s s' R Ps; cbn [read_answers] in R.
    - now injection R as <-.
    - step_bind R s1 E. apply (IH _ _ R). now apply (Step a s). }
  apply (G _ _ _ H). apply (Same st); cbn; assumption.
Qed.

(** X3.  Handles stay sound.  Every reply message that
    [supervisor_read_answer] accepts, the [CONFIGURE] message that adds the
    self node included, and so every flush, keeps the registries sound: node and field handles are distinct non-[NULL]
    addresses, no address designates both a node and a field, and no two
    nodes of the registry carry the same id. *)
Theorem replies_keep_handles_sound :
  (forall (a : Answer) (st st' : Supervisor),
      handles_ok st -> supervisor_read_answer a st = Ok st' -> handles_ok st')
  /\ (forall (st st' : Supervisor),
         handles_ok st -> wb_robot_flush_unlocked st = Ok st' -> handles_ok st').
Proof.
  split.
  - intros a st st' HO H. exact (read_answer_handles_ok a st st' H HO).
  - intros st st' HO H. revert HO. apply (flush_invariant handles_ok); [| |exact H].
    + intros a b A N F. now apply handles_ok_same.
    + exact read_answer_handles_ok.
Qed.

(** X4.  [wb_supervisor_init] on a controller that holds no handle yet
    returns; the registry then holds the root node alone, with id 0, no
    parent (-1), no DEF name and no model name; [root_ref] is its handle,
    which is valid, and the handles are sound. *)
Theorem init_creates_root (st : Supervisor) :
  node_list st = [] ->
  field_list st = [] ->
  0 < next_alloc st ->
  exists st' root,
    wb_supervisor_init st = Ok st'
    /\ node_list st' = [(next_alloc st, root)]
    /\ root_ref st' = next_alloc st
    /\ is_node_ref_valid (root_ref st') (node_list st') = true
    /\ n_id root = 0 /\ n_parent_id root = -1 /\ n_type root = WB_NODE_GROUP
    /\ n_def_name root = None /\ n_model_name root = None
    /\ handles_ok st'
    /\ (is_supervisor st = true ->
        wb_supervisor_node_get_root st' = (st', next_alloc st)).
Proof.
  intros N F P. unfold wb_supervisor_init, add_node_to_list. rewrite N. cbn.
  eexists. eexists. split; [reflexivity|]. cbn.
  assert (Z0 : (next_alloc st =? NULL) = false) by (apply Z.eqb_neq; unfold NULL; lia).
  split; [reflexivity|]. split; [reflexivity|].
  split; [unfold is_node_ref_valid; cbn; now rewrite Z0, Z.eqb_refl|].
  do 4 (split; [reflexivity|]).
  split.
  { destruct (wb_node_get_name WB_NODE_GROUP) as [b|]; [|reflexivity].
    now rewrite String.eqb_refl. }
  split.
  - unfold handles_ok. cbn. rewrite F. cbn.
    split; [lia|]. split; [repeat constructor; intros []|]. split; [constructor|].
    split; [repeat constructor; intros []|]. split; [|split].
    + intros a [<-|[]]. lia.
    + intros a [].
    + intros a _ [].
  - intros S. unfold wb_supervisor_node_get_root, robot_check_supervisor. cbn. now rewrite S.
Qed.

(** ** DEF names of the registry *)

Lemma kept_defs_plain (l l' : node_store) :
  kept_defs l l' -> def_names_plain l -> def_names_plain l'.
Proof.
  intros K P c' d I E. destruct (K c' I) as (c & Ic & Ed). rewrite Ed in E.
  exact (P c d Ic E).
Qed.

Lemma kept_defs_sublist (l l' : node_store) :
  (forall c, In c l' -> In c l) -> kept_defs l l'.
Proof. intros S c I. exists c. split; [now apply S | reflexivity]. Qed.

Lemma update_node_in (p : WbNodeRef) (g : WbNodeStruct -> WbNodeStruct) (l : node_store)
      (c' : WbNodeRef * WbNodeStruct) :
  In c' (update_node p g l) -> In c' l \/ exists c, In c l /\ c' = (fst c, g (snd c)).
Proof.
  induction l as [|c l IH]; [intros []|]. cbn [update_node].
  destruct (fst c =? p).
  - intros [<-|I]; [right; exists c; split; [now left | reflexivity] | left; now right].
  - intros [<-|I]; [left; now left|]. destruct (IH I) as [J|(c0 & J & E)].
    + left. now right.
    + right. exists c0. split; [now right | exact E].
Qed.

Lemma kept_defs_update (p : WbNodeRef) (g : WbNodeStruct -> WbNodeStruct) (l : node_store) :
  (forall n, n_def_name (g n) = n_def_name n) ->
  kept_defs l (update_node p g l).
Proof.
  intros G c' I. destruct (update_node_in _ _ _ _ I) as [J|(c & J & ->)].
  - now exists c'.
  - exists c. split; [exact J | apply G].
Qed.

Lemma def_names_plain_add_node (uid type : Z) (model_name def_name : option string)
      (tag parent_id : Z) (is_proto : bool) (st st' : Supervisor) :
  add_node_to_list uid type model_name def_name tag parent_id is_proto st = Ok st' ->
  def_names_plain (node_list st) -> def_names_plain (node_list st').
Proof.
  unfold add_node_to_list. intros H P.
  destruct (find_node_by_id uid (node_list st)) as [c|] eqn:F.
  - destruct def_name as [d|]; [|now injection H as <-].
    destruct (n_def_name (snd c)); [|discriminate].
    destruct (String.eqb s d); injection H as <-; [exact P|]. cbn [node_list set_node_list].
    intros c' d' I E. destruct (update_node_in _ _ _ _ I) as [J|(c0 & J & ->)].
    + exact (P c' d' J E).
    + apply (extract_node_def_plain (Some d)). exact E.
  - injection H as <-. cbn [node_list set_node_list]. intros c' d' [<-|I] E.
    + apply (extract_node_def_plain def_name). exact E.
    + exact (P c' d' I E).
Qed.

Lemma read_answer_def_names (a : Answer) (st st' : Supervisor) :
  supervisor_read_answer a st = Ok st' ->
  def_names_plain (node_list st) -> def_names_plain (node_list st').
Proof.
  unfold supervisor_read_answer. intros H0 P. step_bind H0 st1 H. injection H0 as <-.
  change (def_names_plain (node_list st1)).
  destruct a.
  - step_bind H st2 A. cbv zeta in H. step_bind H self D. injection H as <-.
    apply def_names_plain_add_node in A; [|exact P]. cbn. revert A.
    now apply kept_defs_plain, kept_defs_update.
  - destruct (negb (uid =? 0)); [|now injection H as <-].
    step_bind H st2 A. injection H as <-. now apply def_names_plain_add_node in A.
  - destruct (negb (uid =? 0) && _); [|now injection H as <-].
    step_bind H st2 A. injection H as <-. now apply def_names_plain_add_node in A.
  - destruct (field_ref =? -1); now injection H as <-.
  - destruct (sent_field_get_request st) as [sent|]; [|discriminate].
    step_bind H st2 E. injection H as <-. change (def_names_plain (node_list st2)).
    destruct (negb (field_type =? 0)); [|now injection E as <-].
    step_bind E f Ef. destruct (_ || _) in E.
    + destruct (negb (get_sf_node_uid value =? 0)).
      * now apply def_names_plain_add_node in E.
      * now injection E as <-.
    + step_bind E d Ed. now injection E as <-.
  - injection H as <-. cbn. revert P. apply kept_defs_plain, kept_defs_sublist.
    intros c I. now apply filter_In in I.
  - now injection H as <-.
  - assert (R : def_names_plain (remove_node_from_list uid (node_list st))).
    { revert P. apply kept_defs_plain. apply remove_node_from_list_sound. }
    destruct (parent_node_unique_id >=? 0); [|now injection H as <-].
    step_bind H found F. destruct found; now injection H as <-.
  - step_bind H nd D. injection H as <-. cbn. revert P.
    apply kept_defs_plain, kept_defs_update. intros x. now destruct (n >? 0).
  - now injection H as <-.
Qed.

Lemma find_node_by_def_dotted (d : string) (parent_proto : WbNodeRef) (l : node_store) :
  def_names_plain l -> has_dot d = true -> find_node_by_def d parent_proto l = None.
Proof.
  intros P D. induction l as [|c l IH]; [reflexivity|]. cbn [find_node_by_def].
  assert (N : match n_def_name (snd c) with
              | Some d0 => String.eqb d d0
              | None => false
              end = false).
  { destruct (n_def_name (snd c)) as [d0|] eqn:E; [|reflexivity].
    destruct (String.eqb_spec d d0) as [<-|_]; [|reflexivity].
    rewrite (P c d (or_introl eq_refl) E) in D. discriminate. }
  rewrite N, andb_false_r. apply IH. intros c' d' I. apply P. now right.
Qed.

(** X5.  The DEF names of the registry never hold a ['.']: every reply
    message, the [CONFIGURE] message that stores the DEF name of the self
    node included, and so every flush, keeps this.  As [find_node_by_def] compares
    the whole expression with the stored name, a dotted DEF expression is
    never found in such a registry, and [wb_supervisor_node_get_from_def]
    asks the simulator each time it is called with one. *)
Theorem dotted_def_is_never_cached :
  (forall (st st' : Supervisor),
      def_names_plain (node_list st) ->
      wb_robot_flush_unlocked st = Ok st' ->
      def_names_plain (node_list st'))
  /\ (forall (d : string) (parent_proto : WbNodeRef) (l : node_store),
         def_names_plain l -> has_dot d = true ->
         find_node_by_def d parent_proto l = None)
  /\ (forall (d : string) (st st' : Supervisor) (result : WbNodeRef),
         is_supervisor st = true ->
         def_names_plain (node_list st) ->
         has_dot d = true ->
         wb_supervisor_node_get_from_def (Some d) st = Ok (st', result) ->
         exists frame,
           outgoing st'
           = outgoing st
             ++ [[w_opcode C_SUPERVISOR_NODE_GET_FROM_DEF; w_string d; w_int32 (proto_id st)]
                   ++ frame]).
Proof.
  split; [|split].
  - intros st st' P H. revert P.
    apply (flush_invariant (fun s => def_names_plain (node_list s))); [| |exact H].
    + intros a b _ N _. now rewrite N.
    + exact read_answer_def_names.
  - exact find_node_by_def_dotted.
  - intros d st st' result S P D H.
    unfold wb_supervisor_node_get_from_def, robot_check_supervisor in H. rewrite S in H.
    cbn [negb] in H.
    destruct d as [|c0 d0]; [discriminate D|].
    rewrite (find_node_by_def_dotted _ NULL _ P D) in H.
    step_bind H st1 F. injection H as <- _. cbn [outgoing set_node_id set_node_def_name].
    unfold wb_robot_flush_unlocked in F. step_bind F st2 W.
    assert (O : exists frame,
               outgoing st2
               = outgoing st
                 ++ [[w_opcode C_SUPERVISOR_NODE_GET_FROM_DEF; w_string (String c0 d0);
                      w_int32 (proto_id st)] ++ frame]
               ).
    { unfold supervisor_write_request in W. cbn in W.
      destruct (contact_points_node_ref st =? NULL).
      - cbn in W. injection W as <-. cbn. now exists [].
      - destruct (deref_node (contact_points_node_ref st) (node_list st)); [|discriminate W].
        cbn in W. injection W as <-. cbn. eexists. reflexivity. }
    destruct O as (frame & O). exists frame. rewrite <- O.
    assert (G : forall fr s s', read_answers fr s = Ok s' -> outgoing s' = outgoing s).
    { intros fr s s' R. now apply read_answers_frame in R as ((_ & _ & Oq & _) & _). }
    apply G in F. exact F.
Qed.

(** ** Values the setters and inserters refuse *)

Lemma check_field_in_range (f : WbFieldRef) (func : string) (type : Z)
      (check_type is_importing check_type_internal : bool) (st : Supervisor)
      (fs : WbFieldStruct) (i : Z) :
  field_accepted f type check_type check_type_internal st fs ->
  Z.land type WB_MF <> 0 ->
  0 <= f_count fs < INT_MAX ->
  0 <= i <= index_hi (f_count fs) is_importing ->
  check_field f func type check_type (Some i) is_importing check_type_internal st
  = Ok (st, true, Some i).
Proof.
  intros A M C I.
  assert (II : in_int i).
  { unfold in_int, INT_MIN, INT_MAX, index_hi in *. destruct is_importing; lia. }
  rewrite (check_field_index f func type check_type is_importing check_type_internal st fs i
             A M C II).
  assert (R : (index_lo (f_count fs) is_importing <=? i)
              && (i <=? index_hi (f_count fs) is_importing) = true).
  { apply in_range_dec. unfold index_lo, index_hi in *. destruct is_importing; lia. }
  rewrite R. destruct (Z.ltb_spec i 0); [lia | reflexivity].
Qed.

(** A call whose value fails validation ends there. *)
Lemma refused_value (c : value_call) (k : kind) (f : WbFieldRef) (value : arg k)
      (st st1 : Supervisor) (fs : WbFieldStruct) :
  value_call_accepted c k f st fs ->
  pack_value k (value_call_name c k) value st = Ok (st1, None) ->
  run_value_call c k f value st = Ok (st1, ret_void).
Proof.
  destruct c as [|index|index]; cbn [value_call_accepted value_call_name run_value_call].
  - intros A P. unfold wb_supervisor_field_set_sf.
    rewrite (check_field_plain _ _ _ _ _ _ _ A (sf_type_bit k)). cbn [bind negb].
    now rewrite P.
  - intros (A & C & I) P. unfold wb_supervisor_field_set_mf.
    rewrite (check_field_in_range _ _ _ _ false _ _ _ _ A (mf_type_bit k) C I).
    cbn [bind negb]. now rewrite P.
  - intros (A & C & I) P. unfold wb_supervisor_field_insert_mf.
    rewrite (check_field_in_range _ _ _ _ true _ _ _ _ A (mf_type_bit k) C I).
    cbn [bind negb]. now rewrite P.
Qed.

Lemma check_float_refuses (func : string) (v : double) (st : Supervisor) :
  refused_float v = true ->
  check_float func v st = (set_stderr (stderr st ++ [check_float_line func v]) st, false).
Proof.
  unfold refused_float, check_float, check_float_line, fprintf_stderr.
  destruct (isnan v); [reflexivity|]. destruct (dbl_gt v FLT_MAX); [reflexivity|].
  destruct (dbl_lt v (SFopp FLT_MAX)); [reflexivity | discriminate].
Qed.

(** X6.  The float setters and inserter refuse exactly the values that are
    NaN, greater than [FLT_MAX] or smaller than [-FLT_MAX], the two
    infinities among them.  [check_float] returns false on these values and
    on no other.  For such a value [wb_supervisor_field_set_sf_float],
    [wb_supervisor_field_set_mf_float] and
    [wb_supervisor_field_insert_mf_float] print the one line of
    [check_float] and change nothing else; nothing is queued or sent.  Every
    other value passes [check_float] without a line and is packed as it is;
    [wb_supervisor_field_set_sf_float] then leaves a queued [SET] that
    carries it. *)
Theorem float_setters_refuse_non_finite :
  (forall v, refused_float v = false <-> finite_within_FLT_MAX v)
  /\ refused_float S754_nan = true
  /\ refused_float (S754_infinity false) = true
  /\ refused_float (S754_infinity true) = true
  /\ (forall (c : value_call) (f : WbFieldRef) (v : double) (st : Supervisor)
             (fs : WbFieldStruct),
         value_call_accepted c k_float f st fs ->
         refused_float v = true ->
         run_value_call c k_float f v st
         = Ok (set_stderr (stderr st ++ [check_float_line (value_call_name c k_float) v]) st,
               ret_void))
  /\ (forall (func : string) (v : double) (st : Supervisor),
         snd (check_float func v st) = negb (refused_float v))
  /\ (forall (func : string) (v : double) (st : Supervisor),
         refused_float v = false ->
         check_float func v st = (st, true)
         /\ pack_value k_float func v st = Ok (st, Some (sf_float v)))
  /\ (forall (f : WbFieldRef) (v : double) (st : Supervisor) (fs : WbFieldStruct),
         field_accepted f WB_SF_FLOAT true true st fs ->
         f_count fs = -1 ->
         plain_requests f st ->
         refused_float v = false ->
         exists st1 r,
           wb_supervisor_field_set_sf_float f v st = Ok (st1, ret_void)
           /\ find_queued_set f (-1) (field_requests_list st1) = Some r
           /\ r_data r = sf_float v
           /\ stderr st1 = stderr st
           /\ outgoing st1 = outgoing st).
Proof.
  assert (Fin : forall v, refused_float v = false <-> finite_within_FLT_MAX v).
  { intros v. unfold refused_float, finite_within_FLT_MAX. rewrite !orb_false_iff.
    split; [intros ((N & G) & L) | intros (N & G & L)]; now repeat split. }
  assert (Acc : forall (func : string) (v : double) (st : Supervisor),
             refused_float v = false ->
             check_float func v st = (st, true)
             /\ pack_value k_float func v st = Ok (st, Some (sf_float v))).
  { intros func v st R. apply Fin in R.
    split; [now apply check_float_accepts|]. cbn [pack_value].
    now rewrite (check_float_accepts func v st R). }
  split; [exact Fin|]. do 3 (split; [reflexivity|]).
  split; [|split; [|split; [exact Acc|]]].
  - intros c f v st fs A R. apply (refused_value c k_float f v st _ fs A).
    cbn [pack_value]. now rewrite (check_float_refuses _ v st R).
  - intros func v st. destruct (refused_float v) eqn:R.
    + now rewrite (check_float_refuses func v st R).
    + now rewrite (proj1 (Acc func v st R)).
  - intros f v st fs A C P R. pose proof A as (Hs & Hn & Hin & Hd & Hpi & Hty).
    assert (T : f_type fs = WB_SF_FLOAT).
    { cbn [andb] in Hty. apply negb_false_iff, Z.eqb_eq in Hty. exact Hty. }
    assert (S : fst (is_string_expression (f_type fs) SET) = false) by now rewrite T.
    destruct (setter_queues f (sf_float v) st fs Hd C S P)
      as (st1 & r & Hop & Hfind & Hdata & _ & _ & _ & Hout & _ & Herr).
    exists st1, r. split; [|now repeat split].
    unfold wb_supervisor_field_set_sf_float, wb_supervisor_field_set_sf.
    rewrite (check_field_plain _ _ _ _ _ _ _ A (sf_type_bit k_float)).
    cbn [bind negb]. rewrite (proj2 (Acc _ v st R)). cbn [bind]. now rewrite Hop.
Qed.

Lemma check_floats_accept (func : string) (vs : list double) (st : Supervisor) :
  Forall finite_within_FLT_MAX vs ->
  check_floats func vs (List.length vs) st = Ok (st, true).
Proof.
  induction 1 as [|v vs V _ IH]; [reflexivity|]. cbn [List.length check_floats].
  now rewrite (check_float_accepts func v st V).
Qed.

(** X7.  A rotation whose four components pass [check_float] is refused
    exactly when its axis is null, i.e. when x, y and z all compare equal to
    0.0 (a negative zero included): the rotation setters and inserter then
    print one line and change nothing else.  With a component of the axis
    that differs from zero the value is taken as it is. *)
Theorem rotation_setters_refuse_null_axis (x y z a : double) :
  Forall finite_within_FLT_MAX [x; y; z; a] ->
  (zero_axis x y z = true ->
   forall (c : value_call) (f : WbFieldRef) (st : Supervisor) (fs : WbFieldStruct),
     value_call_accepted c k_rotation f st fs ->
     run_value_call c k_rotation f (Some [x; y; z; a]) st
     = Ok (complains "Error: %s() called with invalid values for the [x y z] axis.\n"
                     (value_call_name c k_rotation) st, ret_void))
  /\ (zero_axis x y z = false ->
      forall (func : string) (st : Supervisor),
        pack_value k_rotation func (Some [x; y; z; a]) st
        = Ok (st, Some (sf_rotation x y z a)))
  /\ zero_axis (S754_zero true) dbl_zero (S754_zero true) = true.
Proof.
  intros V.
  assert (P : forall func st,
             pack_value k_rotation func (Some [x; y; z; a]) st
             = if zero_axis x y z
               then Ok (fprintf_stderr
                          "Error: %s() called with invalid values for the [x y z] axis.\n"
                          [a_str func] st, None)
               else Ok (st, Some (sf_rotation x y z a))).
  { intros func st. cbn [pack_value]. unfold checked_vector, check_vector.
    pose proof (check_floats_accept func [x; y; z; a] st V) as CF.
    cbn [List.length] in CF. rewrite CF. cbn [bind].
    unfold isValidRotation, zero_axis. cbn [element nth_error bind].
    destruct (dbl_eq x dbl_zero); [|reflexivity].
    destruct (dbl_eq y dbl_zero); [|reflexivity].
    now destruct (dbl_eq z dbl_zero). }
  split; [|split; [|reflexivity]].
  - intros Z c f st fs A. apply (refused_value c k_rotation f _ st _ fs A).
    now rewrite P, Z.
  - intros Z func st. now rewrite P, Z.
Qed.

(** X8.  A colour is taken exactly when each of its three channels lies in
    [0, 1]; otherwise, a NaN channel included, the colour setters and
    inserter print one line and change nothing else.  The channels do not
    go through [check_float]. *)
Theorem color_setters_refuse_out_of_range (r g b : double) :
  (in_unit_range r && in_unit_range g && in_unit_range b = false ->
   forall (c : value_call) (f : WbFieldRef) (st : Supervisor) (fs : WbFieldStruct),
     value_call_accepted c k_color f st fs ->
     run_value_call c k_color f (Some [r; g; b]) st
     = Ok (complains "Error: %s() called with invalid RGB values (outside [0,1] range).\n"
                     (value_call_name c k_color) st, ret_void))
  /\ (in_unit_range r && in_unit_range g && in_unit_range b = true ->
      forall (func : string) (st : Supervisor),
        pack_value k_color func (Some [r; g; b]) st = Ok (st, Some (sf_vec3f r g b)))
  /\ in_unit_range S754_nan = false.
Proof.
  assert (P : forall func st,
             pack_value k_color func (Some [r; g; b]) st
             = if in_unit_range r && in_unit_range g && in_unit_range b
               then Ok (st, Some (sf_vec3f r g b))
               else Ok (fprintf_stderr
                          "Error: %s() called with invalid RGB values (outside [0,1] range).\n"
                          [a_str func] st, None)).
  { intros func st. cbn [pack_value]. unfold isValidColor, in_unit_range.
    cbn [color_channels bind].
    destruct (dbl_ge r dbl_zero); [|reflexivity]. destruct (dbl_le r _); [|reflexivity].
    destruct (dbl_ge g dbl_zero); [|reflexivity]. destruct (dbl_le g _); [|reflexivity].
    destruct (dbl_ge b dbl_zero); [|reflexivity]. now destruct (dbl_le b _). }
  split; [|split; [|reflexivity]].
  - intros Z c f st fs A. apply (refused_value c k_color f _ st _ fs A).
    now rewrite P, Z.
  - intros Z func st. now rewrite P, Z.
Qed.

(** ** Regeneration of PROTO nodes *)

Lemma absent_field_stays_absent (f : WbFieldRef) (keep : WbFieldRef * WbFieldStruct -> bool)
      (l : field_store) :
  ~ In f (map fst l) -> field_in_list f (filter keep l) = false.
Proof.
  induction l as [|c l IH]; [reflexivity|]. cbn [map filter]. intros N.
  assert (Nc : (fst c =? f) = false) by (apply Z.eqb_neq; intros E; apply N; now left).
  assert (Nl : ~ In f (map fst l)) by (intros I; apply N; now right).
  destruct (keep c); [|now apply IH]. cbn [field_in_list]. rewrite Nc. now apply IH.
Qed.

Lemma internal_field_dropped (f : WbFieldRef) (l : field_store) (fs : WbFieldStruct) :
  NoDup (map fst l) ->
  field_at f l = Some fs ->
  f_is_proto_internal fs = true ->
  field_in_list f (filter (fun c => negb (f_is_proto_internal (snd c))) l) = false.
Proof.
  induction l as [|c l IH]; [discriminate|]. cbn [map field_at filter]. intros N.
  apply NoDup_cons_iff in N as (Fresh & N).
  destruct (Z.eqb_spec (fst c) f) as [E|E].
  - intros H I. injection H as H. rewrite H, I. cbn [negb]. rewrite <- E.
    now apply absent_field_stays_absent.
  - intros H I. destruct (negb (f_is_proto_internal (snd c))); [|now apply IH].
    cbn [field_in_list]. rewrite (proj2 (Z.eqb_neq _ _) E). now apply IH.
Qed.

Lemma plain_field_kept (f : WbFieldRef) (l : field_store) (fs : WbFieldStruct) :
  field_at f l = Some fs ->
  f_is_proto_internal fs = false ->
  field_at f (filter (fun c => negb (f_is_proto_internal (snd c))) l) = Some fs.
Proof.
  induction l as [|c l IH]; [discriminate|]. cbn [field_at filter].
  destruct (Z.eqb_spec (fst c) f) as [E|E].
  - intros H I. injection H as H. rewrite H, I. cbn [negb field_at].
    now rewrite (proj2 (Z.eqb_eq _ _) E), H.
  - intros H I. destruct (negb (f_is_proto_internal (snd c))); [|now apply IH].
    cbn [field_at]. rewrite (proj2 (Z.eqb_neq _ _) E). now apply IH.
Qed.

Lemma absent_node_stays_absent (n : WbNodeRef) (keep : WbNodeRef * WbNodeStruct -> bool)
      (l : node_store) :
  ~ In n (map fst l) -> node_in_list n (filter keep l) = false.
Proof.
  induction l as [|c l IH]; [reflexivity|]. cbn [map filter]. intros N.
  assert (Nc : (fst c =? n) = false) by (apply Z.eqb_neq; intros E; apply N; now left).
  assert (Nl : ~ In n (map fst l)) by (intros I; apply N; now right).
  destruct (keep c); [|now apply IH]. cbn [node_in_list]. rewrite Nc. now apply IH.
Qed.

Lemma internal_node_dropped (n : WbNodeRef) (l : node_store) (ns : WbNodeStruct) :
  NoDup (map fst l) ->
  node_at n l = Some ns ->
  n_is_proto_internal ns = true ->
  node_in_list n (filter (fun c => negb (n_is_proto_internal (snd c))) l) = false.
Proof.
  induction l as [|c l IH]; [discriminate|]. cbn [map node_at filter]. intros N.
  apply NoDup_cons_iff in N as (Fresh & N).
  destruct (Z.eqb_spec (fst c) n) as [E|E].
  - intros H I. injection H as H. rewrite H, I. cbn [negb]. rewrite <- E.
    now apply absent_node_stays_absent.
  - intros H I. destruct (negb (n_is_proto_internal (snd c))); [|now apply IH].
    cbn [node_in_list]. rewrite (proj2 (Z.eqb_neq _ _) E). now apply IH.
Qed.

Lemma plain_node_kept (n : WbNodeRef) (l : node_store) (ns : WbNodeStruct) :
  node_at n l = Some ns ->
  n_is_proto_internal ns = false ->
  node_at n (filter (fun c => negb (n_is_proto_internal (snd c))) l) = Some ns.
Proof.
  induction l as [|c l IH]; [discriminate|]. cbn [node_at filter].
  destruct (Z.eqb_spec (fst c) n) as [E|E].
  - intros H I. injection H as H. rewrite H, I. cbn [negb node_at].
    now rewrite (proj2 (Z.eqb_eq _ _) E), H.
  - intros H I. destruct (negb (n_is_proto_internal (snd c))); [|now apply IH].
    cbn [node_at]. rewrite (proj2 (Z.eqb_neq _ _) E). now apply IH.
Qed.

(** X9.  When the simulator announces that PROTO nodes were regenerated,
    the handles of the internal fields and nodes die and all others live
    on: afterwards [check_field] refuses a handle of an internal field as
    invalid, whatever the operation, and [is_node_ref_valid] refuses a
    handle of an internal node, while every other handle designates the
    record it designated before. *)
Theorem regeneration_drops_internal_handles (st : Supervisor) :
  NoDup (map fst (field_list st)) ->
  NoDup (map fst (node_list st)) ->
  exists st',
    supervisor_read_answer ans_NODE_REGENERATED st = Ok st'
    /\ (forall f fs,
           deref_field f (field_list st) = Ok fs ->
           f_is_proto_internal fs = true ->
           field_in_list f (field_list st') = false
           /\ (is_supervisor st = true ->
               forall func type check_type index is_importing check_type_internal,
                 check_field f func type check_type index is_importing check_type_internal st'
                 = Ok (complains "Error: %s() called with invalid 'field' argument.\n" func st',
                       false, index)))
    /\ (forall f fs,
           deref_field f (field_list st) = Ok fs ->
           f_is_proto_internal fs = false ->
           deref_field f (field_list st') = Ok fs)
    /\ (forall n ns,
           deref_node n (node_list st) = Ok ns ->
           n_is_proto_internal ns = true ->
           is_node_ref_valid n (node_list st') = false)
    /\ (forall n ns,
           deref_node n (node_list st) = Ok ns ->
           n_is_proto_internal ns = false ->
           deref_node n (node_list st') = Ok ns).
Proof.
  intros NF NN. eexists. split; [reflexivity|].
  cbn [bind clean_field_request_garbage_collector
       remove_internal_proto_nodes_and_fields_from_list field_list node_list
       set_field_requests_garbage_list set_field_list set_node_list].
  split; [|split; [|split]].
  - intros f fs D I. apply deref_field_at in D as (NZ & A).
    pose proof (internal_field_dropped f _ fs NF A I) as Gone.
    split; [exact Gone|]. intros S func type check_type index is_importing cti.
    unfold check_field, robot_check_supervisor. cbn. rewrite S. cbn.
    rewrite (proj2 (Z.eqb_neq _ _) NZ), Gone. reflexivity.
  - intros f fs D I. apply deref_field_at in D as (NZ & A). apply deref_field_at.
    split; [exact NZ | now apply plain_field_kept].
  - intros n ns D I. unfold deref_node in D. unfold is_node_ref_valid.
    destruct (n =? NULL); [reflexivity|].
    destruct (node_at n (node_list st)) as [x|] eqn:A; [|discriminate]. injection D as ->.
    now apply (internal_node_dropped n _ ns).
  - intros n ns D I. unfold deref_node in *. destruct (n =? NULL); [discriminate|].
    destruct (node_at n (node_list st)) as [x|] eqn:A; [|discriminate]. injection D as ->.
    now rewrite (plain_node_kept n _ ns A I).
Qed.

(** ** Requests that meet a queued [SET] *)

Lemma update_queued_set_length (f : WbFieldRef) (index : Z)
      (g : WbFieldRequest -> WbFieldRequest) (q : list WbFieldRequest) :
  List.length (update_queued_set f index g q) = List.length q.
Proof.
  induction q as [|r q IH]; [reflexivity|]. cbn [update_queued_set].
  destruct (same_set f index r); cbn; [reflexivity | now rewrite IH].
Qed.

Lemma same_set_iff (f : WbFieldRef) (index : Z) (r : WbFieldRequest) :
  same_set f index r = true <-> r_field r = f /\ r_type r = SET /\ r_index r = index.
Proof.
  unfold same_set. rewrite !andb_true_iff, !Z.eqb_eq.
  split; [intros ((A & B) & C) | intros (A & B & C)]; now repeat split.
Qed.

Lemma find_other_queued_set (f f2 : WbFieldRef) (index i2 : Z) (d : WbFieldData)
      (q : list WbFieldRequest) :
  f2 <> f \/ i2 <> index ->
  find_queued_set f2 i2 (update_queued_set f index (set_r_data d) q)
  = find_queued_set f2 i2 q.
Proof.
  intros N. induction q as [|r q IH]; [reflexivity|]. cbn [update_queued_set].
  destruct (same_set f index r) eqn:S; cbn [find_queued_set].
  - apply same_set_iff in S as (F & _ & I).
    assert (O : same_set f2 i2 r = false).
    { destruct (same_set f2 i2 r) eqn:S2; [|reflexivity].
      apply same_set_iff in S2 as (F2 & _ & I2). exfalso. destruct N; congruence. }
    assert (O' : same_set f2 i2 (set_r_data d r) = false) by exact O.
    now rewrite O, O'.
  - destruct (same_set f2 i2 r); [reflexivity | exact IH].
Qed.

Lemma set_meets_queued_set (f : WbFieldRef) (index : Z) (data : WbFieldData) (st : Supervisor)
      (r : WbFieldRequest) :
  find_queued_set f index (field_requests_list st) = Some r ->
  r_is_string r = false ->
  field_operation_with_data f SET index data st
  = Ok (set_field_requests_list
          (update_queued_set f index (set_r_data data) (field_requests_list st)) st).
Proof.
  intros F S. unfold field_operation_with_data. rewrite F. cbn. now rewrite S.
Qed.

(** X10.  Last write wins.  A [SET] on (F, I) that meets a queued [SET] on
    (F, I) that is not a string replaces its payload in place: the queue
    keeps its length and its order, the queued requests on other fields or
    indices are as they were, and nothing is sent.  So after
    [wb_supervisor_field_set_sf_float(f, v1)] and
    [wb_supervisor_field_set_sf_float(f, v2)] one request for [f] is
    queued, and [wb_supervisor_field_get_sf_float(f)] returns [v2] without
    any frame being written. *)
Theorem last_set_wins :
  (forall (f : WbFieldRef) (index : Z) (data : WbFieldData) (st : Supervisor)
          (r : WbFieldRequest),
      find_queued_set f index (field_requests_list st) = Some r ->
      r_is_string r = false ->
      exists st',
        field_operation_with_data f SET index data st = Ok st'
        /\ List.length (field_requests_list st') = List.length (field_requests_list st)
        /\ map r_type (field_requests_list st') = map r_type (field_requests_list st)
        /\ find_queued_set f index (field_requests_list st') = Some (set_r_data data r)
        /\ (forall f2 i2, f2 <> f \/ i2 <> index ->
                          find_queued_set f2 i2 (field_requests_list st')
                          = find_queued_set f2 i2 (field_requests_list st))
        /\ outgoing st' = outgoing st
        /\ field_list st' = field_list st)
  /\ (forall (f : WbFieldRef) (v1 v2 : double) (st : Supervisor) (fs : WbFieldStruct),
         field_accepted f WB_SF_FLOAT true true st fs ->
         f_count fs = -1 ->
         find_queued_set f (-1) (field_requests_list st) = None ->
         finite_within_FLT_MAX v1 ->
         finite_within_FLT_MAX v2 ->
         exists st1 st2 st3,
           wb_supervisor_field_set_sf_float f v1 st = Ok (st1, ret_void)
           /\ wb_supervisor_field_set_sf_float f v2 st1 = Ok (st2, ret_void)
           /\ wb_supervisor_field_get_sf_float f st2 = Ok (st3, ret_double v2)
           /\ List.length (field_requests_list st2)
              = S (List.length (field_requests_list st))
           /\ outgoing st3 = outgoing st
           /\ incoming st3 = incoming st).
Proof.
  split.
  - intros f index data st r F S. eexists. split; [exact (set_meets_queued_set _ _ _ _ _ F S)|].
    cbn [field_requests_list set_field_requests_list outgoing field_list].
    split; [apply update_queued_set_length|]. split; [apply update_queued_set_types|].
    split; [now apply find_queued_set_update|]. split; [|now split].
    intros f2 i2 N. now apply find_other_queued_set.
  - intros f v1 v2 st fs A C Q V1 V2.
    pose proof A as (S & NZ & IL & D & PI & TY).
    assert (T : f_type fs = WB_SF_FLOAT).
    { cbn [andb] in TY. apply negb_false_iff, Z.eqb_eq in TY. exact TY. }
    (* the first call appends a request *)
    assert (E1 : wb_supervisor_field_set_sf_float f v1 st
                 = Ok (set_field_requests_list
                         (field_requests_list st
                          ++ [mkRequest SET (-1) false (sf_float v1) f]) st, ret_void)).
    { unfold wb_supervisor_field_set_sf_float, wb_supervisor_field_set_sf.
      rewrite (check_field_plain _ _ _ _ _ _ _ A (sf_type_bit k_float)). cbn [bind negb].
      cbn [pack_value]. rewrite (check_float_accepts _ v1 st V1). cbn [bind].
      unfold field_operation_with_data. rewrite Q.
      unfold create_and_append_field_request. rewrite D. cbn [bind]. rewrite C, T. cbn.
      reflexivity. }
    set (st1 := set_field_requests_list
                  (field_requests_list st ++ [mkRequest SET (-1) false (sf_float v1) f]) st)
      in *.
    assert (A1 : field_accepted f WB_SF_FLOAT true true st1 fs) by exact A.
    assert (F1 : find_queued_set f (-1) (field_requests_list st1)
                 = Some (mkRequest SET (-1) false (sf_float v1) f)).
    { apply find_queued_set_append; [exact Q|]. apply same_set_iff. now repeat split. }
    (* the second call rewrites it *)
    assert (E2 : wb_supervisor_field_set_sf_float f v2 st1
                 = Ok (set_field_requests_list
                         (update_queued_set f (-1) (set_r_data (sf_float v2))
                                            (field_requests_list st1)) st1, ret_void)).
    { unfold wb_supervisor_field_set_sf_float, wb_supervisor_field_set_sf.
      rewrite (check_field_plain _ _ _ _ _ _ _ A1 (sf_type_bit k_float)). cbn [bind negb].
      cbn [pack_value]. rewrite (check_float_accepts _ v2 st1 V2). cbn [bind].
      now rewrite (set_meets_queued_set f (-1) (sf_float v2) st1 _ F1 eq_refl). }
    set (st2 := set_field_requests_list
                  (update_queued_set f (-1) (set_r_data (sf_float v2))
                                     (field_requests_list st1)) st1) in *.
    assert (A2 : field_accepted f (sf_type k_float) true false st2 fs).
    { repeat split; assumption. }
    assert (F2 : find_queued_set f (-1) (field_requests_list st2)
                 = Some (set_r_data (sf_float v2) (mkRequest SET (-1) false (sf_float v1) f))).
    { now apply find_queued_set_update. }
    pose proof (getter_meets_queued_set k_float f st2 fs _ ltac:(discriminate) A2 F2) as E3.
    eexists. eexists. eexists. split; [exact E1|]. split; [exact E2|]. split; [exact E3|].
    cbn [field_requests_list set_field_requests_list outgoing incoming store_field
         set_field_list st2 st1].
    split; [|now split].
    unfold st2, st1. cbn [field_requests_list set_field_requests_list].
    rewrite update_queued_set_length, length_app. cbn. lia.
Qed.

(** X11.  An insert or a removal that meets a queued [SET] on the same
    field and index is not sent and not queued, while the local count is
    changed all the same: [wb_supervisor_field_insert_mf_*] then adds one to
    the count, and [wb_supervisor_field_remove_mf] on a field that is not of
    type [WB_MF_NODE] takes one off, with no request written for either. *)
Theorem insert_and_remove_behind_queued_set (f : WbFieldRef) (i : Z) (st : Supervisor)
        (fs : WbFieldStruct) (r : WbFieldRequest) :
  find_queued_set f i (field_requests_list st) = Some r ->
  0 <= f_count fs < INT_MAX ->
  (forall (k : kind) (value : arg k) (d : WbFieldData),
      field_accepted f (mf_type k) true true st fs ->
      0 <= i <= f_count fs ->
      pack_value k (String.append "wb_supervisor_field_insert_mf_" (kind_name k)) value st
      = Ok (st, Some d) ->
      wb_supervisor_field_insert_mf k f i value st
      = Ok (store_field f (set_f_count (f_count fs + 1)) st, ret_void))
  /\ (field_accepted f WB_MF false true st fs ->
      0 <= i <= f_count fs - 1 ->
      f_type fs <> WB_MF_NODE ->
      wb_supervisor_field_remove_mf f i st
      = Ok (store_field f (set_f_count (f_count fs - 1)) st, ret_void)).
Proof.
  intros Q C.
  assert (Skip : forall action data,
             action <> GET -> action <> SET ->
             field_operation_with_data f action i data st = Ok st).
  { intros action data NG NS. unfold field_operation_with_data. rewrite Q.
    now rewrite (proj2 (Z.eqb_neq _ _) NG), (proj2 (Z.eqb_neq _ _) NS). }
  split.
  - intros k value d A I P. pose proof A as (_ & _ & _ & D & _).
    unfold wb_supervisor_field_insert_mf.
    rewrite (check_field_in_range _ _ _ _ true _ _ _ _ A (mf_type_bit k) C I).
    cbn [bind negb]. rewrite P. cbn [bind].
    rewrite (Skip IMPORT d ltac:(discriminate) ltac:(discriminate)). cbn [bind]. rewrite D.
    cbn [bind]. unfold int_add. rewrite wrap_int_id; [reflexivity|].
    unfold in_int, INT_MIN, INT_MAX in *. lia.
  - intros A I N. pose proof A as (_ & _ & _ & D & _).
    unfold wb_supervisor_field_remove_mf. rewrite D. cbn [bind].
    assert (NE : (f_count fs =? 0) = false) by (apply Z.eqb_neq; lia). rewrite NE.
    rewrite (check_field_in_range _ _ _ _ false _ _ _ _ A ltac:(discriminate) C I).
    cbn [bind negb]. unfold field_operation.
    rewrite (Skip REMOVE _ ltac:(discriminate) ltac:(discriminate)). cbn [bind]. rewrite D.
    cbn [bind]. rewrite (proj2 (Z.eqb_neq _ _) N). cbn [negb].
    unfold int_sub. rewrite wrap_int_id; [reflexivity|].
    unfold in_int, INT_MIN, INT_MAX in *. lia.
Qed.

(** ** Symbolic runs of the serializer and the dispatcher *)

(** Reduces the projections of a state through its setters. *)
Ltac project :=
  cbn [is_supervisor is_quitting robot_time incoming outgoing stderr next_alloc field_list
       field_requests_list field_requests_garbage_list sent_field_get_request node_list
       imported_nodes_number node_id node_tag allow_search_in_proto node_def_name proto_id
       requested_field_name node_get_selected node_ref root_ref contact_points_node_ref
       contact_points_include_descendants allows_contact_point_internal_node self_node_ref
       set_robot_time set_incoming set_outgoing set_stderr set_next_alloc set_field_list
       set_field_requests_list set_field_requests_garbage_list set_sent_field_get_request
       set_node_list set_imported_nodes_number set_node_id set_node_tag
       set_allow_search_in_proto set_node_def_name set_proto_id set_requested_field_name
       set_node_get_selected set_node_ref set_contact_points_node_ref
       set_contact_points_include_descendants set_allows_contact_point_internal_node
       set_root_ref set_self_node_ref store_field store_node fprintf_stderr
       clean_field_request_garbage_collector bind negb hd tl].

Tactic Notation "project" "in" hyp(H) :=
  cbn [is_supervisor is_quitting robot_time incoming outgoing stderr next_alloc field_list
       field_requests_list field_requests_garbage_list sent_field_get_request node_list
       imported_nodes_number node_id node_tag allow_search_in_proto node_def_name proto_id
       requested_field_name node_get_selected node_ref root_ref contact_points_node_ref
       contact_points_include_descendants allows_contact_point_internal_node self_node_ref
       set_robot_time set_incoming set_outgoing set_stderr set_next_alloc set_field_list
       set_field_requests_list set_field_requests_garbage_list set_sent_field_get_request
       set_node_list set_imported_nodes_number set_node_id set_node_tag
       set_allow_search_in_proto set_node_def_name set_proto_id set_requested_field_name
       set_node_get_selected set_node_ref set_contact_points_node_ref
       set_contact_points_include_descendants set_allows_contact_point_internal_node
       set_root_ref set_self_node_ref store_field store_node fprintf_stderr
       clean_field_request_garbage_collector bind negb hd tl] in H.

(** The serializer when no handle resolution is pending. *)
Lemma write_request_of_queue (st : Supervisor) (buf : list wire_item)
      (garbage : list WbFieldRequest) (sent : option WbFieldRequest) :
  idle st ->
  contact_points_node_ref st = NULL ->
  drain_requests (field_list st) (field_requests_list st) []
                 (field_requests_garbage_list st) (sent_field_get_request st)
  = Ok (buf, garbage, sent) ->
  supervisor_write_request st
  = Ok (set_outgoing (outgoing st ++ [buf])
          (set_sent_field_get_request sent
             (set_field_requests_garbage_list garbage (set_field_requests_list [] st)))).
Proof.
  intros (I1 & I2 & I3 & I4 & I5) CR DR. unfold supervisor_write_request.
  assert (G1 : (node_id st >=? 0) = false) by (rewrite Z.geb_leb; apply Z.leb_gt; lia).
  assert (G2 : (node_tag st >? 0) = false) by (rewrite Z.gtb_ltb; apply Z.ltb_ge; lia).
  rewrite G1, I2, G2, I4, I5, DR. project. rewrite CR. cbn [Z.eqb NULL bind].
  now rewrite app_nil_r.
Qed.

(** The serializer while a handle resolution is pending: the request for
    it is all that is written, and the state is otherwise untouched. *)
Lemma write_request_of_resolution (st : Supervisor) (request : list wire_item) :
  resolution_request st = Some request ->
  contact_points_node_ref st = NULL ->
  supervisor_write_request st = Ok (set_outgoing (outgoing st ++ [request]) st).
Proof.
  unfold resolution_request, supervisor_write_request. intros R CR.
  destruct (node_id st >=? 0).
  { injection R as <-. cbn [bind]. rewrite CR. cbn [Z.eqb NULL bind]. now rewrite app_nil_r. }
  destruct (node_def_name st).
  { injection R as <-. cbn [bind]. rewrite CR. cbn [Z.eqb NULL bind]. now rewrite app_nil_r. }
  destruct (node_tag st >? 0).
  { injection R as <-. cbn [bind]. rewrite CR. cbn [Z.eqb NULL bind]. now rewrite app_nil_r. }
  destruct (node_get_selected st).
  { injection R as <-. cbn [bind]. rewrite CR. cbn [Z.eqb NULL bind]. now rewrite app_nil_r. }
  destruct (requested_field_name st); [|discriminate].
  injection R as <-. cbn [bind]. rewrite CR. cbn [Z.eqb NULL bind]. now rewrite app_nil_r.
Qed.

(** A flush whose reply frame holds one message. *)
Lemma flush_with_one_answer (st st1 : Supervisor) (a : Answer) (rest : list (list Answer)) :
  supervisor_write_request st = Ok st1 ->
  incoming st = [a] :: rest ->
  wb_robot_flush_unlocked st = supervisor_read_answer a (set_incoming rest st1).
Proof.
  intros W IN. unfold wb_robot_flush_unlocked. rewrite W. cbn [bind].
  pose proof (write_request_frame _ _ W) as (_ & I & _). rewrite I, IN.
  cbn [hd tl read_answers]. now destruct (supervisor_read_answer a (set_incoming rest st1)).
Qed.

Lemma flush_without_answer (st st1 : Supervisor) :
  supervisor_write_request st = Ok st1 ->
  hd [] (incoming st) = [] ->
  wb_robot_flush_unlocked st = Ok (set_incoming (tl (incoming st)) st1).
Proof.
  intros W IN. unfold wb_robot_flush_unlocked. rewrite W. cbn [bind].
  pose proof (write_request_frame _ _ W) as (_ & I & _). now rewrite I, IN.
Qed.

(** Queuing without clamping: the index lies in the field. *)
Lemma create_and_append_in_range (f : WbFieldRef) (action index : Z) (data : WbFieldData)
      (st : Supervisor) (fs : WbFieldStruct) :
  deref_field f (field_list st) = Ok fs ->
  f_count fs = -1
  \/ (0 <= index < f_count fs + (if (action =? IMPORT) || (action =? IMPORT_FROM_STRING)
                                 then 1 else 0)
      /\ f_count fs < INT_MAX) ->
  create_and_append_field_request f action index data true st
  = Ok (set_field_requests_list
          (field_requests_list st
           ++ [mkRequest action index (fst (is_string_expression (f_type fs) action)) data f])
          st).
Proof.
  intros D C. unfold create_and_append_field_request. rewrite D. cbn [bind].
  assert (NC : negb (f_count fs =? -1)
               && ((index >=? int_add (f_count fs)
                                (if (action =? IMPORT) || (action =? IMPORT_FROM_STRING)
                                 then 1 else 0)) || (index <? 0)) = false).
  { destruct C as [->|(R & M)]; [reflexivity|].
    unfold int_add. rewrite wrap_int_id.
    - rewrite Z.geb_leb, (proj2 (Z.leb_gt _ _)), (proj2 (Z.ltb_ge _ _)) by lia.
      apply andb_false_r.
    - unfold in_int, INT_MIN, INT_MAX in *.
      destruct ((action =? IMPORT) || (action =? IMPORT_FROM_STRING)); lia. }
  rewrite NC. now destruct (is_string_expression (f_type fs) action).
Qed.

(** ** A [GET] that goes to the simulator *)










(** ** Field handles *)

Lemma find_field_head (name : string) (id : Z) (f : WbFieldRef) (fs : WbFieldStruct)
      (l : field_store) :
  f_node_unique_id fs = id ->
  f_name fs = Some name ->
  find_field name id ((f, fs) :: l) = Ok (Some (f, fs)).
Proof.
  intros I N. cbn [find_field snd]. now rewrite I, Z.eqb_refl, N, String.eqb_refl.
Qed.

Lemma resolution_of_field_request (st : Supervisor) (id : Z) (name : string) :
  node_id st < 0 -> node_def_name st = None -> node_tag st <= 0 ->
  node_get_selected st = false ->
  resolution_request (set_node_ref id (set_requested_field_name (Some name) st))
  = Some [w_opcode C_SUPERVISOR_FIELD_GET_FROM_NAME; w_uint32 (to_uint32 id); w_string name;
          w_uchar (if allow_search_in_proto st then 1 else 0)].
Proof.
  intros I1 I2 I3 I4. unfold resolution_request. project.
  rewrite Z.geb_leb, (proj2 (Z.leb_gt _ _)), I2, Z.gtb_ltb, (proj2 (Z.ltb_ge _ _)), I4 by lia.
  reflexivity.
Qed.

(** [wb_supervisor_node_get_field] once its arguments are accepted. *)
Lemma node_get_field_accepted (node : WbNodeRef) (c0 : ascii) (s0 : string) (s : Supervisor)
      (n0 : WbNodeStruct) (found : option (WbFieldRef * WbFieldStruct)) :
  node_accepted node s n0 ->
  find_field (String c0 s0) (n_id n0) (field_list s) = Ok found ->
  wb_supervisor_node_get_field node (Some (String c0 s0)) s
  = match found with
    | Some result => Ok (s, fst result)
    | None =>
        s2 <- wb_robot_flush_unlocked
                (set_node_ref (n_id n0) (set_requested_field_name (Some (String c0 s0)) s)) ;;
        match requested_field_name s2 with
        | Some _ =>
            if head_ref (field_list s2) =? NULL
            then Ok (set_requested_field_name None s2, NULL)
            else
              n1 <- deref_node node (node_list s2) ;;
              if n_is_proto_internal n1
              then Ok (store_field (head_ref (field_list s2)) (set_f_is_proto_internal true)
                                   (set_requested_field_name None s2),
                       head_ref (field_list s2))
              else Ok (set_requested_field_name None s2, head_ref (field_list s2))
        | None => Ok (s2, NULL)
        end
    end.
Proof.
  intros (Ss & Vs & Ds) Fs.
  unfold wb_supervisor_node_get_field, robot_check_supervisor. rewrite Ss. cbn [negb].
  rewrite Vs. cbn [negb]. rewrite Ds. cbn [bind]. rewrite Fs. reflexivity.
Qed.

(** The flush of [wb_supervisor_node_get_field] when one message comes
    back. *)
Lemma node_get_field_flush (st : Supervisor) (id : Z) (name : string) (a : Answer)
      (rest : list (list Answer)) :
  node_id st < 0 -> node_def_name st = None -> node_tag st <= 0 ->
  node_get_selected st = false ->
  contact_points_node_ref st = NULL ->
  incoming st = [a] :: rest ->
  wb_robot_flush_unlocked (set_node_ref id (set_requested_field_name (Some name) st))
  = supervisor_read_answer a
      (set_incoming rest
         (set_outgoing
            (outgoing st
             ++ [[w_opcode C_SUPERVISOR_FIELD_GET_FROM_NAME; w_uint32 (to_uint32 id);
                  w_string name; w_uchar (if allow_search_in_proto st then 1 else 0)]])
            (set_node_ref id (set_requested_field_name (Some name) st)))).
Proof.
  intros I1 I2 I3 I4 CR IN.
  apply flush_with_one_answer; [|exact IN].
  apply (write_request_of_resolution
           (set_node_ref id (set_requested_field_name (Some name) st)));
    [now apply resolution_of_field_request | exact CR].
Qed.

(** The reply to a field request for a field the simulator knows: a new
    record at the head of the field registry. *)
Lemma read_field_from_name (s : Supervisor) (field_ref field_type : Z)
      (is_proto_internal : bool) (field_count : Z) :
  field_ref <> -1 ->
  exists s',
    supervisor_read_answer
      (ans_FIELD_GET_FROM_NAME field_ref field_type is_proto_internal field_count) s = Ok s'
    /\ field_list s'
       = (next_alloc s,
          mkField (requested_field_name s) field_type
                  (if Z.land field_type WB_MF =? WB_MF then field_count else -1)
                  (node_ref s) field_ref is_proto_internal (sf_string None))
           :: field_list s
    /\ same_wire s s'
    /\ node_list s' = node_list s
    /\ requested_field_name s' = requested_field_name s
    /\ next_alloc s' = next_alloc s + 1.
Proof.
  intros R. eexists. split.
  - unfold supervisor_read_answer. rewrite (proj2 (Z.eqb_neq _ _) R). project. reflexivity.
  - project. split; [reflexivity|]. split; [same_by_computation|]. now repeat split.
Qed.

Lemma node_get_field_known (node : WbNodeRef) (c0 : ascii) (s0 : string)
      (st : Supervisor) (n : WbNodeStruct) (rest : list (list Answer))
      (field_ref field_type : Z) (is_proto_internal : bool) (field_count : Z) :
  node_accepted node st n ->
  find_field (String c0 s0) (n_id n) (field_list st) = Ok None ->
  node_id st < 0 -> node_def_name st = None -> node_tag st <= 0 ->
  node_get_selected st = false ->
  contact_points_node_ref st = NULL ->
  0 < next_alloc st ->
  incoming st
  = [ans_FIELD_GET_FROM_NAME field_ref field_type is_proto_internal field_count] :: rest ->
  field_ref <> -1 ->
  exists st',
    wb_supervisor_node_get_field node (Some (String c0 s0)) st = Ok (st', next_alloc st)
    /\ outgoing st'
       = outgoing st
         ++ [[w_opcode C_SUPERVISOR_FIELD_GET_FROM_NAME; w_uint32 (to_uint32 (n_id n));
              w_string (String c0 s0); w_uchar (if allow_search_in_proto st then 1 else 0)]]
    /\ field_list st'
       = (next_alloc st,
          mkField (Some (String c0 s0)) field_type
                  (if Z.land field_type WB_MF =? WB_MF then field_count else -1)
                  (n_id n) field_ref (is_proto_internal || n_is_proto_internal n)
                  (sf_string None))
           :: field_list st
    /\ field_requests_list st' = field_requests_list st
    /\ requested_field_name st' = None
    /\ node_accepted node st' n.
Proof.
  intros A F I1 I2 I3 I4 CR P IN R. pose proof A as (S & V & D).
  assert (NZ : (next_alloc st =? NULL) = false) by (apply Z.eqb_neq; unfold NULL; lia).
  rewrite (node_get_field_accepted node c0 s0 st n None A F).
  rewrite (node_get_field_flush st (n_id n) (String c0 s0) _ rest I1 I2 I3 I4 CR IN).
  destruct (read_field_from_name
              (set_incoming rest
                 (set_outgoing
                    (outgoing st
                     ++ [[w_opcode C_SUPERVISOR_FIELD_GET_FROM_NAME;
                          w_uint32 (to_uint32 (n_id n)); w_string (String c0 s0);
                          w_uchar (if allow_search_in_proto st then 1 else 0)]])
                    (set_node_ref (n_id n)
                       (set_requested_field_name (Some (String c0 s0)) st))))
              field_ref field_type is_proto_internal field_count R)
    as (s2 & -> & FL & ((Sup & Quit & _) & _ & O & Q) & NL & RN & _).
  project in FL. project in NL. project in RN. project in O. project in Q.
  project in Sup.
  cbn [bind]. rewrite RN, FL. cbn [head_ref fst]. rewrite NZ, NL, D. cbn [bind].
  destruct (n_is_proto_internal n) eqn:NI.
  - eexists. split; [reflexivity|]. project. rewrite FL. cbn [update_field fst snd].
    rewrite Z.eqb_refl, orb_true_r. split; [exact O|]. split; [reflexivity|].
    split; [exact Q|]. split; [reflexivity|].
    unfold node_accepted. project. now rewrite Sup, NL.
  - eexists. split; [reflexivity|]. project. rewrite FL, orb_false_r.
    split; [exact O|]. split; [reflexivity|].
    split; [exact Q|]. split; [reflexivity|].
    unfold node_accepted. project. now rewrite Sup, NL.
Qed.

(** X14.  [wb_supervisor_node_get_field] asks the simulator once per
    field.  For a field that the registry does not hold it writes one
    [FIELD_GET_FROM_NAME] request and, when the simulator knows the field,
    returns a fresh handle to a new record at the head of the registry:
    name, node id, type and id as given, count -1 unless the type is
    multi-valued, internal when the reply or the node says so.  A second
    call with the same arguments returns the same handle and changes
    nothing.  When the simulator answers -1 the result is [NULL] and the
    registry is as it was.  The pending field requests stay queued in both
    cases. *)
Theorem node_get_field_round_trip (node : WbNodeRef) (c0 : ascii) (s0 : string)
        (st : Supervisor) (n : WbNodeStruct) (rest : list (list Answer)) :
  let name := String c0 s0 in
  let request :=
    [w_opcode C_SUPERVISOR_FIELD_GET_FROM_NAME; w_uint32 (to_uint32 (n_id n)); w_string name;
     w_uchar (if allow_search_in_proto st then 1 else 0)] in
  node_accepted node st n ->
  find_field name (n_id n) (field_list st) = Ok None ->
  node_id st < 0 -> node_def_name st = None -> node_tag st <= 0 ->
  node_get_selected st = false ->
  contact_points_node_ref st = NULL ->
  0 < next_alloc st ->
  (forall field_ref field_type is_proto_internal field_count,
      incoming st
      = [ans_FIELD_GET_FROM_NAME field_ref field_type is_proto_internal field_count] :: rest ->
      field_ref <> -1 ->
      exists st',
        wb_supervisor_node_get_field node (Some name) st = Ok (st', next_alloc st)
        /\ outgoing st' = outgoing st ++ [request]
        /\ field_list st'
           = (next_alloc st,
              mkField (Some name) field_type
                      (if Z.land field_type WB_MF =? WB_MF then field_count else -1)
                      (n_id n) field_ref (is_proto_internal || n_is_proto_internal n)
                      (sf_string None))
               :: field_list st
        /\ field_requests_list st' = field_requests_list st
        /\ requested_field_name st' = None
        /\ wb_supervisor_node_get_field node (Some name) st' = Ok (st', next_alloc st))
  /\ (forall field_type is_proto_internal field_count,
         incoming st
         = [ans_FIELD_GET_FROM_NAME (-1) field_type is_proto_internal field_count] :: rest ->
         exists st',
           wb_supervisor_node_get_field node (Some name) st = Ok (st', NULL)
           /\ outgoing st' = outgoing st ++ [request]
           /\ field_list st' = field_list st
           /\ field_requests_list st' = field_requests_list st
           /\ requested_field_name st' = None).
Proof.
  intros name request A F I1 I2 I3 I4 CR P. subst name request.
  split.
  - intros field_ref field_type is_proto_internal field_count IN R.
    destruct (node_get_field_known node c0 s0 st n rest field_ref field_type is_proto_internal
                field_count A F I1 I2 I3 I4 CR P IN R)
      as (st' & E & O & FL & Q & RN & A').
    exists st'. do 5 (split; [assumption|]).
    assert (Found : exists cell, find_field (String c0 s0) (n_id n) (field_list st')
                                 = Ok (Some (next_alloc st, cell))).
    { rewrite FL. eexists. apply find_field_head; reflexivity. }
    destruct Found as (cell & Found).
    now rewrite (node_get_field_accepted node c0 s0 st' n _ A' Found).
  - intros field_type is_proto_internal field_count IN. pose proof A as (S & V & D).
    rewrite (node_get_field_accepted node c0 s0 st n None A F).
    rewrite (node_get_field_flush st (n_id n) (String c0 s0) _ rest I1 I2 I3 I4 CR IN).
    unfold supervisor_read_answer. cbn [Z.eqb Pos.eqb]. project.
    eexists. split; [reflexivity|]. project. do 3 (split; [reflexivity|]). reflexivity.
Qed.

(** ** Node handles *)

Lemma add_new_node (uid type : Z) (model_name def_name : option string)
      (tag parent_id : Z) (is_proto : bool) (st : Supervisor) :
  find_node_by_id uid (node_list st) = None ->
  add_node_to_list uid type model_name def_name tag parent_id is_proto st
  = Ok (set_node_list
          ((next_alloc st, new_node uid type model_name def_name tag parent_id is_proto)
             :: node_list st)
          (set_next_alloc (next_alloc st + 1) st)).
Proof. intros F. unfold add_node_to_list. now rewrite F. Qed.

(** The reply to a node request for a node the simulator hands out and the
    registry does not hold: a new record at the head of the registry. *)
Lemma read_new_node (s : Supervisor) (uid : Z) (info : node_info) :
  uid <> 0 ->
  i_is_proto_internal info = false \/ allows_contact_point_internal_node s = true ->
  find_node_by_id uid (node_list s) = None ->
  exists s',
    supervisor_read_answer (ans_NODE_GET uid info) s = Ok s'
    /\ node_list s' = (next_alloc s, node_of_reply uid info) :: node_list s
    /\ node_id s' = uid
    /\ same_wire s s'
    /\ field_list s' = field_list s
    /\ requested_field_name s' = requested_field_name s
    /\ sent_field_get_request s' = sent_field_get_request s
    /\ next_alloc s' = next_alloc s + 1.
Proof.
  intros NZ Allowed F. eexists. split.
  - unfold supervisor_read_answer. rewrite (proj2 (Z.eqb_neq _ _) NZ).
    assert (Al : negb (i_is_proto_internal info) || allows_contact_point_internal_node s
                 = true).
    { destruct Allowed as [->| ->]; [reflexivity | apply orb_true_r]. }
    rewrite Al. cbn [negb andb]. rewrite (add_new_node _ _ _ _ _ _ _ _ F). project.
    reflexivity.
  - project. split; [reflexivity|]. split; [reflexivity|]. split; [same_by_computation|].
    now repeat split.
Qed.

(** A node reply the dispatcher passes over: the unknown node (uid 0), and
    an internal PROTO node while internal nodes are not asked for. *)
Lemma read_no_node (s : Supervisor) (uid : Z) (info : node_info) :
  uid = 0 \/ (i_is_proto_internal info = true /\ allows_contact_point_internal_node s = false) ->
  supervisor_read_answer (ans_NODE_GET uid info) s
  = Ok (clean_field_request_garbage_collector s).
Proof.
  intros N. unfold supervisor_read_answer.
  assert (C : negb (uid =? 0)
              && (negb (i_is_proto_internal info) || allows_contact_point_internal_node s)
              = false).
  { destruct N as [->|(-> & ->)]; [reflexivity | apply andb_false_r]. }
  now rewrite C.
Qed.

Lemma resolution_of_node_id (st : Supervisor) (id : Z) :
  0 <= id ->
  resolution_request (set_node_id id st)
  = Some [w_opcode C_SUPERVISOR_NODE_GET_FROM_ID; w_int32 id].
Proof.
  intros P. unfold resolution_request. project.
  now rewrite Z.geb_leb, (proj2 (Z.leb_le _ _)) by lia.
Qed.

Lemma node_get_from_id_flush (st : Supervisor) (id : Z) (a : Answer)
      (rest : list (list Answer)) :
  0 <= id ->
  contact_points_node_ref st = NULL ->
  incoming st = [a] :: rest ->
  wb_robot_flush_unlocked (set_node_id id st)
  = supervisor_read_answer a
      (set_incoming rest
         (set_outgoing (outgoing st ++ [[w_opcode C_SUPERVISOR_NODE_GET_FROM_ID; w_int32 id]])
                       (set_node_id id st))).
Proof.
  intros P CR IN. apply flush_with_one_answer; [|exact IN].
  apply (write_request_of_resolution (set_node_id id st));
    [now apply resolution_of_node_id | exact CR].
Qed.

Lemma head_is_not_fresh (st : Supervisor) :
  handles_ok st -> (next_alloc st =? head_ref (node_list st)) = false.
Proof.
  intros (P & _ & _ & _ & BA & _). apply Z.eqb_neq.
  destruct (node_list st) as [|c l]; cbn [head_ref]; [unfold NULL; lia|].
  specialize (BA (fst c) (or_introl eq_refl)). unfold WbNodeRef in *. lia.
Qed.

(** [wb_supervisor_node_get_from_id] for an id that is not negative. *)
Lemma node_get_from_id_accepted (id : Z) (st : Supervisor) :
  is_supervisor st = true ->
  0 <= id ->
  wb_supervisor_node_get_from_id id st = node_get_from_id id st.
Proof.
  intros S P. unfold wb_supervisor_node_get_from_id, robot_check_supervisor. rewrite S.
  cbn [negb]. now rewrite (proj2 (Z.ltb_ge _ _) P).
Qed.

Lemma node_accessors (node : WbNodeRef) (st : Supervisor) (n : WbNodeStruct) :
  node_accepted node st n ->
  wb_supervisor_node_get_id node st
  = Ok (if n_is_proto_internal n
        then (if negb (is_quitting st)
              then fprintf_stderr "Error: %s() called for an internal PROTO node.\n"
                                  [a_str "wb_supervisor_node_get_id"] st
              else st, -1)
        else (st, n_id n))
  /\ wb_supervisor_node_get_type node st = Ok (st, n_type n)
  /\ wb_supervisor_node_get_def node st
     = Ok (st, match n_def_name n with Some d => d | None => "" end)
  /\ wb_supervisor_node_is_proto node st = Ok (st, n_is_proto n)
  /\ wb_supervisor_node_get_base_type_name node st = Ok (st, wb_node_get_name (n_type n))
  /\ wb_supervisor_node_get_type_name node st
     = Ok (st, match n_model_name n with
               | None => wb_node_get_name (n_type n)
               | Some m => Some m
               end).
Proof.
  intros (S & V & D).
  unfold wb_supervisor_node_get_id, wb_supervisor_node_get_type, wb_supervisor_node_get_def,
    wb_supervisor_node_is_proto, wb_supervisor_node_get_base_type_name,
    wb_supervisor_node_get_type_name, robot_check_supervisor.
  rewrite S, V, D. cbn [negb bind].
  split; [now destruct (n_is_proto_internal n)|]. do 4 (split; [reflexivity|]).
  now destruct (n_model_name n).
Qed.

(** X15.  [wb_supervisor_node_get_from_id] asks the simulator once per
    node.  An id the registry holds is answered from it, with no frame
    written and no change of state.  For an id the registry does not hold
    one [NODE_GET_FROM_ID] request is written; when the simulator hands out
    the node, a record for it is put at the head of the registry and a
    fresh handle to it is returned, the pending field requests stay queued
    and no resolution stays pending.  The accessors then return what the
    reply said: its id, its type, the last segment of its DEF expression,
    its PROTO flag; and asking for the id again returns the same handle
    from the registry. *)
Theorem node_get_from_id_round_trip (id : Z) (st : Supervisor) :
  is_supervisor st = true ->
  0 < id ->
  (forall c, find_node_by_id id (node_list st) = Some c ->
             wb_supervisor_node_get_from_id id st = Ok (st, fst c))
  /\ (forall info rest,
         find_node_by_id id (node_list st) = None ->
         handles_ok st ->
         contact_points_node_ref st = NULL ->
         incoming st = [ans_NODE_GET id info] :: rest ->
         i_is_proto_internal info = false ->
         exists st',
           wb_supervisor_node_get_from_id id st = Ok (st', next_alloc st)
           /\ outgoing st'
              = outgoing st ++ [[w_opcode C_SUPERVISOR_NODE_GET_FROM_ID; w_int32 id]]
           /\ node_list st' = (next_alloc st, node_of_reply id info) :: node_list st
           /\ field_requests_list st' = field_requests_list st
           /\ node_id st' = -1
           /\ wb_supervisor_node_get_from_id id st' = Ok (st', next_alloc st)
           /\ wb_supervisor_node_get_id (next_alloc st) st' = Ok (st', id)
           /\ wb_supervisor_node_get_type (next_alloc st) st' = Ok (st', i_type info)
           /\ wb_supervisor_node_get_def (next_alloc st) st'
              = Ok (st', match extract_node_def (Some (i_def_name info)) with
                         | Some d => d
                         | None => ""
                         end)
           /\ wb_supervisor_node_is_proto (next_alloc st) st' = Ok (st', i_is_proto info)).
Proof.
  intros S P. rewrite (node_get_from_id_accepted id st S ltac:(lia)).
  split.
  - intros c F. unfold node_get_from_id. now rewrite F.
  - intros info rest F HO CR IN NI.
    unfold node_get_from_id. rewrite F.
    rewrite (node_get_from_id_flush st id _ rest ltac:(lia) CR IN).
    destruct (read_new_node
                (set_incoming rest
                   (set_outgoing
                      (outgoing st ++ [[w_opcode C_SUPERVISOR_NODE_GET_FROM_ID; w_int32 id]])
                      (set_node_id id st)))
                id info ltac:(lia) (or_introl NI) F)
      as (s2 & -> & NL & _ & ((Sup & _) & _ & O & Q) & _).
    project in NL. project in O. project in Q. project in Sup.
    cbn [bind]. rewrite NL. cbn [head_ref fst]. rewrite (head_is_not_fresh st HO).
    cbn [negb].
    set (st' := set_node_id (-1) s2).
    assert (NL' : node_list st' = (next_alloc st, node_of_reply id info) :: node_list st)
      by exact NL.
    assert (S' : is_supervisor st' = true) by (unfold st'; project; congruence).
    assert (NZ : (next_alloc st =? NULL) = false).
    { destruct HO as (Pa & _). apply Z.eqb_neq. unfold NULL. lia. }
    assert (A' : node_accepted (next_alloc st) st' (node_of_reply id info)).
    { split; [exact S'|]. rewrite NL'. unfold is_node_ref_valid, deref_node.
      cbn [node_in_list node_at fst snd]. now rewrite NZ, Z.eqb_refl. }
    destruct (node_accessors _ _ _ A') as (Gid & Gty & Gdef & Gpr & _).
    exists st'. split; [reflexivity|]. split; [exact O|]. split; [exact NL'|].
    split; [exact Q|]. split; [reflexivity|].
    split.
    { rewrite (node_get_from_id_accepted id st' S' ltac:(lia)). unfold node_get_from_id.
      rewrite NL'. cbn [find_node_by_id snd]. unfold node_of_reply at 1, new_node at 1.
      cbn [n_id]. now rewrite Z.eqb_refl. }
    split; [exact Gid|]. split; [exact Gty|]. split; [exact Gdef | exact Gpr].
Qed.

(** X16.  A node the simulator does not hand out gets no handle.  When
    the reply to [wb_supervisor_node_get_from_id] carries the uid 0 (no such
    node) or describes an internal PROTO node, the result is [NULL] and the
    registry is as it was; the request was written all the same. *)
Theorem node_get_from_id_refused (id uid : Z) (st : Supervisor) (info : node_info)
        (rest : list (list Answer)) :
  is_supervisor st = true ->
  0 <= id ->
  find_node_by_id id (node_list st) = None ->
  contact_points_node_ref st = NULL ->
  incoming st = [ans_NODE_GET uid info] :: rest ->
  uid = 0 \/ (i_is_proto_internal info = true /\ allows_contact_point_internal_node st = false) ->
  exists st',
    wb_supervisor_node_get_from_id id st = Ok (st', NULL)
    /\ node_list st' = node_list st
    /\ field_list st' = field_list st
    /\ field_requests_list st' = field_requests_list st
    /\ node_id st' = -1
    /\ outgoing st' = outgoing st ++ [[w_opcode C_SUPERVISOR_NODE_GET_FROM_ID; w_int32 id]].
Proof.
  intros S P F CR IN N. rewrite (node_get_from_id_accepted id st S P).
  unfold node_get_from_id. rewrite F.
  rewrite (node_get_from_id_flush st id _ rest P CR IN).
  rewrite read_no_node by exact N. project. rewrite Z.eqb_refl, F. cbn [negb].
  eexists. split; [reflexivity|]. project. do 4 (split; [reflexivity|]). reflexivity.
Qed.

(** A flush made while a handle resolution is pending leaves the queue of
    field requests as it is. *)
Lemma flush_while_resolving (st st' : Supervisor) :
  resolution_request st <> None ->
  wb_robot_flush_unlocked st = Ok st' ->
  field_requests_list st' = field_requests_list st.
Proof.
  unfold wb_robot_flush_unlocked. intros R H. step_bind H st1 E.
  apply read_answers_frame in H as ((_ & _ & _ & Q2) & _). project in Q2. rewrite Q2.
  clear - E R. unfold supervisor_write_request in E. unfold resolution_request in R.
  match type of E with
  | bind ?c _ = _ => destruct c as [[buf st2]|] eqn:E2; [|discriminate]
  end.
  cbn [bind] in E. step_bind E contact Ec. injection E as <-. project.
  destruct (node_id st >=? 0); [now injection E2 as _ <-|].
  destruct (node_def_name st); [now injection E2 as _ <-|].
  destruct (node_tag st >? 0); [now injection E2 as _ <-|].
  destruct (node_get_selected st); [now injection E2 as _ <-|].
  destruct (requested_field_name st); [now injection E2 as _ <-|]. now elim R.
Qed.

Ltac resolving :=
  unfold resolution_request; project;
  repeat first
    [ discriminate
    | match goal with
      | |- context [if ?b then _ else _] => destruct b
      | |- context [match ?x with Some _ => _ | None => _ end] => destruct x
      end ].

Ltac settle FL R :=
  let S := fresh "S" in
  let N := fresh "N" in
  let RN := fresh "RN" in
  let Q := fresh "Q" in
  let S5 := fresh "S" in
  let S6 := fresh "S" in
  let S7 := fresh "S" in
  pose proof (flush_while_resolving _ _ R FL) as Q;
  pose proof (flush_frame _ _ FL) as (S & _ & _ & _ & _ & N & RN);
  destruct S as (_ & _ & _ & _ & S5 & S6 & S7 & _);
  project in Q; project in N; project in RN; project in S5; project in S6; project in S7.

(** X17.  Resolving a handle never disturbs the field operations that
    wait in the queue: whatever lookup is made, and whatever the simulator
    replies, the queue is afterwards what it was before (the lookup's own
    request travels alone, the queued operations go out with a later
    flush).  A lookup also cleans up after itself: when no resolution was
    pending before a node lookup, none is pending after it, so that the next
    flush serves the queue; the same holds for a field lookup whose reply
    frame resolves no node. *)
Theorem lookups_leave_the_queue (c : lookup_call) (st st' : Supervisor) (r : Z) :
  run_lookup_call c st = Ok (st', r) ->
  field_requests_list st' = field_requests_list st
  /\ (idle st ->
      node_lookup c = true \/ Forall quiet (hd [] (incoming st)) ->
      idle st').
Proof.
  intros H.
  assert (Same : forall s : Supervisor,
             field_requests_list s = field_requests_list st ->
             (idle st -> idle s) ->
             field_requests_list s = field_requests_list st
             /\ (idle st -> node_lookup c = true \/ Forall quiet (hd [] (incoming st)) ->
                 idle s)) by (intros s A B; split; [exact A | intros I _; exact (B I)]).
  assert (Same0 : field_requests_list st = field_requests_list st
                  /\ (idle st ->
                      node_lookup c = true \/ Forall quiet (hd [] (incoming st)) -> idle st))
    by (apply Same; [reflexivity | exact (fun I => I)]).
  destruct c as [id|def|node def| |node field_name|node field_name];
    cbn [run_lookup_call node_lookup] in H |- *.
  - unfold wb_supervisor_node_get_from_id, robot_check_supervisor in H.
    destruct (is_supervisor st); cbn [negb] in H;
      [|injection H as <- _; exact Same0].
    destruct (id <? 0) eqn:Neg;
      [injection H as <- _; exact Same0|].
    unfold node_get_from_id in H.
    destruct (find_node_by_id id (node_list st));
      [injection H as <- _; exact Same0|].
    step_bind H s2 FL. injection H as <- _.
    assert (R : resolution_request (set_node_id id st) <> None).
    { rewrite resolution_of_node_id by (apply Z.ltb_ge in Neg; lia). discriminate. }
    settle FL R. apply Same; [exact Q|].
    intros (I1 & I2 & I3 & I4 & I5). unfold idle. project.
    rewrite S0, S1, S2. split; [lia|]. do 3 (split; [assumption|]).
    destruct RN as [->| ->]; [assumption | reflexivity].
  - unfold wb_supervisor_node_get_from_def, robot_check_supervisor in H.
    destruct (is_supervisor st); cbn [negb] in H;
      [|injection H as <- _; exact Same0].
    destruct def as [[|c0 d]|];
      try (injection H as <- _; exact Same0).
    destruct (find_node_by_def _ NULL (node_list st));
      [injection H as <- _; exact Same0|].
    step_bind H s2 FL. injection H as <- _.
    assert (R : resolution_request
                  (set_node_id (-1) (set_node_def_name (Some (String c0 d)) st)) <> None)
      by resolving.
    settle FL R. apply Same; [exact Q|].
    intros (I1 & I2 & I3 & I4 & I5). unfold idle. project.
    rewrite S1, S2. split; [lia|]. split; [reflexivity|]. do 2 (split; [assumption|]).
    destruct RN as [->| ->]; [assumption | reflexivity].
  - unfold wb_supervisor_node_get_from_proto_def, robot_check_supervisor in H.
    destruct (is_supervisor st); cbn [negb] in H;
      [|injection H as <- _; exact Same0].
    destruct def as [[|c0 d]|];
      try (injection H as <- _; exact Same0).
    destruct (is_node_ref_valid node (node_list st)); cbn [negb] in H;
      [|destruct (negb (is_quitting st)); injection H as <- _;
        exact Same0].
    step_bind H n Dn.
    destruct (n_is_proto n); cbn [negb] in H;
      [|destruct (negb (is_quitting st)); injection H as <- _;
        exact Same0].
    destruct (find_node_by_def _ node (node_list st));
      [injection H as <- _; exact Same0|].
    step_bind H s2 FL. injection H as <- _.
    assert (R : resolution_request
                  (set_proto_id (n_id n)
                     (set_node_id (-1) (set_node_def_name (Some (String c0 d)) st))) <> None)
      by resolving.
    settle FL R.
    destruct (resolved_node s2); (apply Same; [exact Q|]);
      intros (I1 & I2 & I3 & I4 & I5); unfold idle; project;
      rewrite S1, S2; (split; [lia|]); (split; [reflexivity|]);
      do 2 (split; [assumption|]); (destruct RN as [->| ->]; [assumption | reflexivity]).
  - unfold wb_supervisor_node_get_selected, robot_check_supervisor in H.
    destruct (is_supervisor st); cbn [negb] in H;
      [|injection H as <- _; exact Same0].
    step_bind H s2 FL. injection H as <- _.
    assert (R : resolution_request (set_node_id (-1) (set_node_get_selected true st)) <> None)
      by resolving.
    settle FL R. apply Same; [exact Q|].
    intros (I1 & I2 & I3 & I4 & I5). unfold idle. project.
    rewrite S0, S1. split; [lia|]. do 2 (split; [assumption|]). split; [reflexivity|].
    destruct RN as [->| ->]; [assumption | reflexivity].
  - unfold wb_supervisor_node_get_field, robot_check_supervisor in H.
    destruct (is_supervisor st); cbn [negb] in H;
      [|injection H as <- _; exact Same0].
    destruct (is_node_ref_valid node (node_list st)); cbn [negb] in H;
      [|destruct (negb (is_quitting st)); injection H as <- _;
        exact Same0].
    destruct field_name as [[|c0 name]|];
      try (injection H as <- _; exact Same0).
    step_bind H n Dn. step_bind H found F.
    destruct found as [cell|];
      [injection H as <- _; exact Same0|].
    step_bind H s2 FL.
    assert (R : resolution_request
                  (set_node_ref (n_id n)
                     (set_requested_field_name (Some (String c0 name)) st)) <> None)
      by resolving.
    settle FL R.
    assert (Done : forall s : Supervisor,
               field_requests_list s = field_requests_list s2 ->
               node_id s = node_id s2 -> node_def_name s = node_def_name s2 ->
               node_tag s = node_tag s2 -> node_get_selected s = node_get_selected s2 ->
               requested_field_name s = None ->
               field_requests_list s = field_requests_list st
               /\ (idle st -> false = true \/ Forall quiet (hd [] (incoming st)) -> idle s)).
    { intros s E1 E2 E3 E4 E5 E6. split; [congruence|].
      intros (I1 & I2 & I3 & I4 & I5) [Abs|Quiet]; [discriminate|]. unfold idle.
      rewrite E2, E3, E4, E5, E6, S0, S1, S2, (N Quiet). now repeat split. }
    destruct (requested_field_name s2) eqn:RQ; [|injection H as <- _; now apply Done].
    project in H.
    destruct (head_ref (field_list s2) =? NULL); [injection H as <- _; now apply Done|].
    step_bind H n2 Dn2.
    destruct (n_is_proto_internal n2); injection H as <- _; now apply Done.
  - unfold wb_supervisor_node_get_proto_field, robot_check_supervisor in H.
    destruct (is_supervisor st); cbn [negb] in H;
      [|injection H as <- _; exact Same0].
    destruct (is_node_ref_valid node (node_list st)); cbn [negb] in H;
      [|destruct (negb (is_quitting st)); injection H as <- _;
        exact Same0].
    step_bind H n Dn.
    destruct (n_is_proto n); cbn [negb] in H;
      [|destruct (negb (is_quitting st)); injection H as <- _;
        exact Same0].
    destruct field_name as [[|c0 name]|];
      try (injection H as <- _; exact Same0).
    step_bind H found F.
    destruct found as [cell|];
      [injection H as <- _; exact Same0|].
    step_bind H s2 FL.
    assert (R : resolution_request
                  (set_allow_search_in_proto true
                     (set_node_ref (n_id n)
                        (set_requested_field_name (Some (String c0 name)) st))) <> None)
      by resolving.
    settle FL R.
    assert (Done : forall s : Supervisor,
               field_requests_list s = field_requests_list s2 ->
               node_id s = node_id s2 -> node_def_name s = node_def_name s2 ->
               node_tag s = node_tag s2 -> node_get_selected s = node_get_selected s2 ->
               requested_field_name s = None ->
               field_requests_list s = field_requests_list st
               /\ (idle st -> false = true \/ Forall quiet (hd [] (incoming st)) -> idle s)).
    { intros s E1 E2 E3 E4 E5 E6. split; [congruence|].
      intros (I1 & I2 & I3 & I4 & I5) [Abs|Quiet]; [discriminate|]. unfold idle.
      rewrite E2, E3, E4, E5, E6, S0, S1, S2, (N Quiet). now repeat split. }
    destruct (requested_field_name s2) eqn:RQ; project in H.
    + destruct (head_ref (field_list s2) =? NULL); project in H;
        injection H as <- _; now apply Done.
    + injection H as <- _. now apply Done.
Qed.

(** ** Operations that go to the simulator at once *)

(** An operation other than [GET] and [SET] on an empty queue, with no
    reply to come: the request is queued, written by the flush and moved to
    the garbage list. *)
Lemma operation_over_the_wire (f : WbFieldRef) (action index : Z) (data : WbFieldData)
      (st : Supervisor) (fs : WbFieldStruct) (items : list wire_item) :
  action <> GET ->
  action <> SET ->
  deref_field f (field_list st) = Ok fs ->
  f_count fs = -1
  \/ (0 <= index < f_count fs + (if (action =? IMPORT) || (action =? IMPORT_FROM_STRING)
                                 then 1 else 0)
      /\ f_count fs < INT_MAX) ->
  idle st ->
  field_requests_list st = [] ->
  contact_points_node_ref st = NULL ->
  hd [] (incoming st) = [] ->
  write_field_request
    fs (mkRequest action index (fst (is_string_expression (f_type fs) action)) data f)
  = Ok items ->
  exists st',
    field_operation_with_data f action index data st = Ok st'
    /\ outgoing st' = outgoing st ++ [items]
    /\ field_requests_list st' = []
    /\ field_list st' = field_list st
    /\ node_list st' = node_list st
    /\ stderr st' = stderr st
    /\ is_supervisor st' = is_supervisor st
    /\ is_quitting st' = is_quitting st
    /\ incoming st' = tl (incoming st).
Proof.
  intros NG NS D C I Q CR IN W.
  unfold field_operation_with_data. rewrite Q. cbn [find_queued_set].
  rewrite (proj2 (Z.eqb_neq _ _) NG), (proj2 (Z.eqb_neq _ _) NS). cbn [negb orb].
  unfold assert. cbn [bind].
  rewrite (create_and_append_in_range f action index data st fs D C). cbn [bind].
  rewrite Q. cbn [app].
  set (request := mkRequest action index (fst (is_string_expression (f_type fs) action))
                            data f) in *.
  set (st1 := set_field_requests_list [request] st).
  assert (DR : drain_requests (field_list st1) (field_requests_list st1) []
                              (field_requests_garbage_list st1) (sent_field_get_request st1)
               = Ok (items, request :: field_requests_garbage_list st,
                     sent_field_get_request st)).
  { unfold st1. project. cbn [drain_requests]. unfold request at 1. cbn [r_field].
    rewrite D. cbn [bind]. rewrite W. cbn [bind]. unfold request at 1. cbn [r_type].
    rewrite (proj2 (Z.eqb_neq _ _) NG). reflexivity. }
  rewrite (flush_without_answer st1 _ (write_request_of_queue st1 _ _ _ I CR DR) IN).
  cbn [bind]. eexists. split; [reflexivity|]. unfold st1. project.
  do 7 (split; [reflexivity|]). reflexivity.
Qed.

Lemma mf_type_is_multiple (k : kind) : (Z.land (mf_type k) WB_MF =? WB_MF) = true.
Proof. now destruct k. Qed.

(** [wb_supervisor_field_get_count] on a multiple field. *)
Lemma field_count_of (f : WbFieldRef) (st : Supervisor) (fs : WbFieldStruct) :
  is_supervisor st = true ->
  f <> NULL ->
  field_in_list f (field_list st) = true ->
  deref_field f (field_list st) = Ok fs ->
  (Z.land (f_type fs) WB_MF =? WB_MF) = true ->
  wb_supervisor_field_get_count f st = Ok (st, ret_int (f_count fs)).
Proof.
  intros S N In D M. unfold wb_supervisor_field_get_count.
  rewrite (check_field_plain f _ WB_NO_FIELD false false st fs);
    [|unfold field_accepted; now rewrite S, In, D | reflexivity].
  cbn [bind negb]. rewrite D. cbn [bind]. now rewrite M.
Qed.

(** X18.  On an empty queue an insert and a removal go to the simulator
    at once, and the count is kept locally.  [wb_supervisor_field_insert_mf_*]
    at an index between [-(count + 1)] and [count] writes one
    [FIELD_INSERT_VALUE] request that carries the node, the field, the index
    counted from the front (a negative index has [count + 1] added) and the
    value; [wb_supervisor_field_remove_mf] on a field that is not of type
    [WB_MF_NODE], at an index between [-count] and [count - 1], writes one
    [FIELD_REMOVE_VALUE] request (a negative index has [count] added).  No
    reply is needed.  Afterwards the queue is empty and the field's count is
    one more, respectively one less, which is what
    [wb_supervisor_field_get_count] returns. *)
Theorem insert_and_remove_are_sent (f : WbFieldRef) (i : Z) (st : Supervisor)
        (fs : WbFieldStruct) :
  idle st ->
  field_requests_list st = [] ->
  contact_points_node_ref st = NULL ->
  hd [] (incoming st) = [] ->
  0 <= f_count fs < INT_MAX - 1 ->
  (forall (k : kind) (value : arg k) (d : WbFieldData) (payload : list wire_item),
      field_accepted f (mf_type k) true true st fs ->
      - (f_count fs + 1) <= i <= f_count fs ->
      pack_value k (String.append "wb_supervisor_field_insert_mf_" (kind_name k)) value st
      = Ok (st, Some d) ->
      write_import_payload (mf_type k) d = Ok payload ->
      exists st',
        wb_supervisor_field_insert_mf k f i value st = Ok (st', ret_void)
        /\ outgoing st'
           = outgoing st
             ++ [[w_opcode C_SUPERVISOR_FIELD_INSERT_VALUE;
                  w_uint32 (to_uint32 (f_node_unique_id fs)); w_uint32 (to_uint32 (f_id fs));
                  w_uint32 (to_uint32 (if i <? 0 then i + f_count fs + 1 else i))]
                 ++ payload]
        /\ field_requests_list st' = []
        /\ deref_field f (field_list st') = Ok (set_f_count (f_count fs + 1) fs)
        /\ wb_supervisor_field_get_count f st' = Ok (st', ret_int (f_count fs + 1)))
  /\ (field_accepted f WB_MF false true st fs ->
      (Z.land (f_type fs) WB_MF =? WB_MF) = true ->
      f_type fs <> WB_MF_NODE ->
      - f_count fs <= i <= f_count fs - 1 ->
      exists st',
        wb_supervisor_field_remove_mf f i st = Ok (st', ret_void)
        /\ outgoing st'
           = outgoing st
             ++ [[w_opcode C_SUPERVISOR_FIELD_REMOVE_VALUE;
                  w_uint32 (to_uint32 (f_node_unique_id fs)); w_uint32 (to_uint32 (f_id fs));
                  w_uint32 (to_uint32 (if i <? 0 then i + f_count fs else i))]]
        /\ field_requests_list st' = []
        /\ deref_field f (field_list st') = Ok (set_f_count (f_count fs - 1) fs)
        /\ wb_supervisor_field_get_count f st' = Ok (st', ret_int (f_count fs - 1))).
Proof.
  intros I Q CR IN C.
  assert (Counted : forall (s : Supervisor) (count : Z),
             is_supervisor s = true -> f <> NULL ->
             field_in_list f (field_list st) = true ->
             deref_field f (field_list st) = Ok fs ->
             (Z.land (f_type fs) WB_MF =? WB_MF) = true ->
             field_list s = field_list st ->
             deref_field f (field_list (store_field f (set_f_count count) s))
             = Ok (set_f_count count fs)
             /\ wb_supervisor_field_get_count f (store_field f (set_f_count count) s)
                = Ok (store_field f (set_f_count count) s, ret_int count)).
  { intros s count S N In D M FL.
    assert (D' : deref_field f (field_list (store_field f (set_f_count count) s))
                 = Ok (set_f_count count fs))
      by (apply deref_field_store; now rewrite FL).
    split; [exact D'|].
    apply (field_count_of f _ (set_f_count count fs)); try assumption.
    project. now rewrite field_in_list_update, FL. }
  split.
  - intros k value d payload A R P W. pose proof A as (S & N & In & D & _ & T).
    assert (II : in_int i) by (unfold in_int, INT_MIN, INT_MAX in *; lia).
    cbn [andb] in T. apply negb_false_iff, Z.eqb_eq in T.
    unfold wb_supervisor_field_insert_mf.
    rewrite (check_field_index _ _ _ _ true _ _ _ _ A (mf_type_bit k) ltac:(lia) II).
    rewrite (proj2 (in_range_dec _ _ _)) by (unfold index_lo, index_hi; lia).
    cbn [bind negb]. rewrite P. cbn [bind].
    set (at_index := if i <? 0 then i + f_count fs + 1 else i).
    assert (AI : 0 <= at_index <= f_count fs)
      by (unfold at_index; destruct (Z.ltb_spec i 0); lia).
    destruct (operation_over_the_wire f IMPORT at_index d st fs
                ([w_opcode C_SUPERVISOR_FIELD_INSERT_VALUE;
                  w_uint32 (to_uint32 (f_node_unique_id fs)); w_uint32 (to_uint32 (f_id fs));
                  w_uint32 (to_uint32 at_index)] ++ payload))
      as (s2 & -> & O & Q2 & FL & _ & _ & S2 & _); try assumption; try discriminate.
    { right. cbn [Z.eqb IMPORT Pos.eqb orb]. lia. }
    { unfold write_field_request. cbn [r_type r_data r_index IMPORT Z.eqb Pos.eqb].
      rewrite T, W. reflexivity. }
    cbn [bind]. rewrite FL, D. cbn [bind].
    unfold int_add. rewrite wrap_int_id by (unfold in_int, INT_MIN, INT_MAX in *; lia).
    eexists. split; [reflexivity|]. project. split; [exact O|]. split; [exact Q2|].
    apply Counted; try assumption; [congruence|]. rewrite T. apply mf_type_is_multiple.
  - intros A M NN R. pose proof A as (S & N & In & D & _).
    assert (II : in_int i) by (unfold in_int, INT_MIN, INT_MAX in *; lia).
    unfold wb_supervisor_field_remove_mf. rewrite D. cbn [bind].
    assert (NE : (f_count fs =? 0) = false) by (apply Z.eqb_neq; lia). rewrite NE.
    rewrite (check_field_index _ _ _ _ false _ _ _ _ A ltac:(discriminate) ltac:(lia) II).
    rewrite (proj2 (in_range_dec _ _ _)) by (unfold index_lo, index_hi; lia).
    cbn [bind negb]. unfold field_operation.
    replace (i + f_count fs + 0) with (i + f_count fs) by lia.
    set (at_index := if i <? 0 then i + f_count fs else i).
    assert (AI : 0 <= at_index <= f_count fs - 1)
      by (unfold at_index; destruct (Z.ltb_spec i 0); lia).
    destruct (operation_over_the_wire f REMOVE at_index (sf_string None) st fs
                [w_opcode C_SUPERVISOR_FIELD_REMOVE_VALUE;
                 w_uint32 (to_uint32 (f_node_unique_id fs)); w_uint32 (to_uint32 (f_id fs));
                 w_uint32 (to_uint32 at_index)])
      as (s2 & -> & O & Q2 & FL & _ & _ & S2 & _); try assumption; try discriminate.
    { right. cbn [Z.eqb REMOVE IMPORT IMPORT_FROM_STRING Pos.eqb orb]. lia. }
    { reflexivity. }
    cbn [bind]. rewrite FL, D. cbn [bind]. rewrite (proj2 (Z.eqb_neq _ _) NN). cbn [negb].
    unfold int_sub. rewrite wrap_int_id by (unfold in_int, INT_MIN, INT_MAX in *; lia).
    eexists. split; [reflexivity|]. project. split; [exact O|]. split; [exact Q2|].
    apply Counted; try assumption. congruence.
Qed.

(** The serializer's part of [import_and_flush] on an empty queue. *)
Lemma import_from_string_written (f : WbFieldRef) (index : Z) (text : string)
      (st : Supervisor) (fs : WbFieldStruct) :
  deref_field f (field_list st) = Ok fs ->
  idle st ->
  field_requests_list st = [] ->
  contact_points_node_ref st = NULL ->
  exists st1,
    import_and_flush f IMPORT_FROM_STRING index text st
    = read_answers (hd [] (incoming st)) (set_incoming (tl (incoming st)) st1)
    /\ outgoing st1
       = outgoing st
         ++ [[w_opcode C_SUPERVISOR_FIELD_IMPORT_NODE_FROM_STRING;
              w_uint32 (to_uint32 (f_node_unique_id fs)); w_uint32 (to_uint32 (f_id fs));
              w_uint32 (to_uint32 index); w_string text]]
    /\ field_requests_list st1 = []
    /\ field_list st1 = field_list st
    /\ imported_nodes_number st1 = -1.
Proof.
  intros D I Q CR. unfold import_and_flush.
  rewrite (create_and_append_unclamped f _ index _ st fs D). cbn [bind]. rewrite Q. cbn [app].
  set (request := mkRequest IMPORT_FROM_STRING index
                            (fst (is_string_expression (f_type fs) IMPORT_FROM_STRING))
                            (sf_string (Some text)) f).
  set (st1 := set_imported_nodes_number (-1) (set_field_requests_list [request] st)).
  assert (DR : drain_requests (field_list st1) (field_requests_list st1) []
                              (field_requests_garbage_list st1) (sent_field_get_request st1)
               = Ok ([w_opcode C_SUPERVISOR_FIELD_IMPORT_NODE_FROM_STRING;
                      w_uint32 (to_uint32 (f_node_unique_id fs));
                      w_uint32 (to_uint32 (f_id fs));
                      w_uint32 (to_uint32 index); w_string text],
                     request :: field_requests_garbage_list st,
                     sent_field_get_request st)).
  { unfold st1. project. cbn [drain_requests]. unfold request at 1. cbn [r_field].
    rewrite D. reflexivity. }
  pose proof (write_request_of_queue st1 _ _ _ I CR DR) as W.
  eexists. split.
  - unfold wb_robot_flush_unlocked. rewrite W. cbn [bind]. project. reflexivity.
  - project. do 3 (split; [reflexivity|]). reflexivity.
Qed.

(** X19.  [wb_supervisor_field_import_mf_node_from_string] counts what
    the simulator says it imported.  On an empty queue the call writes one
    [FIELD_IMPORT_NODE_FROM_STRING] request with the position counted from
    the front and the node string.  When the reply reports [n] imported
    nodes, the field's count grows by [n] if [n] is positive and stays as it
    was otherwise; with no reply the count stays as it was. *)
Theorem import_from_string_counts (f : WbFieldRef) (position : Z) (c0 : ascii) (s0 : string)
        (st : Supervisor) (fs : WbFieldStruct) :
  field_accepted f WB_NO_FIELD false true st fs ->
  f_type fs = WB_MF_NODE ->
  0 <= f_count fs < INT_MAX - 1 ->
  - (f_count fs + 1) <= position <= f_count fs ->
  idle st ->
  field_requests_list st = [] ->
  contact_points_node_ref st = NULL ->
  (forall n rest,
      incoming st = [ans_FIELD_INSERT_VALUE n] :: rest ->
      n <= INT_MAX - f_count fs ->
      exists st',
        wb_supervisor_field_import_mf_node_from_string f position (Some (String c0 s0)) st
        = Ok (st', ret_void)
        /\ outgoing st'
           = outgoing st
             ++ [[w_opcode C_SUPERVISOR_FIELD_IMPORT_NODE_FROM_STRING;
                  w_uint32 (to_uint32 (f_node_unique_id fs)); w_uint32 (to_uint32 (f_id fs));
                  w_uint32 (to_uint32 (if position <? 0 then f_count fs + position + 1
                                       else position));
                  w_string (String c0 s0)]]
        /\ field_requests_list st' = []
        /\ deref_field f (field_list st')
           = Ok (if 0 <? n then set_f_count (f_count fs + n) fs else fs))
  /\ (hd [] (incoming st) = [] ->
      exists st',
        wb_supervisor_field_import_mf_node_from_string f position (Some (String c0 s0)) st
        = Ok (st', ret_void)
        /\ field_requests_list st' = []
        /\ deref_field f (field_list st') = Ok fs).
Proof.
  intros A T C R I Q CR. pose proof A as (S & N & In & D & _).
  assert (Start : wb_supervisor_field_import_mf_node_from_string
                    f position (Some (String c0 s0)) st
                  = (st <- import_and_flush f IMPORT_FROM_STRING
                             (if position <? 0 then f_count fs + position + 1 else position)
                             (String c0 s0) st ;;
                     if imported_nodes_number st >? 0 then
                       fs <- deref_field f (field_list st) ;;
                       Ok (store_field f
                             (set_f_count (int_add (f_count fs) (imported_nodes_number st)))
                             st, ret_void)
                     else Ok (st, ret_void))).
  { unfold wb_supervisor_field_import_mf_node_from_string.
    rewrite (check_field_plain f _ WB_NO_FIELD false true st fs A eq_refl).
    cbn [bind negb]. rewrite D. cbn [bind]. rewrite T. cbn [Z.eqb WB_MF_NODE Pos.eqb negb].
    unfold int_neg, int_add.
    rewrite (wrap_int_id (f_count fs + 1)), (wrap_int_id (- (f_count fs + 1)))
      by (unfold in_int, INT_MIN, INT_MAX in *; lia).
    rewrite (proj2 (Z.ltb_ge _ _)), Z.gtb_ltb, (proj2 (Z.ltb_ge _ _)) by lia.
    cbn [orb]. destruct (Z.ltb_spec position 0); [|reflexivity].
    rewrite (wrap_int_id (f_count fs + position)), (wrap_int_id (f_count fs + position + 1))
      by (unfold in_int, INT_MIN, INT_MAX in *; lia).
    reflexivity. }
  rewrite Start.
  destruct (import_from_string_written
              f (if position <? 0 then f_count fs + position + 1 else position)
              (String c0 s0) st fs D I Q CR) as (st1 & -> & O & Q1 & FL & NB).
  split.
  - intros n rest IN Hn. rewrite IN. cbn [hd tl read_answers].
    unfold supervisor_read_answer. project.
    destruct (Z.ltb_spec 0 n) as [Pos|NPos].
    + rewrite Z.gtb_ltb, (proj2 (Z.ltb_lt _ _) Pos), FL, D. cbn [bind].
      eexists. split; [reflexivity|]. project. split; [exact O|]. split; [exact Q1|].
      unfold int_add. rewrite wrap_int_id by (unfold in_int, INT_MIN, INT_MAX in *; lia).
      apply (deref_field_store f _ (set_field_requests_garbage_list [] _)). project.
      now rewrite FL.
    + rewrite Z.gtb_ltb, (proj2 (Z.ltb_ge _ _) NPos).
      eexists. split; [reflexivity|]. project. split; [exact O|]. split; [exact Q1|].
      now rewrite FL.
  - intros IN. rewrite IN. cbn [read_answers bind]. project. rewrite NB.
    cbn [Z.gtb Z.compare]. eexists. split; [reflexivity|]. project.
    split; [exact Q1|]. now rewrite FL.
Qed.

(** ** Handles of removed nodes *)

Lemma absent_address_stays_absent (uid : Z) (a : WbNodeRef) (l : node_store) :
  ~ In a (map fst l) -> node_in_list a (map (orphan uid) (filter (keeps uid) l)) = false.
Proof.
  induction l as [|x l IH]; [reflexivity|]. cbn [map filter In]. intros NI.
  assert (NX : (fst x =? a) = false) by (apply Z.eqb_neq; intros E; apply NI; now left).
  assert (NL : ~ In a (map fst l)) by (intros E; apply NI; now right).
  destruct (keeps uid x); [|now apply IH]. cbn [map node_in_list].
  rewrite (proj1 (orphan_keeps uid x)), NX. now apply IH.
Qed.

Lemma removed_cell_is_unlinked (uid : Z) (c : WbNodeRef * WbNodeStruct) (l : node_store) :
  NoDup (map fst l) ->
  In c l ->
  n_id (snd c) = uid ->
  node_in_list (fst c) (map (orphan uid) (filter (keeps uid) l)) = false.
Proof.
  induction l as [|x l IH]; [intros _ []|]. cbn [map filter In]. intros ND [->|Ic] Id.
  - unfold keeps at 1. rewrite Id, Z.eqb_refl. cbn [negb].
    apply absent_address_stays_absent. now inversion ND.
  - inversion ND as [|y ys NI ND']; subst y ys.
    destruct (keeps uid x); [|now apply IH]. cbn [map node_in_list].
    rewrite (proj1 (orphan_keeps uid x)).
    assert (NX : (fst x =? fst c) = false).
    { apply Z.eqb_neq. intros E. apply NI. rewrite E. now apply in_map. }
    rewrite NX. now apply IH.
Qed.

Lemma kept_cell_is_reachable (uid : Z) (c : WbNodeRef * WbNodeStruct) (l : node_store) :
  NoDup (map fst l) ->
  In c l ->
  n_id (snd c) <> uid ->
  node_in_list (fst c) (map (orphan uid) (filter (keeps uid) l)) = true
  /\ node_at (fst c) (map (orphan uid) (filter (keeps uid) l)) = Some (snd (orphan uid c)).
Proof.
  induction l as [|x l IH]; [intros _ []|]. cbn [map filter In]. intros ND [->|Ic] Id.
  - assert (K : keeps uid c = true) by (unfold keeps; now rewrite (proj2 (Z.eqb_neq _ _) Id)).
    rewrite K. cbn [map node_in_list node_at].
    now rewrite (proj1 (orphan_keeps uid c)), Z.eqb_refl.
  - inversion ND as [|y ys NI ND']; subst y ys.
    destruct (keeps uid x); [|now apply IH]. cbn [map node_in_list node_at].
    rewrite (proj1 (orphan_keeps uid x)).
    assert (NX : (fst x =? fst c) = false).
    { apply Z.eqb_neq. intros E. apply NI. rewrite E. now apply in_map. }
    rewrite NX. now apply IH.
Qed.

(** The dispatcher on a [NODE_REMOVE_NODE] reply writes the node registry
    with [remove_node_from_list] only. *)
Lemma read_removal (uid parent_node_unique_id : Z) (field_name : string)
      (parent_field_count : Z) (st st' : Supervisor) :
  supervisor_read_answer
    (ans_NODE_REMOVE_NODE uid parent_node_unique_id field_name parent_field_count) st = Ok st' ->
  node_list st' = remove_node_from_list uid (node_list st)
  /\ is_supervisor st' = is_supervisor st
  /\ stderr st' = stderr st
  /\ field_requests_list st' = field_requests_list st.
Proof.
  unfold supervisor_read_answer. intros H. step_bind H s1 E. injection H as <-. project.
  destruct (parent_node_unique_id >=? 0).
  - step_bind E parent_field F. project in F.
    destruct parent_field as [cell|]; injection E as <-; project; now repeat split.
  - injection E as <-. project. now repeat split.
Qed.

(** X20.  The handle of a node the simulator reports removed is stale, and
    the API says so instead of reading through it: once the
    [NODE_REMOVE_NODE] reply for the node's id is dispatched,
    [is_node_ref_valid] refuses the handle and [wb_supervisor_node_get_id]
    returns [-1] with the invalid-argument diagnostic.  The handles of all
    other nodes stay valid; each designates the record it did, with the
    parent id reset to [-1] when the removed node was the parent. *)
Theorem removed_node_handle_is_stale (uid parent_node_unique_id : Z) (field_name : string)
        (parent_field_count : Z) (st st' : Supervisor) (c : WbNodeRef * WbNodeStruct) :
  is_supervisor st = true ->
  handles_ok st ->
  find_node_by_id uid (node_list st) = Some c ->
  supervisor_read_answer
    (ans_NODE_REMOVE_NODE uid parent_node_unique_id field_name parent_field_count) st = Ok st' ->
  is_node_ref_valid (fst c) (node_list st') = false
  /\ wb_supervisor_node_get_id (fst c) st'
     = Ok (if negb (is_quitting st')
           then fprintf_stderr "Error: %s() called with a NULL or invalid 'node' argument.\n"
                               [a_str "wb_supervisor_node_get_id"] st'
           else st', -1)
  /\ (forall c', In c' (node_list st) -> n_id (snd c') <> uid ->
                 is_node_ref_valid (fst c') (node_list st') = true
                 /\ deref_node (fst c') (node_list st')
                    = Ok (if n_parent_id (snd c') =? uid then set_n_parent_id (-1) (snd c')
                          else snd c')).
Proof.
  intros S (_ & NDa & _ & NDi & Pos & _) F H.
  apply read_removal in H as (NL & S' & _).
  apply find_node_by_id_some in F as (In & Id).
  rewrite NL, (remove_node_from_list_filter uid (node_list st) (conj NDa NDi)).
  assert (Stale : is_node_ref_valid (fst c)
                    (map (orphan uid) (filter (keeps uid) (node_list st))) = false).
  { unfold is_node_ref_valid. destruct (fst c =? NULL); [reflexivity|].
    now apply removed_cell_is_unlinked. }
  split; [exact Stale|]. split.
  - unfold wb_supervisor_node_get_id, robot_check_supervisor. rewrite S', S. cbn [negb].
    rewrite NL, (remove_node_from_list_filter uid (node_list st) (conj NDa NDi)), Stale.
    reflexivity.
  - intros c' In' Id'.
    destruct (kept_cell_is_reachable uid c' (node_list st) NDa In' Id') as (V & A).
    assert (NZ : (fst c' =? NULL) = false).
    { apply Z.eqb_neq. specialize (Pos (fst c') (in_map fst _ _ In')).
      unfold NULL, WbNodeRef in *. lia. }
    unfold is_node_ref_valid, deref_node. rewrite NZ, V, A. split; [reflexivity|].
    unfold orphan. now destruct (n_parent_id (snd c') =? uid).
Qed.

(** X21.  [wb_supervisor_node_get_parent_node] looks the parent up by the
    parent id of the record.  A parent the registry holds is returned from
    it with no traffic.  For a node without parent (parent id [-1], the root
    or a node whose parent was removed) no lookup request is written, as
    [-1] is the value that means no lookup is pending: the flush serves the
    queue of field requests instead, here empty, and the result is
    [NULL]. *)
Theorem parent_of_a_node (node : WbNodeRef) (st : Supervisor) (n : WbNodeStruct) :
  node_accepted node st n ->
  (forall p, find_node_by_id (n_parent_id n) (node_list st) = Some p ->
             wb_supervisor_node_get_parent_node node st = Ok (st, fst p))
  /\ (n_parent_id n = -1 ->
      find_node_by_id (-1) (node_list st) = None ->
      idle st ->
      field_requests_list st = [] ->
      contact_points_node_ref st = NULL ->
      hd [] (incoming st) = [] ->
      exists st',
        wb_supervisor_node_get_parent_node node st = Ok (st', NULL)
        /\ outgoing st' = outgoing st ++ [[]]
        /\ node_list st' = node_list st
        /\ field_list st' = field_list st
        /\ idle st').
Proof.
  intros (S & V & D).
  assert (Start : wb_supervisor_node_get_parent_node node st
                  = node_get_from_id (n_parent_id n) st).
  { unfold wb_supervisor_node_get_parent_node, robot_check_supervisor.
    rewrite S, V, D. reflexivity. }
  rewrite Start. split.
  - intros p F. unfold node_get_from_id. now rewrite F.
  - intros -> F I Q CR IN. unfold node_get_from_id. rewrite F.
    assert (I1 : idle (set_node_id (-1) st)).
    { destruct I as (_ & I). split; [project; lia | exact I]. }
    assert (DR : drain_requests (field_list (set_node_id (-1) st))
                                (field_requests_list (set_node_id (-1) st)) []
                                (field_requests_garbage_list (set_node_id (-1) st))
                                (sent_field_get_request (set_node_id (-1) st))
                 = Ok ([], field_requests_garbage_list st, sent_field_get_request st)).
    { project. now rewrite Q. }
    rewrite (flush_without_answer _ _ (write_request_of_queue _ _ _ _ I1 CR DR) IN).
    cbn [bind]. project. rewrite Z.eqb_refl, F. cbn [negb].
    eexists. split; [reflexivity|]. project. do 3 (split; [reflexivity|]). exact I1.
Qed.

(** ** The serializer on the queues the calls build *)

Lemma bind_ret {A : Type} (m : outcome A) : (x <- m ;; Ok x) = m.
Proof. now destruct m. Qed.








(** ** Removal from a multi-valued field, on the wire *)

(** An operation other than [GET] and [SET] on an empty queue: the request
    is queued, written by the flush and moved to the garbage list, and the
    reply frame is dispatched. *)
Lemma operation_written (f : WbFieldRef) (action index : Z) (data : WbFieldData)
      (st : Supervisor) (fs : WbFieldStruct) (items : list wire_item) :
  action <> GET ->
  action <> SET ->
  deref_field f (field_list st) = Ok fs ->
  f_count fs = -1
  \/ (0 <= index < f_count fs + (if (action =? IMPORT) || (action =? IMPORT_FROM_STRING)
                                 then 1 else 0)
      /\ f_count fs < INT_MAX) ->
  idle st ->
  field_requests_list st = [] ->
  contact_points_node_ref st = NULL ->
  write_field_request
    fs (mkRequest action index (fst (is_string_expression (f_type fs) action)) data f)
  = Ok items ->
  exists st1,
    field_operation_with_data f action index data st
    = read_answers (hd [] (incoming st)) st1
    /\ outgoing st1 = outgoing st ++ [items]
    /\ field_requests_list st1 = []
    /\ field_list st1 = field_list st
    /\ node_list st1 = node_list st
    /\ is_supervisor st1 = is_supervisor st
    /\ incoming st1 = tl (incoming st).
Proof.
  intros NG NS D C I Q CR W.
  unfold field_operation_with_data. rewrite Q. cbn [find_queued_set].
  rewrite (proj2 (Z.eqb_neq _ _) NG), (proj2 (Z.eqb_neq _ _) NS). cbn [negb orb].
  unfold assert. cbn [bind].
  rewrite (create_and_append_in_range f action index data st fs D C). cbn [bind].
  rewrite Q. cbn [app].
  set (request := mkRequest action index (fst (is_string_expression (f_type fs) action))
                            data f) in *.
  set (st1 := set_field_requests_list [request] st).
  assert (DR : drain_requests (field_list st1) (field_requests_list st1) []
                              (field_requests_garbage_list st1) (sent_field_get_request st1)
               = Ok (items, request :: field_requests_garbage_list st,
                     sent_field_get_request st)).
  { unfold st1. project. cbn [drain_requests]. unfold request at 1. cbn [r_field].
    rewrite D. cbn [bind]. rewrite W. cbn [bind]. unfold request at 1. cbn [r_type].
    rewrite (proj2 (Z.eqb_neq _ _) NG). reflexivity. }
  unfold wb_robot_flush_unlocked. rewrite (write_request_of_queue st1 _ _ _ I CR DR).
  cbn [bind]. project. rewrite bind_ret.
  eexists. split; [reflexivity|]. unfold st1. project.
  do 5 (split; [reflexivity|]). reflexivity.
Qed.

(** [wb_supervisor_field_remove_mf] on an index within the field, on an
    empty queue: one [FIELD_REMOVE_VALUE] request is written and the reply
    frame dispatched before the count is looked at again. *)
Lemma remove_mf_written (field : WbFieldRef) (index : Z) (st : Supervisor)
      (fs : WbFieldStruct) :
  field_accepted field WB_MF false true st fs ->
  0 < f_count fs < INT_MAX ->
  - f_count fs <= index <= f_count fs - 1 ->
  idle st ->
  field_requests_list st = [] ->
  contact_points_node_ref st = NULL ->
  exists st1,
    wb_supervisor_field_remove_mf field index st
    = (st2 <- read_answers (hd [] (incoming st)) st1 ;;
       fs2 <- deref_field field (field_list st2) ;;
       if negb (f_type fs2 =? WB_MF_NODE)
       then Ok (store_field field (set_f_count (int_sub (f_count fs2) 1)) st2, ret_void)
       else Ok (st2, ret_void))
    /\ outgoing st1
       = outgoing st
         ++ [[w_opcode C_SUPERVISOR_FIELD_REMOVE_VALUE;
              w_uint32 (to_uint32 (f_node_unique_id fs)); w_uint32 (to_uint32 (f_id fs));
              w_uint32 (to_uint32 (if index <? 0 then index + f_count fs else index))]]
    /\ field_requests_list st1 = []
    /\ field_list st1 = field_list st
    /\ node_list st1 = node_list st
    /\ incoming st1 = tl (incoming st).
Proof.
  intros A C R I Q CR. pose proof A as (_ & _ & _ & D & _).
  assert (AI : 0 <= (if index <? 0 then index + f_count fs else index) <= f_count fs - 1)
    by (destruct (Z.ltb_spec index 0); lia).
  destruct (operation_written field REMOVE (if index <? 0 then index + f_count fs else index)
              (sf_string None) st fs
              [w_opcode C_SUPERVISOR_FIELD_REMOVE_VALUE;
               w_uint32 (to_uint32 (f_node_unique_id fs)); w_uint32 (to_uint32 (f_id fs));
               w_uint32 (to_uint32 (if index <? 0 then index + f_count fs else index))])
    as (st1 & Run & O & Q1 & FL & NL & _ & IN); try assumption; try discriminate.
  { right. cbn [Z.eqb REMOVE IMPORT IMPORT_FROM_STRING Pos.eqb orb]. lia. }
  { reflexivity. }
  exists st1. split; [|now repeat split].
  unfold wb_supervisor_field_remove_mf. rewrite D. cbn [bind].
  assert (NE : (f_count fs =? 0) = false) by (apply Z.eqb_neq; lia). rewrite NE.
  rewrite (check_field_element _ _ _ _ _ _ _ _ A ltac:(discriminate) ltac:(lia) R).
  cbn [bind negb]. unfold field_operation. now rewrite Run.
Qed.

(** C5.  [wb_supervisor_field_remove_mf] and the count.  On a field that
    is not [WB_MF_NODE] an accepted call leaves the local count one below
    what it was, whatever the reply frame holds as long as it does not
    write the field registry.  On a [WB_MF_NODE] field the call does not
    decrement: the count after the call is what the reply made of it.  The
    [NODE_REMOVE_NODE] reply sets the count of the parent field that
    [find_field] finds to the count it carries, and leaves the field
    registry alone when the parent id is negative or no field is found.
    On an empty queue, with no resolution pending, the call writes one
    [FIELD_REMOVE_VALUE] request for the field and the index counted from
    the front; then, for a field that is not [WB_MF_NODE] and no reply, the
    count is one less; for a [WB_MF_NODE] field whose reply names this
    field as the parent field, the count is the one the reply carries and
    the removed node has left the registry; when the reply names no parent
    (a negative parent id) or a field the registry does not hold, or when
    there is no reply, the count is what it was. *)
Theorem C5_remove_count (field : WbFieldRef) (index : Z) (st : Supervisor)
        (fs : WbFieldStruct) :
  field_accepted field WB_MF false true st fs ->
  0 < f_count fs < INT_MAX ->
  - f_count fs <= index <= f_count fs - 1 ->
  let request :=
    [w_opcode C_SUPERVISOR_FIELD_REMOVE_VALUE;
     w_uint32 (to_uint32 (f_node_unique_id fs)); w_uint32 (to_uint32 (f_id fs));
     w_uint32 (to_uint32 (if index <? 0 then index + f_count fs else index))] in
  (forall st' r,
      wb_supervisor_field_remove_mf field index st = Ok (st', r) ->
      (f_type fs <> WB_MF_NODE ->
       Forall (fun a => leaves_fields a = true) (hd [] (incoming st)) ->
       deref_field field (field_list st') = Ok (set_f_count (f_count fs - 1) fs))
      /\ (exists st1,
             field_operation field REMOVE (if index <? 0 then index + f_count fs else index) st
             = Ok st1
             /\ forall fs1, deref_field field (field_list st1) = Ok fs1 ->
                            f_type fs1 = WB_MF_NODE -> st' = st1))
  /\ (forall uid parent name new_count s s',
         supervisor_read_answer (ans_NODE_REMOVE_NODE uid parent name new_count) s = Ok s' ->
         (parent < 0 -> field_list s' = field_list s)
         /\ (0 <= parent ->
             exists found,
               find_field name parent (field_list s) = Ok found
               /\ match found with
                  | Some c =>
                      field_list s'
                      = update_field (fst c) (set_f_count new_count) (field_list s)
                      /\ option_map f_count (field_at (fst c) (field_list s')) = Some new_count
                  | None => field_list s' = field_list s
                  end))
  /\ (idle st ->
      field_requests_list st = [] ->
      contact_points_node_ref st = NULL ->
      (f_type fs <> WB_MF_NODE ->
       hd [] (incoming st) = [] ->
       exists st',
         wb_supervisor_field_remove_mf field index st = Ok (st', ret_void)
         /\ outgoing st' = outgoing st ++ [request]
         /\ deref_field field (field_list st') = Ok (set_f_count (f_count fs - 1) fs))
      /\ (f_type fs = WB_MF_NODE ->
          (forall uid parent name new_count rest,
              incoming st = [ans_NODE_REMOVE_NODE uid parent name new_count] :: rest ->
              (0 <= parent ->
               find_field name parent (field_list st) = Ok (Some (field, fs)) ->
               exists st',
                 wb_supervisor_field_remove_mf field index st = Ok (st', ret_void)
                 /\ outgoing st' = outgoing st ++ [request]
                 /\ deref_field field (field_list st') = Ok (set_f_count new_count fs)
                 /\ node_list st' = remove_node_from_list uid (node_list st))
              /\ (parent < 0 \/ find_field name parent (field_list st) = Ok None ->
                  exists st',
                    wb_supervisor_field_remove_mf field index st = Ok (st', ret_void)
                    /\ outgoing st' = outgoing st ++ [request]
                    /\ deref_field field (field_list st') = Ok fs))
          /\ (hd [] (incoming st) = [] ->
              exists st',
                wb_supervisor_field_remove_mf field index st = Ok (st', ret_void)
                /\ outgoing st' = outgoing st ++ [request]
                /\ deref_field field (field_list st') = Ok fs))).
Proof.
  intros A C R request. subst request.
  assert (Hi : in_int index) by (unfold in_int, INT_MIN, INT_MAX in *; lia).
  pose proof A as (_ & _ & _ & D & _).
  split; [|split].
  - intros st' r H.
    unfold wb_supervisor_field_remove_mf in H. rewrite D in H. cbn [bind] in H.
    assert (NZ : f_count fs <> 0) by lia.
    rewrite (proj2 (Z.eqb_neq _ _) NZ) in H.
    rewrite (check_field_element _ _ _ _ _ _ _ _ A ltac:(discriminate) ltac:(lia) R) in H.
    cbn [bind negb] in H.
    step_bind H st1 O. step_bind H fs1 D1.
    split.
    + intros T L.
      apply remove_operation_leaves_fields in O; [|exact L].
      rewrite O, D in D1. injection D1 as <-.
      rewrite (proj2 (Z.eqb_neq _ _) T) in H. cbn [negb] in H. injection H as <- _.
      unfold int_sub. rewrite wrap_int_id by (unfold in_int, INT_MIN, INT_MAX in *; lia).
      apply deref_field_store. congruence.
    + exists st1. split; [reflexivity|]. intros fs2 D2 T.
      rewrite D1 in D2. injection D2 as <-. rewrite T in H. cbn in H. now injection H as <- _.
  - intros uid parent name new_count s s' X.
    apply node_removed_reply in X as (_ & P1 & P2). split; assumption.
  - intros I Q CR.
    destruct (remove_mf_written field index st fs A C R I Q CR)
      as (st1 & Run & O & Q1 & FL & NL & IN).
    assert (D1 : deref_field field (field_list st1) = Ok fs) by now rewrite FL.
    split.
    + intros T E. rewrite Run, E. cbn [read_answers bind]. rewrite D1. cbn [bind].
      rewrite (proj2 (Z.eqb_neq _ _) T). cbn [negb].
      eexists. split; [reflexivity|]. project. split; [exact O|].
      unfold int_sub. rewrite wrap_int_id by (unfold in_int, INT_MIN, INT_MAX in *; lia).
      now apply deref_field_store.
    + intros T. split.
      * intros uid parent name new_count rest E. rewrite Run, E.
        cbn [hd read_answers]. unfold supervisor_read_answer. project. split.
        -- intros P F. rewrite Z.geb_leb, (proj2 (Z.leb_le _ _) P), FL, F. cbn [bind fst].
           project.
           pose proof (deref_field_store field (set_f_count new_count) st1 fs D1) as D2.
           project in D2. rewrite D2. cbn [bind].
           cbn [f_type set_f_count]. rewrite T. cbn [Z.eqb WB_MF_NODE Pos.eqb negb].
           eexists. split; [reflexivity|]. project. split; [exact O|].
           split; [exact D2 | now rewrite NL].
        -- intros [P|F].
           ++ rewrite Z.geb_leb, (proj2 (Z.leb_gt _ _) P). cbn [bind]. project.
              rewrite D1. cbn [bind]. rewrite T. cbn [Z.eqb WB_MF_NODE Pos.eqb negb].
              eexists. split; [reflexivity|]. project. now split.
           ++ destruct (parent >=? 0).
              ** rewrite FL, F. cbn [bind]. project.
                 rewrite D1. cbn [bind]. rewrite T. cbn [Z.eqb WB_MF_NODE Pos.eqb negb].
                 eexists. split; [reflexivity|]. project. now split.
              ** cbn [bind]. project.
                 rewrite D1. cbn [bind]. rewrite T. cbn [Z.eqb WB_MF_NODE Pos.eqb negb].
                 eexists. split; [reflexivity|]. project. now split.
      * intros E. rewrite Run, E. cbn [read_answers bind]. rewrite D1. cbn [bind].
        rewrite T. cbn [Z.eqb WB_MF_NODE Pos.eqb negb].
        eexists. split; [reflexivity|]. now split.
Qed.

End Engine.

(** Closes the side conditions of a run on a concrete scene. *)
Ltac by_evaluation :=
  unfold field_accepted, node_accepted, idle, finite_within_FLT_MAX; cbn;
  repeat split; first [reflexivity | discriminate | lia].

(** * Concrete runs on the scene *)

Lemma demo_between_calls (replies : list (list Answer)) :
  Forall (Forall quiet) replies -> between_calls (demo replies).
Proof.
  intros Q. split; [|split]; [| constructor | exact Q].
  unfold idle. cbn. repeat split; lia.
Defined.

Lemma C6_witness :
  registry_ok demo_nodes
  /\ remove_node_from_list 7 demo_nodes
     = [(3, set_n_parent_id (-1) (plain_node 8 7)); (1, plain_node 0 (-1))].
Proof.
  assert (OK : registry_ok demo_nodes).
  { split; cbn; repeat (constructor; [cbn; intuition discriminate|]); constructor. }
  split; [exact OK|].
  destruct (C6_remove_node_orphans 7 demo_nodes OK) as (_ & _ & _ & E & _).
  rewrite E. reflexivity.
Defined.

Lemma C10_witness :
  deref_field 12 (field_list (demo [])) = Ok children
  /\ exists st' request,
      create_and_append_field_request 12 REMOVE 1 (sf_string None) true (demo []) = Ok st'
      /\ field_requests_list st' = [request]
      /\ r_type request = REMOVE
      /\ r_is_string request = true.
Proof.
  split; [reflexivity|].
  destruct (C10_request_record 12 REMOVE 1 (sf_string None) true (demo []) children eq_refl)
    as (st' & request & H & Q & T & _ & _ & _ & S).
  exists st', request. repeat split; try assumption. now apply S.
Defined.

Lemma demo_accepted (replies : list (list Answer)) (f : WbFieldRef) (type : Z)
      (check_type check_type_internal : bool) (fs : WbFieldStruct) :
  f <> NULL ->
  field_in_list f demo_fields = true ->
  deref_field f demo_fields = Ok fs ->
  check_type_internal && f_is_proto_internal fs = false ->
  check_type && negb (f_type fs =? type) = false ->
  field_accepted f type check_type check_type_internal (demo replies) fs.
Proof. intros. repeat split; assumption. Defined.

Lemma C4_witness :
  check_field 11 "wb_supervisor_field_insert_mf_float" WB_MF_FLOAT true (Some (-4)) true true
              (demo [])
  = Ok (demo [], true, Some 0)
  /\ check_field 11 "wb_supervisor_field_set_mf_float" WB_MF_FLOAT true (Some (-1)) false true
                 (demo [])
     = Ok (demo [], true, Some 2)
  /\ wb_supervisor_field_set_mf no_names robot_type k_float 11 3 dbl_one (demo [])
     = Ok (dropped "wb_supervisor_field_set_mf_float" 3 3 false (demo []), ret_void).
Proof.
  assert (A : field_accepted 11 WB_MF_FLOAT true true (demo []) weights).
  { apply demo_accepted; (reflexivity || discriminate). }
  assert (C : 0 <= f_count weights < INT_MAX) by (cbn; unfold INT_MAX; lia).
  assert (I : forall i, -10 <= i <= 10 -> in_int i)
    by (unfold in_int, INT_MIN, INT_MAX; lia).
  split; [|split].
  - destruct (C4_mf_index_validation no_names robot_type 11 (demo []) weights (-4) C (I (-4) ltac:(lia)))
      as (G & _).
    apply (G "wb_supervisor_field_insert_mf_float" WB_MF_FLOAT true true true A);
      [discriminate | cbn; lia].
  - destruct (C4_mf_index_validation no_names robot_type 11 (demo []) weights (-1) C (I (-1) ltac:(lia)))
      as (G & _).
    apply (G "wb_supervisor_field_set_mf_float" WB_MF_FLOAT true false true A);
      [discriminate | cbn; lia].
  - destruct (C4_mf_index_validation no_names robot_type 11 (demo []) weights 3 C (I 3 ltac:(lia)))
      as (_ & _ & G & _).
    apply (G k_float dbl_one A). cbn. lia.
Defined.


Lemma C2_witness :
  between_calls (demo demo_replies)
  /\ exists st',
      run_field_calls no_names robot_type demo_calls (demo demo_replies) = Ok st'
      /\ Forall (fun q => r_type q = SET) (field_requests_list st')
      /\ List.length (field_requests_list st') = 1%nat
      /\ List.length (outgoing st') = 1%nat.
Proof.
  assert (B : between_calls (demo demo_replies)).
  { apply demo_between_calls. repeat constructor. }
  split; [exact B|].
  eexists. split; [vm_compute; reflexivity|].
  split; [|split; reflexivity].
  apply (proj1 (proj2 (C2_queue_discipline no_names robot_type)) demo_calls (demo demo_replies) _ B).
  vm_compute. reflexivity.
Defined.

Lemma demo_queued_idle (q : list WbFieldRequest) : idle (demo_queued q).
Proof. unfold idle. cbn. repeat split; lia. Defined.


(** On a queue filled by hand with a [SET] behind a [GET], which no call
    builds, the serializer writes both: it does not stop at the [GET]. *)
Example serializer_walks_past_a_get :
  exists st',
    supervisor_write_request (demo_queued [get_request; set_request]) = Ok st'
    /\ field_requests_list st' = []
    /\ sent_field_get_request st' = Some get_request
    /\ field_requests_garbage_list st' = [set_request].
Proof. eexists. split; [vm_compute; reflexivity|]. now repeat split. Qed.

Lemma C5_witness :
  field_accepted 11 WB_MF false true (demo []) weights
  /\ (exists st',
         wb_supervisor_field_remove_mf no_names robot_type 11 (-1) (demo []) = Ok (st', ret_void)
         /\ outgoing st'
            = [[w_opcode C_SUPERVISOR_FIELD_REMOVE_VALUE; w_uint32 7; w_uint32 4; w_uint32 2]]
         /\ deref_field 11 (field_list st') = Ok (set_f_count 2 weights))
  /\ (exists st',
         wb_supervisor_field_remove_mf no_names robot_type 12 1
           (demo [[ans_NODE_REMOVE_NODE 8 0 "children" 2]]) = Ok (st', ret_void)
         /\ outgoing st'
            = [[w_opcode C_SUPERVISOR_FIELD_REMOVE_VALUE; w_uint32 0; w_uint32 5; w_uint32 1]]
         /\ deref_field 12 (field_list st') = Ok (set_f_count 2 children)
         /\ find_node_by_id 8 (node_list st') = None).
Proof.
  assert (A : field_accepted 11 WB_MF false true (demo []) weights).
  { apply demo_accepted; (reflexivity || discriminate). }
  split; [exact A|]. split.
  - destruct (proj1 (proj2 (proj2 (C5_remove_count no_names robot_type 11 (-1) (demo []) weights
                                     A ltac:(by_evaluation) ltac:(by_evaluation)))
                       ltac:(by_evaluation) eq_refl eq_refl)
                ltac:(discriminate) eq_refl)
      as (st' & H & O & D).
    exists st'. split; [exact H|]. split; [exact O | exact D].
  - destruct (proj1 (proj1 (proj2 (proj2 (proj2 (C5_remove_count no_names robot_type 12 1
                        (demo [[ans_NODE_REMOVE_NODE 8 0 "children" 2]]) children
                        ltac:(apply demo_accepted; (reflexivity || discriminate))
                        ltac:(by_evaluation) ltac:(by_evaluation)))
                      ltac:(by_evaluation) eq_refl eq_refl)
                    eq_refl)
                  8 0 "children" 2 [] eq_refl)
                ltac:(lia) eq_refl)
      as (st' & H & O & D & N).
    exists st'. split; [exact H|]. split; [exact O|]. split; [exact D|].
    rewrite N. reflexivity.
Defined.

(** Scenario: the parent has three children, the child at index 1 is
    removed and the simulator answers with the new count 2. *)
Example remove_child_refreshes_count :
  exists st' r,
    wb_supervisor_field_remove_mf no_names robot_type 12 1
      (demo [[ans_NODE_REMOVE_NODE 8 0 "children" 2]]) = Ok (st', r)
    /\ option_map f_count (field_at 12 (field_list st')) = Some 2
    /\ find_node_by_id 8 (node_list st') = None.
Proof. eexists. eexists. split; [vm_compute; reflexivity|]. split; reflexivity. Qed.

Lemma C7_witness :
  field_accepted 13 WB_NO_FIELD false true (demo []) physics
  /\ strrchr_dot "robot.wbo" = Some (5%nat, ".wbo")
  /\ wb_supervisor_field_import_sf_node no_names robot_type 13 (Some "robot.wbo") (demo [])
     = Ok (fprintf_stderr "Error: %s() supports only '*.wbo' files.\n"
                          [a_str "wb_supervisor_field_import_sf_node"] (demo []), ret_void).
Proof.
  assert (A : field_accepted 13 WB_NO_FIELD false true (demo []) physics).
  { apply demo_accepted; (reflexivity || discriminate). }
  split; [exact A|]. split; [reflexivity|].
  exact (proj1 (C7_import_sf_node_gate no_names robot_type 13 "robot.wbo" 4 ".wbo" (demo []) physics
                  A eq_refl) eq_refl).
Defined.

(** The other side of the gate: a [.wrl] file gets past it, and the call
    ends in the serializer, whose [IMPORT] branch has no case for a
    [WB_SF_NODE] field. *)
Example import_sf_node_takes_wrl :
  wb_supervisor_field_import_sf_node no_names robot_type 13 (Some "robot.wrl") (demo [])
  = Crash assertion_failed.
Proof. reflexivity. Qed.

Lemma C9_witness :
  run_field_call no_names robot_type (call_get_sf k_float NULL) (demo [])
  = Ok (set_stderr [null_field_line "wb_supervisor_field_get_sf_float"] (demo []),
        ret_double dbl_zero).
Proof. exact (C9_null_field no_names robot_type (call_get_sf k_float NULL) (demo []) eq_refl eq_refl eq_refl). Defined.

(** The claim that every call on a [NULL] field prints one line, at a
    getter called while the robot is quitting: nothing is printed. *)
Lemma C9_counterexample :
  ~ (forall (wb : Z -> option string) (robot : Z) (c : field_call) (st : Supervisor),
        is_supervisor st = true ->
        call_field c = NULL ->
        exists line,
          run_field_call wb robot c st
          = Ok (set_stderr (stderr st ++ [line]) st, call_sentinel c)).
Proof.
  intros H.
  destruct (H no_names robot_type (call_get_sf k_float NULL) demo_quitting eq_refl eq_refl)
    as [line E].
  vm_compute in E. discriminate E.
Qed.

Lemma C8_witness :
  node_accepted 2 (demo_touched []) touched_node
  /\ wb_supervisor_node_get_number_of_contact_points no_names robot_type 2 true (demo_touched [])
     = Ok (demo_touched [], 1)
  /\ wb_supervisor_node_get_contact_point no_names robot_type 2 0 (demo_touched [])
     = Ok (demo_touched [], [dbl_one; dbl_zero; dbl_two])
  /\ node_accepted 2 (demo demo_contacts) (plain_node 7 0)
  /\ node_heap_ok (demo demo_contacts)
  /\ exists st' k,
      wb_supervisor_node_get_number_of_contact_points no_names robot_type 2 true (demo demo_contacts)
      = Ok (st', k)
      /\ (exists buf, outgoing st' = [buf ++ contact_request 7 true])
      /\ still_fresh 2 st'.
Proof.
  assert (A : node_accepted 2 (demo_touched []) touched_node) by (repeat split).
  assert (B : node_accepted 2 (demo demo_contacts) (plain_node 7 0)) by (repeat split).
  assert (HO : node_heap_ok (demo demo_contacts)).
  { split; cbn.
    - repeat (constructor; [cbn; intuition discriminate|]). constructor.
    - repeat (constructor; [cbn; lia|]). constructor. }
  split; [exact A|].
  destruct (proj1 (C8_contact_point_freshness no_names robot_type 2 (demo_touched []) touched_node A)
              eq_refl) as (N & P & _).
  split; [exact (N true)|]. split; [exact (P 0)|].
  split; [exact B|]. split; [exact HO|].
  destruct (C8_contact_point_freshness no_names robot_type 2 (demo demo_contacts) (plain_node 7 0) B)
    as (_ & Stale & Fresh).
  destruct (Stale eq_refl) as (SN & _). destruct (Fresh HO) as (FN & _).
  assert (R : exists st' k,
             wb_supervisor_node_get_number_of_contact_points no_names robot_type 2 true
               (demo demo_contacts) = Ok (st', k)).
  { eexists. eexists. vm_compute. reflexivity. }
  destruct R as (st' & k & R). exists st', k. split; [exact R|].
  split.
  - destruct (SN true _ _ R) as (buf & _ & O). exists buf. exact O.
  - exact (proj2 (FN true _ _ R)).
Defined.

(** The claim that a repeated query at the same simulation time causes no
    wire traffic, at [wb_supervisor_node_get_contact_point_node] for a
    contact with a node the registry does not hold: a frame is written. *)
Lemma C8_counterexample :
  ~ (forall (wb : Z -> option string) (robot : Z) (node : WbNodeRef) (index : Z)
            (st st' : Supervisor) (n : WbNodeStruct) (result : WbNodeRef),
        node_accepted node st n ->
        idle st ->
        contact_points_node_ref st = NULL ->
        dbl_gt (robot_time st) (n_contact_points_time_stamp n) = false ->
        wb_supervisor_node_get_contact_point_node wb robot node index st = Ok (st', result) ->
        outgoing st' = outgoing st).
Proof.
  intros H.
  assert (W : exists st' result,
             wb_supervisor_node_get_contact_point_node no_names robot_type 2 0
               (demo_touched [[ans_NODE_GET 9 no_info]]) = Ok (st', result)
             /\ outgoing st' = [[w_opcode C_SUPERVISOR_NODE_GET_FROM_ID; w_int32 9]]).
  { eexists. eexists. split; [vm_compute; reflexivity | reflexivity]. }
  destruct W as (st' & result & W & O).
  assert (I : idle (demo_touched [[ans_NODE_GET 9 no_info]])).
  { unfold idle. cbn. repeat split; lia. }
  assert (A : node_accepted 2 (demo_touched [[ans_NODE_GET 9 no_info]]) touched_node)
    by (repeat split).
  pose proof (H no_names robot_type 2 0 _ st' touched_node result A I eq_refl eq_refl W) as E.
  rewrite O in E. discriminate E.
Qed.

Lemma demo_handles_ok (replies : list (list Answer)) : handles_ok (demo replies).
Proof.
  unfold handles_ok. cbn.
  split; [lia|].
  split; [repeat (constructor; [cbn; intuition discriminate|]); constructor|].
  split; [repeat (constructor; [cbn; intuition discriminate|]); constructor|].
  split; [repeat (constructor; [cbn; intuition discriminate|]); constructor|].
  split; [|split].
  - intros a H. repeat (destruct H as [<-|H]; [lia|]). destruct H.
  - intros a H. repeat (destruct H as [<-|H]; [lia|]). destruct H.
  - intros a H K. repeat (destruct H as [<-|H]; [cbn in K; intuition discriminate|]).
    destruct H.
Defined.

Lemma extract_node_def_last_segment_witness :
  extract_node_def (Some "ROBOT.ARM.TIP") = Some "TIP"
  /\ extract_node_def (Some "TIP") = Some "TIP".
Proof.
  destruct (proj2 extract_node_def_last_segment "ROBOT.ARM.TIP") as (t & E & _ & _ & _ & I).
  cbn in E. injection E as <-. split; [reflexivity | exact I].
Defined.

Lemma add_node_then_find_witness :
  exists st' c,
    add_node_to_list no_names 9 5 (Some "Solid") (Some "ROBOT.ARM") 0 7 false (demo []) = Ok st'
    /\ find_node_by_id 9 (node_list st') = Some c
    /\ n_id (snd c) = 9
    /\ option_map fst (find_node_by_id 7 (node_list st')) = Some 2.
Proof.
  eexists.
  destruct (add_node_then_find no_names 9 5 (Some "Solid") (Some "ROBOT.ARM") 0 7 false
              (demo []) _ eq_refl) as ((c & F & I) & _ & _ & O).
  exists c. split; [reflexivity|]. split; [exact F|]. split; [exact I|].
  rewrite (O 7 ltac:(discriminate)). reflexivity.
Defined.

Lemma replies_keep_handles_sound_witness :
  handles_ok (demo [[ans_CONFIGURE 20 false false "Robot" "ROBOT"; ans_NODE_GET 9 arm_info]])
  /\ exists st',
      wb_robot_flush_unlocked no_names robot_type
        (demo [[ans_CONFIGURE 20 false false "Robot" "ROBOT"; ans_NODE_GET 9 arm_info]]) = Ok st'
      /\ List.length (node_list st') = 5%nat
      /\ self_node_ref st' = 100
      /\ handles_ok st'.
Proof.
  split; [apply demo_handles_ok|].
  eexists. split; [vm_compute; reflexivity|]. split; [reflexivity|]. split; [reflexivity|].
  apply (proj2 (replies_keep_handles_sound no_names robot_type)
           (demo [[ans_CONFIGURE 20 false false "Robot" "ROBOT"; ans_NODE_GET 9 arm_info]]) _
           (demo_handles_ok _)).
  vm_compute. reflexivity.
Defined.

Lemma init_creates_root_witness :
  exists st' root,
    wb_supervisor_init no_names 14 fresh_controller = Ok st'
    /\ node_list st' = [(1, root)]
    /\ root_ref st' = 1
    /\ n_id root = 0
    /\ handles_ok st'.
Proof.
  destruct (init_creates_root no_names 14 fresh_controller eq_refl eq_refl ltac:(cbn; lia))
    as (st' & root & H & N & R & _ & I & _ & _ & _ & _ & HO & _).
  exists st', root.
  split; [exact H|]. split; [exact N|]. split; [exact R|]. split; [exact I | exact HO].
Defined.

Lemma dotted_def_is_never_cached_witness :
  def_names_plain (node_list (demo [[ans_NODE_GET_FROM_DEF 9 arm_info]]))
  /\ exists st' result frame,
      wb_supervisor_node_get_from_def no_names robot_type (Some "ROBOT.ARM")
        (demo [[ans_NODE_GET_FROM_DEF 9 arm_info]]) = Ok (st', result)
      /\ result = 100
      /\ outgoing st'
         = [[w_opcode C_SUPERVISOR_NODE_GET_FROM_DEF; w_string "ROBOT.ARM"; w_int32 (-1)]
              ++ frame].
Proof.
  assert (P : def_names_plain (node_list (demo [[ans_NODE_GET_FROM_DEF 9 arm_info]]))).
  { intros c d H E. cbn in H. repeat (destruct H as [<-|H]; [discriminate E|]). destruct H. }
  split; [exact P|].
  assert (R : exists st' result,
             wb_supervisor_node_get_from_def no_names robot_type (Some "ROBOT.ARM")
               (demo [[ans_NODE_GET_FROM_DEF 9 arm_info]]) = Ok (st', result)
             /\ result = 100).
  { eexists. eexists. split; [vm_compute; reflexivity | reflexivity]. }
  destruct R as (st' & result & R & V).
  destruct (proj2 (proj2 (dotted_def_is_never_cached no_names robot_type)) "ROBOT.ARM"
              (demo [[ans_NODE_GET_FROM_DEF 9 arm_info]]) st' result
              eq_refl P eq_refl R) as (frame & O).
  exists st', result, frame. split; [exact R|]. split; [exact V | exact O].
Defined.

Lemma float_setters_refuse_non_finite_witness :
  refused_float S754_nan = true
  /\ wb_supervisor_field_set_sf no_names robot_type k_float 10 S754_nan (demo [])
     = Ok (set_stderr
             [check_float_line "wb_supervisor_field_set_sf_float" S754_nan] (demo []),
           ret_void)
  /\ refused_float dbl_two = false
  /\ exists st1 r,
      wb_supervisor_field_set_sf_float no_names robot_type 10 dbl_two (demo [])
      = Ok (st1, ret_void)
      /\ find_queued_set 10 (-1) (field_requests_list st1) = Some r
      /\ r_data r = sf_float dbl_two.
Proof.
  split; [reflexivity|]. split.
  - apply (proj1 (proj2 (proj2 (proj2 (proj2 (float_setters_refuse_non_finite
                                                no_names robot_type)))))
             into_sf 10 S754_nan (demo []) mass); by_evaluation.
  - split; [reflexivity|].
    destruct (proj2 (proj2 (proj2 (proj2 (proj2 (proj2 (proj2
                (float_setters_refuse_non_finite no_names robot_type)))))))
                10 dbl_two (demo []) mass ltac:(by_evaluation) eq_refl
                ltac:(intros r []) eq_refl)
      as (st1 & r & H & F & D & _).
    exists st1, r. split; [exact H|]. split; [exact F | exact D].
Defined.

Lemma rotation_setters_refuse_null_axis_witness :
  zero_axis dbl_zero dbl_zero dbl_zero = true
  /\ wb_supervisor_field_set_sf no_names robot_type k_rotation 14
       (Some [dbl_zero; dbl_zero; dbl_zero; dbl_one]) (demo_proto [])
     = Ok (complains "Error: %s() called with invalid values for the [x y z] axis.\n"
                     "wb_supervisor_field_set_sf_rotation" (demo_proto []), ret_void).
Proof.
  split; [reflexivity|].
  assert (F : Forall finite_within_FLT_MAX [dbl_zero; dbl_zero; dbl_zero; dbl_one])
    by (repeat (constructor; [by_evaluation|]); constructor).
  apply (proj1 (rotation_setters_refuse_null_axis no_names robot_type dbl_zero dbl_zero dbl_zero dbl_one F)
           eq_refl into_sf 14 (demo_proto []) heading); by_evaluation.
Defined.

Lemma color_setters_refuse_out_of_range_witness :
  in_unit_range dbl_two = false
  /\ wb_supervisor_field_set_sf no_names robot_type k_color 15 (Some [dbl_two; dbl_zero; dbl_zero])
       (demo_proto [])
     = Ok (complains "Error: %s() called with invalid RGB values (outside [0,1] range).\n"
                     "wb_supervisor_field_set_sf_color" (demo_proto []), ret_void).
Proof.
  split; [reflexivity|].
  apply (proj1 (color_setters_refuse_out_of_range no_names robot_type dbl_two dbl_zero dbl_zero)
           eq_refl into_sf 15 (demo_proto []) tint); by_evaluation.
Defined.

Lemma regeneration_drops_internal_handles_witness :
  exists st',
    supervisor_read_answer no_names robot_type ans_NODE_REGENERATED (demo_proto []) = Ok st'
    /\ field_in_list 16 (field_list st') = false
    /\ deref_field 10 (field_list st') = Ok mass
    /\ is_node_ref_valid 4 (node_list st') = false
    /\ deref_node 2 (node_list st') = Ok (plain_node 7 0).
Proof.
  assert (NF : NoDup (map fst (field_list (demo_proto []))))
    by (cbn; repeat (constructor; [cbn; intuition discriminate|]); constructor).
  assert (NN : NoDup (map fst (node_list (demo_proto []))))
    by (cbn; repeat (constructor; [cbn; intuition discriminate|]); constructor).
  destruct (regeneration_drops_internal_handles no_names robot_type (demo_proto []) NF NN)
    as (st' & R & Fi & Fk & Ni & Nk).
  exists st'. split; [exact R|].
  split; [exact (proj1 (Fi 16 hidden eq_refl eq_refl))|].
  split; [exact (Fk 10 mass eq_refl eq_refl)|].
  split; [exact (Ni 4 inner_node eq_refl eq_refl) | exact (Nk 2 (plain_node 7 0) eq_refl eq_refl)].
Defined.

Lemma last_set_wins_witness :
  find_queued_set 10 (-1) (field_requests_list (demo_queued [set_request])) = Some set_request
  /\ exists st',
      field_operation_with_data no_names robot_type 10 SET (-1) (sf_float dbl_one)
                                (demo_queued [set_request]) = Ok st'
      /\ find_queued_set 10 (-1) (field_requests_list st')
         = Some (set_r_data (sf_float dbl_one) set_request)
      /\ List.length (field_requests_list st') = 1%nat
      /\ outgoing st' = [].
Proof.
  split; [reflexivity|].
  destruct (proj1 (last_set_wins no_names robot_type) 10 (-1) (sf_float dbl_one)
              (demo_queued [set_request]) set_request eq_refl eq_refl)
    as (st' & H & L & _ & F & _ & O & _).
  exists st'. split; [exact H|]. split; [exact F|]. split; [exact L | exact O].
Defined.

Lemma insert_and_remove_behind_queued_set_witness :
  find_queued_set 11 1 (field_requests_list (demo_queued [set_weight])) = Some set_weight
  /\ wb_supervisor_field_remove_mf no_names robot_type 11 1 (demo_queued [set_weight])
     = Ok (store_field 11 (set_f_count 2) (demo_queued [set_weight]), ret_void).
Proof.
  split; [reflexivity|].
  apply (proj2 (insert_and_remove_behind_queued_set no_names robot_type 11 1 (demo_queued [set_weight])
                  weights set_weight eq_refl ltac:(by_evaluation))); by_evaluation.
Defined.



Lemma node_get_field_round_trip_witness :
  find_field "translation" 7 (field_list (demo [])) = Ok None
  /\ exists st',
      wb_supervisor_node_get_field no_names robot_type 2 (Some "translation")
        (demo [[ans_FIELD_GET_FROM_NAME 21 WB_SF_FLOAT false 0]]) = Ok (st', 100)
      /\ outgoing st'
         = [[w_opcode C_SUPERVISOR_FIELD_GET_FROM_NAME; w_uint32 7; w_string "translation";
             w_uchar 0]]
      /\ wb_supervisor_node_get_field no_names robot_type 2 (Some "translation") st' = Ok (st', 100).
Proof.
  split; [reflexivity|].
  destruct (proj1 (node_get_field_round_trip no_names robot_type 2 "t"%char "ranslation"
                     (demo [[ans_FIELD_GET_FROM_NAME 21 WB_SF_FLOAT false 0]])
                     (plain_node 7 0) []
                     ltac:(by_evaluation) eq_refl ltac:(cbn; lia) eq_refl ltac:(cbn; lia)
                     eq_refl eq_refl ltac:(cbn; lia))
              21 WB_SF_FLOAT false 0 eq_refl ltac:(discriminate))
    as (st' & H & O & _ & _ & _ & Again).
  exists st'. split; [exact H|]. split; [exact O | exact Again].
Defined.

Lemma node_get_from_id_round_trip_witness :
  find_node_by_id 9 (node_list (demo [[ans_NODE_GET 9 arm_info]])) = None
  /\ exists st',
      wb_supervisor_node_get_from_id no_names robot_type 9 (demo [[ans_NODE_GET 9 arm_info]])
      = Ok (st', 100)
      /\ outgoing st' = [[w_opcode C_SUPERVISOR_NODE_GET_FROM_ID; w_int32 9]]
      /\ wb_supervisor_node_get_from_id no_names robot_type 9 st' = Ok (st', 100)
      /\ wb_supervisor_node_get_id 100 st' = Ok (st', 9)
      /\ wb_supervisor_node_get_def 100 st' = Ok (st', "ARM").
Proof.
  split; [reflexivity|].
  destruct (proj2 (node_get_from_id_round_trip no_names robot_type 9 (demo [[ans_NODE_GET 9 arm_info]])
                     eq_refl ltac:(lia))
              arm_info [] eq_refl (demo_handles_ok _) eq_refl eq_refl eq_refl)
    as (st' & H & O & _ & _ & _ & Again & Id & _ & Def & _).
  exists st'. split; [exact H|]. split; [exact O|]. split; [exact Again|].
  split; [exact Id | exact Def].
Defined.

Lemma node_get_from_id_refused_witness :
  exists st',
    wb_supervisor_node_get_from_id no_names robot_type 9 (demo [[ans_NODE_GET 0 no_info]])
    = Ok (st', NULL)
    /\ node_list st' = demo_nodes
    /\ outgoing st' = [[w_opcode C_SUPERVISOR_NODE_GET_FROM_ID; w_int32 9]].
Proof.
  destruct (node_get_from_id_refused no_names robot_type 9 0 (demo [[ans_NODE_GET 0 no_info]]) no_info []
              eq_refl ltac:(lia) eq_refl eq_refl eq_refl (or_introl eq_refl))
    as (st' & H & N & _ & _ & _ & O).
  exists st'. split; [exact H|]. split; [exact N | exact O].
Defined.

Lemma lookups_leave_the_queue_witness :
  exists st' r,
    run_lookup_call no_names robot_type (call_node_get_from_id 9) (demo_waiting [[ans_NODE_GET 9 arm_info]])
    = Ok (st', r)
    /\ field_requests_list st' = [set_request]
    /\ idle st'.
Proof.
  assert (R : exists st' r,
             run_lookup_call no_names robot_type (call_node_get_from_id 9)
                             (demo_waiting [[ans_NODE_GET 9 arm_info]]) = Ok (st', r))
    by (eexists; eexists; vm_compute; reflexivity).
  destruct R as (st' & r & R).
  destruct (lookups_leave_the_queue no_names robot_type _ _ st' r R) as (Q & I).
  exists st', r. split; [exact R|]. split; [exact Q|].
  apply I; [by_evaluation | now left].
Defined.

Lemma insert_and_remove_are_sent_witness :
  exists st',
    wb_supervisor_field_insert_mf no_names robot_type k_float 11 (-1) dbl_two (demo [])
    = Ok (st', ret_void)
    /\ outgoing st'
       = [[w_opcode C_SUPERVISOR_FIELD_INSERT_VALUE; w_uint32 7; w_uint32 4; w_uint32 3;
           w_double dbl_two]]
    /\ field_requests_list st' = []
    /\ wb_supervisor_field_get_count 11 st' = Ok (st', ret_int 4).
Proof.
  destruct (proj1 (insert_and_remove_are_sent no_names robot_type 11 (-1) (demo []) weights
                     ltac:(by_evaluation) eq_refl eq_refl eq_refl ltac:(by_evaluation))
              k_float dbl_two (sf_float dbl_two) [w_double dbl_two]
              ltac:(by_evaluation) ltac:(by_evaluation) eq_refl eq_refl)
    as (st' & H & O & Q & _ & C).
  exists st'. split; [exact H|]. split; [exact O|]. split; [exact Q | exact C].
Defined.

Lemma import_from_string_counts_witness :
  exists st',
    wb_supervisor_field_import_mf_node_from_string no_names robot_type 12 (-1) (Some "Solid {}")
      (demo [[ans_FIELD_INSERT_VALUE 1]]) = Ok (st', ret_void)
    /\ outgoing st'
       = [[w_opcode C_SUPERVISOR_FIELD_IMPORT_NODE_FROM_STRING; w_uint32 0; w_uint32 5;
           w_uint32 3; w_string "Solid {}"]]
    /\ deref_field 12 (field_list st') = Ok (set_f_count 4 children).
Proof.
  destruct (proj1 (import_from_string_counts no_names robot_type 12 (-1) "S"%char "olid {}"
                     (demo [[ans_FIELD_INSERT_VALUE 1]]) children
                     ltac:(by_evaluation) eq_refl ltac:(by_evaluation) ltac:(by_evaluation)
                     ltac:(by_evaluation) eq_refl eq_refl)
              1 [] eq_refl ltac:(by_evaluation))
    as (st' & H & O & _ & D).
  exists st'. split; [exact H|]. split; [exact O | exact D].
Defined.

Lemma removed_node_handle_is_stale_witness :
  find_node_by_id 7 (node_list (demo [])) = Some (2, plain_node 7 0)
  /\ exists st',
      supervisor_read_answer no_names robot_type (ans_NODE_REMOVE_NODE 7 0 "children" 2) (demo [])
      = Ok st'
      /\ is_node_ref_valid 2 (node_list st') = false
      /\ deref_node 3 (node_list st') = Ok (set_n_parent_id (-1) (plain_node 8 7)).
Proof.
  split; [reflexivity|].
  assert (R : exists st',
             supervisor_read_answer no_names robot_type (ans_NODE_REMOVE_NODE 7 0 "children" 2) (demo [])
             = Ok st') by (eexists; vm_compute; reflexivity).
  destruct R as (st' & R).
  destruct (removed_node_handle_is_stale no_names robot_type 7 0 "children" 2 (demo []) st'
              (2, plain_node 7 0) eq_refl (demo_handles_ok _) eq_refl R)
    as (Stale & _ & Others).
  exists st'. split; [exact R|]. split; [exact Stale|].
  exact (proj2 (Others (3, plain_node 8 7) ltac:(cbn; auto) ltac:(discriminate))).
Defined.

Lemma parent_of_a_node_witness :
  wb_supervisor_node_get_parent_node no_names robot_type 3 (demo []) = Ok (demo [], 2)
  /\ exists st',
      wb_supervisor_node_get_parent_node no_names robot_type 1 (demo []) = Ok (st', NULL)
      /\ outgoing st' = [[]].
Proof.
  split.
  - apply (proj1 (parent_of_a_node no_names robot_type 3 (demo []) (plain_node 8 7)
                    ltac:(by_evaluation)) (2, plain_node 7 0)).
    reflexivity.
  - destruct (proj2 (parent_of_a_node no_names robot_type 1 (demo []) (plain_node 0 (-1))
                       ltac:(by_evaluation))
                eq_refl eq_refl ltac:(by_evaluation) eq_refl eq_refl eq_refl)
      as (st' & H & O & _).
    exists st'. split; [exact H | exact O].
Defined.
